(** * Storefront / backend synchronisation bridge

    A shallow embedding of the bridge between the storefront (Shopify) and
    the inventory backend (Zoho): the two vendor clients ([api/shopify.ts],
    [api/zoho.ts]), the sync and order-push actions and the two webhook
    handlers, followed by the properties of the specification.

    The code is asynchronous TypeScript over loosely typed JSON.  It is
    modelled in a state-and-exception monad: the state holds the two remote
    vendor systems, the list of HTTP requests issued so far and the console
    output; an exception is a JavaScript [Error]. *)

From Stdlib Require Import String Ascii List Bool Arith ZArith Lia DecimalString.
Import ListNotations.
Open Scope string_scope.

Set Implicit Arguments.
Set Warnings "-register-all".

(** ** JavaScript values *)

(** JSON data as the code sees it after [resp.json()] or [JSON.parse],
    together with [undefined].  [num] is the carrier of JavaScript numbers
    (IEEE doubles, including [NaN] and the infinities). *)
Inductive value (num : Type) : Type :=
| VUndef
| VNull
| VBool (b : bool)
| VNum (n : num)
| VStr (s : string)
| VArr (l : list (value num))
| VObj (fields : list (string * value num)).

Arguments VUndef {num}.
Arguments VNull {num}.
Arguments VBool {num} b.
Arguments VNum {num} n.
Arguments VStr {num} s.
Arguments VArr {num} l.
Arguments VObj {num} fields.

(** JavaScript exceptions; [getErrorMessage] reads the message. *)
Inductive error : Type :=
| Error (message : string)
| TypeError (message : string)
| SyntaxError (message : string).

Definition getErrorMessage (e : error) : string :=
  match e with
  | Error m | TypeError m | SyntaxError m => m
  end.

(** What the host (the JavaScript engine and Node's [crypto], [Buffer],
    [JSON] and [URL]) provides.  These are library functions, not code of the bridge;
    the bridge is verified for every host. *)
Class Runtime (num : Type) : Type := {
  (** [!!n] for a number: false exactly for [0], [-0] and [NaN]. *)
  num_truthy : num -> bool;
  (** [n === m] on numbers. *)
  num_eqb : num -> num -> bool;
  (** [Number.isFinite(n)]. *)
  num_isFinite : num -> bool;
  (** [String(n)] for a number. *)
  num_toString : num -> string;
  (** [Number(s)] for a string. *)
  Number_of_string : string -> num;
  (** [JSON.parse(s)]; [None] when it throws a [SyntaxError]. *)
  JSON_parse : string -> option (value num);
  (** [JSON.stringify(v)] for a value other than [undefined]. *)
  JSON_stringify : value num -> string;
  (** [crypto.createHmac("sha256", key).update(body).digest("base64")]. *)
  hmac_sha256_base64 : string -> string -> string;
  (** The same digest in ["hex"]. *)
  hmac_sha256_hex : string -> string -> string;
  (** [Buffer.from(s, "base64")], as its list of bytes. *)
  Buffer_from_base64 : string -> list ascii;
  (** [s.trim()] and [s.toLowerCase()]. *)
  str_trim : string -> string;
  str_toLowerCase : string -> string;
  (** [s.replace(/^\s+/, "")]: [s] without the white space it begins with,
      white space being what the class [\s] of a regular expression
      matches. *)
  str_skip_spaces : string -> string;
  (** [encodeURIComponent(s)].  It throws on a lone surrogate only, which
      the strings of this development, sequences of 8-bit characters, do
      not hold. *)
  encodeURIComponent : string -> string;
  (** Whether [new URL(s)] accepts [s]; it throws a [TypeError] when it does
      not. *)
  URL_parses : string -> bool
}.

(** ** Configuration *)

(** [process.env], as the modules read it when they are loaded. *)
Record Env : Type := {
  ZOHO_BASE_URL : option string;
  ZOHO_ACCOUNTS_URL : option string;
  ZOHO_CLIENT_ID : option string;
  ZOHO_CLIENT_SECRET : option string;
  ZOHO_REFRESH_TOKEN : option string;
  ZOHO_ORG_ID : option string;
  SHOPIFY_STORE_DOMAIN : option string;
  SHOPIFY_ACCESS_TOKEN : option string;
  DEFAULT_LOCATION_ID : option string;
  ZOHO_WEBHOOK_SECRET : option string;
  SHOPIFY_WEBHOOK_SHARED_SECRET : option string;
  NODE_ENV : option string
}.

(** [!!v] for an environment value: unset and empty are both falsy. *)
Definition env_truthy (v : option string) : bool :=
  match v with
  | Some s => negb (s =? "")
  | None => false
  end.

Definition string_of_nat (n : nat) : string :=
  NilZero.string_of_uint (Nat.to_uint n).

(** [s.endsWith(suffix)]. *)
Fixpoint ends_with (suffix s : string) : bool :=
  (s =? suffix)
  || match s with
     | String _ rest => ends_with suffix rest
     | EmptyString => false
     end.

(** Console output. *)
Inductive level : Type := LogLevel | WarnLevel | ErrorLevel.

Inductive Outcome (A : Type) : Type :=
| Return (a : A)
| Throw (e : error).

Arguments Throw {A} e.

Section Definitions.

Context {num : Type} {RT : Runtime num}.

#[local] Abbreviation val := (value num).

(** Truthiness: [!!v]. *)
Definition truthy (v : val) : bool :=
  match v with
  | VUndef | VNull => false
  | VBool b => b
  | VNum n => num_truthy n
  | VStr s => negb (s =? "")
  | VArr _ | VObj _ => true
  end.

(** [v == null]. *)
Definition nullish (v : val) : bool :=
  match v with
  | VUndef | VNull => true
  | _ => false
  end.

(** [a || b], [a && b] and [a ?? b] on values. *)
Definition js_or (a b : val) : val := if truthy a then a else b.
Definition js_and (a b : val) : val := if truthy a then b else a.
Definition js_coalesce (a b : val) : val := if nullish a then b else a.

(** [typeof v === "number"] and [typeof v === "string"]. *)
Definition is_number (v : val) : bool :=
  match v with VNum _ => true | _ => false end.
Definition is_string (v : val) : bool :=
  match v with VStr _ => true | _ => false end.

(** [a === b] where [a] and [b] come from different JSON documents:
    primitives are compared by value, and two objects or arrays are never
    the same reference. *)
Definition strict_eq (a b : val) : bool :=
  match a, b with
  | VUndef, VUndef | VNull, VNull => true
  | VBool x, VBool y => Bool.eqb x y
  | VNum x, VNum y => num_eqb x y
  | VStr x, VStr y => x =? y
  | _, _ => false
  end.

(** Own property lookup in an object literal. *)
Fixpoint lookup (k : string) (fields : list (string * val)) : val :=
  match fields with
  | [] => VUndef
  | (k', v) :: rest => if k' =? k then v else lookup k rest
  end.

(** [o?.k]: [undefined] on [null] and [undefined]; on a primitive or an
    array a named data field is [undefined] as well. *)
Definition get (k : string) (o : val) : val :=
  match o with
  | VObj fields => lookup k fields
  | _ => VUndef
  end.

(** Writing [o.k = v] on an object: the field keeps its place when it
    exists and is added at the end otherwise. *)
Fixpoint set_field (k : string) (v : val) (fields : list (string * val))
  : list (string * val) :=
  match fields with
  | [] => [(k, v)]
  | (k', v') :: rest =>
      if k' =? k then (k', v) :: rest else (k', v') :: set_field k v rest
  end.

(** [String(v)], which is also what a template literal does to [v]. *)
Fixpoint js_toString (v : val) : string :=
  match v with
  | VUndef => "undefined"
  | VNull => "null"
  | VBool true => "true"
  | VBool false => "false"
  | VNum n => num_toString n
  | VStr s => s
  | VArr l =>
      (fix join (l : list val) : string :=
         match l with
         | [] => ""
         | e :: rest =>
             let s := match e with
                      | VUndef | VNull => ""
                      | _ => js_toString e
                      end in
             match rest with
             | [] => s
             | _ :: _ => s ++ "," ++ join rest
             end
         end) l
  | VObj _ => "[object Object]"
  end.

(** Truthiness of [v?.length]. *)
Definition length_truthy (v : val) : bool :=
  match v with
  | VArr l => negb (Nat.eqb (List.length l) 0)
  | VStr s => negb (s =? "")
  | VObj fields => truthy (lookup "length" fields)
  | _ => false
  end.

(** The elements a [for ... of] loop visits; [None] when the val is not
    iterable and the loop throws a [TypeError].  A string is visited
    character by character. *)
Definition iterate (v : val) : option (list val) :=
  match v with
  | VArr l => Some l
  | VStr s => Some (map (fun c => VStr (String c "")) (list_ascii_of_string s))
  | _ => None
  end.

(** [Array.isArray(v) ? v : []]. *)
Definition array_or_empty (v : val) : list val :=
  match v with VArr l => l | _ => [] end.

(** What the receiver of [JSON.stringify(v)] reads back: numbers that are
    not finite and [undefined] array elements become [null], [undefined]
    fields are dropped. *)
Fixpoint wire (v : val) : val :=
  match v with
  | VNum n => if num_isFinite n then VNum n else VNull
  | VArr l =>
      VArr ((fix go (l : list val) : list val :=
               match l with
               | [] => []
               | e :: rest =>
                   match e with
                   | VUndef => VNull
                   | _ => wire e
                   end :: go rest
               end) l)
  | VObj fields =>
      VObj ((fix go (fields : list (string * val)) : list (string * val) :=
               match fields with
               | [] => []
               | (k, e) :: rest =>
                   match e with
                   | VUndef => go rest
                   | _ => (k, wire e) :: go rest
                   end
               end) fields)
  | _ => v
  end.


(** JSON proper: no [undefined] and no number that is not finite. *)
Fixpoint is_json (v : val) : bool :=
  match v with
  | VUndef => false
  | VNum n => num_isFinite n
  | VArr l =>
      (fix all (l : list val) : bool :=
         match l with
         | [] => true
         | e :: rest => is_json e && all rest
         end) l
  | VObj fields =>
      (fix all (fields : list (string * val)) : bool :=
         match fields with
         | [] => true
         | (_, e) :: rest => is_json e && all rest
         end) fields
  | _ => true
  end.

(** ** Requests and the remote systems *)

(** The requests the backend client sends under [/inventory/v1/], each with
    the value the client puts into its path or body.  [zoho_path] below
    gives the path: a search text and an email are encoded, the identifier
    of [ZItemById] is spliced into the path as it is, so that the resource
    such a request reaches depends on the characters of the identifier. *)
Inductive ZohoReq : Type :=
| ZItemsPage (page : nat)               (* GET items?page=N *)
| ZItemsSearch (search_text : string)   (* GET items?search_text=S, S encoded *)
| ZItemById (itemId : string)           (* GET items/ID, ID as it is *)
| ZContactsByEmail (email : string)     (* GET contacts?email=E, E encoded *)
| ZCreateContact (body : val)           (* POST contacts *)
| ZCreateSalesOrder (body : val).       (* POST salesorders *)

(** The requests the storefront client sends under [/admin/api/2025-07/]. *)
Inductive ShopifyReq : Type :=
| SVariantsBySku (sku : string)         (* GET variants.json?sku=S *)
| SShop                                 (* GET shop.json *)
| SInventoryLevels (inventoryItemId : string)
                                        (* GET inventory_levels.json?inventory_item_ids=ID *)
| SPutVariant (variantId : string) (body : val)
                                        (* PUT variants/ID.json *)
| SSetInventoryLevel (body : val).      (* POST inventory_levels/set.json *)

(** One HTTP request, with the configuration that went into its URL and
    headers. *)
Inductive Call : Type :=
| ZohoTokenCall (accountsUrl clientId clientSecret refreshToken : string)
| ZohoCall (baseUrl orgId token : string) (req : ZohoReq)
| ShopifyCall (domain token : string) (req : ShopifyReq).

(** What [fetch] and [resp.json()] give: a 2xx answer with its JSON body,
    another status with its text, or a rejection (network failure, body
    that is not JSON). *)
Inductive Response : Type :=
| RespOk (json : val)
| RespNotOk (status : nat) (text : string)
| RespFail (e : error).

(** The two remote systems, the only state of the bridge.

    The backend is read-only for the properties at hand: it is given by
    the answer of its token endpoint and of each API request.  The
    storefront holds the variants and the inventory levels that the bridge
    writes; [variant_search q id] tells whether the variant [id] is among
    those returned for the query [q], [shopify_outage] names the requests
    that are refused, with the status and text of the refusal, and
    [price_kept p] is the price the storefront keeps when it is sent the
    price [p] (a storefront may keep ["12.00"] for ["12"]). *)
Record World : Type := {
  zoho_accounts : Response;
  zoho_api : ZohoReq -> Response;
  shopify_outage : ShopifyReq -> option (nat * string);
  shop : val;
  variant_search : string -> string -> bool;
  price_kept : val -> val;
  variants : list val;
  inventory_levels : list val
}.

Definition with_variants (w : World) (vs : list val) : World :=
  {| zoho_accounts := zoho_accounts w; zoho_api := zoho_api w;
     shopify_outage := shopify_outage w; shop := shop w;
     variant_search := variant_search w; price_kept := price_kept w;
     variants := vs; inventory_levels := inventory_levels w |}.

Definition with_levels (w : World) (ls : list val) : World :=
  {| zoho_accounts := zoho_accounts w; zoho_api := zoho_api w;
     shopify_outage := shopify_outage w; shop := shop w;
     variant_search := variant_search w; price_kept := price_kept w;
     variants := variants w; inventory_levels := ls |}.

Definition is_object (v : val) : bool :=
  match v with VObj _ => true | _ => false end.

(** The identifier of a stored variant and the key of a stored level, as
    they appear in a URL. *)
Definition variant_id (v : val) : string := js_toString (get "id" v).

Definition level_item (l : val) : string :=
  js_toString (get "inventory_item_id" l).

Definition level_location (l : val) : string :=
  js_toString (get "location_id" l).

Definition same_level (a b : val) : bool :=
  (level_item a =? level_item b) && (level_location a =? level_location b).

(** The variant [v] once the storefront keeps the price [price] for the
    variant [id]. *)
Definition store_price (id : string) (price : val) (v : val) : val :=
  if variant_id v =? id then
    match v with
    | VObj fields => VObj (set_field "price" price fields)
    | _ => v
    end
  else v.

(** [inventory_levels/set.json] sets the level of one item at one location:
    the quantity of the level is overwritten when the level exists, and the
    level is added otherwise. *)
Definition set_available (q : val) (l : val) : val :=
  match l with
  | VObj fields => VObj (set_field "available" q fields)
  | _ => l
  end.

Definition store_level (l : val) (ls : list val) : list val :=
  if existsb (same_level l) ls
  then map (fun l' => if same_level l l'
                      then set_available (get "available" l) l' else l') ls
  else (ls ++ [l])%list.

Definition shopify_respond (w : World) (req : ShopifyReq) : Response * World :=
  match shopify_outage w req with
  | Some (status, text) => (RespNotOk status text, w)
  | None =>
      match req with
      | SVariantsBySku sku =>
          (RespOk (VObj [("variants",
             VArr (filter (fun v => variant_search w sku (variant_id v))
                          (variants w)))]), w)
      | SShop => (RespOk (VObj [("shop", shop w)]), w)
      | SInventoryLevels id =>
          (RespOk (VObj [("inventory_levels",
             VArr (filter (fun l => level_item l =? id) (inventory_levels w)))]),
           w)
      | SPutVariant id body =>
          if existsb (fun v => variant_id v =? id) (variants w) then
            let vs := map (store_price id
                                 (price_kept w
                                    (get "price" (get "variant" (wire body)))))
                          (variants w) in
            (RespOk (VObj [("variant",
               match find (fun v => variant_id v =? id) vs with
               | Some v => v
               | None => VNull
               end)]),
             with_variants w vs)
          else (RespNotOk 404 "Not Found", w)
      | SSetInventoryLevel body =>
          let l := wire body in
          (RespOk (VObj [("inventory_level", l)]),
           with_levels w (store_level l (inventory_levels w)))
      end
  end.

Definition respond (w : World) (c : Call) : Response * World :=
  match c with
  | ZohoTokenCall _ _ _ _ => (zoho_accounts w, w)
  | ZohoCall _ _ _ req => (zoho_api w req, w)
  | ShopifyCall _ _ req => shopify_respond w req
  end.

(** ** The monad *)

Record State : Type := {
  world : World;
  trace : list Call;
  console : list (level * string * list val)
}.

Definition M (A : Type) : Type := State -> Outcome A * State.

Definition ret {A} (a : A) : M A := fun s => (Return a, s).

Definition throw {A} (e : error) : M A := fun s => (Throw e, s).

Definition bind {A B} (m : M A) (k : A -> M B) : M B :=
  fun s =>
    match m s with
    | (Return a, s') => k a s'
    | (Throw e, s') => (Throw e, s')
    end.

(** [try { m } catch (e) { h e }]. *)
Definition try_catch {A} (m : M A) (h : error -> M A) : M A :=
  fun s =>
    match m s with
    | (Return a, s') => (Return a, s')
    | (Throw e, s') => h e s'
    end.

(** [await fetch(...)]: the request is recorded and the remote system
    answers. *)
Definition fetch (c : Call) : M Response :=
  fun s =>
    let (r, w) := respond (world s) c in
    (Return r,
     {| world := w; trace := (trace s ++ [c])%list; console := console s |}).

(** Which requests of a trace are what. *)
Definition is_token_call (c : Call) : bool :=
  match c with ZohoTokenCall _ _ _ _ => true | _ => false end.

Definition is_shopify_call (c : Call) : bool :=
  match c with ShopifyCall _ _ _ => true | _ => false end.

Definition is_price_call (c : Call) : bool :=
  match c with ShopifyCall _ _ (SPutVariant _ _) => true | _ => false end.

Definition is_stock_call (c : Call) : bool :=
  match c with ShopifyCall _ _ (SSetInventoryLevel _) => true | _ => false end.

Definition is_salesorder_call (c : Call) : bool :=
  match c with ZohoCall _ _ _ (ZCreateSalesOrder _) => true | _ => false end.

(** The catalog pages a trace asks for, in order. *)
Fixpoint pages_fetched (t : list Call) : list nat :=
  match t with
  | [] => []
  | ZohoCall _ _ _ (ZItemsPage p) :: rest => p :: pages_fetched rest
  | _ :: rest => pages_fetched rest
  end.

(** The state after the requests [t] were sent without changing the
    remote systems. *)
Definition add_calls (s : State) (t : list Call) : State :=
  {| world := world s; trace := (trace s ++ t)%list; console := console s |}.

Definition log (lv : level) (message : string) (args : list val) : M unit :=
  fun s =>
    (Return tt,
     {| world := world s; trace := trace s;
        console := (console s ++ [(lv, message, args)])%list |}).

#[local] Notation "x <- m ;; k" := (bind m (fun x => k))
  (at level 61, m at next level, right associativity).
#[local] Notation "m ;; k" := (bind m (fun _ => k))
  (at level 61, right associativity).

(** ** Helpers for loops and property access *)

(** [o.k]: reading a property of [null] or [undefined] throws. *)
Definition member (o : val) (k : string) : M val :=
  if nullish o
  then throw (TypeError ("Cannot read properties of " ++ js_toString o
                         ++ " (reading '" ++ k ++ "')"))
  else ret (get k o).

(** [v?.[0]]. *)
Definition index0 (v : val) : val :=
  match v with
  | VArr (x :: _) => x
  | VStr (String c _) => VStr (String c "")
  | VObj fields => lookup "0" fields
  | _ => VUndef
  end.

(** [for (const x of l) body], where [continue] ends [body]. *)
Fixpoint for_each {A} (l : list A) (body : A -> M unit) : M unit :=
  match l with
  | [] => ret tt
  | x :: rest => body x ;; for_each rest body
  end.

(** The same loop when it appends to a local array [acc]. *)
Fixpoint for_fold {A B} (l : list A) (acc : B) (body : B -> A -> M B) : M B :=
  match l with
  | [] => ret acc
  | x :: rest => acc' <- body acc x ;; for_fold rest acc' body
  end.

(** The loop header [for (const x of v)] on a value. *)
Definition iterate_or_throw (v : val) : M (list val) :=
  match iterate v with
  | Some l => ret l
  | None => throw (TypeError (js_toString v ++ " is not iterable"))
  end.

Variable env : Env.

(** ** The storefront client, [api/shopify.ts] *)

Definition requireEnv (value : option string) (name : string) : M string :=
  match value with
  | Some s =>
      if s =? "" then throw (Error (name ++ " is not defined")) else ret s
  | None => throw (Error (name ++ " is not defined"))
  end.

(** The error [requireEnv] throws for the value called [name]: the
    ConfigurationError of the specification. *)
Definition ConfigurationError (name : string) : error :=
  Error (name ++ " is not defined").

(** The name of the first value of a list that is unset or empty. *)
Fixpoint first_missing (required : list (option string * string))
  : option string :=
  match required with
  | [] => None
  | (v, name) :: rest => if env_truthy v then first_missing rest else Some name
  end.

(** The values a storefront call needs, the values the token exchange
    needs, and the values a backend call needs after it, each in the order
    in which the client reads them. *)
Definition shopify_required : list (option string * string) :=
  [(SHOPIFY_ACCESS_TOKEN env, "SHOPIFY_ACCESS_TOKEN");
   (SHOPIFY_STORE_DOMAIN env, "SHOPIFY_STORE_DOMAIN")].

Definition zoho_token_required : list (option string * string) :=
  [(ZOHO_ACCOUNTS_URL env, "ZOHO_ACCOUNTS_URL");
   (ZOHO_CLIENT_ID env, "ZOHO_CLIENT_ID");
   (ZOHO_CLIENT_SECRET env, "ZOHO_CLIENT_SECRET");
   (ZOHO_REFRESH_TOKEN env, "ZOHO_REFRESH_TOKEN")].

Definition zoho_api_required : list (option string * string) :=
  [(ZOHO_BASE_URL env, "ZOHO_BASE_URL");
   (ZOHO_ORG_ID env, "ZOHO_ORG_ID")].

(** [shopifyURL] fails without the store domain; the model keeps the domain,
    the rest of the URL is fixed by the request. *)
Definition shopifyURL : M string :=
  requireEnv (SHOPIFY_STORE_DOMAIN env) "SHOPIFY_STORE_DOMAIN".

(** [if (!resp.ok) throw new Error(`LABEL ${resp.status}: ${body}`);
    return resp.json()], as both clients have it. *)
Definition response_json (label : string) (resp : Response) : M val :=
  match resp with
  | RespOk json => ret json
  | RespNotOk status body =>
      throw (Error (label ++ " " ++ string_of_nat status ++ ": " ++ body))
  | RespFail e => throw e
  end.

(** The outcome of [response_json], which reads no state. *)
Definition response_outcome (label : string) (resp : Response) : Outcome val :=
  match resp with
  | RespOk json => Return json
  | RespNotOk status body =>
      Throw (Error (label ++ " " ++ string_of_nat status ++ ": " ++ body))
  | RespFail e => Throw e
  end.

Definition shopifyFetch (req : ShopifyReq) : M val :=
  token <- requireEnv (SHOPIFY_ACCESS_TOKEN env) "SHOPIFY_ACCESS_TOKEN" ;;
  domain <- shopifyURL ;;
  resp <- fetch (ShopifyCall domain token req) ;;
  response_json "Shopify" resp.

(** [l.find(v => v.sku === sku)]; [undefined] when there is none. *)
Fixpoint find_by_sku (sku : val) (l : list val) : M val :=
  match l with
  | [] => ret VUndef
  | v :: rest =>
      s <- member v "sku" ;;
      if strict_eq s sku then ret v else find_by_sku sku rest
  end.

(** [(data.items || []).find(...)] and the like: a truthy value that is not
    an array has no [find]. *)
Definition find_in (what : string) (candidates : val) (sku : val) : M val :=
  match js_or candidates (VArr []) with
  | VArr l => find_by_sku sku l
  | _ => throw (TypeError (what ++ ".find is not a function"))
  end.

Definition findVariantBySKU (sku : val) : M val :=
  data <- shopifyFetch (SVariantsBySku (js_toString sku)) ;;
  variants <- member data "variants" ;;
  exact <- find_in "variants" variants sku ;;
  ret (js_or (js_or exact (index0 (js_or variants (VArr [])))) VNull).

Definition getPrimaryLocationId : M val :=
  data <- shopifyFetch SShop ;;
  let id := get "primary_location_id" (get "shop" data) in
  if truthy id then ret id
  else
    match DEFAULT_LOCATION_ID env with
    | Some s =>
        if s =? "" then
          throw (Error "primary_location_id unavailable; set DEFAULT_LOCATION_ID or ensure item has inventory_levels")
        else ret (VNum (Number_of_string s))
    | None =>
        throw (Error "primary_location_id unavailable; set DEFAULT_LOCATION_ID or ensure item has inventory_levels")
    end.

Definition getLocationIdForItem (inventoryItemId : val) : M val :=
  try_catch getPrimaryLocationId (fun _ =>
    levels <- shopifyFetch (SInventoryLevels (js_toString inventoryItemId)) ;;
    let loc := get "location_id" (index0 (get "inventory_levels" levels)) in
    if truthy loc then ret loc
    else
      match DEFAULT_LOCATION_ID env with
      | Some s =>
          if s =? "" then
            throw (Error "No location_id available; set DEFAULT_LOCATION_ID in Secrets")
          else ret (VNum (Number_of_string s))
      | None =>
          throw (Error "No location_id available; set DEFAULT_LOCATION_ID in Secrets")
      end).

Definition updateVariantPrice (variantId : val) (price : val) : M val :=
  shopifyFetch
    (SPutVariant (js_toString variantId)
       (VObj [("variant",
               VObj [("id", variantId); ("price", VStr (js_toString price))])])).

Definition setInventoryLevel (inventoryItemId available locationId : val)
  : M val :=
  locId <- (if truthy locationId then ret locationId
            else getLocationIdForItem inventoryItemId) ;;
  shopifyFetch
    (SSetInventoryLevel
       (VObj [("location_id", locId);
              ("inventory_item_id", inventoryItemId);
              ("available", available)])).

(** ** The backend client, [api/zoho.ts] *)

Definition getZohoAccessToken : M val :=
  accountsUrl <- requireEnv (ZOHO_ACCOUNTS_URL env) "ZOHO_ACCOUNTS_URL" ;;
  clientId <- requireEnv (ZOHO_CLIENT_ID env) "ZOHO_CLIENT_ID" ;;
  clientSecret <- requireEnv (ZOHO_CLIENT_SECRET env) "ZOHO_CLIENT_SECRET" ;;
  refreshToken <- requireEnv (ZOHO_REFRESH_TOKEN env) "ZOHO_REFRESH_TOKEN" ;;
  resp <- fetch (ZohoTokenCall accountsUrl clientId clientSecret refreshToken) ;;
  match resp with
  | RespOk json => member json "access_token"
  | RespNotOk status body =>
      throw (Error ("Zoho token error " ++ string_of_nat status ++ ": " ++ body))
  | RespFail e => throw e
  end.

(** The path of a request, as the functions of the client write it in the
    template literal they pass to [zohoFetch]. *)
Definition zoho_path (req : ZohoReq) : string :=
  match req with
  | ZItemsPage page => "items?page=" ++ string_of_nat page
  | ZItemsSearch search_text =>
      "items?search_text=" ++ encodeURIComponent search_text
  | ZItemById itemId => "items/" ++ itemId
  | ZContactsByEmail email => "contacts?email=" ++ encodeURIComponent email
  | ZCreateContact _ => "contacts"
  | ZCreateSalesOrder _ => "salesorders"
  end.

(** [`${baseUrl}/inventory/v1/${path}`], the argument of [new URL]. *)
Definition zoho_url (baseUrl : string) (req : ZohoReq) : string :=
  baseUrl ++ "/inventory/v1/" ++ zoho_path req.

(** [new URL] throws when the base URL and the path do not make an absolute
    URL; the request is then not sent. *)
Definition zohoFetch (req : ZohoReq) : M val :=
  token <- getZohoAccessToken ;;
  baseUrl <- requireEnv (ZOHO_BASE_URL env) "ZOHO_BASE_URL" ;;
  orgId <- requireEnv (ZOHO_ORG_ID env) "ZOHO_ORG_ID" ;;
  if negb (URL_parses (zoho_url baseUrl req))
  then throw (TypeError "Invalid URL")
  else
    resp <- fetch (ZohoCall baseUrl orgId (js_toString token) req) ;;
    response_json "Zoho API" resp.

(** [new URL] accepts the URL of the request [req]; it accepts the URL of
    every request, as it does when the base URL is an absolute URL. *)
Definition zoho_url_parses (req : ZohoReq) : bool :=
  match ZOHO_BASE_URL env with
  | Some baseUrl => URL_parses (zoho_url baseUrl req)
  | None => false
  end.

Definition zoho_urls_parse : Prop :=
  forall req, zoho_url_parses req = true.

Definition listZohoItemsPaged (page : nat) : M val :=
  zohoFetch (ZItemsPage page).

Definition findZohoItemBySKU (sku : val) : M val :=
  data <- zohoFetch (ZItemsSearch (js_toString sku)) ;;
  items <- member data "items" ;;
  found <- find_in "items" items sku ;;
  ret (js_or found VNull).

(** [email.split("@")[0]]: the part before the first ["@"]. *)
Fixpoint before_at (s : string) : string :=
  match s with
  | EmptyString => EmptyString
  | String c rest =>
      if Ascii.eqb c "@"%char then EmptyString else String c (before_at rest)
  end.

Definition getOrCreateZohoContactByEmail (email name : val) : M val :=
  if negb (truthy email) then throw (Error "Email required")
  else
    search <- zohoFetch (ZContactsByEmail (js_toString email)) ;;
    contacts <- member search "contacts" ;;
    if length_truthy contacts then ret (index0 contacts)
    else
      contact_name <-
        (if truthy name then ret name
         else match email with
              | VStr e => ret (VStr (before_at e))
              | _ => throw (TypeError "email.split is not a function")
              end) ;;
      created <- zohoFetch
        (ZCreateContact
           (VObj [("contact_name", contact_name);
                  ("contact_persons", VArr [VObj [("email", email)]])])) ;;
      member created "contact".

(** An element of [SalesOrderInput.lineItems]. *)
Record LineItem : Type := {
  li_sku : val;
  li_quantity : val;
  li_rate : val
}.

Record SalesOrderInput : Type := {
  customerEmail : val;
  customerName : val;
  referenceNumber : val;
  lineItems : list LineItem
}.

(** The [ZohoLineItem] built for a line [li] resolved to [item]. *)
Definition zohoLineItem (li : LineItem) (item : val) : val :=
  VObj [("item_id", get "item_id" item);
        ("name", get "name" item);
        ("rate", if negb (nullish (li_rate li)) then li_rate li
                 else get "rate" item);
        ("quantity", li_quantity li)].

Definition createZohoSalesOrder (input : SalesOrderInput) : M val :=
  contact <- getOrCreateZohoContactByEmail (customerEmail input)
                                           (customerName input) ;;
  zohoLineItems <- for_fold (lineItems input) []
    (fun acc li =>
       item <- findZohoItemBySKU (li_sku li) ;;
       if negb (truthy item)
       then throw (Error ("Zoho item not found for SKU "
                          ++ js_toString (li_sku li)))
       else ret (acc ++ [zohoLineItem li item])%list) ;;
  customer_id <- member contact "contact_id" ;;
  res <- zohoFetch
    (ZCreateSalesOrder
       (VObj [("customer_id", customer_id);
              ("reference_number", referenceNumber input);
              ("line_items", VArr zohoLineItems)])) ;;
  member res "salesorder".

Definition getZohoItemById (itemId : val) : M val :=
  data <- zohoFetch (ZItemById (js_toString itemId)) ;;
  member data "item".

(** ** The order push, [api/actions/pushShopifyOrdersToZoho.ts] *)

(** [[first, last].filter(Boolean).join(" ") || fallback]. *)
Definition join_names (first last fallback : val) : val :=
  let joined :=
    String.concat " " (map js_toString (filter truthy [first; last])) in
  if joined =? "" then fallback else VStr joined.

(** [order?.email || order?.customer?.email]. *)
Definition order_email (order : val) : val :=
  js_or (get "email" order) (get "email" (get "customer" order)).

(** The customer name the order push passes on. *)
Definition order_customer_name (order : val) : val :=
  join_names (get "first_name" (get "customer" order))
             (get "last_name" (get "customer" order))
             (get "name" (get "billing_address" order)).

(** The line built from the storefront line [li]. *)
Definition line_of (li : val) : LineItem :=
  {| li_sku := get "sku" li;
     li_quantity := get "quantity" li;
     li_rate := get "price" li |}.

(** One turn of the loop over the lines of an order; [acc] is [lineItems]. *)
Definition push_line (acc : list LineItem) (li : val) : M (list LineItem) :=
  if negb (truthy (get "sku" li)) then
    log ErrorLevel "SO skip line: missing SKU" [] ;; ret acc
  else if negb (is_number (get "quantity" li)) then
    log ErrorLevel "SO skip line: invalid quantity"
      [VObj [("sku", get "sku" li); ("quantity", get "quantity" li)]] ;;
    ret acc
  else
    log LogLevel "SO line"
      [VObj [("sku", get "sku" li); ("qty", get "quantity" li)]] ;;
    item <- findZohoItemBySKU (get "sku" li) ;;
    if negb (truthy item) then
      log ErrorLevel "SO skip line: SKU not in Zoho" [get "sku" li] ;;
      ret acc
    else ret (acc ++ [line_of li])%list.

Definition pushShopifyOrderToZoho (order : val) : M val :=
  let email := order_email order in
  if negb (truthy email) then
    log WarnLevel "SO skip: no email" [VObj [("orderId", get "id" order)]] ;;
    ret VUndef
  else
    lines <- iterate_or_throw (js_or (get "line_items" order) (VArr [])) ;;
    lineItems <- for_fold lines [] push_line ;;
    if Nat.eqb (List.length lineItems) 0 then
      log WarnLevel "SO skip: no mapped lines" [VObj [("orderId", get "id" order)]] ;;
      ret VUndef
    else
      so <- createZohoSalesOrder
        {| customerEmail := email;
           customerName := order_customer_name order;
           referenceNumber := VStr (js_toString (get "id" order));
           lineItems := lineItems |} ;;
      log LogLevel "SO created"
        [VObj [("orderId", get "id" order);
               ("salesorder_id", get "salesorder_id" so);
               ("salesorder_number", get "salesorder_number" so)]] ;;
      ret so.

(** *** The order push, read off the backend

    What the order push comes to when the backend answers: the lines that
    resolve, and the sales order built from them. *)

(** The first of [items] whose [sku] is [sku]; [undefined] when none is. *)
Fixpoint find_match (sku : val) (items : list val) : val :=
  match items with
  | [] => VUndef
  | i :: rest =>
      if strict_eq (get "sku" i) sku then i else find_match sku rest
  end.

(** The backend item a SKU resolves to among the [items] of a search;
    [null] when there is no match. *)
Definition resolve_sku (items : list val) (sku : val) : val :=
  js_or (find_match sku items) VNull.

Section ResolvedLines.

(** [catalog q]: the items the backend returns for the search text [q]. *)
Variable catalog : string -> list val.

Definition backend_item (sku : val) : val :=
  resolve_sku (catalog (js_toString sku)) sku.

(** A storefront line that the push keeps: it has a SKU and a numeric
    quantity, and its SKU resolves. *)
Definition resolved (li : val) : bool :=
  truthy (get "sku" li) && is_number (get "quantity" li)
  && truthy (backend_item (get "sku" li)).

(** A line that is looked up and has no backend match. *)
Definition unresolved (li : val) : bool :=
  truthy (get "sku" li) && is_number (get "quantity" li)
  && negb (truthy (backend_item (get "sku" li))).

(** The body of the one sales order created for the order. *)
Definition salesorder_body (contact order : val) (lines : list val) : val :=
  VObj [("customer_id", get "contact_id" contact);
        ("reference_number", VStr (js_toString (get "id" order)));
        ("line_items",
         VArr (map (fun li => zohoLineItem (line_of li)
                                           (backend_item (get "sku" li)))
                   (filter resolved lines)))].

End ResolvedLines.

(** The backend answers every search: the answer to the search text [q]
    is an object whose [items], an empty list when the field is missing or
    falsy, are [catalog q]; what else the answer holds does not matter. *)
Definition searches_answer (w : World) (catalog : string -> list val) : Prop :=
  forall q,
    exists data,
      zoho_api w (ZItemsSearch q) = RespOk data
      /\ nullish data = false
      /\ js_or (get "items" data) (VArr []) = VArr (catalog q)
      /\ forallb (fun i => negb (nullish i)) (catalog q) = true.

(** The contact the backend has, or creates, for an email address. *)
Inductive contact_for (w : World) (email name : val) (contact : val) : Prop :=
| contact_existing (search : val) :
    zoho_api w (ZContactsByEmail (js_toString email)) = RespOk search ->
    nullish search = false ->
    length_truthy (get "contacts" search) = true ->
    index0 (get "contacts" search) = contact ->
    contact_for w email name contact
| contact_created (search created contact_name : val) :
    zoho_api w (ZContactsByEmail (js_toString email)) = RespOk search ->
    nullish search = false ->
    length_truthy (get "contacts" search) = false ->
    (truthy name = true /\ contact_name = name
     \/ truthy name = false
        /\ exists e, email = VStr e /\ contact_name = VStr (before_at e)) ->
    zoho_api w (ZCreateContact
                  (VObj [("contact_name", contact_name);
                         ("contact_persons", VArr [VObj [("email", email)]])]))
    = RespOk created ->
    nullish created = false ->
    get "contact" created = contact ->
    contact_for w email name contact.

(** ** The catalog sync, [api/actions/syncZohoToShopify.ts] *)

(** [item.rate != null ? String(item.rate) : ""]. *)
Definition zohoPrice_of (item : val) : string :=
  if negb (nullish (get "rate" item)) then js_toString (get "rate" item)
  else "".

(** [zohoPrice && variant.price !== zohoPrice]. *)
Definition price_differs (item variant : val) : bool :=
  negb (zohoPrice_of item =? "")
  && negb (strict_eq (get "price" variant) (VStr (zohoPrice_of item))).

(** The value of [available]: three times [typeof x === "number" && x],
    chained by [??]. *)
Definition available_of (item : val) : val :=
  js_coalesce
    (js_coalesce
       (js_and (VBool (is_number (get "available_stock" item)))
               (get "available_stock" item))
       (js_and (VBool (is_number (get "actual_available_stock" item)))
               (get "actual_available_stock" item)))
    (js_and (VBool (is_number (get "stock_on_hand" item)))
            (get "stock_on_hand" item)).

(** The price step and the stock step of a turn, for the item and the
    variant found for it. *)
Definition sync_item_price (item variant : val) : M unit :=
  if price_differs item variant
  then updateVariantPrice (get "id" variant) (VStr (zohoPrice_of item)) ;;
       ret tt
  else ret tt.

Definition sync_item_stock (item variant : val) : M unit :=
  let available := available_of item in
  if is_number available
  then setInventoryLevel (get "inventory_item_id" variant) available VUndef ;;
       ret tt
  else ret tt.

(** One turn of the loop over the items of a page. *)
Definition sync_item (item : val) : M unit :=
  sku <- member item "sku" ;;
  if negb (truthy sku) then ret tt
  else
    variant <- findVariantBySKU sku ;;
    if negb (truthy variant) then ret tt
    else
      sync_item_price item variant ;;
      sync_item_stock item variant.

Inductive LoopStep : Type := NextPage | Break.

(** The two conditions that end the loop at a page: the page has no items,
    or it does not announce a further page. *)
Definition page_stops (data : val) : bool :=
  negb (length_truthy (js_or (get "items" data) (VArr [])))
  || negb (truthy (js_and (get "page_context" data)
                          (get "has_more_page" (get "page_context" data)))).

(** The backend answers the request for page [q] with a page that ends the
    loop. *)
Definition stopping_page (w : World) (q : nat) : Prop :=
  exists data, zoho_api w (ZItemsPage q) = RespOk data /\ page_stops data = true.

(** The body of [while (true)] for the page [page]. *)
Definition sync_page (page : nat) : M LoopStep :=
  log LogLevel "Zoho sync: fetching page" [VStr (string_of_nat page)] ;;
  data <- listZohoItemsPaged page ;;
  items0 <- member data "items" ;;
  let items := js_or items0 (VArr []) in
  if negb (length_truthy items) then ret Break
  else
    l <- iterate_or_throw items ;;
    for_each l sync_item ;;
    if truthy (js_and (get "page_context" data)
                      (get "has_more_page" (get "page_context" data)))
    then ret NextPage
    else ret Break.

(** The loop, with [fuel] bounding the number of pages; [None] when the
    fuel runs out before the loop ends. *)
Fixpoint sync_loop (fuel : nat) (page : nat) (s : State)
  : option (Outcome val * State) :=
  match fuel with
  | O => None
  | S fuel' =>
      match sync_page page s with
      | (Return NextPage, s') => sync_loop fuel' (page + 1) s'
      | (Return Break, s') =>
          Some (Return (VObj [("ok", VBool true);
                              ("message", VStr "Sync complete")]), s')
      | (Throw e, s') => Some (Throw e, s')
      end
  end.

Definition syncZohoToShopify (fuel : nat) (s : State)
  : option (Outcome val * State) :=
  sync_loop fuel 1 s.

(** The conditions under which a run of the sync meets no failure.  The
    backend serves the pages up to [k]: its configuration is present and
    makes a URL of every page request, the token endpoint answers, and
    each page up to [k] comes with an array of items none of which is
    [null] or [undefined].  The storefront serves: its configuration is
    present, it refuses no request, the shop names its primary location,
    and no stored variant is [null] or [undefined]. *)
Definition backend_serves (w : World) (k : nat) : Prop :=
  first_missing zoho_token_required = None
  /\ first_missing zoho_api_required = None
  /\ (forall page, zoho_url_parses (ZItemsPage page) = true)
  /\ (exists tokjson, zoho_accounts w = RespOk tokjson /\ nullish tokjson = false)
  /\ forall page, 1 <= page <= k ->
       exists data l,
         zoho_api w (ZItemsPage page) = RespOk data
         /\ nullish data = false
         /\ js_or (get "items" data) (VArr []) = VArr l
         /\ forallb (fun i => negb (nullish i)) l = true.

Definition storefront_serves (w : World) : Prop :=
  first_missing shopify_required = None
  /\ (forall req, shopify_outage w req = None)
  /\ truthy (get "primary_location_id" (shop w)) = true
  /\ forallb (fun v => negb (nullish v)) (variants w) = true.

(** ** Inbound requests *)

(** A webhook request: headers by lower-case name, the raw body when the
    framework kept it, and [request.body] (a string, or the parsed JSON). *)
Record Request : Type := {
  headers : list (string * string);
  rawBody : option string;
  body : val
}.

Fixpoint header (name : string) (hs : list (string * string)) : option string :=
  match hs with
  | [] => None
  | (k, v) :: rest => if k =? name then Some v else header name rest
  end.

(** [reply.code(c).send(payload)]. *)
Record Reply : Type := {
  code : nat;
  payload : val
}.

(** [a || b] on header values. *)
Definition str_or (a b : option string) : option string :=
  if env_truthy a then a else b.

(** [crypto.timingSafeEqual] on two buffers of the same length. *)
Fixpoint timingSafeEqual (a b : list ascii) : bool :=
  match a, b with
  | [], [] => true
  | x :: a', y :: b' => Ascii.eqb x y && timingSafeEqual a' b'
  | _, _ => false
  end.

(** [typeof request.body === "string" ? JSON.parse(request.body) : request.body]. *)
Definition parse_body (b : val) : M val :=
  match b with
  | VStr s =>
      match JSON_parse s with
      | Some v => ret v
      | None => throw (SyntaxError "Unexpected token in JSON")
      end
  | _ => ret b
  end.

(** ** The storefront webhook, [api/routes/shopify/POST-order-created.ts] *)

Definition IS_DEVELOPMENT : bool :=
  match NODE_ENV env with
  | Some s => s =? "development"
  | None => false
  end.

(** [rawBody] is [None] when [JSON.stringify] gave [undefined]; feeding that
    to the digest throws. *)
Definition verifyHmac (hmacHeader : option string) (raw : option string)
  : M bool :=
  if negb (env_truthy hmacHeader)
     || negb (env_truthy (SHOPIFY_WEBHOOK_SHARED_SECRET env))
  then ret false
  else
    match hmacHeader, SHOPIFY_WEBHOOK_SHARED_SECRET env, raw with
    | Some h, Some secret, Some bodyBuffer =>
        let computed := hmac_sha256_base64 secret bodyBuffer in
        let a := Buffer_from_base64 h in
        let b := Buffer_from_base64 computed in
        if negb (Nat.eqb (List.length a) (List.length b)) then ret false
        else ret (timingSafeEqual a b)
    | _, _, _ =>
        throw (TypeError "The 'data' argument must be of type string or an instance of Buffer")
    end.

(** What it means for the storefront's signature header [h] to verify. *)
Definition hmac_valid (secret raw h : string) : Prop :=
  Buffer_from_base64 h = Buffer_from_base64 (hmac_sha256_base64 secret raw).

(** What the handler does once the signature is accepted. *)
Definition order_created_process (request : Request) : M Reply :=
  order <- parse_body (body request) ;;
  let email := order_email order in
  (if truthy email then
     log LogLevel "Processing order"
       [VObj [("id", get "id" order); ("email", email)]] ;;
     pushShopifyOrderToZoho order ;;
     log LogLevel "Order processed successfully" [VObj [("id", get "id" order)]]
   else
     log WarnLevel "Skipping order - no email" [VObj [("id", get "id" order)]]) ;;
  ret {| code := 200; payload := VStr "OK" |}.

(** The bytes the signature is checked against: [request.rawBody], else a
    string [request.body], else [JSON.stringify(request.body)], which is
    [undefined] ([None]) for an absent body. *)
Definition hmac_body (request : Request) : option string :=
  match rawBody request with
  | Some r => Some r
  | None =>
      match body request with
      | VStr b => Some b
      | VUndef => None
      | b => Some (JSON_stringify b)
      end
  end.

Definition hmac_body_note (request : Request) : string :=
  match rawBody request with
  | Some _ => "Using request.rawBody for HMAC"
  | None =>
      match body request with
      | VStr _ => "Using string request.body for HMAC"
      | _ => "Using JSON.stringify fallback for HMAC - may cause verification issues"
      end
  end.

(** The [catch] of the handler. *)
Definition order_created_failure (e : error) : M Reply :=
  log ErrorLevel "order-created processing error:" [VStr (getErrorMessage e)] ;;
  ret {| code := 500; payload := VStr "Internal Server Error" |}.

(** The value of [hmacValid] when the handler tests it. *)
Definition order_created_check (request : Request) : M bool :=
  let hmac := header "x-shopify-hmac-sha256" (headers request) in
  let raw := hmac_body request in
  if IS_DEVELOPMENT && negb (env_truthy hmac) then
    log WarnLevel "Development mode: Bypassing HMAC verification (no header)" [] ;;
    ret true
  else if IS_DEVELOPMENT then
    valid <- verifyHmac hmac raw ;;
    if negb valid then
      log WarnLevel "Development mode: HMAC failed but continuing anyway" [] ;;
      ret true
    else ret valid
  else verifyHmac hmac raw.

Definition order_created_handler (request : Request) : M Reply :=
  try_catch
    (log LogLevel (hmac_body_note request) [] ;;
     hmacValid <- order_created_check request ;;
     if negb hmacValid then
       log ErrorLevel "HMAC verification failed" [] ;;
       ret {| code := 401; payload := VStr "Invalid HMAC" |}
     else order_created_process request)
    order_created_failure.

(** ** The backend webhook, [api/routes/zoho/POST-webhook.ts] *)

Definition coerceNumber (value : val) : val :=
  if nullish value then VUndef
  else
    let n := match value with
             | VStr s => VNum (Number_of_string s)
             | _ => value
             end in
    match n with
    | VNum x => if num_isFinite x then VNum x else VUndef
    | _ => VUndef
    end.

Definition extractString (value : val) : val :=
  if is_string value then value else VUndef.

Definition pickSKU (body : val) : val :=
  js_or (js_or (js_or (extractString (get "sku" body))
                      (extractString (get "item_sku" body)))
               (extractString (get "sku" (get "item" body))))
        (extractString (get "item_sku" (get "item" body))).

Definition pickPrice (body : val) : val :=
  let candidate :=
    js_coalesce
      (js_coalesce (js_coalesce (get "rate" body) (get "price" body))
                   (get "rate" (get "item" body)))
      (get "price" (get "item" body)) in
  let n := coerceNumber candidate in
  if negb (nullish n) then n else extractString candidate.

(** The first candidate that [coerceNumber] accepts. *)
Fixpoint first_number (candidates : list val) : val :=
  match candidates with
  | [] => VUndef
  | c :: rest =>
      let n := coerceNumber c in
      if negb (nullish n) then n else first_number rest
  end.

Definition pickAvailableStock (body : val) : val :=
  let absCandidates :=
    [get "available_stock" body;
     get "stock_on_hand" body;
     get "actual_available_stock" body;
     get "quantity_available" body;
     get "available_stock" (get "item" body);
     get "stock_on_hand" (get "item" body);
     get "actual_available_stock" (get "item" body)] in
  let n := first_number absCandidates in
  if negb (nullish n) then n
  else
    let q := coerceNumber (get "quantity" body) in
    if negb (nullish q) then q else VUndef.

Definition ascii_lower (c : ascii) : ascii :=
  let n := nat_of_ascii c in
  if ((65 <=? n) && (n <=? 90))%nat then ascii_of_nat (n + 32) else c.

(** [strip_prefix_ci p s]: [s] without its prefix [p], compared without
    case; [p] is in lower case. *)
Fixpoint strip_prefix_ci (p s : string) : option string :=
  match p, s with
  | EmptyString, _ => Some s
  | String a p', String c s' =>
      if Ascii.eqb a (ascii_lower c) then strip_prefix_ci p' s' else None
  | String _ _, EmptyString => None
  end.

(** [s.replace(/^Bearer\s+/i, "")]: the pattern matches when [s] begins
    with the six letters, in any case, and at least one white-space
    character follows them, that is when skipping the white space after the
    letters removes something. *)
Definition strip_bearer (s : string) : string :=
  match strip_prefix_ci "bearer" s with
  | Some rest =>
      let rest' := str_skip_spaces rest in
      if rest' =? rest then s else rest'
  | None => s
  end.

(** The signature check of the handler: the value [authorized] has after
    the [if (signature)] block. *)
Definition signature_authorized (secret : string) (signature : option string)
    (raw : string) : bool :=
  match signature with
  | Some sig =>
      if sig =? "" then false
      else
        let computedBase64 := hmac_sha256_base64 secret raw in
        let sigStr := str_trim sig in
        let a := Buffer_from_base64 sigStr in
        let b := Buffer_from_base64 computedBase64 in
        if Nat.eqb (List.length a) (List.length b) then timingSafeEqual a b
        else
          let computedHex := hmac_sha256_hex secret raw in
          str_toLowerCase sigStr =? str_toLowerCase computedHex
  | None => false
  end.

(** What it means for a signature header to verify, in the words of the
    specification: it is the digest of the body under the shared secret,
    in base64 or in hex. *)
Definition signature_valid_base64 (secret raw sig : string) : Prop :=
  Buffer_from_base64 (str_trim sig)
  = Buffer_from_base64 (hmac_sha256_base64 secret raw).

Definition signature_valid_hex (secret raw sig : string) : Prop :=
  str_toLowerCase (str_trim sig)
  = str_toLowerCase (hmac_sha256_hex secret raw).

(** The secret a request presents in a header. *)
Definition headerSecret (request : Request) : option string :=
  str_or (str_or (header "x-webhook-secret" (headers request))
                 (header "x-zoho-webhook-secret" (headers request)))
         (option_map strip_bearer (header "authorization" (headers request))).

(** The three headers that may carry the shared secret, as the handler
    reads them (a [Bearer] prefix of [authorization] is dropped). *)
Definition presented_secrets (request : Request) : list (option string) :=
  [header "x-webhook-secret" (headers request);
   header "x-zoho-webhook-secret" (headers request);
   option_map strip_bearer (header "authorization" (headers request))].

Definition unauthorized : Reply :=
  {| code := 401;
     payload := VObj [("ok", VBool false); ("error", VStr "Unauthorized")] |}.

(** The flat item-update payload. *)
Definition zoho_item_update (body : val) : M Reply :=
  let sku := pickSKU body in
  if negb (truthy sku) then
    ret {| code := 200;
           payload := VObj [("ok", VBool true); ("skipped", VBool true);
                            ("reason", VStr "No SKU in payload")] |}
  else
    let price := pickPrice body in
    let available := pickAvailableStock body in
    variant <- findVariantBySKU sku ;;
    if negb (truthy variant) then
      ret {| code := 200;
             payload := VObj [("ok", VBool true); ("skipped", VBool true);
                              ("reason", VStr "SKU not found in Shopify");
                              ("sku", sku)] |}
    else
      let results := [("sku", sku); ("variant_id", get "id" variant)] in
      results <-
        (if negb (nullish price) then
           try_catch
             (r <- updateVariantPrice (get "id" variant) price ;;
              ret (results ++ [("priceUpdated", VBool true);
                               ("priceResponse", r)])%list)
             (fun e =>
                ret (results ++ [("priceUpdated", VBool false);
                                 ("priceError", VStr (getErrorMessage e))])%list)
         else ret results) ;;
      results <-
        (if is_number available then
           try_catch
             (r <- setInventoryLevel (get "inventory_item_id" variant)
                                     available VUndef ;;
              ret (results ++ [("inventoryUpdated", VBool true);
                               ("inventoryResponse", r)])%list)
             (fun e =>
                ret (results ++ [("inventoryUpdated", VBool false);
                                 ("inventoryError", VStr (getErrorMessage e))])%list)
         else ret results) ;;
      ret {| code := 200; payload := VObj (("ok", VBool true) :: results) |}.

(** The absolute quantity of an adjustment line: of the line, else of the
    adjustment, else of the item as the backend has it. *)
Definition adjustment_quantity (adj li item : val) : val :=
  js_coalesce
    (js_coalesce (coerceNumber (get "new_quantity" li))
                 (coerceNumber (get "new_quantity" adj)))
    (coerceNumber
       (js_coalesce
          (js_coalesce (get "available_stock" item)
                       (get "stock_on_hand" item))
          (get "actual_available_stock" item))).

(** One turn of the loop over the lines of an inventory adjustment; the
    result is the entry pushed to [updates]. *)
Definition zoho_adjustment_line (adj li : val) : M val :=
  try_catch
    (let itemId := get "item_id" li in
     if negb (truthy itemId) then
       ret (VObj [("skipped", VBool true); ("reason", VStr "No item_id")])
     else
       item <- getZohoItemById itemId ;;
       let sku := get "sku" item in
       if negb (truthy sku) then
         ret (VObj [("item_id", itemId); ("skipped", VBool true);
                    ("reason", VStr "No SKU on item")])
       else
         variant <- findVariantBySKU sku ;;
         if negb (truthy variant) then
           ret (VObj [("item_id", itemId); ("sku", sku); ("skipped", VBool true);
                      ("reason", VStr "SKU not in Shopify")])
         else
           let newQty := adjustment_quantity adj li item in
           if is_number newQty then
             r <- setInventoryLevel (get "inventory_item_id" variant) newQty VUndef ;;
             ret (VObj [("item_id", itemId); ("sku", sku);
                        ("inventoryUpdated", VBool true);
                        ("inventoryResponse", r)])
           else
             ret (VObj [("item_id", itemId); ("sku", sku); ("skipped", VBool true);
                        ("reason", VStr "No absolute quantity")]))
    (fun e => ret (VObj [("error", VStr (getErrorMessage e))])).

(** The inventory-adjustment payload. *)
Definition zoho_adjustment (body : val) : M Reply :=
  let adj := js_or (get "inventory_adjustment" body) (VObj []) in
  let lines := array_or_empty (get "line_items" adj) in
  updates <- for_fold lines []
    (fun acc li => u <- zoho_adjustment_line adj li ;; ret (acc ++ [u])%list) ;;
  ret {| code := 200;
         payload := VObj [("ok", VBool true);
                          ("inventory_adjustment_id",
                           get "inventory_adjustment_id" adj);
                          ("updates", VArr updates)] |}.

(** What the handler does once the request is authorized. *)
Definition zoho_webhook_process (request : Request) : M Reply :=
  body <- parse_body (body request) ;;
  let isAdjustment := truthy (get "inventory_adjustment" body) in
  if negb isAdjustment then zoho_item_update body
  else zoho_adjustment body.

(** The bytes the signature is checked against. *)
Definition zoho_raw_body (request : Request) : string :=
  match rawBody request with
  | Some r => r
  | None =>
      match body request with
      | VStr b => b
      | b => JSON_stringify (js_coalesce b (VObj []))
      end
  end.

(** The value of [authorized] when the handler tests it, for the
    configured secret [SECRET]. *)
Definition zoho_authorized (SECRET : string) (request : Request) : bool :=
  let signature := header "x-zoho-webhook-signature" (headers request) in
  let authorized :=
    signature_authorized SECRET signature (zoho_raw_body request) in
  if negb authorized then
    match headerSecret request with
    | Some h => negb (h =? "") && (h =? SECRET)
    | None => false
    end
  else authorized.

(** A request passes authentication when a secret is configured and the
    handler finds the request authorized. *)
Definition zoho_authenticated (request : Request) : bool :=
  match ZOHO_WEBHOOK_SECRET env with
  | Some SECRET => negb (SECRET =? "") && zoho_authorized SECRET request
  | None => false
  end.

(** The [catch] of the handler. *)
Definition zoho_webhook_failure (e : error) : M Reply :=
  log ErrorLevel "Zoho webhook handler error:" [VStr (getErrorMessage e)] ;;
  ret {| code := 500;
         payload := VObj [("ok", VBool false);
                          ("error", VStr (getErrorMessage e))] |}.

Definition zoho_webhook_handler (request : Request) : M Reply :=
  try_catch
    (match ZOHO_WEBHOOK_SECRET env with
     | None => ret unauthorized
     | Some SECRET =>
         if SECRET =? "" then ret unauthorized
         else if negb (zoho_authorized SECRET request) then ret unauthorized
         else zoho_webhook_process request
     end)
    zoho_webhook_failure.

(** ** What a delivery of the backend webhook writes

    The handler writes to the storefront through [updateVariantPrice] and
    [setInventoryLevel] only.  The definitions below give these writes as
    functions of the storefront, for the statement that a second delivery
    of the same payload changes nothing. *)

Definition default_location (message : string) : Outcome val :=
  match DEFAULT_LOCATION_ID env with
  | Some s =>
      if s =? "" then Throw (Error message)
      else Return (VNum (Number_of_string s))
  | None => Throw (Error message)
  end.

(** The outcome of [getPrimaryLocationId] on the storefront [w]. *)
Definition primary_location (w : World) : Outcome val :=
  match response_outcome "Shopify" (fst (shopify_respond w SShop)) with
  | Return data =>
      let id := get "primary_location_id" (get "shop" data) in
      if truthy id then Return id
      else default_location "primary_location_id unavailable; set DEFAULT_LOCATION_ID or ensure item has inventory_levels"
  | Throw e => Throw e
  end.

(** The outcome of [getLocationIdForItem] for the item [id] on [w]. *)
Definition location_for (w : World) (id : string) : Outcome val :=
  match primary_location w with
  | Return loc => Return loc
  | Throw _ =>
      match response_outcome "Shopify"
              (fst (shopify_respond w (SInventoryLevels id))) with
      | Return levels =>
          let loc := get "location_id" (index0 (get "inventory_levels" levels)) in
          if truthy loc then Return loc
          else default_location "No location_id available; set DEFAULT_LOCATION_ID in Secrets"
      | Throw e => Throw e
      end
  end.

(** The level that [setInventoryLevel] stores on [w], if it stores one. *)
Definition level_write (w : World) (inventoryItemId available : val)
  : option val :=
  match location_for w (js_toString inventoryItemId) with
  | Return loc =>
      let body := VObj [("location_id", loc);
                        ("inventory_item_id", inventoryItemId);
                        ("available", available)] in
      match shopify_outage w (SSetInventoryLevel body) with
      | Some _ => None
      | None => Some (wire body)
      end
  | Throw _ => None
  end.

Definition written (o : option val) : list val :=
  match o with Some l => [l] | None => [] end.

(** The price that [updateVariantPrice] stores on [w], if it stores one. *)
Definition price_write (w : World) (variantId price : val)
  : option (string * val) :=
  match shopify_outage w
          (SPutVariant (js_toString variantId)
             (VObj [("variant",
                     VObj [("id", variantId);
                           ("price", VStr (js_toString price))])])) with
  | Some _ => None
  | None =>
      Some (js_toString variantId, price_kept w (VStr (js_toString price)))
  end.

(** What [store_level l] does to one stored level. *)
Definition update_level (l l' : val) : val :=
  if same_level l l' then set_available (get "available" l) l' else l'.

Definition updates (ops : list val) (b : val) : val :=
  fold_left (fun b l => update_level l b) ops b.

(** The levels of the storefront after the levels [ops] were stored in
    turn. *)
Definition stores (ops : list val) (ls : list val) : list val :=
  fold_left (fun ls l => store_level l ls) ops ls.

Definition apply_levels (ops : list val) (w : World) : World :=
  with_levels w (stores ops (inventory_levels w)).

(** The storefront after the price [p] of the variant [id] was stored. *)
Definition reprice (price : option (string * val)) (w : World) : World :=
  match price with
  | Some (id, p) => with_variants w (map (store_price id p) (variants w))
  | None => w
  end.

(** A stored level comes with its quantity: storing it over itself changes
    nothing. *)
Definition settled (l : val) : Prop := set_available (get "available" l) l = l.

(** A change of the stored variants that touches prices only. *)
Definition price_only (g : val -> val) : Prop :=
  (forall v, nullish v = true -> g v = v)
  /\ (forall v, nullish v = false -> nullish (g v) = false)
  /\ (forall v, truthy (g v) = truthy v)
  /\ (forall k v, k <> "price" -> get k (g v) = get k v).

(** The state of a run that starts on the remote systems [w]. *)
Definition starting (w : World) : State :=
  {| world := w; trace := []; console := [] |}.

(** *** What a delivery writes

    The price and the levels that a delivery of the backend webhook sends
    to a storefront that answers as [w0] does: the reads of
    [zoho_item_update] and of [zoho_adjustment_line], one after the other,
    with the write they lead to. *)

Definition item_update_price (w0 : World) (body : val)
  : option (string * val) :=
  if negb (truthy (pickSKU body)) then None
  else
    match fst (findVariantBySKU (pickSKU body) (starting w0)) with
    | Return variant =>
        if negb (truthy variant) then None
        else if negb (nullish (pickPrice body))
        then price_write w0 (get "id" variant) (pickPrice body)
        else None
    | Throw _ => None
    end.

Definition item_update_levels (w0 : World) (body : val) : list val :=
  if negb (truthy (pickSKU body)) then []
  else
    match fst (findVariantBySKU (pickSKU body) (starting w0)) with
    | Return variant =>
        if negb (truthy variant) then []
        else if is_number (pickAvailableStock body)
        then written
               (level_write w0 (get "inventory_item_id" variant)
                  (pickAvailableStock body))
        else []
    | Throw _ => []
    end.

Definition adjustment_line_levels (w0 : World) (adj li : val) : list val :=
  if negb (truthy (get "item_id" li)) then []
  else
    match fst (getZohoItemById (get "item_id" li) (starting w0)) with
    | Return item =>
        if negb (truthy (get "sku" item)) then []
        else
          match fst (findVariantBySKU (get "sku" item) (starting w0)) with
          | Return variant =>
              if negb (truthy variant) then []
              else if is_number (adjustment_quantity adj li item)
              then written
                     (level_write w0 (get "inventory_item_id" variant)
                        (adjustment_quantity adj li item))
              else []
          | Throw _ => []
          end
    | Throw _ => []
    end.

Definition adjustment_levels (w0 : World) (body : val) : list val :=
  let adj := js_or (get "inventory_adjustment" body) (VObj []) in
  flat_map (adjustment_line_levels w0 adj)
           (array_or_empty (get "line_items" adj)).

(** The quantities that the storefront [w] holds for the item and the
    location of the level [l]. *)
Definition level_quantities (w : World) (l : val) : list val :=
  map (get "available") (filter (same_level l) (inventory_levels w)).

(** The stored levels [ls] hold the quantity [q], and no other, for the
    item and the location of [l]. *)
Definition holds_only (ls : list val) (l q : val) : Prop :=
  existsb (same_level l) ls = true
  /\ forall b, In b ls -> same_level l b = true -> get "available" b = q.

(** The flat payload [b], delivered in the state [s], asks for the
    quantity [n] at the level [l]: it names no adjustment, the variant of
    its SKU is found, its stock is the number [n], and [l] is what
    [setInventoryLevel] sends for the item of that variant. *)
Definition item_update_sets (s : State) (b l : val) (n : num) : Prop :=
  truthy (get "inventory_adjustment" b) = false
  /\ truthy (pickSKU b) = true
  /\ exists variant,
       fst (findVariantBySKU (pickSKU b) s) = Return variant
       /\ truthy variant = true
       /\ pickAvailableStock b = VNum n
       /\ level_write (world s) (get "inventory_item_id" variant) (VNum n)
          = Some l.

(** The line [li] of the adjustment [adj] asks for the quantity [n] at the
    level [l]: the backend knows its item, the variant of the SKU of that
    item is found, the quantity of the line is the number [n], and [l] is
    what [setInventoryLevel] sends for the item of that variant. *)
Definition adjustment_line_sets (s : State) (adj li l : val) (n : num)
  : Prop :=
  truthy (get "item_id" li) = true
  /\ exists item variant,
       fst (getZohoItemById (get "item_id" li) s) = Return item
       /\ truthy (get "sku" item) = true
       /\ fst (findVariantBySKU (get "sku" item) s) = Return variant
       /\ truthy variant = true
       /\ adjustment_quantity adj li item = VNum n
       /\ level_write (world s) (get "inventory_item_id" variant) (VNum n)
          = Some l.

(** The batch payload [b] asks for the quantity [n] at the level [l]: one
    of its lines does, and no later line asks for a quantity at the same
    level. *)
Definition adjustment_sets (s : State) (b l : val) (n : num) : Prop :=
  truthy (get "inventory_adjustment" b) = true
  /\ exists pre li post,
       array_or_empty (get "line_items" (get "inventory_adjustment" b))
       = (pre ++ li :: post)%list
       /\ adjustment_line_sets s (get "inventory_adjustment" b) li l n
       /\ forall li' l' n',
            In li' post ->
            adjustment_line_sets s (get "inventory_adjustment" b) li' l' n' ->
            same_level l l' = false.

(** Two storefronts on which the handler takes the same decisions: they
    answer alike but for the variants and the levels they hold, and they
    resolve the location of every item alike. *)
Definition agrees (w0 w : World) : Prop :=
  zoho_accounts w = zoho_accounts w0
  /\ zoho_api w = zoho_api w0
  /\ shopify_outage w = shopify_outage w0
  /\ shop w = shop w0
  /\ variant_search w = variant_search w0
  /\ price_kept w = price_kept w0
  /\ forall id, location_for w id = location_for w0 id.

(** ** The rest of the backend client, the entry points and two routes

    [getZohoItemStock] of [api/zoho.ts], the [run] entry points of the two
    actions, the route that starts the sync and the route that reports on
    the backend. *)

(** The number [n], as [Number] reads its decimal notation. *)
Definition num_of_nat (n : nat) : num := Number_of_string (string_of_nat n).

(** [v.length] for a [v] that is neither [null] nor [undefined]. *)
Definition js_length (v : val) : val :=
  match v with
  | VArr l => VNum (num_of_nat (List.length l))
  | VStr s => VNum (num_of_nat (String.length s))
  | VObj fields => lookup "length" fields
  | _ => VUndef
  end.

Definition getZohoItemStock (sku : val) : M val :=
  item <- findZohoItemBySKU sku ;;
  if negb (truthy item)
  then throw (Error ("Zoho item not found for SKU " ++ js_toString sku))
  else
    data <- zohoFetch (ZItemById (js_toString (get "item_id" item))) ;;
    detail <- member data "item" ;;
    sku' <- member detail "sku" ;;
    ret (VObj [("sku", sku');
               ("name", get "name" detail);
               ("stock_on_hand",
                js_or (get "stock_on_hand" detail) (VNum (num_of_nat 0)));
               ("available_stock",
                js_or (get "available_stock" detail) (VNum (num_of_nat 0)))]).

(** [run] of [api/actions/pushShopifyOrdersToZoho.ts]. *)
Definition run_order_push (params : val) : M val :=
  pushShopifyOrderToZoho (js_or (get "order" params) (VObj [])).

(** [run] of [api/actions/syncZohoToShopify.ts]: a failure of the sync is
    logged and thrown again. *)
Definition run_sync (fuel : nat) (s : State) : option (Outcome val * State) :=
  match syncZohoToShopify fuel s with
  | Some (Throw e, s') =>
      Some ((log ErrorLevel "syncZohoToShopify failed:"
               [VStr (getErrorMessage e)] ;;
             throw e) s')
  | other => other
  end.

(** The route that starts the sync. *)
Definition sync_route (fuel : nat) (s : State) : option (Outcome Reply * State) :=
  match run_sync fuel s with
  | Some (Return result, s') =>
      Some (Return {| code := 200;
                      payload := VObj [("ok", VBool true);
                                       ("result", result)] |}, s')
  | Some (Throw e, s') =>
      Some (Return {| code := 500;
                      payload := VObj [("ok", VBool false);
                                       ("error", VStr (getErrorMessage e))] |},
            s')
  | None => None
  end.

(** The route that reports on the backend: which settings are present,
    and how many items the first catalog page has. *)
Definition zoho_status_route : M Reply :=
  try_catch
    (let flags :=
       VObj [("ZOHO_BASE_URL", VBool (env_truthy (ZOHO_BASE_URL env)));
             ("ZOHO_ACCOUNTS_URL", VBool (env_truthy (ZOHO_ACCOUNTS_URL env)));
             ("ZOHO_CLIENT_ID", VBool (env_truthy (ZOHO_CLIENT_ID env)));
             ("ZOHO_CLIENT_SECRET", VBool (env_truthy (ZOHO_CLIENT_SECRET env)));
             ("ZOHO_REFRESH_TOKEN", VBool (env_truthy (ZOHO_REFRESH_TOKEN env)));
             ("ZOHO_ORG_ID", VBool (env_truthy (ZOHO_ORG_ID env)))] in
     data <- listZohoItemsPaged 1 ;;
     items <- member data "items" ;;
     let itemsCount := js_length (js_or items (VArr [])) in
     ret {| code := 200;
            payload := VObj [("ok", VBool true);
                             ("itemsCount", itemsCount);
                             ("env", flags)] |})
    (fun e =>
       ret {| code := 500;
              payload := VObj [("ok", VBool false);
                               ("error", VStr (getErrorMessage e))] |}).

(** *** Vocabulary for the statements about this code *)

(** The places where [pickSKU] looks for a SKU, and the places where
    [pickAvailableStock] looks for a quantity, in the order of the code. *)
Definition sku_candidates (body : val) : list val :=
  [get "sku" body; get "item_sku" body;
   get "sku" (get "item" body); get "item_sku" (get "item" body)].

Definition stock_candidates (body : val) : list val :=
  [get "available_stock" body;
   get "stock_on_hand" body;
   get "actual_available_stock" body;
   get "quantity_available" body;
   get "available_stock" (get "item" body);
   get "stock_on_hand" (get "item" body);
   get "actual_available_stock" (get "item" body);
   get "quantity" body].

(** A string that is not empty. *)
Definition nonempty_string (v : val) : bool := is_string v && truthy v.

Definition is_contact_creation (c : Call) : bool :=
  match c with ZohoCall _ _ _ (ZCreateContact _) => true | _ => false end.

Definition is_contact_call (c : Call) : bool :=
  match c with
  | ZohoCall _ _ _ (ZContactsByEmail _) | ZohoCall _ _ _ (ZCreateContact _) => true
  | _ => false
  end.

Definition is_item_detail_call (c : Call) : bool :=
  match c with ZohoCall _ _ _ (ZItemById _) => true | _ => false end.

Definition is_write_call (c : Call) : bool :=
  is_price_call c || is_stock_call c.

(** The requests of the catalog sync: token exchanges, catalog pages and
    storefront requests. *)
Definition sync_request (c : Call) : bool :=
  match c with
  | ZohoTokenCall _ _ _ _ => true
  | ZohoCall _ _ _ (ZItemsPage _) => true
  | ZohoCall _ _ _ _ => false
  | ShopifyCall _ _ _ => true
  end.

(** The requests of the backend webhook: token exchanges, [GET] requests
    for the path [items/ID] and storefront requests. *)
Definition inventory_webhook_request (c : Call) : bool :=
  match c with
  | ZohoTokenCall _ _ _ _ => true
  | ZohoCall _ _ _ (ZItemById _) => true
  | ZohoCall _ _ _ _ => false
  | ShopifyCall _ _ _ => true
  end.

(** The requests of the order push: token exchanges, item searches,
    contact requests and the creation of a sales order. *)
Definition order_request (c : Call) : bool :=
  match c with
  | ZohoTokenCall _ _ _ _ => true
  | ZohoCall _ _ _ (ZItemsSearch _) => true
  | ZohoCall _ _ _ (ZContactsByEmail _) => true
  | ZohoCall _ _ _ (ZCreateContact _) => true
  | ZohoCall _ _ _ (ZCreateSalesOrder _) => true
  | ZohoCall _ _ _ _ => false
  | ShopifyCall _ _ _ => false
  end.

(** A token exchange or an item search. *)
Definition is_lookup_call (c : Call) : bool :=
  match c with
  | ZohoTokenCall _ _ _ _ => true
  | ZohoCall _ _ _ (ZItemsSearch _) => true
  | _ => false
  end.

(** ** Relations between the states of a run

    The vocabulary of the statements about runs: what a computation keeps,
    what it can return, which requests it sends. *)

(** [m] keeps [R]: every run of [m] ends in a state that [R] relates to
    the state it started in. *)
Definition keeps (R : State -> State -> Prop) {A} (m : M A) : Prop :=
  forall s, R s (snd (m s)).

(** Every value that [m] returns satisfies [P]. *)
Definition returns {A} (P : A -> Prop) (m : M A) : Prop :=
  forall s a s', m s = (Return a, s') -> P a.

(** Requests of a trace that satisfy [P] only. *)
Definition emits (P : Call -> bool) (s s' : State) : Prop :=
  exists t, trace s' = (trace s ++ t)%list /\ forallb P t = true.

(** The image of an outcome under a function on values. *)
Definition out_map (g : val -> val) (o : Outcome val) : Outcome val :=
  match o with
  | Return v => Return (g v)
  | Throw e => Throw e
  end.

(** The storefront [w'] is [w] with its variants changed by [g]. *)
Definition repriced (g : val -> val) (w w' : World) : Prop :=
  shopify_outage w' = shopify_outage w
  /\ variant_search w' = variant_search w
  /\ variants w' = map g (variants w).

(** The storefront keeps every price as it is sent. *)
Definition keeps_prices_as_sent (w : World) : Prop :=
  forall p, price_kept w (VStr p) = VStr p.

(** [findVariantBySKU] finds the variant [v] for [sku] on the storefront
    [w]. *)
Definition found (w : World) (sku v : val) : Prop :=
  fst (findVariantBySKU sku (starting w)) = Return v /\ truthy v = true.

(** The pages that a run of the sync reaches on [w]: no page before them
    ends the loop. *)
Definition sync_reaches (w : World) (page : nat) : Prop :=
  1 <= page /\ forall q, 1 <= q < page -> ~ stopping_page w q.

(** The items that the loop visits on the page [page], and on any page
    that a run reaches. *)
Definition page_item (w : World) (page : nat) (item : val) : Prop :=
  exists data l,
    zoho_api w (ZItemsPage page) = RespOk data
    /\ length_truthy (js_or (get "items" data) (VArr [])) = true
    /\ iterate (js_or (get "items" data) (VArr [])) = Some l
    /\ In item l.

Definition catalog_item (w : World) (item : val) : Prop :=
  exists page, sync_reaches w page /\ page_item w page item.

(** An item with a SKU and a price. *)
Definition priced (item : val) : bool :=
  truthy (get "sku" item) && negb (zohoPrice_of item =? "").

(** No variant gets two prices: two priced items of the catalog whose SKUs
    are found as variants with the same identifier have the same price.
    (Two items can share a variant: a SKU that no variant carries is found
    as the first variant of the search.) *)
Definition one_price_per_variant (w : World) : Prop :=
  forall i j vi vj,
    catalog_item w i -> catalog_item w j ->
    priced i = true -> priced j = true ->
    found w (get "sku" i) vi -> found w (get "sku" j) vj ->
    variant_id vi = variant_id vj ->
    zohoPrice_of i = zohoPrice_of j.

(** The price step of a turn for [item] has nothing to send on [w]. *)
Definition price_settled (w : World) (item : val) : Prop :=
  truthy (get "sku" item) = true ->
  forall v, found w (get "sku" item) v -> price_differs item v = false.

(** Every item of [D] is an item of the catalog whose price is settled. *)
Definition settled_items (w : World) (D : val -> Prop) : Prop :=
  forall i, D i -> catalog_item w i /\ price_settled w i.

(** What a run of the sync needs for its prices to stay. *)
Definition prices_stay (w : World) : Prop :=
  keeps_prices_as_sent w
  /\ forallb is_object (variants w) = true
  /\ one_price_per_variant w.

Definition not_price_call (c : Call) : bool := negb (is_price_call c).

(** What the stock step keeps: the variants and how they are searched, and
    no price is written. *)
Definition catalog_kept (s s' : State) : Prop :=
  emits not_price_call s s'
  /\ shopify_outage (world s') = shopify_outage (world s)
  /\ variant_search (world s') = variant_search (world s)
  /\ variants (world s') = variants (world s)
  /\ zoho_api (world s') = zoho_api (world s)
  /\ price_kept (world s') = price_kept (world s).

(** What a turn of the item loop keeps: the backend, and no catalog page
    is asked for. *)
Definition sync_item_keeps (s s' : State) : Prop :=
  zoho_api (world s') = zoho_api (world s)
  /\ zoho_accounts (world s') = zoho_accounts (world s)
  /\ exists t, trace s' = (trace s ++ t)%list /\ pages_fetched t = [].

(** [s'] is [s] after the requests [t] and the console lines [c]. *)
Definition extends (s s' : State) (t : list Call)
    (c : list (level * string * list val)) : Prop :=
  world s' = world s
  /\ trace s' = (trace s ++ t)%list
  /\ console s' = (console s ++ c)%list.

(** No sales order is created by the requests [t]. *)
Definition not_salesorder (t : list Call) : Prop :=
  filter is_salesorder_call t = [].

(** ** More vocabulary: token exchanges, outcomes and prices *)

(** [tokens_fresh_from fresh t]: every backend request of [t] comes directly
    after a token exchange; [fresh] tells whether a token exchange comes
    directly before [t]. *)
Fixpoint tokens_fresh_from (fresh : bool) (t : list Call) : bool :=
  match t with
  | [] => true
  | ZohoTokenCall _ _ _ _ :: rest => tokens_fresh_from true rest
  | ZohoCall _ _ _ _ :: rest => fresh && tokens_fresh_from false rest
  | ShopifyCall _ _ _ :: rest => tokens_fresh_from false rest
  end.

Definition is_backend_call (c : Call) : bool :=
  match c with ZohoCall _ _ _ _ => true | _ => false end.

(** Every backend request of [t] comes directly after a token exchange. *)
Definition token_before_each (t : list Call) : Prop :=
  forall pre base org token req post,
    t = (pre ++ ZohoCall base org token req :: post)%list ->
    exists pre' a b c d, pre = (pre' ++ [ZohoTokenCall a b c d])%list.

(** The requests of a run: each backend request has a token exchange of its
    own. *)
Definition fetches_tokens (s s' : State) : Prop :=
  exists t, trace s' = (trace s ++ t)%list /\ tokens_fresh_from false t = true.

(** Whether a step returned. *)
Definition succeeded {A} (o : Outcome A) : bool :=
  match o with Return _ => true | Throw _ => false end.

(** The places [pickPrice] looks at, in order. *)
Definition price_candidates (body : val) : list val :=
  [get "rate" body; get "price" body;
   get "rate" (get "item" body); get "price" (get "item" body)].

End Definitions.

Arguments ZohoReq : clear implicits.
Arguments ShopifyReq : clear implicits.
Arguments Call : clear implicits.
Arguments Response : clear implicits.
Arguments World : clear implicits.
Arguments State : clear implicits.
Arguments M : clear implicits.
Arguments LineItem : clear implicits.
Arguments SalesOrderInput : clear implicits.
Arguments Request : clear implicits.
Arguments Reply : clear implicits.

(** ** A small host, for running the bridge on examples

    Numbers are the integers and [NaN]; the digest is a stand-in that
    binds key and body; request bodies are given parsed.  The theorems
    below hold for every host; this one only serves to evaluate the
    bridge on concrete requests. *)
Module Demo.

Inductive jsnum : Type := Int (z : Z) | NaN.

Definition jsnum_truthy (n : jsnum) : bool :=
  match n with Int z => negb (Z.eqb z 0) | NaN => false end.

Definition jsnum_eqb (a b : jsnum) : bool :=
  match a, b with Int x, Int y => Z.eqb x y | _, _ => false end.

Definition jsnum_isFinite (n : jsnum) : bool :=
  match n with Int _ => true | NaN => false end.

Definition jsnum_toString (n : jsnum) : string :=
  match n with
  | Int z => NilZero.string_of_int (Z.to_int z)
  | NaN => "NaN"
  end.

Definition jsnum_of_string (s : string) : jsnum :=
  match NilZero.int_of_string s with
  | Some i => Int (Z.of_int i)
  | None => NaN
  end.

Definition lower (s : string) : string :=
  string_of_list_ascii (map ascii_lower (list_ascii_of_string s)).

Definition quote : string := String (ascii_of_nat 34) EmptyString.

(** [JSON.stringify] without escapes. *)
Fixpoint stringify (v : value jsnum) : string :=
  match v with
  | VUndef | VNull => "null"
  | VBool true => "true"
  | VBool false => "false"
  | VNum (Int z) => NilZero.string_of_int (Z.to_int z)
  | VNum NaN => "null"
  | VStr s => quote ++ s ++ quote
  | VArr l =>
      "[" ++ (fix elems (l : list (value jsnum)) : string :=
                match l with
                | [] => ""
                | [e] => stringify e
                | e :: rest => stringify e ++ "," ++ elems rest
                end) l ++ "]"
  | VObj fields =>
      "{" ++ (fix members (fields : list (string * value jsnum)) : string :=
                match fields with
                | [] => ""
                | [(k, e)] => quote ++ k ++ quote ++ ":" ++ stringify e
                | (k, e) :: rest =>
                    quote ++ k ++ quote ++ ":" ++ stringify e ++ ","
                    ++ members rest
                end) fields ++ "}"
  end.

(** The strings of the example host are Latin-1: a character is a code unit
    below 256, and the white space among these is the tabulation and the
    line breaks (9 to 13), the space and the no-break space (160). *)
Definition is_space (c : ascii) : bool :=
  let n := nat_of_ascii c in
  (n =? 32)%nat || ((9 <=? n) && (n <=? 13))%nat || (n =? 160)%nat.

Fixpoint drop_spaces (s : string) : string :=
  match s with
  | String c rest => if is_space c then drop_spaces rest else s
  | EmptyString => EmptyString
  end.

Definition reverse (s : string) : string :=
  string_of_list_ascii (rev (list_ascii_of_string s)).

(** [s.trim()]. *)
Definition trim (s : string) : string :=
  reverse (drop_spaces (reverse (drop_spaces s))).

Definition hex_digit (n : nat) : ascii :=
  ascii_of_nat (if (n <? 10)%nat then 48 + n else 55 + n).

Definition percent (n : nat) : string :=
  String "%" (String (hex_digit (n / 16)) (String (hex_digit (n mod 16)) "")).

(** [encodeURIComponent] keeps the letters, the digits and [-_.!~*'()], and
    writes every other character as the bytes of its UTF-8 form. *)
Definition unreserved (c : ascii) : bool :=
  let n := nat_of_ascii c in
  ((65 <=? n) && (n <=? 90) || (97 <=? n) && (n <=? 122)
   || (48 <=? n) && (n <=? 57))%nat
  || existsb (Ascii.eqb c) (list_ascii_of_string "-_.!~*'()").

Fixpoint encode_component (s : string) : string :=
  match s with
  | EmptyString => EmptyString
  | String c rest =>
      let n := nat_of_ascii c in
      (if unreserved c then String c ""
       else if (n <? 128)%nat then percent n
       else percent (192 + n / 64) ++ percent (128 + n mod 64))
      ++ encode_component rest
  end.

(** The example host accepts a URL when it begins with a scheme and a host:
    [http://] or [https://] and one more character, not a slash. *)
Definition url_parses (s : string) : bool :=
  let host_follows (rest : string) :=
    match rest with
    | String c _ => negb (Ascii.eqb c "/")
    | EmptyString => false
    end in
  match strip_prefix_ci "https://" s, strip_prefix_ci "http://" s with
  | Some rest, _ => host_follows rest
  | None, Some rest => host_follows rest
  | None, None => false
  end.

#[global] Instance runtime : Runtime jsnum := {|
  num_truthy := jsnum_truthy;
  num_eqb := jsnum_eqb;
  num_isFinite := jsnum_isFinite;
  num_toString := jsnum_toString;
  Number_of_string := jsnum_of_string;
  JSON_parse := fun _ => None;
  JSON_stringify := stringify;
  hmac_sha256_base64 := fun key body => "b64:" ++ key ++ ":" ++ body;
  hmac_sha256_hex := fun key body => "hex:" ++ key ++ ":" ++ body;
  Buffer_from_base64 := list_ascii_of_string;
  str_trim := trim;
  str_toLowerCase := lower;
  str_skip_spaces := drop_spaces;
  encodeURIComponent := encode_component;
  URL_parses := url_parses
|}.

(** A configuration with every value set, and the same in development
    mode. *)
Definition env : Env := {|
  ZOHO_BASE_URL := Some "https://www.zohoapis.in";
  ZOHO_ACCOUNTS_URL := Some "https://accounts.zoho.in";
  ZOHO_CLIENT_ID := Some "client";
  ZOHO_CLIENT_SECRET := Some "secret";
  ZOHO_REFRESH_TOKEN := Some "refresh";
  ZOHO_ORG_ID := Some "org";
  SHOPIFY_STORE_DOMAIN := Some "shop.example";
  SHOPIFY_ACCESS_TOKEN := Some "token";
  DEFAULT_LOCATION_ID := None;
  ZOHO_WEBHOOK_SECRET := Some "s3cret";
  SHOPIFY_WEBHOOK_SHARED_SECRET := Some "hush";
  NODE_ENV := None
|}.

Definition dev_env : Env := {|
  ZOHO_BASE_URL := ZOHO_BASE_URL env;
  ZOHO_ACCOUNTS_URL := ZOHO_ACCOUNTS_URL env;
  ZOHO_CLIENT_ID := ZOHO_CLIENT_ID env;
  ZOHO_CLIENT_SECRET := ZOHO_CLIENT_SECRET env;
  ZOHO_REFRESH_TOKEN := ZOHO_REFRESH_TOKEN env;
  ZOHO_ORG_ID := ZOHO_ORG_ID env;
  SHOPIFY_STORE_DOMAIN := SHOPIFY_STORE_DOMAIN env;
  SHOPIFY_ACCESS_TOKEN := SHOPIFY_ACCESS_TOKEN env;
  DEFAULT_LOCATION_ID := None;
  ZOHO_WEBHOOK_SECRET := ZOHO_WEBHOOK_SECRET env;
  SHOPIFY_WEBHOOK_SHARED_SECRET := SHOPIFY_WEBHOOK_SHARED_SECRET env;
  NODE_ENV := Some "development"
|}.

(** The backend without the organisation id. *)
Definition env_without_org : Env := {|
  ZOHO_BASE_URL := ZOHO_BASE_URL env;
  ZOHO_ACCOUNTS_URL := ZOHO_ACCOUNTS_URL env;
  ZOHO_CLIENT_ID := ZOHO_CLIENT_ID env;
  ZOHO_CLIENT_SECRET := ZOHO_CLIENT_SECRET env;
  ZOHO_REFRESH_TOKEN := ZOHO_REFRESH_TOKEN env;
  ZOHO_ORG_ID := None;
  SHOPIFY_STORE_DOMAIN := SHOPIFY_STORE_DOMAIN env;
  SHOPIFY_ACCESS_TOKEN := SHOPIFY_ACCESS_TOKEN env;
  DEFAULT_LOCATION_ID := None;
  ZOHO_WEBHOOK_SECRET := ZOHO_WEBHOOK_SECRET env;
  SHOPIFY_WEBHOOK_SHARED_SECRET := SHOPIFY_WEBHOOK_SHARED_SECRET env;
  NODE_ENV := None
|}.

Definition item_A : value jsnum :=
  VObj [("item_id", VStr "9001"); ("sku", VStr "A"); ("name", VStr "Widget");
        ("rate", VNum (Int 12)); ("available_stock", VNum (Int 5))].

(** The same item when the backend reports its stock as [stock_on_hand]
    only. *)
Definition item_A_on_hand : value jsnum :=
  VObj [("item_id", VStr "9001"); ("sku", VStr "A"); ("name", VStr "Widget");
        ("rate", VNum (Int 12)); ("stock_on_hand", VNum (Int 5))].

(** The same item without a price. *)
Definition item_A_unpriced : value jsnum :=
  VObj [("item_id", VStr "9001"); ("sku", VStr "A"); ("name", VStr "Widget")].

Definition variant_A : value jsnum :=
  VObj [("id", VNum (Int 1)); ("sku", VStr "A"); ("price", VStr "10.00");
        ("inventory_item_id", VNum (Int 100))].

(** A backend that knows the item ["A"] and one customer, and whose catalog
    is the single page [items]; a storefront with one variant. *)
Definition backend (items : list (value jsnum)) (req : ZohoReq jsnum)
  : Response jsnum :=
  match req with
  | ZItemsPage 1 =>
      RespOk (VObj [("items", VArr items);
                    ("page_context", VObj [("has_more_page", VBool false)])])
  | ZItemsPage _ => RespOk (VObj [("items", VArr [])])
  | ZItemsSearch q =>
      RespOk (VObj [("items", VArr (if q =? "A" then [item_A] else []))])
  | ZItemById id =>
      if id =? "9001" then RespOk (VObj [("item", item_A)])
      else RespNotOk 404 "Item not found"
  | ZContactsByEmail _ =>
      RespOk (VObj [("contacts", VArr [VObj [("contact_id", VStr "77")]])])
  | ZCreateContact _ =>
      RespOk (VObj [("contact", VObj [("contact_id", VStr "78")])])
  | ZCreateSalesOrder _ =>
      RespOk (VObj [("salesorder", VObj [("salesorder_id", VStr "SO-1")])])
  end.

Definition world_with (items : list (value jsnum)) : World jsnum := {|
  zoho_accounts := RespOk (VObj [("access_token", VStr "T")]);
  zoho_api := backend items;
  shopify_outage := fun _ => None;
  shop := VObj [("primary_location_id", VNum (Int 7))];
  variant_search := fun q id => true;
  price_kept := fun p => p;
  variants := [variant_A];
  inventory_levels := []
|}.

(** The same world when the token endpoint refuses the credentials, and
    when the storefront is down. *)
Definition world_token_refused : World jsnum := {|
  zoho_accounts := RespNotOk 401 "invalid_client";
  zoho_api := backend [item_A];
  shopify_outage := fun _ => None;
  shop := VObj [("primary_location_id", VNum (Int 7))];
  variant_search := fun q id => true;
  price_kept := fun p => p;
  variants := [variant_A];
  inventory_levels := []
|}.

Definition world_storefront_down : World jsnum := {|
  zoho_accounts := RespOk (VObj [("access_token", VStr "T")]);
  zoho_api := backend [item_A];
  shopify_outage := fun _ => Some (503, "Service Unavailable");
  shop := VObj [("primary_location_id", VNum (Int 7))];
  variant_search := fun q id => true;
  price_kept := fun p => p;
  variants := [variant_A];
  inventory_levels := []
|}.

(** A backend whose catalog has two pages: the first holds the item ["A"]
    and announces a further page, the second holds one more item and
    announces none. *)
Definition backend_two_pages (req : ZohoReq jsnum) : Response jsnum :=
  match req with
  | ZItemsPage 1 =>
      RespOk (VObj [("items", VArr [item_A]);
                    ("page_context", VObj [("has_more_page", VBool true)])])
  | ZItemsPage 2 =>
      RespOk (VObj [("items", VArr [item_A_on_hand]);
                    ("page_context", VObj [("has_more_page", VBool false)])])
  | _ => backend [] req
  end.

Definition world_two_pages : World jsnum := {|
  zoho_accounts := RespOk (VObj [("access_token", VStr "T")]);
  zoho_api := backend_two_pages;
  shopify_outage := fun _ => None;
  shop := VObj [("primary_location_id", VNum (Int 7))];
  variant_search := fun q id => true;
  price_kept := fun p => p;
  variants := [variant_A];
  inventory_levels := []
|}.

Definition start (w : World jsnum) : State jsnum :=
  {| world := w; trace := []; console := [] |}.

Definition s0 : State jsnum := start (world_with [item_A]).

(** A backend webhook with a wrong signature and a wrong secret. *)
Definition forged_webhook : Request jsnum := {|
  headers := [("x-zoho-webhook-signature", "bogus");
              ("x-webhook-secret", "wrong")];
  rawBody := Some "{}";
  body := VObj []
|}.

(** A backend webhook that presents the shared secret, for the item ["A"]. *)
Definition item_webhook : Request jsnum := {|
  headers := [("x-webhook-secret", "s3cret")];
  rawBody := None;
  body := VObj [("sku", VStr "A"); ("rate", VNum (Int 12));
                ("available_stock", VNum (Int 5))]
|}.

(** A backend webhook for an inventory adjustment with two lines for the
    item ["A"], the second of which corrects the first. *)
Definition adjustment_webhook : Request jsnum := {|
  headers := [("x-webhook-secret", "s3cret")];
  rawBody := None;
  body := VObj [("inventory_adjustment",
                 VObj [("inventory_adjustment_id", VStr "IA-1");
                       ("line_items",
                        VArr [VObj [("item_id", VStr "9001");
                                    ("new_quantity", VNum (Int 8))];
                              VObj [("item_id", VStr "9001");
                                    ("new_quantity", VNum (Int 3))]])])]
|}.

(** A storefront order without a signature header, and with a wrong one. *)
Definition order_AB : value jsnum :=
  VObj [("id", VNum (Int 4711)); ("email", VStr "ann@example.com");
        ("line_items",
         VArr [VObj [("sku", VStr "A"); ("quantity", VNum (Int 2))];
               VObj [("sku", VStr "B"); ("quantity", VNum (Int 1))]])].

(** The same order without a customer email. *)
Definition order_AB_anonymous : value jsnum :=
  VObj [("id", VNum (Int 4711));
        ("line_items",
         VArr [VObj [("sku", VStr "A"); ("quantity", VNum (Int 2))];
               VObj [("sku", VStr "B"); ("quantity", VNum (Int 1))]])].

Definition line_A : value jsnum :=
  VObj [("sku", VStr "A"); ("quantity", VNum (Int 2))].

Definition line_B : value jsnum :=
  VObj [("sku", VStr "B"); ("quantity", VNum (Int 1))].

(** What the backend of [world_with] returns for a search. *)
Definition catalog (q : string) : list (value jsnum) :=
  if q =? "A" then [item_A] else [].

Definition unsigned_order : Request jsnum :=
  {| headers := []; rawBody := Some "{}"; body := order_AB |}.

Definition missigned_order : Request jsnum :=
  {| headers := [("x-shopify-hmac-sha256", "bogus")];
     rawBody := Some "{}"; body := order_AB |}.

(** The world of [world_with] when the backend has no contact yet, and
    when the shop names no primary location. *)
Definition world_without_contacts : World jsnum := {|
  zoho_accounts := RespOk (VObj [("access_token", VStr "T")]);
  zoho_api := fun req =>
    match req with
    | ZContactsByEmail _ => RespOk (VObj [("contacts", VArr [])])
    | _ => backend [item_A] req
    end;
  shopify_outage := fun _ => None;
  shop := VObj [("primary_location_id", VNum (Int 7))];
  variant_search := fun q id => true;
  price_kept := fun p => p;
  variants := [variant_A];
  inventory_levels := []
|}.

Definition world_without_location : World jsnum := {|
  zoho_accounts := RespOk (VObj [("access_token", VStr "T")]);
  zoho_api := backend [item_A];
  shopify_outage := fun _ => None;
  shop := VObj [("name", VStr "Shop")];
  variant_search := fun q id => true;
  price_kept := fun p => p;
  variants := [variant_A];
  inventory_levels := []
|}.

(** An order whose only line has no backend item. *)
Definition order_B : value jsnum :=
  VObj [("id", VNum (Int 4712)); ("email", VStr "ann@example.com");
        ("line_items", VArr [line_B])].

(** Backend webhooks: one that names the secret after [Bearer], one whose
    first secret header is wrong and whose second is right, and one that
    presents the secret and carries nothing. *)
Definition bearer_webhook : Request jsnum := {|
  headers := [("x-zoho-webhook-signature", "bogus");
              ("authorization", "Bearer s3cret")];
  rawBody := None;
  body := VObj [("sku", VStr "A"); ("available_stock", VNum (Int 5))]
|}.

Definition masked_webhook : Request jsnum := {|
  headers := [("x-webhook-secret", "wrong");
              ("x-zoho-webhook-secret", "s3cret")];
  rawBody := None;
  body := VObj [("sku", VStr "A"); ("available_stock", VNum (Int 5))]
|}.

Definition empty_webhook : Request jsnum := {|
  headers := [("x-webhook-secret", "s3cret")];
  rawBody := None;
  body := VObj [("name", VStr "Widget")]
|}.

(** A storefront that refuses every price, and one that refuses
    [shop.json] and holds a level of the item of [variant_A]. *)
Definition world_price_refused : World jsnum := {|
  zoho_accounts := RespOk (VObj [("access_token", VStr "T")]);
  zoho_api := backend [item_A];
  shopify_outage := fun req =>
    match req with
    | SPutVariant _ _ => Some (422, "Unprocessable Entity")
    | _ => None
    end;
  shop := VObj [("primary_location_id", VNum (Int 7))];
  variant_search := fun q id => true;
  price_kept := fun p => p;
  variants := [variant_A];
  inventory_levels := []
|}.

Definition world_shop_refused : World jsnum := {|
  zoho_accounts := RespOk (VObj [("access_token", VStr "T")]);
  zoho_api := backend [item_A];
  shopify_outage := fun req =>
    match req with
    | SShop => Some (403, "Forbidden")
    | _ => None
    end;
  shop := VObj [("primary_location_id", VNum (Int 7))];
  variant_search := fun q id => true;
  price_kept := fun p => p;
  variants := [variant_A];
  inventory_levels :=
    [VObj [("inventory_item_id", VNum (Int 100));
           ("location_id", VNum (Int 9)); ("available", VNum (Int 1))]]
|}.

(** An item with the SKU ["B"], which no variant carries: the search of
    the example storefront returns [variant_A] for it.  And a storefront
    that keeps two decimals of the price ["12"]. *)
Definition item_B : value jsnum :=
  VObj [("item_id", VStr "9002"); ("sku", VStr "B"); ("name", VStr "Gadget");
        ("rate", VNum (Int 15))].

Definition world_two_decimals : World jsnum := {|
  zoho_accounts := RespOk (VObj [("access_token", VStr "T")]);
  zoho_api := backend [item_A];
  shopify_outage := fun _ => None;
  shop := VObj [("primary_location_id", VNum (Int 7))];
  variant_search := fun q id => true;
  price_kept := fun p =>
    match p with
    | VStr s => if s =? "12" then VStr "12.00" else p
    | _ => p
    end;
  variants := [variant_A];
  inventory_levels := []
|}.

(** A storefront order with the signature of its body. *)
Definition signed_order : Request jsnum :=
  {| headers := [("x-shopify-hmac-sha256", "b64:hush:{}")];
     rawBody := Some "{}"; body := order_AB |}.

(** A storefront order with a signature header and no body. *)
Definition bodiless_order : Request jsnum :=
  {| headers := [("x-shopify-hmac-sha256", "b64:hush:{}")];
     rawBody := None; body := VUndef |}.

End Demo.

(** * Properties *)

Section Properties.

Context {num : Type} {RT : Runtime num}.

#[local] Abbreviation val := (value num).

#[local] Notation "x <- m ;; k" := (bind m (fun x => k))
  (at level 61, m at next level, right associativity).
#[local] Notation "m ;; k" := (bind m (fun _ => k))
  (at level 61, right associativity).

(** ** Basic facts *)

Lemma timingSafeEqual_eq (a b : list ascii) :
  timingSafeEqual a b = true -> a = b.
Proof.
  revert b; induction a as [|x a IH]; intros [|y b]; simpl; try discriminate.
  - reflexivity.
  - intros H. apply andb_true_iff in H. destruct H as [Hxy Hab].
    apply Ascii.eqb_eq in Hxy. f_equal; auto.
Qed.

Lemma str_or_cases (a b : option string) :
  str_or a b = a \/ str_or a b = b.
Proof. unfold str_or. destruct (env_truthy a); auto. Qed.

(** The signature check accepts only a signature that verifies in base64
    or in hex. *)
Lemma signature_authorized_sound (secret raw sig : string) :
  signature_authorized secret (Some sig) raw = true ->
  signature_valid_base64 secret raw sig \/ signature_valid_hex secret raw sig.
Proof.
  unfold signature_authorized, signature_valid_base64, signature_valid_hex.
  destruct (sig =? ""); [discriminate|].
  destruct (Nat.eqb _ _).
  - intros H. left. now apply timingSafeEqual_eq.
  - intros H. right. now apply String.eqb_eq.
Qed.

Lemma headerSecret_presented (request : Request num) :
  In (headerSecret request) (presented_secrets request)
  \/ headerSecret request = None.
Proof.
  unfold headerSecret, presented_secrets.
  destruct (str_or_cases
              (str_or (header "x-webhook-secret" (headers request))
                      (header "x-zoho-webhook-secret" (headers request)))
              (option_map strip_bearer (header "authorization" (headers request))))
    as [-> | ->].
  - destruct (str_or_cases (header "x-webhook-secret" (headers request))
                           (header "x-zoho-webhook-secret" (headers request)))
      as [-> | ->]; simpl; auto.
  - simpl; auto.
Qed.

(** ** C1: an unauthenticated backend webhook *)

(** C1.  A backend inventory webhook whose signature header does not verify
    against the shared secret, neither in base64 nor in hex, and none of
    whose shared-secret headers carries the configured secret, is answered
    401; the state is left as it was, so no request went to either vendor. *)
Theorem zoho_webhook_unauthenticated
    (env : Env) (request : Request num) (s : State num) :
  (forall secret sig,
      ZOHO_WEBHOOK_SECRET env = Some secret ->
      header "x-zoho-webhook-signature" (headers request) = Some sig ->
      ~ signature_valid_base64 secret (zoho_raw_body request) sig
      /\ ~ signature_valid_hex secret (zoho_raw_body request) sig) ->
  (forall secret,
      ZOHO_WEBHOOK_SECRET env = Some secret ->
      ~ In (Some secret) (presented_secrets request)) ->
  exists reply s',
    zoho_webhook_handler env request s = (Return reply, s')
    /\ code reply = 401
    /\ trace s' = trace s
    /\ world s' = world s.
Proof.
  intros Hsig Hsecret.
  exists unauthorized, s.
  split; [|repeat split].
  unfold zoho_webhook_handler, try_catch.
  destruct (ZOHO_WEBHOOK_SECRET env) as [secret|] eqn:E; [|reflexivity].
  destruct (secret =? ""); [reflexivity|].
  assert (Hno : zoho_authorized secret request = false).
  { unfold zoho_authorized.
    destruct (signature_authorized secret _ _) eqn:Es.
    - exfalso.
      destruct (header "x-zoho-webhook-signature" (headers request))
        as [sig|] eqn:Eh; [|discriminate].
      destruct (Hsig secret sig eq_refl eq_refl) as [H64 Hhex].
      destruct (signature_authorized_sound _ _ _ Es); auto.
    - simpl.
      destruct (headerSecret request) as [h|] eqn:Eh; [|reflexivity].
      destruct (h =? secret) eqn:Ehs; [|now rewrite andb_false_r].
      apply String.eqb_eq in Ehs. subst h.
      exfalso. apply (Hsecret secret eq_refl).
      destruct (headerSecret_presented request) as [H|H];
        rewrite Eh in H; [assumption|discriminate]. }
  rewrite Hno. reflexivity.
Qed.

(** ** C9 and C10: the development-mode bypass of the storefront webhook *)

(** Once the signature is accepted, the storefront handler answers 200, or
    500 when processing throws; never 401. *)
Lemma order_created_process_code (env : Env) (request : Request num)
    (s : State num) :
  exists reply s',
    try_catch (order_created_process env request) order_created_failure s
    = (Return reply, s')
    /\ (code reply = 200 \/ code reply = 500).
Proof.
  unfold try_catch, order_created_process, bind.
  destruct (parse_body (body request) s) as [[order|e] s1].
  - match goal with
    | |- context [match ?m s1 with _ => _ end] =>
        destruct (m s1) as [[u|e] s2]
    end; unfold order_created_failure, bind, log, ret; simpl; eauto 6.
  - unfold order_created_failure, bind, log, ret; simpl. eauto 6.
Qed.

(** C9.  In development mode a storefront order-created request without an
    [x-shopify-hmac-sha256] header is not verified: after two console
    lines the handler is the processing of the order, and its answer is
    not 401. *)
Theorem dev_mode_missing_hmac_is_processed
    (env : Env) (request : Request num) (s : State num) :
  NODE_ENV env = Some "development" ->
  header "x-shopify-hmac-sha256" (headers request) = None ->
  exists s0 reply s',
    world s0 = world s /\ trace s0 = trace s
    /\ order_created_handler env request s
       = try_catch (order_created_process env request) order_created_failure s0
    /\ order_created_handler env request s = (Return reply, s')
    /\ code reply <> 401.
Proof.
  intros Hdev Hno.
  unfold order_created_handler, order_created_check, IS_DEVELOPMENT.
  rewrite Hdev, Hno. simpl.
  unfold try_catch at 1. unfold bind, log, ret. simpl.
  match goal with
  | |- context [order_created_process env request ?s1] =>
      exists s1; destruct (order_created_process_code env request s1)
        as (reply & s' & Hrun & Hcode)
  end.
  exists reply, s'. unfold try_catch in Hrun |- *.
  repeat split; try reflexivity.
  - exact Hrun.
  - destruct Hcode as [-> | ->]; discriminate.
Qed.

(** [verifyHmac] reads no state: it returns a boolean or throws. *)
Lemma verifyHmac_pure (env : Env) (h raw : option string) :
  exists out, forall s : State num, verifyHmac env h raw s = (out, s).
Proof.
  unfold verifyHmac.
  destruct (negb (env_truthy h) || _); [eexists; reflexivity|].
  destruct h; [|eexists; reflexivity].
  destruct (SHOPIFY_WEBHOOK_SHARED_SECRET env); [|eexists; reflexivity].
  destruct raw; [|eexists; reflexivity].
  destruct (negb _); eexists; reflexivity.
Qed.

(** A header that does not verify is refused by [verifyHmac]. *)
Lemma verifyHmac_refuses (env : Env) (request : Request num) (h : string)
    (s : State num) :
  env_truthy (SHOPIFY_WEBHOOK_SHARED_SECRET env) = false
  \/ (exists secret raw,
         SHOPIFY_WEBHOOK_SHARED_SECRET env = Some secret
         /\ hmac_body request = Some raw
         /\ ~ hmac_valid secret raw h) ->
  verifyHmac env (Some h) (hmac_body request) s = (Return false, s).
Proof.
  unfold verifyHmac.
  intros [Hsec | (secret & raw & Hsec & Hraw & Hbad)].
  - rewrite Hsec. simpl. rewrite orb_true_r. reflexivity.
  - rewrite Hsec, Hraw.
    destruct (negb (env_truthy (Some h)) || _); [reflexivity|].
    destruct (Nat.eqb _ _); simpl; [|reflexivity].
    destruct (timingSafeEqual _ _) eqn:Et; [|reflexivity].
    exfalso. apply Hbad. now apply timingSafeEqual_eq.
Qed.

(** C10.  In development mode the storefront handler never answers 401;
    and a request whose signature header is present but does not verify
    (no secret is configured, or the header is not the digest of the body)
    is processed like a verified one. *)
Theorem dev_mode_never_rejects
    (env : Env) (request : Request num) (s : State num) :
  NODE_ENV env = Some "development" ->
  (exists reply s',
      order_created_handler env request s = (Return reply, s')
      /\ code reply <> 401)
  /\ (forall h,
        header "x-shopify-hmac-sha256" (headers request) = Some h ->
        env_truthy (SHOPIFY_WEBHOOK_SHARED_SECRET env) = false
        \/ (exists secret raw,
               SHOPIFY_WEBHOOK_SHARED_SECRET env = Some secret
               /\ hmac_body request = Some raw
               /\ ~ hmac_valid secret raw h) ->
        exists s0,
          world s0 = world s /\ trace s0 = trace s
          /\ order_created_handler env request s
             = try_catch (order_created_process env request)
                         order_created_failure s0).
Proof.
  intros Hdev.
  assert (Hshape :
    (exists s0, order_created_handler env request s
           = try_catch (order_created_process env request)
                       order_created_failure s0)
    \/ (exists e s0, order_created_handler env request s
                     = order_created_failure e s0)).
  { unfold order_created_handler, order_created_check, IS_DEVELOPMENT.
    rewrite Hdev. simpl.
    destruct (env_truthy (header "x-shopify-hmac-sha256" (headers request)));
      simpl.
    - destruct (verifyHmac_pure env
                  (header "x-shopify-hmac-sha256" (headers request))
                  (hmac_body request)) as [[[|]|e] Hv];
        [left; eexists | left; eexists | right; eexists _, _];
        unfold try_catch at 1; unfold bind, log, ret; simpl;
        rewrite Hv; simpl; reflexivity.
    - left. unfold try_catch at 1. unfold bind, log, ret. simpl.
      eexists; reflexivity. }
  split.
  - destruct Hshape as [(s0 & ->) | (e & s0 & ->)].
    + destruct (order_created_process_code env request s0)
        as (reply & s' & Hrun & Hcode).
      exists reply, s'. split; [exact Hrun|].
      destruct Hcode as [-> | ->]; discriminate.
    + unfold order_created_failure, bind, log, ret. simpl.
      eexists _, _. split; [reflexivity|]. simpl. discriminate.
  - intros h Hh Hfail.
    assert (Hd : IS_DEVELOPMENT env = true)
      by (unfold IS_DEVELOPMENT; rewrite Hdev; reflexivity).
    unfold order_created_handler, order_created_check. rewrite Hd, Hh.
    destruct (env_truthy (Some h)) eqn:Eh.
    + unfold try_catch at 1. unfold bind, log, ret. cbn [andb negb].
      rewrite (verifyHmac_refuses env request _ Hfail). cbn [negb world trace].
      eexists. split; [|split; [|reflexivity]]; reflexivity.
    + unfold try_catch at 1. unfold bind, log, ret. cbn [andb negb].
      eexists. split; [|split; [|reflexivity]]; reflexivity.
Qed.

(** ** C8: missing configuration *)

Lemma requireEnv_missing (v : option string) (name : string) (s : State num) :
  env_truthy v = false ->
  requireEnv v name s = (Throw (ConfigurationError name), s).
Proof.
  unfold requireEnv, env_truthy, ConfigurationError.
  destruct v as [x|]; [|reflexivity].
  destruct (x =? ""); [reflexivity|discriminate].
Qed.

Lemma requireEnv_present (v : option string) (name : string) (s : State num) :
  env_truthy v = true ->
  exists x, v = Some x /\ requireEnv v name s = (Return x, s).
Proof.
  unfold requireEnv, env_truthy.
  destruct v as [x|]; [|discriminate].
  destruct (x =? ""); [discriminate|]. eauto.
Qed.

(** Unfolds the monad around a [requireEnv] whose value is known. *)
Ltac require_env H :=
  match type of H with
  | env_truthy ?v = false =>
      unfold bind at 1; rewrite (requireEnv_missing v _ _ H)
  | env_truthy ?v = true =>
      let x := fresh "x" in
      let Hx := fresh "Hx" in
      let Hr := fresh "Hr" in
      unfold bind at 1;
      match goal with
      | |- context [requireEnv v ?name ?s] =>
          destruct (requireEnv_present v name s H) as (x & Hx & Hr);
          rewrite Hr; clear Hr
      end
  end.

Lemma missing_configuration_fails_storefront (env : Env) (name : string) :
  first_missing (shopify_required env) = Some name ->
  forall req (s : State num),
    exists e, shopifyFetch env req s = (Throw e, s)
              /\ e = ConfigurationError name.
Proof.
  intros Hm req s. unfold shopify_required, first_missing in Hm.
  unfold shopifyFetch, shopifyURL.
  destruct (env_truthy (SHOPIFY_ACCESS_TOKEN env)) eqn:E1.
  - destruct (env_truthy (SHOPIFY_STORE_DOMAIN env)) eqn:E2; [discriminate|].
    injection Hm as <-.
    require_env E1. require_env E2. eauto.
  - injection Hm as <-. require_env E1. eauto.
Qed.


Lemma ends_with_app (suffix name : string) :
  ends_with suffix (name ++ suffix) = true.
Proof.
  induction name as [|c name IH]; simpl.
  - destruct suffix; simpl; [reflexivity|].
    now rewrite Ascii.eqb_refl, String.eqb_refl.
  - rewrite IH. apply orb_true_r.
Qed.

(** ** Relations every step of a computation keeps

    [R] relates the state before and after a step; when it is reflexive and
    transitive and the requests a computation may send keep it, the whole
    computation keeps it. *)

Section Frame.

Variable R : State num -> State num -> Prop.
Hypothesis R_refl : forall s, R s s.
Hypothesis R_trans : forall a b c, R a b -> R b c -> R a c.

Lemma keeps_ret {A} (a : A) : keeps R (ret a).
Proof. intros s. apply R_refl. Qed.

Lemma keeps_throw {A} (e : error) : keeps R (@throw num A e).
Proof. intros s. apply R_refl. Qed.

Lemma keeps_bind {A B} (m : M num A) (k : A -> M num B) :
  keeps R m -> (forall a, keeps R (k a)) -> keeps R (bind m k).
Proof.
  intros Hm Hk s. unfold bind. specialize (Hm s).
  destruct (m s) as [[a|e] s1]; simpl in *; [|assumption].
  eapply R_trans; [exact Hm|apply Hk].
Qed.

Lemma keeps_try_catch {A} (m : M num A) (h : error -> M num A) :
  keeps R m -> (forall e, keeps R (h e)) -> keeps R (try_catch m h).
Proof.
  intros Hm Hh s. unfold try_catch. specialize (Hm s).
  destruct (m s) as [[a|e] s1]; simpl in *; [assumption|].
  eapply R_trans; [exact Hm|apply Hh].
Qed.

Lemma keeps_for_each {A} (l : list A) (body : A -> M num unit) :
  (forall x, keeps R (body x)) -> keeps R (for_each l body).
Proof.
  intros Hb. induction l as [|x l IH]; simpl.
  - apply keeps_ret.
  - apply keeps_bind; auto.
Qed.

Lemma keeps_for_fold {A B} (l : list A) (acc : B) (body : B -> A -> M num B) :
  (forall b x, keeps R (body b x)) -> keeps R (for_fold l acc body).
Proof.
  intros Hb. revert acc. induction l as [|x l IH]; intros acc; simpl.
  - apply keeps_ret.
  - apply keeps_bind; auto.
Qed.

Lemma keeps_member (o : val) (k : string) : keeps R (member o k).
Proof. unfold member. destruct (nullish o); [apply keeps_throw|apply keeps_ret]. Qed.

Lemma keeps_requireEnv (v : option string) (name : string) :
  keeps R (requireEnv v name).
Proof.
  unfold requireEnv. destruct v as [x|]; [destruct (x =? "")|];
    first [apply keeps_throw|apply keeps_ret].
Qed.

Lemma keeps_iterate_or_throw (v : val) : keeps R (iterate_or_throw v).
Proof.
  unfold iterate_or_throw. destruct (iterate v);
    [apply keeps_ret|apply keeps_throw].
Qed.

Hypothesis R_log : forall lv message args, keeps R (log lv message args).

Variable allowed : Call num -> bool.
Hypothesis R_fetch : forall c, allowed c = true -> keeps R (fetch c).

Variable env : Env.

(** One step of a proof that a computation keeps [R]. *)
Ltac keeps_step :=
  match goal with
  | |- keeps R (bind _ _) => apply keeps_bind; [|intros ?]
  | |- keeps R (ret _) => apply keeps_ret
  | |- keeps R (throw _) => apply keeps_throw
  | |- keeps R (try_catch _ _) => apply keeps_try_catch; [|intros ?]
  | |- keeps R (log _ _ _) => apply R_log
  | |- keeps R (member _ _) => apply keeps_member
  | |- keeps R (requireEnv _ _) => apply keeps_requireEnv
  | |- keeps R (iterate_or_throw _) => apply keeps_iterate_or_throw
  | |- keeps R (for_each _ _) => apply keeps_for_each; intros ?
  | |- keeps R (for_fold _ _ _) => apply keeps_for_fold; intros ? ?
  | |- keeps R (fetch _) => apply R_fetch; auto
  | |- keeps R (let _ := _ in _) => cbv zeta
  | |- keeps R (if ?b then _ else _) => destruct b
  | |- keeps R (match ?x with _ => _ end) => destruct x
  | |- keeps R _ => solve [auto]
  end.

Section Storefront.

Lemma keeps_shopifyFetch (req : ShopifyReq num) :
  (forall domain token, allowed (ShopifyCall domain token req) = true) ->
  keeps R (shopifyFetch env req).
Proof.
  intros H. unfold shopifyFetch, shopifyURL, response_json. repeat keeps_step.
Qed.

Lemma keeps_find_by_sku (sku : val) (l : list val) : keeps R (find_by_sku sku l).
Proof. induction l as [|v l IH]; simpl; repeat keeps_step. Qed.

Hypothesis search_allowed :
  forall domain token q,
    allowed (ShopifyCall domain token (SVariantsBySku q)) = true.

Lemma keeps_findVariantBySKU (sku : val) : keeps R (findVariantBySKU env sku).
Proof.
  pose proof keeps_find_by_sku.
  unfold findVariantBySKU, find_in. repeat keeps_step.
  apply keeps_shopifyFetch. auto.
Qed.

Hypothesis price_allowed :
  forall domain token id body,
    allowed (ShopifyCall domain token (SPutVariant id body)) = true.

Lemma keeps_updateVariantPrice (id price : val) :
  keeps R (updateVariantPrice env id price).
Proof. unfold updateVariantPrice. apply keeps_shopifyFetch. auto. Qed.

Lemma keeps_sync_item_price (item variant : val) :
  keeps R (sync_item_price env item variant).
Proof.
  pose proof keeps_updateVariantPrice.
  unfold sync_item_price. repeat keeps_step.
Qed.

Hypothesis location_allowed :
  forall domain token,
    allowed (ShopifyCall domain token SShop) = true
    /\ forall id, allowed (ShopifyCall domain token (SInventoryLevels id)) = true.

Lemma keeps_getLocationIdForItem (id : val) :
  keeps R (getLocationIdForItem env id).
Proof.
  unfold getLocationIdForItem, getPrimaryLocationId. repeat keeps_step;
    apply keeps_shopifyFetch; intros; apply location_allowed.
Qed.

Hypothesis stock_allowed :
  forall domain token body,
    allowed (ShopifyCall domain token (SSetInventoryLevel body)) = true.

Lemma keeps_setInventoryLevel (id available loc : val) :
  keeps R (setInventoryLevel env id available loc).
Proof.
  pose proof keeps_getLocationIdForItem.
  unfold setInventoryLevel. repeat keeps_step.
  apply keeps_shopifyFetch. auto.
Qed.

Lemma keeps_sync_item_stock (item variant : val) :
  keeps R (sync_item_stock env item variant).
Proof.
  pose proof keeps_setInventoryLevel.
  unfold sync_item_stock. repeat keeps_step.
Qed.

Lemma keeps_sync_item (item : val) : keeps R (sync_item env item).
Proof.
  pose proof keeps_findVariantBySKU. pose proof keeps_sync_item_price.
  pose proof keeps_sync_item_stock.
  unfold sync_item. repeat keeps_step.
Qed.

End Storefront.

Section Backend.

Hypothesis token_allowed :
  forall a b c d, allowed (ZohoTokenCall a b c d) = true.
Hypothesis zoho_allowed :
  forall base org token req, allowed (ZohoCall base org token req) = true.

Lemma keeps_zohoFetch (req : ZohoReq num) : keeps R (zohoFetch env req).
Proof.
  unfold zohoFetch, getZohoAccessToken, response_json. repeat keeps_step.
Qed.

Lemma keeps_findZohoItemBySKU (sku : val) : keeps R (findZohoItemBySKU env sku).
Proof.
  pose proof keeps_zohoFetch. pose proof keeps_find_by_sku.
  unfold findZohoItemBySKU, find_in. repeat keeps_step.
Qed.

Lemma keeps_getZohoItemById (id : val) : keeps R (getZohoItemById env id).
Proof.
  pose proof keeps_zohoFetch. unfold getZohoItemById. repeat keeps_step.
Qed.

Lemma keeps_getOrCreateZohoContactByEmail (email name : val) :
  keeps R (getOrCreateZohoContactByEmail env email name).
Proof.
  pose proof keeps_zohoFetch.
  unfold getOrCreateZohoContactByEmail. repeat keeps_step.
Qed.

Lemma keeps_createZohoSalesOrder (input : SalesOrderInput num) :
  keeps R (createZohoSalesOrder env input).
Proof.
  pose proof keeps_zohoFetch. pose proof keeps_findZohoItemBySKU.
  pose proof keeps_getOrCreateZohoContactByEmail.
  unfold createZohoSalesOrder. repeat keeps_step.
Qed.

Lemma keeps_push_line (acc : list (LineItem num)) (li : val) :
  keeps R (push_line env acc li).
Proof.
  pose proof keeps_findZohoItemBySKU. unfold push_line. repeat keeps_step.
Qed.

Lemma keeps_pushShopifyOrderToZoho (order : val) :
  keeps R (pushShopifyOrderToZoho env order).
Proof.
  pose proof keeps_push_line. pose proof keeps_createZohoSalesOrder.
  unfold pushShopifyOrderToZoho. repeat keeps_step.
Qed.

End Backend.

End Frame.

(** ** What a computation can return *)

Lemma returns_ret {A} (P : A -> Prop) (a : A) :
  P a -> returns P (ret a : M num A).
Proof. intros H s a' s' E. injection E as <- _. exact H. Qed.

Lemma returns_throw {A} (P : A -> Prop) (e : error) :
  returns P (throw e : M num A).
Proof. intros s a s' E. discriminate. Qed.

Lemma returns_bind {A B} (P : B -> Prop) (m : M num A) (k : A -> M num B) :
  (forall a, returns P (k a)) -> returns P (bind m k).
Proof.
  intros Hk s b s' E. unfold bind in E.
  destruct (m s) as [[a|e] s1]; [|discriminate]. exact (Hk a s1 b s' E).
Qed.

Lemma returns_try_catch {A} (P : A -> Prop) (m : M num A)
    (h : error -> M num A) :
  returns P m -> (forall e, returns P (h e)) -> returns P (try_catch m h).
Proof.
  intros Hm Hh s a s' E. unfold try_catch in E.
  destruct (m s) as [[a0|e] s1] eqn:Em.
  - injection E as <- <-. exact (Hm s a0 s1 Em).
  - exact (Hh e s1 a s' E).
Qed.

(** One step of a proof about the value a computation returns. *)
Ltac returns_step :=
  match goal with
  | |- returns _ (bind _ _) => apply returns_bind; intros ?
  | |- returns _ (ret _) => apply returns_ret
  | |- returns _ (throw _) => apply returns_throw
  | |- returns _ (try_catch _ _) => apply returns_try_catch; [|intros ?]
  | |- returns _ (let _ := _ in _) => cbv zeta
  | |- returns _ (if ?b then _ else _) => destruct b
  | |- returns _ (match ?x with _ => _ end) => destruct x
  end.

(** ** C6: what an authenticated webhook is answered *)

Lemma zoho_webhook_process_code (env : Env) (request : Request num) :
  returns (fun reply => code reply = 200) (zoho_webhook_process env request).
Proof.
  unfold zoho_webhook_process, zoho_item_update, zoho_adjustment.
  repeat returns_step; reflexivity.
Qed.

Lemma order_created_process_returns (env : Env) (request : Request num) :
  returns (fun reply => code reply = 200) (order_created_process env request).
Proof. unfold order_created_process. repeat returns_step; reflexivity. Qed.

(** A line of an inventory adjustment never throws. *)
Lemma zoho_adjustment_line_returns (env : Env) (adj li : val) (s : State num) :
  exists u s', zoho_adjustment_line env adj li s = (Return u, s').
Proof.
  unfold zoho_adjustment_line, try_catch.
  match goal with
  | |- context [match ?m s with _ => _ end] => destruct (m s) as [[u|e] s1]
  end; unfold ret; eauto.
Qed.

Lemma zoho_adjustment_returns (env : Env) (body : val) (s : State num) :
  exists reply s',
    zoho_adjustment env body s = (Return reply, s') /\ code reply = 200.
Proof.
  unfold zoho_adjustment.
  set (adj := js_or (get "inventory_adjustment" body) (VObj [])).
  assert (Hloop : forall lines acc s0, exists updates s1,
             for_fold lines acc
               (fun acc li =>
                  u <- zoho_adjustment_line env adj li ;; ret (acc ++ [u])%list)
               s0 = (Return updates, s1)).
  { induction lines as [|li lines IH]; intros acc s0; simpl.
    - unfold ret. eauto.
    - unfold bind at 1. unfold bind at 1.
      destruct (zoho_adjustment_line_returns env adj li s0) as (u & s1 & ->).
      unfold ret at 1. apply IH. }
  unfold bind at 1.
  destruct (Hloop (array_or_empty (get "line_items" adj)) [] s)
    as (updates & s1 & ->).
  unfold ret. eauto.
Qed.

(** When no search of the backend finds an item, the lines of an order are
    all skipped. *)
Lemma unresolved_lines_are_skipped (env : Env) (w : World num)
    (lines : list val) :
  (forall sku s1, world s1 = w ->
     exists v s2, findZohoItemBySKU env sku s1 = (Return v, s2)
                  /\ truthy v = false /\ world s2 = w) ->
  forall s1, world s1 = w ->
  exists s2,
    for_fold lines [] (push_line env) s1 = (Return [], s2) /\ world s2 = w.
Proof.
  intros Hnone. induction lines as [|li lines IH]; intros s1 Hw; simpl.
  - unfold ret. eauto.
  - unfold bind at 1. unfold push_line.
    destruct (negb (truthy (get "sku" li))).
    { unfold bind at 1. unfold log at 1. unfold ret at 1. apply IH. exact Hw. }
    destruct (negb (is_number (get "quantity" li))).
    { unfold bind at 1. unfold log at 1. unfold ret at 1. apply IH. exact Hw. }
    unfold bind at 1. unfold log at 1. unfold bind at 1.
    match goal with
    | |- context [findZohoItemBySKU env ?sku ?s] =>
        destruct (Hnone sku s Hw) as (v & s2 & -> & Hv & Hw2)
    end.
    rewrite Hv. cbn [negb]. unfold bind at 1. unfold log at 1.
    unfold ret at 1. apply IH. exact Hw2.
Qed.

(** C6, as the code has it.  A webhook request that passes authentication
    is never answered 401: it is answered 200 when its processing completes
    and 500 when its processing throws, and 401 only when authentication
    fails.  Processing completes, with 200, when the SKU of an item update
    finds no storefront variant, for every inventory adjustment, and when
    no line of an order finds a backend item. *)
Theorem authenticated_webhook_is_answered (env : Env) :
  (forall request (s : State num),
     zoho_authenticated env request = true ->
     (forall reply s',
        zoho_webhook_process env request s = (Return reply, s') ->
        zoho_webhook_handler env request s = (Return reply, s')
        /\ code reply = 200)
     /\ (forall e s',
          zoho_webhook_process env request s = (Throw e, s') ->
          exists reply s'',
            zoho_webhook_handler env request s = (Return reply, s'')
            /\ code reply = 500))
  /\ (forall request (s : State num) reply s',
        zoho_webhook_handler env request s = (Return reply, s') ->
        code reply = 401 -> zoho_authenticated env request = false)
  /\ (forall body (s : State num) v s1,
        truthy (pickSKU body) = true ->
        findVariantBySKU env (pickSKU body) s = (Return v, s1) ->
        truthy v = false ->
        exists reply,
          zoho_item_update env body s = (Return reply, s1) /\ code reply = 200)
  /\ (forall body (s : State num),
        exists reply s',
          zoho_adjustment env body s = (Return reply, s') /\ code reply = 200)
  /\ (forall request (s : State num) s1,
        order_created_check env request
          (snd (log LogLevel (hmac_body_note request) [] s))
        = (Return true, s1) ->
        (forall reply s',
           order_created_process env request s1 = (Return reply, s') ->
           order_created_handler env request s = (Return reply, s')
           /\ code reply = 200)
        /\ (forall e s',
             order_created_process env request s1 = (Throw e, s') ->
             exists reply s'',
               order_created_handler env request s = (Return reply, s'')
               /\ code reply = 500))
  /\ (forall request (s : State num) reply s',
        order_created_handler env request s = (Return reply, s') ->
        code reply = 401 ->
        exists s1,
          order_created_check env request
            (snd (log LogLevel (hmac_body_note request) [] s))
          = (Return false, s1))
  /\ (forall request order lines (s : State num),
        parse_body (body request) s = (Return order, s) ->
        iterate (js_or (get "line_items" order) (VArr [])) = Some lines ->
        (forall sku s1, world s1 = world s ->
           exists v s2, findZohoItemBySKU env sku s1 = (Return v, s2)
                        /\ truthy v = false /\ world s2 = world s) ->
        exists reply s',
          order_created_process env request s = (Return reply, s')
          /\ code reply = 200).
Proof.
  split; [|split; [|split; [|split; [|split; [|split]]]]].
  - intros request s Hauth. unfold zoho_authenticated in Hauth.
    unfold zoho_webhook_handler, try_catch.
    destruct (ZOHO_WEBHOOK_SECRET env) as [secret|]; [|discriminate].
    destruct (secret =? ""); [discriminate|]. simpl in Hauth.
    rewrite Hauth. cbn [negb]. split.
    + intros reply s' Hrun. rewrite Hrun. split; [reflexivity|].
      exact (@zoho_webhook_process_code env request s reply s' Hrun).
    + intros e s' Hrun. rewrite Hrun.
      unfold zoho_webhook_failure, bind, log, ret. eauto.
  - intros request s reply s' Hrun Hcode.
    destruct (zoho_authenticated env request) eqn:Hauth; [|reflexivity].
    exfalso. unfold zoho_authenticated in Hauth.
    unfold zoho_webhook_handler, try_catch in Hrun.
    destruct (ZOHO_WEBHOOK_SECRET env) as [secret|]; [|discriminate].
    destruct (secret =? ""); [discriminate|]. simpl in Hauth.
    rewrite Hauth in Hrun. cbn [negb] in Hrun.
    destruct (zoho_webhook_process env request s) as [[r|e] s1] eqn:Ep.
    + injection Hrun as <- <-.
      rewrite (@zoho_webhook_process_code env request s r s1 Ep) in Hcode.
      discriminate.
    + unfold zoho_webhook_failure, bind, log, ret in Hrun.
      injection Hrun as <- <-. discriminate.
  - intros body s v s1 Hsku Hfind Hv. unfold zoho_item_update.
    rewrite Hsku. cbn [negb]. unfold bind at 1. rewrite Hfind, Hv.
    cbn [negb]. unfold ret. eauto.
  - intros body s. apply zoho_adjustment_returns.
  - intros request s s1 Hcheck.
    assert (Hh : order_created_handler env request s
                 = try_catch (order_created_process env request)
                             order_created_failure s1).
    { unfold order_created_handler, try_catch. unfold bind at 1.
      unfold log at 1. unfold bind at 1. unfold log at 1 in Hcheck.
      cbn [snd] in Hcheck. rewrite Hcheck. reflexivity. }
    rewrite Hh. unfold try_catch. split.
    + intros reply s' Hrun. rewrite Hrun. split; [reflexivity|].
      exact (@order_created_process_returns env request s1 reply s' Hrun).
    + intros e s' Hrun. rewrite Hrun.
      unfold order_created_failure, bind, log, ret. eauto.
  - intros request s reply s' Hrun Hcode.
    unfold order_created_handler in Hrun.
    unfold try_catch in Hrun. unfold bind at 1 in Hrun.
    unfold log at 1 in Hrun. unfold bind at 1 in Hrun.
    unfold log at 1. cbn [snd].
    match goal with
    | |- context [order_created_check env request ?s0] =>
        destruct (order_created_check env request s0) as [[[|]|e] s1] eqn:Ec
    end.
    + exfalso. cbn [negb] in Hrun.
      destruct (order_created_process env request s1) as [[r|e] s2] eqn:Ep.
      * injection Hrun as <- <-.
        rewrite (@order_created_process_returns env request s1 r s2 Ep) in Hcode.
        discriminate.
      * unfold order_created_failure, bind, log, ret in Hrun.
        injection Hrun as <- <-. discriminate.
    + eauto.
    + exfalso. unfold order_created_failure, bind, log, ret in Hrun.
      injection Hrun as <- <-. discriminate.
  - intros request order lines s Hparse Hiter Hnone.
    unfold order_created_process. unfold bind at 1. rewrite Hparse.
    unfold bind at 1.
    destruct (truthy (order_email order)) eqn:Eemail.
    + unfold bind at 1. unfold log at 1. unfold bind at 1.
      unfold pushShopifyOrderToZoho. rewrite Eemail. cbn [negb].
      unfold bind at 1. unfold iterate_or_throw. rewrite Hiter.
      unfold ret at 1. unfold bind at 1.
      match goal with
      | |- context [for_fold lines [] (push_line env) ?s0] =>
          destruct (unresolved_lines_are_skipped env lines Hnone s0 eq_refl)
            as (s2 & -> & Hw)
      end.
      simpl. unfold bind, log, ret. eauto.
    + unfold log, ret. eauto.
Qed.

(** ** The storefront client, request by request *)

Lemma emits_refl P (s : State num) : emits P s s.
Proof. exists []. now rewrite app_nil_r. Qed.

Lemma emits_trans P (a b c : State num) :
  emits P a b -> emits P b c -> emits P a c.
Proof.
  intros (t & Ht & Hp) (u & Hu & Hq). exists (t ++ u)%list.
  rewrite Hu, Ht, app_assoc, forallb_app, Hp, Hq. now split.
Qed.

Lemma emits_log P lv message (args : list val) :
  keeps (emits P) (log lv message args).
Proof. intros s. exists []. simpl. now rewrite app_nil_r. Qed.

Lemma emits_fetch P (c : Call num) : P c = true -> keeps (emits P) (fetch c).
Proof.
  intros Hc s. unfold fetch. destruct (respond (world s) c) as [r w].
  exists [c]. simpl. now rewrite Hc.
Qed.

Lemma lookup_set_field_same (k : string) (v : val) fields :
  lookup k (set_field k v fields) = v.
Proof.
  induction fields as [|[k' v'] rest IH]; simpl.
  - now rewrite String.eqb_refl.
  - destruct (k' =? k) eqn:E; simpl; rewrite E; auto.
Qed.

Lemma lookup_set_field_other (k k' : string) (v : val) fields :
  k <> k' -> lookup k' (set_field k v fields) = lookup k' fields.
Proof.
  intros Hne. induction fields as [|[k0 v0] rest IH]; simpl.
  - destruct (k =? k') eqn:E; [apply String.eqb_eq in E; contradiction|].
    reflexivity.
  - destruct (k0 =? k) eqn:E; simpl.
    + apply String.eqb_eq in E. subst k0.
      destruct (k =? k') eqn:E'; [apply String.eqb_eq in E'; contradiction|].
      reflexivity.
    + destruct (k0 =? k'); auto.
Qed.

Lemma set_field_idempotent (k : string) (v : val) fields :
  set_field k v (set_field k v fields) = set_field k v fields.
Proof.
  induction fields as [|[k' v'] rest IH]; simpl.
  - now rewrite String.eqb_refl.
  - destruct (k' =? k) eqn:E; simpl; rewrite E; [reflexivity|].
    now rewrite IH.
Qed.

(** Storing a price changes nothing else of a variant. *)
Lemma store_price_get (id k : string) (p v : val) :
  k <> "price" -> get k (store_price id p v) = get k v.
Proof.
  intros Hk. unfold store_price. destruct (variant_id v =? id); [|reflexivity].
  destruct v; try reflexivity. simpl.
  apply lookup_set_field_other. congruence.
Qed.

Lemma store_price_truthy (id : string) (p v : val) :
  truthy (store_price id p v) = truthy v.
Proof.
  unfold store_price. destruct (variant_id v =? id); [|reflexivity].
  now destruct v.
Qed.

Lemma store_price_nullish (id : string) (p v : val) :
  nullish v = true -> store_price id p v = v.
Proof.
  unfold store_price. destruct (variant_id v =? id); [|reflexivity].
  now destruct v.
Qed.

Lemma store_price_not_nullish (id : string) (p v : val) :
  nullish v = false -> nullish (store_price id p v) = false.
Proof.
  unfold store_price. destruct (variant_id v =? id); [|auto].
  now destruct v.
Qed.

Lemma store_price_variant_id (id : string) (p v : val) :
  variant_id (store_price id p v) = variant_id v.
Proof. unfold variant_id. rewrite store_price_get; [reflexivity|discriminate]. Qed.

Lemma store_price_idempotent (id : string) (p v : val) :
  store_price id p (store_price id p v) = store_price id p v.
Proof.
  unfold store_price at 1. rewrite store_price_variant_id.
  unfold store_price. destruct (variant_id v =? id); [|reflexivity].
  destruct v; try reflexivity. now rewrite set_field_idempotent.
Qed.

(** [find_by_sku] reads no state. *)
Lemma find_by_sku_pure (sku : val) (l : list val) :
  exists out, forall s : State num, find_by_sku sku l s = (out, s).
Proof.
  induction l as [|v l [out IH]]; simpl.
  - eexists. reflexivity.
  - unfold bind, member. destruct (nullish v).
    + eexists. reflexivity.
    + unfold ret. destruct (strict_eq (get "sku" v) sku).
      * eexists. reflexivity.
      * exists out. exact IH.
Qed.

Lemma response_json_outcome (label : string) (resp : Response num)
    (s : State num) :
  response_json label resp s = (response_outcome label resp, s).
Proof. now destruct resp. Qed.

(** A storefront request with the configuration present: the request is
    sent and the answer is read. *)
Lemma shopifyFetch_configured (env : Env) (req : ShopifyReq num) (s : State num) :
  first_missing (shopify_required env) = None ->
  exists domain token,
    shopifyFetch env req s
    = (response_outcome "Shopify" (fst (shopify_respond (world s) req)),
       snd (fetch (ShopifyCall domain token req) s)).
Proof.
  unfold shopify_required, first_missing. intros Hc.
  destruct (env_truthy (SHOPIFY_ACCESS_TOKEN env)) eqn:E1; [|discriminate].
  destruct (env_truthy (SHOPIFY_STORE_DOMAIN env)) eqn:E2; [|discriminate].
  unfold shopifyFetch, shopifyURL.
  require_env E1. require_env E2.
  exists x0, x. unfold bind, fetch. cbn [respond].
  destruct (shopify_respond (world s) req) as [r w].
  rewrite response_json_outcome. reflexivity.
Qed.

Lemma shopifyFetch_unconfigured (env : Env) (req : ShopifyReq num)
    (s : State num) :
  first_missing (shopify_required env) <> None ->
  exists e, shopifyFetch env req s = (Throw e, s).
Proof.
  intros Hc.
  destruct (first_missing (shopify_required env)) as [name|] eqn:E;
    [|contradiction].
  destruct (@missing_configuration_fails_storefront env name E req s)
    as (e & He & _). eauto.
Qed.

(** What [findVariantBySKU] does with the answer [data] of the search. *)
Lemma findVariantBySKU_unfold (env : Env) (sku : val) (s : State num) :
  findVariantBySKU env sku s
  = match shopifyFetch env (SVariantsBySku (js_toString sku)) s with
    | (Return data, s1) =>
        (variants <- member data "variants" ;;
         exact <- find_in "variants" variants sku ;;
         ret (js_or (js_or exact (index0 (js_or variants (VArr [])))) VNull)) s1
    | (Throw e, s1) => (Throw e, s1)
    end.
Proof. reflexivity. Qed.

(** The search does not change the remote systems, and sends at most its
    own request. *)
Lemma findVariantBySKU_state (env : Env) (sku : val) (s : State num) :
  snd (findVariantBySKU env sku s) = s
  \/ exists domain token,
       snd (findVariantBySKU env sku s)
       = add_calls s [ShopifyCall domain token
                        (SVariantsBySku (js_toString sku))].
Proof.
  rewrite findVariantBySKU_unfold.
  destruct (first_missing (shopify_required env)) as [name|] eqn:Ec.
  - destruct (@missing_configuration_fails_storefront env name Ec
                (SVariantsBySku (js_toString sku)) s) as (e & -> & _).
    now left.
  - destruct (shopifyFetch_configured env (SVariantsBySku (js_toString sku)) s Ec)
      as (domain & token & ->).
    right. exists domain, token.
    assert (Hs : snd (fetch (ShopifyCall domain token
                               (SVariantsBySku (js_toString sku))) s)
                 = add_calls s [ShopifyCall domain token
                                  (SVariantsBySku (js_toString sku))]).
    { unfold fetch. cbn [respond]. unfold shopify_respond.
      destruct (shopify_outage (world s) _) as [[status text]|]; reflexivity. }
    rewrite Hs.
    destruct (response_outcome "Shopify" _) as [data|e]; [|reflexivity].
    unfold bind, member. destruct (nullish data); [reflexivity|].
    unfold ret at 1. unfold find_in.
    destruct (js_or (get "variants" data) (VArr [])); try reflexivity.
    destruct (find_by_sku_pure sku l) as [[exact|e] Hp]; rewrite Hp; reflexivity.
Qed.

(** The search on two storefronts that differ by a change [g] of the
    variants which keeps everything but prices: the variant found on the
    second is the image of the variant found on the first. *)
Section Repriced.

Variable g : val -> val.
Hypothesis g_nullish : forall v, nullish v = true -> g v = v.
Hypothesis g_not_nullish : forall v, nullish v = false -> nullish (g v) = false.
Hypothesis g_truthy : forall v, truthy (g v) = truthy v.
Hypothesis g_get : forall k v, k <> "price" -> get k (g v) = get k v.

Lemma g_variant_id (v : val) : variant_id (g v) = variant_id v.
Proof. unfold variant_id. rewrite g_get; [reflexivity|discriminate]. Qed.

Lemma filter_repriced (f : string -> bool) (l : list val) :
  filter (fun v => f (variant_id v)) (map g l)
  = map g (filter (fun v => f (variant_id v)) l).
Proof.
  induction l as [|v l IH]; simpl; [reflexivity|].
  rewrite g_variant_id.
  destruct (f (variant_id v)); simpl; now rewrite IH.
Qed.

Lemma js_or_repriced (a b : val) : js_or (g a) (g b) = g (js_or a b).
Proof. unfold js_or. rewrite g_truthy. now destruct (truthy a). Qed.

Lemma find_by_sku_repriced (sku : val) (l : list val) (s s' : State num) :
  find_by_sku sku (map g l) s' = (out_map g (fst (find_by_sku sku l s)), s').
Proof.
  induction l as [|v l IH]; simpl.
  - unfold ret. simpl. now rewrite (g_nullish VUndef eq_refl).
  - unfold bind, member.
    destruct (nullish v) eqn:En.
    + rewrite (g_nullish v En), En. reflexivity.
    + rewrite (g_not_nullish v En). unfold ret.
      rewrite g_get by discriminate.
      destruct (strict_eq (get "sku" v) sku); [reflexivity|].
      exact IH.
Qed.

Lemma findVariantBySKU_repriced (env : Env) (sku : val) (s s' : State num) :
  repriced g (world s) (world s') ->
  fst (findVariantBySKU env sku s')
  = out_map g (fst (findVariantBySKU env sku s)).
Proof.
  intros (Hout & Hsearch & Hvs).
  rewrite !findVariantBySKU_unfold.
  destruct (first_missing (shopify_required env)) as [name|] eqn:Ec.
  - destruct (@missing_configuration_fails_storefront env name Ec
                (SVariantsBySku (js_toString sku)) s) as (e & -> & ->).
    destruct (@missing_configuration_fails_storefront env name Ec
                (SVariantsBySku (js_toString sku)) s') as (e & -> & ->).
    reflexivity.
  - destruct (shopifyFetch_configured env (SVariantsBySku (js_toString sku)) s Ec)
      as (domain & token & ->).
    destruct (shopifyFetch_configured env (SVariantsBySku (js_toString sku)) s' Ec)
      as (domain' & token' & ->).
    unfold shopify_respond. rewrite Hout.
    destruct (shopify_outage (world s) _) as [[status text]|]; [reflexivity|].
    cbn [fst response_outcome]. rewrite Hsearch, Hvs.
    rewrite (filter_repriced (variant_search (world s) (js_toString sku))).
    set (l := filter _ (variants (world s))).
    unfold bind, member. cbn [nullish get lookup String.eqb Ascii.eqb Bool.eqb].
    unfold ret at 1. unfold ret at 2. unfold find_in.
    cbn [js_or truthy].
    match goal with
    | |- context [find_by_sku sku (map _ l) ?s1'] =>
        match goal with
        | |- context [find_by_sku sku l ?s1] =>
            rewrite (find_by_sku_repriced sku l s1 s1')
        end
    end.
    destruct (find_by_sku_pure sku l) as [[exact|e] Hp]; rewrite Hp;
      [|reflexivity].
    cbn [fst out_map]. unfold ret. cbn [fst out_map]. f_equal.
    assert (H0 : index0 (VArr (map g l)) = g (index0 (VArr l))).
    { destruct l as [|x l']; simpl; [|reflexivity].
      now rewrite (g_nullish VUndef eq_refl). }
    rewrite H0, !js_or_repriced.
    now rewrite <- (g_nullish VNull eq_refl) at 1; rewrite js_or_repriced.
Qed.

End Repriced.

(** ** C3: when the sync updates a price *)

Lemma catalog_kept_refl (s : State num) : catalog_kept s s.
Proof. split; [apply emits_refl|]. now repeat split. Qed.

Lemma catalog_kept_trans (a b c : State num) :
  catalog_kept a b -> catalog_kept b c -> catalog_kept a c.
Proof.
  intros (E1 & O1 & S1 & V1 & A1 & K1) (E2 & O2 & S2 & V2 & A2 & K2).
  split; [eapply emits_trans; eauto|]. repeat split; congruence.
Qed.

Lemma catalog_kept_fetch (c : Call num) :
  not_price_call c = true -> keeps catalog_kept (fetch c).
Proof.
  intros Hc s. split; [now apply emits_fetch|].
  unfold fetch.
  destruct c as [? ? ? ?|? ? ? ?|domain token req]; cbn [respond];
    [now repeat split|now repeat split|].
  unfold shopify_respond.
  destruct (shopify_outage (world s) req) as [[status text]|];
    [now repeat split|].
  destruct req; try discriminate; now repeat split.
Qed.

Lemma sync_item_stock_keeps_catalog (env : Env) (item variant : val) :
  keeps catalog_kept (sync_item_stock env item variant).
Proof.
  apply keeps_sync_item_stock with (allowed := not_price_call);
    try reflexivity; try (split; reflexivity).
  - apply catalog_kept_refl.
  - apply catalog_kept_trans.
  - apply catalog_kept_fetch.
Qed.

(** A turn of the sync loop for an item whose SKU resolves. *)
Lemma sync_item_found (env : Env) (item variant : val) (s s1 : State num) :
  truthy (get "sku" item) = true ->
  findVariantBySKU env (get "sku" item) s = (Return variant, s1) ->
  truthy variant = true ->
  sync_item env item s
  = (sync_item_price env item variant ;; sync_item_stock env item variant) s1.
Proof.
  intros Hsku Hfind Hv. unfold sync_item. unfold bind at 1. unfold member.
  destruct item; try discriminate. cbn [nullish]. unfold ret at 1.
  rewrite Hsku. cbn [negb]. unfold bind at 1. rewrite Hfind, Hv.
  reflexivity.
Qed.

(** What the storefront reads as the price of a price update. *)
Lemma price_on_the_wire (id : val) (price : string) :
  get "price"
      (get "variant"
           (wire (VObj [("variant",
                         VObj [("id", id); ("price", VStr price)])])))
  = VStr price.
Proof. destruct id; reflexivity. Qed.

(** The price step, when the prices differ: one price update is sent, and
    when the step succeeds the price is stored. *)
Lemma sync_item_price_differs (env : Env) (item variant : val) (s1 : State num) :
  first_missing (shopify_required env) = None ->
  price_differs item variant = true ->
  exists call,
    is_price_call call = true
    /\ trace (snd (sync_item_price env item variant s1))
       = (trace s1 ++ [call])%list
    /\ (fst (sync_item_price env item variant s1) = Return tt ->
        repriced (store_price (variant_id variant)
                    (price_kept (world s1) (VStr (zohoPrice_of item))))
                 (world s1)
                 (world (snd (sync_item_price env item variant s1)))
        /\ zoho_api (world (snd (sync_item_price env item variant s1)))
           = zoho_api (world s1)
        /\ price_kept (world (snd (sync_item_price env item variant s1)))
           = price_kept (world s1)).
Proof.
  intros Hc Hd. unfold sync_item_price. rewrite Hd.
  unfold bind, updateVariantPrice.
  destruct (shopifyFetch_configured env
              (SPutVariant (js_toString (get "id" variant))
                 (VObj [("variant",
                         VObj [("id", get "id" variant);
                               ("price",
                                VStr (js_toString (VStr (zohoPrice_of item))))])]))
              s1 Hc) as (domain & token & ->).
  match goal with
  | |- context [fetch ?c s1] => exists c
  end.
  split; [reflexivity|]. split.
  { unfold fetch.
    match goal with
    | |- context [respond ?w ?c] => destruct (respond w c) as [r w']
    end.
    cbn [snd fst]. destruct (response_outcome _ _); reflexivity. }
  - unfold fetch. cbn [respond]. unfold shopify_respond.
    destruct (shopify_outage (world s1) _) as [[status text]|];
      [discriminate|].
    fold (variant_id variant).
    destruct (existsb _ (variants (world s1))); [|discriminate].
    intros _. cbn [fst snd response_outcome world with_variants
                   shopify_outage variant_search variants zoho_api price_kept].
    rewrite price_on_the_wire. now repeat split.
Qed.

(** Once its price is stored, a variant no longer differs from the item. *)
Lemma price_stored_agrees (item variant : val) :
  is_object variant = true ->
  price_differs item
    (store_price (variant_id variant) (VStr (zohoPrice_of item)) variant)
  = false.
Proof.
  intros Ho. unfold price_differs, store_price.
  rewrite String.eqb_refl. destruct variant; try discriminate.
  cbn [get]. rewrite lookup_set_field_same. cbn [strict_eq].
  rewrite String.eqb_refl. apply andb_false_r.
Qed.

Lemma strict_eq_string (v : val) (x : string) :
  strict_eq v (VStr x) = true <-> v = VStr x.
Proof.
  destruct v; simpl; split; try discriminate.
  - intros H. apply String.eqb_eq in H. now subst.
  - intros H. injection H as ->. apply String.eqb_refl.
Qed.

(** [price_differs] in words: the item has a price, its text is not empty,
    and the price of the variant is not that text. *)
Lemma price_differs_spec (item variant : val) :
  price_differs item variant = true
  <-> nullish (get "rate" item) = false
      /\ js_toString (get "rate" item) <> ""
      /\ get "price" variant <> VStr (js_toString (get "rate" item)).
Proof.
  unfold price_differs, zohoPrice_of.
  destruct (nullish (get "rate" item)); cbn [negb].
  - rewrite String.eqb_refl. cbn. split; [discriminate|].
    intros (H & _). discriminate.
  - rewrite andb_true_iff, !negb_true_iff. split.
    + intros (H1 & H2). split; [reflexivity|]. split.
      * intros E. rewrite E in H1. discriminate.
      * intros E. apply strict_eq_string in E. congruence.
    + intros (_ & H1 & H2). split.
      * destruct (js_toString (get "rate" item) =? "") eqn:E; [|reflexivity].
        apply String.eqb_eq in E. contradiction.
      * destruct (strict_eq _ _) eqn:E; [|reflexivity].
        apply strict_eq_string in E. contradiction.
Qed.

Lemma not_price_calls (t : list (Call num)) :
  forallb not_price_call t = true -> existsb is_price_call t = false.
Proof.
  induction t as [|c t IH]; simpl; [reflexivity|].
  unfold not_price_call at 1. intros H. apply andb_true_iff in H.
  destruct H as [Hc Ht]. apply negb_true_iff in Hc. now rewrite Hc, IH.
Qed.

(** The search sends no price update and changes nothing remote. *)
Lemma findVariantBySKU_keeps_catalog (env : Env) (sku : val) (s : State num) :
  catalog_kept s (snd (findVariantBySKU env sku s)).
Proof.
  destruct (findVariantBySKU_state env sku s) as [-> | (domain & token & ->)].
  - apply catalog_kept_refl.
  - split; [|now repeat split].
    eexists. split; reflexivity.
Qed.

(** A turn for a resolved item whose price does not differ: no price
    update, and the variants stay as they are. *)
Lemma sync_item_price_agrees (env : Env) (item variant : val)
    (s s1 : State num) :
  truthy (get "sku" item) = true ->
  findVariantBySKU env (get "sku" item) s = (Return variant, s1) ->
  truthy variant = true ->
  price_differs item variant = false ->
  catalog_kept s (snd (sync_item env item s)).
Proof.
  intros Hsku Hfind Hv Hd.
  rewrite (sync_item_found env item s Hsku Hfind Hv).
  pose proof (findVariantBySKU_keeps_catalog env (get "sku" item) s) as H1.
  rewrite Hfind in H1. cbn [snd] in H1.
  unfold bind, sync_item_price. rewrite Hd. unfold ret at 1.
  eapply catalog_kept_trans; [exact H1|].
  apply sync_item_stock_keeps_catalog.
Qed.

(** A search that returned had its configuration. *)
Lemma findVariantBySKU_returned_configured (env : Env) (sku variant : val)
    (s s1 : State num) :
  findVariantBySKU env sku s = (Return variant, s1) ->
  first_missing (shopify_required env) = None.
Proof.
  intros Hfind.
  destruct (first_missing (shopify_required env)) as [name|] eqn:Ec;
    [|reflexivity].
  rewrite findVariantBySKU_unfold in Hfind.
  destruct (@missing_configuration_fails_storefront env name Ec
              (SVariantsBySku (js_toString sku)) s) as (e & He & _).
  rewrite He in Hfind. discriminate.
Qed.

(** A second turn for the same item, on a storefront whose variants were
    changed by [g] since the variant was found, sends no price update when
    the changed variant agrees with the item. *)
Lemma sync_item_again (env : Env) (g : val -> val) (item variant : val)
    (s s1 s' : State num) :
  (forall v, nullish v = true -> g v = v) ->
  (forall v, nullish v = false -> nullish (g v) = false) ->
  (forall v, truthy (g v) = truthy v) ->
  (forall k v, k <> "price" -> get k (g v) = get k v) ->
  truthy (get "sku" item) = true ->
  findVariantBySKU env (get "sku" item) s = (Return variant, s1) ->
  truthy variant = true ->
  repriced g (world s) (world s') ->
  price_differs item (g variant) = false ->
  exists t,
    trace (snd (sync_item env item s')) = (trace s' ++ t)%list
    /\ existsb is_price_call t = false.
Proof.
  intros G1 G2 G3 G4 Hsku Hfind Hv Hrel Hagree.
  pose proof (findVariantBySKU_repriced G1 G2 G3 G4 env (get "sku" item)
                s s' Hrel) as Hfst.
  rewrite Hfind in Hfst. cbn [fst out_map] in Hfst.
  destruct (findVariantBySKU env (get "sku" item) s') as [o s1'] eqn:Hfind'.
  cbn [fst] in Hfst. subst o.
  assert (Hv' : truthy (g variant) = true) by now rewrite G3.
  destruct (sync_item_price_agrees env item s' Hsku Hfind' Hv' Hagree)
    as ((t & Ht & Hp) & _).
  exists t. split; [exact Ht|]. now apply not_price_calls.
Qed.

(** A turn of the sync for an item whose SKU is found sends a price update
    exactly when the item has a price whose text is not empty and is not
    the price of the variant. *)
Lemma sync_item_price_call_iff
    (env : Env) (item variant : val) (s s1 : State num) :
  truthy (get "sku" item) = true ->
  findVariantBySKU env (get "sku" item) s = (Return variant, s1) ->
  is_object variant = true ->
  exists t,
    trace (snd (sync_item env item s)) = (trace s ++ t)%list
    /\ (existsb is_price_call t = true
        <-> nullish (get "rate" item) = false
            /\ js_toString (get "rate" item) <> ""
            /\ get "price" variant <> VStr (js_toString (get "rate" item))).
Proof.
  intros Hsku Hfind Hobj.
  assert (Hv : truthy variant = true) by (now destruct variant).
  pose proof (findVariantBySKU_returned_configured env _ s Hfind) as Hc.
  pose proof (findVariantBySKU_keeps_catalog env (get "sku" item) s) as Hs1.
  rewrite Hfind in Hs1. cbn [snd] in Hs1.
  destruct (price_differs item variant) eqn:Hd.
  - (* the prices differ *)
    destruct (sync_item_price_differs env item variant s1 Hc Hd)
      as (call & Hcall & Htrace & Hstored).
    pose proof (sync_item_found env item s Hsku Hfind Hv) as Hrun.
    unfold bind in Hrun.
    destruct (sync_item_price env item variant s1) as [[[]|e] s2] eqn:Hprice;
      cbn [fst snd] in Htrace, Hstored.
    + pose proof (sync_item_stock_keeps_catalog env item variant s2) as Hs'.
      rewrite <- Hrun in Hs'.
      destruct Hs1 as ((t0 & Ht0 & _) & _).
      destruct Hs' as ((u & Hu & _) & _).
      exists (t0 ++ [call] ++ u)%list. split.
      { rewrite Hu, Htrace, Ht0. now rewrite <- !app_assoc. }
      rewrite <- price_differs_spec, Hd, !existsb_app. cbn [existsb].
      rewrite Hcall. cbn. rewrite orb_true_r. tauto.
    + rewrite Hrun. cbn [fst snd].
      destruct Hs1 as ((t0 & Ht0 & _) & _).
      exists (t0 ++ [call])%list. split.
      { rewrite Htrace, Ht0. now rewrite <- app_assoc. }
      rewrite <- price_differs_spec, Hd, existsb_app. cbn [existsb].
      rewrite Hcall. cbn. rewrite orb_true_r. tauto.
  - (* the prices agree *)
    pose proof (sync_item_price_agrees env item s Hsku Hfind Hv Hd) as Hkept.
    destruct Hkept as ((t & Ht & Hp) & _).
    exists t. split; [exact Ht|].
    rewrite <- price_differs_spec, Hd, (not_price_calls t Hp). tauto.
Qed.

(** ** The backend client, request by request *)

Lemma requireEnv_cases (v : option string) (name : string) (s : State num) :
  (exists x, requireEnv v name s = (Return x, s))
  \/ (exists e, requireEnv v name s = (Throw e, s)).
Proof.
  unfold requireEnv. destruct v as [x|]; [destruct (x =? "")|];
    unfold ret, throw; eauto.
Qed.

Lemma add_calls_nil (s : State num) : add_calls s [] = s.
Proof. unfold add_calls. rewrite app_nil_r. now destruct s. Qed.

Lemma add_calls_app (s : State num) (t u : list (Call num)) :
  add_calls (add_calls s t) u = add_calls s (t ++ u).
Proof. unfold add_calls. simpl. now rewrite app_assoc. Qed.

(** A backend request does one of three things: it fails before the API is
    asked (at most the token exchange was sent), or the token exchange and
    the request are sent and the answer is returned, or they are sent and
    the answer is an error.  The remote systems are not changed. *)
Lemma zohoFetch_cases (env : Env) (req : ZohoReq num) (s : State num) :
  exists out t,
    zohoFetch env req s = (out, add_calls s t)
    /\ ((exists e, out = Throw e /\ forallb is_token_call t = true)
        \/ (exists tc base org token,
              is_token_call tc = true
              /\ t = [tc; ZohoCall base org token req]
              /\ ((exists json, zoho_api (world s) req = RespOk json
                               /\ out = Return json)
                  \/ (exists e, out = Throw e
                               /\ forall json,
                                    zoho_api (world s) req <> RespOk json)))).
Proof.
  unfold zohoFetch, getZohoAccessToken.
  assert (Hfail : forall e, exists out t,
             (@Throw val e, s) = (out, add_calls s t)
             /\ ((exists e, out = Throw e /\ forallb is_token_call t = true)
                 \/ (exists tc base org token,
                       is_token_call tc = true
                       /\ t = [tc; ZohoCall base org token req]
                       /\ ((exists json, zoho_api (world s) req = RespOk json
                                        /\ out = Return json)
                           \/ (exists e, out = Throw e
                                        /\ forall json,
                                             zoho_api (world s) req
                                             <> RespOk json))))).
  { intros e. exists (Throw e), []. rewrite add_calls_nil. eauto 8. }
  unfold bind at 1. unfold bind at 1.
  destruct (requireEnv_cases (ZOHO_ACCOUNTS_URL env) "ZOHO_ACCOUNTS_URL" s)
    as [(a & ->) | (e & ->)]; [|apply Hfail].
  unfold bind at 1.
  destruct (requireEnv_cases (ZOHO_CLIENT_ID env) "ZOHO_CLIENT_ID" s)
    as [(b & ->) | (e & ->)]; [|apply Hfail].
  unfold bind at 1.
  destruct (requireEnv_cases (ZOHO_CLIENT_SECRET env) "ZOHO_CLIENT_SECRET" s)
    as [(c & ->) | (e & ->)]; [|apply Hfail].
  unfold bind at 1.
  destruct (requireEnv_cases (ZOHO_REFRESH_TOKEN env) "ZOHO_REFRESH_TOKEN" s)
    as [(d & ->) | (e & ->)]; [|apply Hfail].
  unfold bind at 1. unfold fetch at 1. cbn [respond].
  fold (add_calls s [ZohoTokenCall a b c d]).
  set (s1 := add_calls s [ZohoTokenCall a b c d]).
  assert (Hfail1 : forall e, exists out t,
             (@Throw val e, s1) = (out, add_calls s t)
             /\ ((exists e, out = Throw e /\ forallb is_token_call t = true)
                 \/ (exists tc base org token,
                       is_token_call tc = true
                       /\ t = [tc; ZohoCall base org token req]
                       /\ ((exists json, zoho_api (world s) req = RespOk json
                                        /\ out = Return json)
                           \/ (exists e, out = Throw e
                                        /\ forall json,
                                             zoho_api (world s) req
                                             <> RespOk json))))).
  { intros e. exists (Throw e), [ZohoTokenCall a b c d]. eauto 8. }
  destruct (zoho_accounts (world s)) as [json|status text|e0];
    [|apply Hfail1|apply Hfail1].
  unfold member. destruct (nullish json); [apply Hfail1|].
  unfold ret at 1. unfold bind at 1.
  destruct (requireEnv_cases (ZOHO_BASE_URL env) "ZOHO_BASE_URL" s1)
    as [(base & ->) | (e & ->)]; [|apply Hfail1].
  unfold bind at 1.
  destruct (requireEnv_cases (ZOHO_ORG_ID env) "ZOHO_ORG_ID" s1)
    as [(org & ->) | (e & ->)]; [|apply Hfail1].
  destruct (negb (URL_parses (zoho_url base req))); [apply Hfail1|].
  unfold bind at 1. unfold fetch at 1. cbn [respond].
  subst s1. cbn [world trace console add_calls].
  rewrite <- app_assoc. cbn [app].
  fold (add_calls s [ZohoTokenCall a b c d;
                     ZohoCall base org (js_toString (get "access_token" json)) req]).
  unfold response_json.
  destruct (zoho_api (world s) req) as [j|status text|e0] eqn:Eapi;
    unfold ret, throw;
    (eexists _, _; split; [reflexivity|]; right;
     exists (ZohoTokenCall a b c d), base, org,
            (js_toString (get "access_token" json));
     split; [reflexivity|]; split; [reflexivity|]).
  - left. eauto.
  - right. eexists. split; [reflexivity|]. discriminate.
  - right. eexists. split; [reflexivity|]. discriminate.
Qed.

(** ** C7: the pagination loop *)

Lemma pages_fetched_app (t u : list (Call num)) :
  pages_fetched (t ++ u) = (pages_fetched t ++ pages_fetched u)%list.
Proof.
  induction t as [|c t IH]; simpl; [reflexivity|].
  destruct c as [? ? ? ?|? ? ? [ ]|? ? ?]; simpl; now rewrite ?IH.
Qed.

Lemma pages_fetched_token_calls (t : list (Call num)) :
  forallb is_token_call t = true -> pages_fetched t = [].
Proof.
  induction t as [|c t IH]; simpl; [reflexivity|].
  destruct c; simpl; try discriminate. exact IH.
Qed.

(** Storefront requests leave the backend as it is. *)
Lemma shopify_respond_backend (w : World num) (req : ShopifyReq num) :
  zoho_accounts (snd (shopify_respond w req)) = zoho_accounts w
  /\ zoho_api (snd (shopify_respond w req)) = zoho_api w.
Proof.
  unfold shopify_respond.
  destruct (shopify_outage w req) as [[status text]|]; [now split|].
  destruct req; simpl; try now split.
  destruct (existsb _ _); now split.
Qed.

Lemma sync_item_keeps_refl (s : State num) : sync_item_keeps s s.
Proof. do 2 (split; [reflexivity|]). exists []. now rewrite app_nil_r. Qed.

Lemma sync_item_keeps_trans (a b c : State num) :
  sync_item_keeps a b -> sync_item_keeps b c -> sync_item_keeps a c.
Proof.
  intros (H1 & A1 & t & Ht & Hp) (H2 & A2 & u & Hu & Hq).
  do 2 (split; [congruence|]).
  exists (t ++ u)%list. rewrite Hu, Ht, app_assoc, pages_fetched_app, Hp, Hq.
  now split.
Qed.

Lemma sync_item_keeps_log lv message (args : list val) :
  keeps sync_item_keeps (log lv message args).
Proof.
  intros s. do 2 (split; [reflexivity|]). exists []. simpl.
  now rewrite app_nil_r.
Qed.

Lemma sync_item_keeps_fetch (c : Call num) :
  is_shopify_call c = true -> keeps sync_item_keeps (fetch c).
Proof.
  intros Hc s. destruct c as [? ? ? ?|? ? ? ?|domain token req]; try discriminate.
  unfold fetch. cbn [respond].
  pose proof (shopify_respond_backend (world s) req) as [Hacc Hapi].
  destruct (shopify_respond (world s) req) as [r w]. simpl in *.
  split; [exact Hapi|]. split; [exact Hacc|].
  exists [ShopifyCall domain token req]. now split.
Qed.

Lemma sync_items_keep (env : Env) (l : list val) :
  keeps sync_item_keeps (for_each l (sync_item env)).
Proof.
  apply keeps_for_each; [apply sync_item_keeps_refl|apply sync_item_keeps_trans|].
  intros item.
  apply keeps_sync_item with (allowed := is_shopify_call);
    try reflexivity; try (split; reflexivity).
  - apply sync_item_keeps_refl.
  - apply sync_item_keeps_trans.
  - apply sync_item_keeps_fetch.
Qed.

(** One turn of the page loop: it asks for the page at most once and for no
    other page; it goes on only from a page that does not end the loop and
    it ends normally only at a page that does. *)
Lemma sync_page_spec (env : Env) (page : nat) (s : State num) :
  exists out s' t,
    sync_page env page s = (out, s')
    /\ zoho_api (world s') = zoho_api (world s)
    /\ zoho_accounts (world s') = zoho_accounts (world s)
    /\ trace s' = (trace s ++ t)%list
    /\ ((out = Return NextPage /\ pages_fetched t = [page]
         /\ ~ stopping_page (world s) page)
        \/ (out = Return Break /\ pages_fetched t = [page]
            /\ stopping_page (world s) page)
        \/ (exists e, out = Throw e
                      /\ (pages_fetched t = [page] \/ pages_fetched t = []))).
Proof.
  unfold sync_page, listZohoItemsPaged.
  unfold bind at 1. unfold log at 1.
  set (s0 := {| world := world s; trace := trace s; console := _ |}).
  unfold bind at 1.
  destruct (zohoFetch_cases env (ZItemsPage page) s0)
    as (out & t & Hrun & Hcases).
  rewrite Hrun.
  destruct Hcases as [(e & -> & Ht)
                     | (tc & base & org & token & Htc & -> & Hans)].
  - exists (Throw e), (add_calls s0 t), t. split; [reflexivity|].
    split; [reflexivity|]. split; [reflexivity|]. split; [reflexivity|].
    right; right. exists e. split; [reflexivity|]. right.
    now apply pages_fetched_token_calls.
  - assert (Hp : pages_fetched [tc; ZohoCall base org token (ZItemsPage page)]
                 = [page]).
    { destruct tc; try discriminate. reflexivity. }
    set (t0 := [tc; ZohoCall base org token (ZItemsPage page)]) in *.
    destruct Hans as [(data & Hapi & ->) | (e & -> & Hbad)].
    + unfold bind at 1. unfold member at 1.
      destruct (nullish data) eqn:En.
      { unfold throw. exists (Throw (TypeError
                 ("Cannot read properties of " ++ js_toString data
                  ++ " (reading '" ++ "items" ++ "')"))), (add_calls s0 t0), t0.
        repeat (split; [reflexivity|]). right; right. eauto. }
      unfold ret at 1.
      destruct (negb (length_truthy (js_or (get "items" data) (VArr []))))
        eqn:Elen.
      { unfold ret. exists (Return Break), (add_calls s0 t0), t0.
        repeat (split; [reflexivity|]). right; left.
        repeat (split; [reflexivity|]). split; [exact Hp|].
        exists data. split; [exact Hapi|]. unfold page_stops.
        now rewrite Elen. }
      unfold bind at 1. unfold iterate_or_throw.
      destruct (iterate (js_or (get "items" data) (VArr []))) as [l|].
      2:{ unfold throw. eexists _, (add_calls s0 t0), t0.
          repeat (split; [reflexivity|]). right; right. eauto. }
      unfold ret at 1. unfold bind at 1.
      pose proof (sync_items_keep env l (add_calls s0 t0))
        as (Hapi' & Hacc' & u & Hu & Hpu).
      destruct (for_each l (sync_item env) (add_calls s0 t0)) as [[[]|e] s2].
      * simpl in Hapi', Hacc', Hu.
        assert (Hpages : pages_fetched (t0 ++ u) = [page])
          by (rewrite pages_fetched_app, Hp, Hpu; reflexivity).
        destruct (truthy (js_and (get "page_context" data)
                   (get "has_more_page" (get "page_context" data)))) eqn:Emore;
          unfold ret.
        -- exists (Return NextPage), s2, (t0 ++ u)%list.
           split; [reflexivity|]. split; [exact Hapi'|].
           split; [exact Hacc'|].
           split; [rewrite Hu; now rewrite app_assoc|].
           left. split; [reflexivity|]. split; [exact Hpages|].
           intros (d & Hd & Hstop).
           assert (Hapi2 : zoho_api (world s) (ZItemsPage page) = RespOk data)
             by exact Hapi.
           rewrite Hapi2 in Hd.
           injection Hd as <-. unfold page_stops in Hstop.
           rewrite Elen, Emore in Hstop. discriminate.
        -- exists (Return Break), s2, (t0 ++ u)%list.
           split; [reflexivity|]. split; [exact Hapi'|].
           split; [exact Hacc'|].
           split; [rewrite Hu; now rewrite app_assoc|].
           right; left. split; [reflexivity|]. split; [exact Hpages|].
           exists data. split; [exact Hapi|]. unfold page_stops.
           rewrite Emore. now rewrite orb_true_r.
      * simpl in Hapi', Hacc', Hu.
        exists (Throw e), s2, (t0 ++ u)%list.
        split; [reflexivity|]. split; [exact Hapi'|].
        split; [exact Hacc'|].
        split; [rewrite Hu; now rewrite app_assoc|].
        right; right. exists e. split; [reflexivity|]. left.
        rewrite pages_fetched_app, Hp, Hpu. reflexivity.
    + exists (Throw e), (add_calls s0 t0), t0.
      repeat (split; [reflexivity|]). right; right. eauto.
Qed.

(** A backend request with the configuration present and a token endpoint
    that answers: the token exchange and the request are sent, and the
    answer is read. *)
Lemma zohoFetch_answered (env : Env) (tokjson : val) :
  first_missing (zoho_token_required env) = None ->
  first_missing (zoho_api_required env) = None ->
  nullish tokjson = false ->
  exists tc base org,
    is_token_call tc = true
    /\ forall req (s : State num),
         zoho_url_parses env req = true ->
         zoho_accounts (world s) = RespOk tokjson ->
         zohoFetch env req s
         = (response_outcome "Zoho API" (zoho_api (world s) req),
            add_calls s [tc; ZohoCall base org
                               (js_toString (get "access_token" tokjson)) req]).
Proof.
  unfold zoho_token_required, zoho_api_required, first_missing.
  intros Htok Hapi Hnull.
  destruct (env_truthy (ZOHO_ACCOUNTS_URL env)) eqn:E1; [|discriminate].
  destruct (env_truthy (ZOHO_CLIENT_ID env)) eqn:E2; [|discriminate].
  destruct (env_truthy (ZOHO_CLIENT_SECRET env)) eqn:E3; [|discriminate].
  destruct (env_truthy (ZOHO_REFRESH_TOKEN env)) eqn:E4; [|discriminate].
  destruct (env_truthy (ZOHO_BASE_URL env)) eqn:E5; [|discriminate].
  destruct (env_truthy (ZOHO_ORG_ID env)) eqn:E6; [|discriminate].
  destruct (ZOHO_ACCOUNTS_URL env) as [a|] eqn:V1; [|discriminate].
  destruct (ZOHO_CLIENT_ID env) as [b|] eqn:V2; [|discriminate].
  destruct (ZOHO_CLIENT_SECRET env) as [c|] eqn:V3; [|discriminate].
  destruct (ZOHO_REFRESH_TOKEN env) as [d|] eqn:V4; [|discriminate].
  destruct (ZOHO_BASE_URL env) as [base|] eqn:V5; [|discriminate].
  destruct (ZOHO_ORG_ID env) as [org|] eqn:V6; [|discriminate].
  exists (ZohoTokenCall a b c d), base, org. split; [reflexivity|].
  intros req s Hurl Hacc.
  unfold zoho_url_parses in Hurl. rewrite V5 in Hurl.
  unfold zohoFetch, getZohoAccessToken. rewrite V1, V2, V3, V4, V5, V6.
  unfold requireEnv. unfold env_truthy in E1, E2, E3, E4, E5, E6.
  apply negb_true_iff in E1, E2, E3, E4, E5, E6.
  rewrite E1, E2, E3, E4, E5, E6.
  unfold bind, ret, fetch. cbn [respond world]. rewrite Hacc.
  unfold member. rewrite Hnull. unfold ret. rewrite Hurl. cbn [negb].
  cbn [world trace console].
  rewrite response_json_outcome. unfold add_calls.
  now rewrite <- app_assoc.
Qed.

(** ** C2: the order push *)

Lemma extends_refl (s : State num) : extends s s [] [].
Proof. unfold extends. now rewrite !app_nil_r. Qed.

Lemma extends_trans (a b c : State num) t u x y :
  extends a b t x -> extends b c u y -> extends a c (t ++ u) (x ++ y).
Proof.
  intros (W1 & T1 & C1) (W2 & T2 & C2). unfold extends.
  rewrite W2, W1, T2, T1, C2, C1, !app_assoc. auto.
Qed.

Lemma extends_add_calls (s : State num) t : extends s (add_calls s t) t [].
Proof. unfold extends, add_calls. simpl. now rewrite app_nil_r. Qed.

Lemma extends_log (s : State num) lv message (args : list val) :
  extends s (snd (log lv message args s)) [] [(lv, message, args)].
Proof. unfold extends, log. simpl. now rewrite app_nil_r. Qed.

Lemma find_by_sku_match (sku : val) (items : list val) (s : State num) :
  forallb (fun i => negb (nullish i)) items = true ->
  find_by_sku sku items s = (Return (find_match sku items), s).
Proof.
  induction items as [|i items IH]; simpl; [reflexivity|].
  intros H. apply andb_true_iff in H. destruct H as [Hi Hrest].
  apply negb_true_iff in Hi. unfold bind, member. rewrite Hi. unfold ret.
  destruct (strict_eq (get "sku" i) sku); [reflexivity|]. now apply IH.
Qed.

Section OrderPush.

Variable env : Env.
Variable w : World num.
Variable tokjson : val.
Variable catalog : string -> list val.

Hypothesis token_configured : first_missing (zoho_token_required env) = None.
Hypothesis api_configured : first_missing (zoho_api_required env) = None.
Hypothesis urls_parse : zoho_urls_parse env.
Hypothesis token_answered : zoho_accounts w = RespOk tokjson.
Hypothesis token_json : nullish tokjson = false.
Hypothesis searches_answered : searches_answer w catalog.

Lemma zohoFetch_in_world :
  exists tc base org token,
    is_token_call tc = true
    /\ forall req (s : State num),
         world s = w ->
         zohoFetch env req s
         = (response_outcome "Zoho API" (zoho_api w req),
            add_calls s [tc; ZohoCall base org token req]).
Proof.
  destruct (@zohoFetch_answered env tokjson token_configured api_configured
              token_json) as (tc & base & org & Htc & Hrun).
  exists tc, base, org, (js_toString (get "access_token" tokjson)).
  split; [exact Htc|].
  intros req s Hw. rewrite <- Hw. apply Hrun; [apply urls_parse|].
  now rewrite Hw.
Qed.

Lemma token_call_not_salesorder (tc : Call num) :
  is_token_call tc = true -> is_salesorder_call tc = false.
Proof. now destruct tc. Qed.

(** A search of the backend returns the item the SKU resolves to. *)
Lemma findZohoItemBySKU_answered (sku : val) :
  exists t,
    not_salesorder t
    /\ forall s : State num,
         world s = w ->
         findZohoItemBySKU env sku s
         = (Return (backend_item catalog sku), add_calls s t).
Proof.
  destruct zohoFetch_in_world as (tc & base & org & token & Htc & Hrun).
  exists [tc; ZohoCall base org token (ZItemsSearch (js_toString sku))].
  split.
  { unfold not_salesorder. cbn [filter].
    now rewrite (token_call_not_salesorder tc Htc). }
  intros s Hw.
  unfold findZohoItemBySKU. unfold bind at 1. rewrite (Hrun _ s Hw).
  destruct (searches_answered (js_toString sku))
    as (data & -> & Hdata & Hlist & Hitems).
  cbn [response_outcome]. unfold bind at 1. unfold member at 1.
  rewrite Hdata. unfold ret at 1. unfold find_in. rewrite Hlist.
  unfold bind at 1.
  rewrite (@find_by_sku_match sku (catalog (js_toString sku)) _ Hitems).
  reflexivity.
Qed.

(** The loop over the lines of the order keeps exactly the lines that
    resolve, and reports each line that has no match. *)
Lemma push_lines_run (lines : list val) :
  forall (acc : list (LineItem num)) (s : State num),
    world s = w ->
    exists s' t c,
      for_fold lines acc (push_line env) s
      = (Return (acc ++ map line_of (filter (resolved catalog) lines))%list, s')
      /\ extends s s' t c
      /\ not_salesorder t
      /\ forall li, In li lines -> unresolved catalog li = true ->
           In (ErrorLevel, "SO skip line: SKU not in Zoho", [get "sku" li]) c.
Proof.
  induction lines as [|li lines IH]; intros acc s Hw.
  - exists s, [], []. simpl. rewrite app_nil_r.
    split; [reflexivity|]. split; [apply extends_refl|].
    split; [reflexivity|]. intros li [].
  - cbn [for_fold filter]. unfold bind at 1. unfold push_line at 1.
    assert (Hres : resolved catalog li
                   = truthy (get "sku" li) && is_number (get "quantity" li)
                     && truthy (backend_item catalog (get "sku" li)))
      by reflexivity.
    assert (Hunres : unresolved catalog li
                   = truthy (get "sku" li) && is_number (get "quantity" li)
                     && negb (truthy (backend_item catalog (get "sku" li))))
      by reflexivity.
    rewrite Hres.
    destruct (truthy (get "sku" li)) eqn:Esku; cbn [negb andb].
    2:{ unfold bind at 1. unfold ret at 1.
        pose proof (extends_log s ErrorLevel "SO skip line: missing SKU" [])
          as Hl.
        destruct (log ErrorLevel "SO skip line: missing SKU" [] s)
          as [[[]|e] s1] eqn:El; [|discriminate].
        cbn [snd] in Hl.
        destruct (IH acc s1) as (s' & t & c & Hrun & Hext & Hno & Hwarn).
        { destruct Hl as (-> & _). exact Hw. }
        exists s'; eexists; eexists. split; [exact Hrun|].
        split; [exact (extends_trans Hl Hext)|]. split; [exact Hno|].
        intros li' [<- | Hin] Hu.
        - rewrite Hunres in Hu. discriminate.
        - apply in_or_app. right. now apply Hwarn. }
    destruct (is_number (get "quantity" li)) eqn:Eqty; cbn [negb andb].
    2:{ unfold bind at 1. unfold ret at 1.
        match goal with
        | |- context [log ?lv ?m ?a s] =>
            pose proof (extends_log s lv m a) as Hl;
            destruct (log lv m a s) as [[[]|e] s1] eqn:El; [|discriminate]
        end.
        cbn [snd] in Hl.
        destruct (IH acc s1) as (s' & t & c & Hrun & Hext & Hno & Hwarn).
        { destruct Hl as (-> & _). exact Hw. }
        exists s'; eexists; eexists. split; [exact Hrun|].
        split; [exact (extends_trans Hl Hext)|]. split; [exact Hno|].
        intros li' [<- | Hin] Hu.
        - rewrite Hunres in Hu. discriminate.
        - apply in_or_app. right. now apply Hwarn. }
    unfold bind at 1.
    match goal with
    | |- context [log ?lv ?m ?a s] =>
        pose proof (extends_log s lv m a) as Hl;
        destruct (log lv m a s) as [[[]|e] s1] eqn:El; [|discriminate]
    end.
    cbn [snd] in Hl.
    assert (Hw1 : world s1 = w) by (destruct Hl as (-> & _); exact Hw).
    destruct (findZohoItemBySKU_answered (get "sku" li)) as (u & Hu & Hfind).
    unfold bind at 1. rewrite (Hfind s1 Hw1).
    pose proof (extends_add_calls s1 u) as Hf.
    destruct (truthy (backend_item catalog (get "sku" li))) eqn:Eres;
      cbn [negb].
    + unfold ret at 1.
      destruct (IH (acc ++ [line_of li])%list (add_calls s1 u))
        as (s' & t & c & Hrun & Hext & Hno & Hwarn); [exact Hw1|].
      exists s'; eexists; eexists. split.
      { rewrite Hrun. cbn [map]. now rewrite <- app_assoc. }
      split; [exact (extends_trans (extends_trans Hl Hf) Hext)|].
      split.
      { unfold not_salesorder in *. cbn [app]. now rewrite filter_app, Hu, Hno. }
      intros li' [<- | Hin] Hun.
      * rewrite Hunres in Hun. discriminate.
      * apply in_or_app. right. now apply Hwarn.
    + unfold bind at 1.
      match goal with
      | |- context [log ?lv ?m ?a ?s2] =>
          pose proof (extends_log s2 lv m a) as Hl2;
          destruct (log lv m a s2) as [[[]|e] s3] eqn:El2; [|discriminate]
      end.
      cbn [snd] in Hl2. unfold ret at 1.
      destruct (IH acc s3) as (s' & t & c & Hrun & Hext & Hno & Hwarn).
      { destruct Hl2 as (-> & _). exact Hw1. }
      exists s'; eexists; eexists.
      split; [exact Hrun|].
      split; [exact (extends_trans (extends_trans (extends_trans Hl Hf) Hl2) Hext)|].
      split.
      { unfold not_salesorder in *. cbn [app].
        now rewrite !filter_app, Hu, Hno. }
      intros li' [<- | Hin] Hun.
      * apply in_or_app. left. apply in_or_app. right. now left.
      * apply in_or_app. right. now apply Hwarn.
Qed.

(** The loop of [createZohoSalesOrder] over lines that resolve. *)
Lemma order_lines_run (L : list (LineItem num)) :
  forall (acc : list val) (s : State num),
    world s = w ->
    forallb (fun l => truthy (backend_item catalog (li_sku l))) L = true ->
    exists s' t,
      for_fold L acc
        (fun acc li =>
           item <- findZohoItemBySKU env (li_sku li) ;;
           if negb (truthy item)
           then throw (Error ("Zoho item not found for SKU "
                              ++ js_toString (li_sku li)))
           else ret (acc ++ [zohoLineItem li item])%list) s
      = (Return (acc ++ map (fun l => zohoLineItem l
                                        (backend_item catalog (li_sku l))) L)%list,
         s')
      /\ extends s s' t []
      /\ not_salesorder t.
Proof.
  induction L as [|l L IH]; intros acc s Hw Hall.
  - exists s, []. simpl. rewrite app_nil_r.
    split; [reflexivity|]. split; [apply extends_refl|reflexivity].
  - cbn [forallb] in Hall. apply andb_true_iff in Hall.
    destruct Hall as [Hl HL].
    cbn [for_fold]. unfold bind at 1. unfold bind at 1.
    destruct (findZohoItemBySKU_answered (li_sku l)) as (u & Hu & Hfind).
    rewrite (Hfind s Hw), Hl. cbn [negb]. unfold ret at 1.
    destruct (IH (acc ++ [zohoLineItem l (backend_item catalog (li_sku l))])%list
                 (add_calls s u) Hw HL) as (s' & t & Hrun & Hext & Hno).
    exists s'; eexists. split.
    { rewrite Hrun. cbn [map]. now rewrite <- app_assoc. }
    split; [exact (extends_trans (extends_add_calls s u) Hext)|].
    unfold not_salesorder in *. now rewrite filter_app, Hu, Hno.
Qed.

(** The contact of the order is the existing one, or the one created. *)
Lemma contact_run (email name contact : val) :
  contact_for w email name contact ->
  truthy email = true ->
  forall s : State num,
    world s = w ->
    exists s' t,
      getOrCreateZohoContactByEmail env email name s = (Return contact, s')
      /\ extends s s' t []
      /\ not_salesorder t.
Proof.
  destruct zohoFetch_in_world as (tc & base & org & token & Htc & Hrun).
  pose proof (token_call_not_salesorder tc Htc) as Hns.
  intros Hcontact Hemail s Hw. unfold getOrCreateZohoContactByEmail.
  rewrite Hemail. cbn [negb]. unfold bind at 1. rewrite (Hrun _ s Hw).
  destruct Hcontact as [search Hsearch Hnull Hlen Hfirst
                       | search created contact_name Hsearch Hnull Hlen Hname
                           Hcreate Hcnull Hget].
  - rewrite Hsearch. cbn [response_outcome]. unfold bind at 1, member.
    rewrite Hnull. unfold ret at 1. rewrite Hlen, Hfirst. unfold ret.
    eexists; eexists. split; [reflexivity|].
    split; [apply extends_add_calls|].
    unfold not_salesorder. cbn [filter]. now rewrite Hns.
  - rewrite Hsearch. cbn [response_outcome]. unfold bind at 1, member.
    rewrite Hnull. unfold ret at 1. rewrite Hlen.
    assert (Hcn : forall s0 : State num,
               (if truthy name then ret name
                else match email with
                     | VStr e => ret (VStr (before_at e))
                     | _ => throw (TypeError "email.split is not a function")
                     end) s0 = (Return contact_name, s0)).
    { intros s0. destruct Hname as [(-> & ->) | (-> & e & -> & ->)];
        reflexivity. }
    unfold bind at 1. rewrite Hcn. unfold bind at 1.
    match goal with
    | |- context [zohoFetch env ?req ?s0] => rewrite (Hrun req s0 Hw)
    end.
    rewrite Hcreate. cbn [response_outcome].
    rewrite Hcnull. unfold ret. rewrite Hget.
    eexists; eexists. split; [reflexivity|].
    split; [exact (extends_trans (extends_add_calls s _)
                                 (extends_add_calls _ _))|].
    unfold not_salesorder. cbn [filter app]. now rewrite Hns.
Qed.

End OrderPush.

Lemma resolved_lines_resolve (catalog : string -> list val) (lines : list val) :
  forallb (fun l => truthy (backend_item catalog (li_sku l)))
          (map line_of (filter (resolved catalog) lines)) = true.
Proof.
  induction lines as [|li lines IH]; simpl; [reflexivity|].
  destruct (resolved catalog li) eqn:E; [|exact IH].
  simpl. rewrite IH. unfold resolved in E.
  apply andb_true_iff in E. destruct E as [_ ->]. reflexivity.
Qed.

Lemma some_line_resolves (catalog : string -> list val) (lines : list val) :
  existsb (resolved catalog) lines = true ->
  Nat.eqb (List.length (map (@line_of num)
                            (filter (resolved catalog) lines))) 0 = false.
Proof.
  induction lines as [|li lines IH]; simpl; [discriminate|].
  destruct (resolved catalog li); simpl; auto.
Qed.


Lemma stopping_page_backend (w w' : World num) (q : nat) :
  zoho_api w' = zoho_api w -> stopping_page w q -> stopping_page w' q.
Proof. unfold stopping_page. intros ->. auto. Qed.

(** More fuel does not change the result of a loop that ended. *)
Lemma sync_loop_more_fuel (env : Env) (fuel extra page : nat) (s : State num)
    (r : Outcome val * State num) :
  sync_loop env fuel page s = Some r ->
  sync_loop env (fuel + extra) page s = Some r.
Proof.
  revert page s. induction fuel as [|fuel IH]; intros page s; simpl;
    [discriminate|].
  destruct (sync_page env page s) as [[[|]|e] s1]; auto.
Qed.

(** ** C4: a second delivery of the same inventory payload *)

(** Induction on values, with the elements of arrays and the fields of
    objects. *)
Lemma value_ind_nested (P : val -> Prop) :
  P VUndef -> P VNull -> (forall b, P (VBool b)) -> (forall n, P (VNum n)) ->
  (forall s, P (VStr s)) ->
  (forall l, Forall P l -> P (VArr l)) ->
  (forall fields, Forall (fun kv => P (snd kv)) fields -> P (VObj fields)) ->
  forall v, P v.
Proof.
  intros Hu Hn Hb Hnum Hs Ha Ho.
  fix IH 1. intros v. destruct v as [| |b|n|s|l|fields].
  - exact Hu.
  - exact Hn.
  - apply Hb.
  - apply Hnum.
  - apply Hs.
  - apply Ha. induction l as [|x l IHl]; constructor; [apply IH|exact IHl].
  - apply Ho. induction fields as [|[k x] l IHl]; constructor;
      [apply IH|exact IHl].
Qed.

(** JSON goes over the wire unchanged. *)
Lemma wire_json (v : val) : is_json v = true -> wire v = v.
Proof.
  induction v as [| |b|n|s|l IH|fields IH] using value_ind_nested;
    try reflexivity.
  - simpl. now intros ->.
  - intros Hj. simpl. f_equal. simpl in Hj.
    induction IH as [|x l Hx _ IHl]; [reflexivity|].
    apply andb_true_iff in Hj. destruct Hj as [Hjx Hjl].
    rewrite (IHl Hjl), (Hx Hjx). now destruct x.
  - intros Hj. simpl. f_equal. simpl in Hj.
    induction IH as [|[k x] l Hx _ IHl]; [reflexivity|].
    apply andb_true_iff in Hj. destruct Hj as [Hjx Hjl].
    rewrite (IHl Hjl). simpl in Hx. rewrite (Hx Hjx). now destruct x.
Qed.

(** A field of a JSON value is JSON, when there is one. *)
Lemma wire_get_json (k : string) (v : val) :
  is_json v = true -> wire (get k v) = get k v.
Proof.
  destruct v as [| |b|n|s|l|fields]; try reflexivity.
  simpl. induction fields as [|[k' x] rest IH]; [reflexivity|].
  intros Hj. apply andb_true_iff in Hj. destruct Hj as [Hx Hrest].
  simpl. destruct (k' =? k); [now apply wire_json|auto].
Qed.

(** *** Stored levels *)

Lemma same_level_spec (a b : val) :
  same_level a b = true
  <-> level_item a = level_item b /\ level_location a = level_location b.
Proof.
  unfold same_level. rewrite andb_true_iff, !String.eqb_eq. reflexivity.
Qed.

Lemma same_level_refl (a : val) : same_level a a = true.
Proof. now apply same_level_spec. Qed.

Lemma same_level_left (a b c : val) :
  same_level a b = true -> same_level a c = same_level b c.
Proof.
  intros H. apply same_level_spec in H. destruct H as [Hi Hl].
  unfold same_level. now rewrite Hi, Hl.
Qed.

Lemma set_field_overwrite (k : string) (v v' : val) fields :
  set_field k v (set_field k v' fields) = set_field k v fields.
Proof.
  induction fields as [|[k0 v0] rest IH]; simpl.
  - now rewrite String.eqb_refl.
  - destruct (k0 =? k) eqn:E; simpl; rewrite E; [reflexivity|].
    now rewrite IH.
Qed.

Lemma set_available_overwrite (q q' b : val) :
  set_available q (set_available q' b) = set_available q b.
Proof. destruct b; try reflexivity. simpl. now rewrite set_field_overwrite. Qed.

Lemma set_available_get (k : string) (q b : val) :
  k <> "available" -> get k (set_available q b) = get k b.
Proof.
  intros Hk. destruct b; try reflexivity. simpl.
  apply lookup_set_field_other. congruence.
Qed.

Lemma update_level_get (k : string) (l b : val) :
  k <> "available" -> get k (update_level l b) = get k b.
Proof.
  intros Hk. unfold update_level. destruct (same_level l b); [|reflexivity].
  now apply set_available_get.
Qed.

Lemma update_level_item (l b : val) :
  level_item (update_level l b) = level_item b.
Proof. unfold level_item. now rewrite update_level_get. Qed.

Lemma update_level_location (l b : val) :
  level_location (update_level l b) = level_location b.
Proof. unfold level_location. now rewrite update_level_get. Qed.

Lemma same_level_update (x l b : val) :
  same_level x (update_level l b) = same_level x b.
Proof.
  unfold same_level. now rewrite update_level_item, update_level_location.
Qed.

(** The last write wins. *)
Lemma update_level_over (l o x : val) :
  same_level l x = true ->
  update_level l (update_level o x) = update_level l x.
Proof.
  intros H. unfold update_level at 1. rewrite same_level_update, H.
  unfold update_level. rewrite H.
  destruct (same_level o x); [apply set_available_overwrite|reflexivity].
Qed.

Lemma updates_over (l : val) (ops : list val) (x : val) :
  same_level l x = true ->
  update_level l (updates ops x) = update_level l x.
Proof.
  revert x. induction ops as [|o ops IH]; intros x H; [reflexivity|].
  change (updates (o :: ops) x) with (updates ops (update_level o x)).
  rewrite IH by now rewrite same_level_update.
  now apply update_level_over.
Qed.

Lemma updates_untouched (ops : list val) (b : val) :
  (forall o, In o ops -> same_level o b = false) -> updates ops b = b.
Proof.
  induction ops as [|o ops IH]; intros H; [reflexivity|].
  change (updates (o :: ops) b) with (updates ops (update_level o b)).
  unfold update_level. rewrite (H o) by now left.
  apply IH. intros o' Ho'. apply H. now right.
Qed.

Lemma updates_app (ops ops' : list val) (b : val) :
  updates (ops ++ ops') b = updates ops' (updates ops b).
Proof. apply fold_left_app. Qed.

Lemma stores_app (ops ops' : list val) (ls : list val) :
  stores (ops ++ ops') ls = stores ops' (stores ops ls).
Proof. apply fold_left_app. Qed.

Lemma store_level_present (l : val) (ls : list val) :
  existsb (same_level l) (store_level l ls) = true.
Proof.
  unfold store_level. destruct (existsb (same_level l) ls) eqn:E.
  - rewrite existsb_exists in *. destruct E as (b & Hb & Hs).
    exists (update_level l b). split.
    + apply in_map_iff. now exists b.
    + now rewrite same_level_update.
  - rewrite existsb_app. simpl. rewrite same_level_refl. apply orb_true_r.
Qed.

Lemma store_level_keeps_present (x l : val) (ls : list val) :
  existsb (same_level x) ls = true ->
  existsb (same_level x) (store_level l ls) = true.
Proof.
  intros H. unfold store_level. destruct (existsb (same_level l) ls).
  - rewrite existsb_exists in *. destruct H as (b & Hb & Hs).
    exists (update_level l b). split.
    + apply in_map_iff. now exists b.
    + now rewrite same_level_update.
  - rewrite existsb_app, H. reflexivity.
Qed.

(** Where every level of [ops] exists already, storing [ops] rewrites the
    levels in place. *)
Lemma stores_in_place (ops : list val) (ls : list val) :
  (forall l, In l ops -> existsb (same_level l) ls = true) ->
  stores ops ls = map (updates ops) ls.
Proof.
  revert ls. induction ops as [|o ops IH]; intros ls H.
  - simpl. now rewrite map_id.
  - change (stores (o :: ops) ls) with (stores ops (store_level o ls)).
    unfold store_level. rewrite (H o) by now left.
    rewrite IH.
    + rewrite map_map. reflexivity.
    + intros l Hl. specialize (H l (or_intror Hl)).
      rewrite existsb_exists in *. destruct H as (b & Hb & Hs).
      exists (update_level o b). split.
      * apply in_map_iff. now exists b.
      * now rewrite same_level_update.
Qed.

(** After [ops] were stored, every level of [ops] exists, and storing
    [ops] again would leave each stored level as it is. *)
Lemma stores_settle (ops : list val) (ls : list val) :
  Forall settled ops ->
  (forall l, In l ops -> existsb (same_level l) (stores ops ls) = true)
  /\ (forall b, In b (stores ops ls) -> updates ops b = b).
Proof.
  induction ops as [|l ops IH] using rev_ind; intros Hs.
  - split; [intros l []|reflexivity].
  - apply Forall_app in Hs. destruct Hs as [Hs Hl].
    apply Forall_inv in Hl. destruct (IH Hs) as [IHa IHb].
    rewrite stores_app. simpl. split.
    + intros x Hx. apply in_app_or in Hx. destruct Hx as [Hx|[<-|[]]].
      * apply store_level_keeps_present. auto.
      * apply store_level_present.
    + intros b Hb. rewrite updates_app. simpl.
      unfold store_level in Hb.
      destruct (existsb (same_level l) (stores ops ls)) eqn:E.
      * apply in_map_iff in Hb. destruct Hb as (b' & <- & Hb').
        fold (update_level l b').
        destruct (same_level l b') eqn:El.
        -- rewrite updates_over by now rewrite same_level_update.
           now apply update_level_over.
        -- assert (Hu : update_level l b' = b').
           { unfold update_level. now rewrite El. }
           rewrite Hu, (IHb b' Hb'). exact Hu.
      * apply in_app_or in Hb. destruct Hb as [Hb|[<-|[]]].
        -- rewrite (IHb b Hb). unfold update_level.
           assert (El : same_level l b = false).
           { destruct (same_level l b) eqn:El; [|reflexivity].
             rewrite <- E. symmetry. apply existsb_exists. now exists b. }
           now rewrite El.
        -- rewrite updates_untouched.
           ++ unfold update_level. rewrite same_level_refl. exact Hl.
           ++ intros o Ho. destruct (same_level o l) eqn:Eo; [|reflexivity].
              specialize (IHa o Ho). rewrite <- E. symmetry.
              rewrite existsb_exists in *. destruct IHa as (b & Hb & Hob).
              exists b. split; [exact Hb|].
              rewrite <- (same_level_left o l b Eo). exact Hob.
Qed.

(** Storing the same levels a second time changes nothing. *)
Lemma stores_idempotent (ops : list val) (ls : list val) :
  Forall settled ops -> stores ops (stores ops ls) = stores ops ls.
Proof.
  intros Hs. destruct (stores_settle ls Hs) as [Ha Hb].
  rewrite stores_in_place by exact Ha.
  rewrite <- (map_id (stores ops ls)) at 2.
  apply map_ext_in. exact Hb.
Qed.

(** *** The location of a level *)

Lemma fetch_read (domain token : string) (req : ShopifyReq num) (s : State num) :
  snd (shopify_respond (world s) req) = world s ->
  snd (fetch (ShopifyCall domain token req) s)
  = add_calls s [ShopifyCall domain token req].
Proof.
  intros H. unfold fetch. cbn [respond].
  destruct (shopify_respond (world s) req) as [r w]. simpl in *. now subst w.
Qed.

Lemma shopify_respond_shop (w : World num) : snd (shopify_respond w SShop) = w.
Proof.
  unfold shopify_respond. now destruct (shopify_outage w SShop) as [[? ?]|].
Qed.

Lemma shopify_respond_levels (w : World num) (id : string) :
  snd (shopify_respond w (SInventoryLevels id)) = w.
Proof.
  unfold shopify_respond.
  now destruct (shopify_outage w (SInventoryLevels id)) as [[? ?]|].
Qed.

Lemma getLocationIdForItem_configured (env : Env) (id : val) (s : State num) :
  first_missing (shopify_required env) = None ->
  exists t,
    getLocationIdForItem env id s
    = (location_for env (world s) (js_toString id), add_calls s t).
Proof.
  intros Hc. unfold getLocationIdForItem, try_catch, getPrimaryLocationId.
  unfold bind at 1.
  destruct (shopifyFetch_configured env SShop s Hc) as (domain & token & ->).
  rewrite fetch_read by apply shopify_respond_shop.
  unfold location_for, primary_location, default_location.
  set (c := ShopifyCall domain token SShop).
  assert (Hcatch : exists t,
    (levels <- shopifyFetch env (SInventoryLevels (js_toString id)) ;;
     let loc := get "location_id" (index0 (get "inventory_levels" levels)) in
     if truthy loc then ret loc
     else
       match DEFAULT_LOCATION_ID env with
       | Some s =>
           if s =? "" then
             throw (Error "No location_id available; set DEFAULT_LOCATION_ID in Secrets")
           else ret (VNum (Number_of_string s))
       | None =>
           throw (Error "No location_id available; set DEFAULT_LOCATION_ID in Secrets")
       end) (add_calls s [c])
    = (match response_outcome "Shopify"
               (fst (shopify_respond (world s)
                       (SInventoryLevels (js_toString id)))) with
       | Return levels =>
           let loc := get "location_id" (index0 (get "inventory_levels" levels)) in
           if truthy loc then Return loc
           else
             match DEFAULT_LOCATION_ID env with
             | Some s =>
                 if s =? "" then
                   Throw (Error "No location_id available; set DEFAULT_LOCATION_ID in Secrets")
                 else Return (VNum (Number_of_string s))
             | None =>
                 Throw (Error "No location_id available; set DEFAULT_LOCATION_ID in Secrets")
             end
       | Throw e => Throw e
       end, add_calls s t)).
  { unfold bind.
    destruct (shopifyFetch_configured env (SInventoryLevels (js_toString id))
                (add_calls s [c]) Hc) as (domain' & token' & ->).
    rewrite fetch_read by apply shopify_respond_levels.
    rewrite add_calls_app. cbn [world add_calls].
    eexists.
    destruct (response_outcome "Shopify" _) as [levels|e]; [|reflexivity].
    cbv zeta.
    destruct (truthy (get "location_id" (index0 (get "inventory_levels" levels))));
      [reflexivity|].
    destruct (DEFAULT_LOCATION_ID env) as [x|]; [|reflexivity].
    destruct (x =? ""); reflexivity. }
  destruct Hcatch as (t & Hcatch).
  destruct (response_outcome "Shopify" (fst (shopify_respond (world s) SShop)))
    as [data|e].
  - cbv zeta.
    destruct (truthy (get "primary_location_id" (get "shop" data))).
    + exists [c]. reflexivity.
    + destruct (DEFAULT_LOCATION_ID env) as [x|].
      * destruct (x =? "").
        -- exists t. exact Hcatch.
        -- exists [c]. reflexivity.
      * exists t. exact Hcatch.
  - exists t. exact Hcatch.
Qed.

(** *** What [setInventoryLevel] writes *)

Lemma apply_levels_nil (w : World num) : apply_levels [] w = w.
Proof. now destruct w. Qed.

Lemma apply_levels_app (ops ops' : list val) (w : World num) :
  apply_levels (ops ++ ops') w = apply_levels ops' (apply_levels ops w).
Proof. unfold apply_levels. simpl. now rewrite stores_app. Qed.

Lemma fetch_world (c : Call num) (s : State num) :
  world (snd (fetch c s)) = snd (respond (world s) c).
Proof. unfold fetch. now destruct (respond (world s) c). Qed.

Lemma setInventoryLevel_world (env : Env) (id available : val) (s : State num) :
  first_missing (shopify_required env) = None ->
  world (snd (setInventoryLevel env id available VUndef s))
  = apply_levels (written (level_write env (world s) id available)) (world s).
Proof.
  intros Hc. unfold setInventoryLevel. cbn [truthy]. unfold bind.
  destruct (getLocationIdForItem_configured env id s Hc) as (t & ->).
  unfold level_write.
  destruct (location_for env (world s) (js_toString id)) as [loc|e].
  - match goal with
    | |- context [shopifyFetch env ?req ?s1] =>
        destruct (shopifyFetch_configured env req s1 Hc) as (domain & token & ->)
    end.
    cbn [snd]. rewrite fetch_world. cbn [respond world add_calls].
    unfold shopify_respond.
    destruct (shopify_outage (world s) _) as [[status text]|].
    + simpl. now rewrite apply_levels_nil.
    + reflexivity.
  - simpl. now rewrite apply_levels_nil.
Qed.

Lemma wire_level_fields (loc id q : val) :
  let l := wire (VObj [("location_id", loc); ("inventory_item_id", id);
                       ("available", q)]) in
  get "location_id" l = wire loc
  /\ get "inventory_item_id" l = wire id
  /\ get "available" l = wire q.
Proof. destruct loc, id, q; repeat split; reflexivity. Qed.

Lemma filter_update_level (id : string) (l : val) (ls : list val) :
  filter (fun b => level_item b =? id) (map (update_level l) ls)
  = map (update_level l) (filter (fun b => level_item b =? id) ls).
Proof.
  induction ls as [|b ls IH]; [reflexivity|]. simpl.
  rewrite update_level_item. destruct (level_item b =? id); simpl;
    now rewrite IH.
Qed.

Lemma primary_location_levels (env : Env) (w : World num) (ls : list val) :
  primary_location env (with_levels w ls) = primary_location env w.
Proof.
  unfold primary_location, shopify_respond. cbn [shopify_outage with_levels].
  now destruct (shopify_outage w SShop) as [[? ?]|].
Qed.

(** Storing the level that [setInventoryLevel] sends does not change the
    location that is resolved for any item. *)
Lemma level_write_location (env : Env) (w : World num) (id available l : val) :
  js_toString (wire id) = js_toString id ->
  level_write env w id available = Some l ->
  forall id',
    location_for env (with_levels w (store_level l (inventory_levels w))) id'
    = location_for env w id'.
Proof.
  intros Hid Hw id'. unfold location_for at 1 2.
  rewrite primary_location_levels.
  destruct (primary_location env w) as [loc|e] eqn:Ep; [reflexivity|].
  unfold shopify_respond. cbn [shopify_outage with_levels inventory_levels].
  destruct (shopify_outage w (SInventoryLevels id')) as [[status text]|];
    [reflexivity|].
  cbn [fst response_outcome get lookup String.eqb Ascii.eqb Bool.eqb].
  cbv zeta.
  set (F := filter (fun b => level_item b =? id')).
  assert (Hgoal : get "location_id" (index0 (VArr (F (store_level l (inventory_levels w)))))
                  = get "location_id" (index0 (VArr (F (inventory_levels w))))
                  \/ (F (inventory_levels w) = []
                      /\ F (store_level l (inventory_levels w)) = [l]
                      /\ level_item l = id')).
  { unfold store_level.
    destruct (existsb (same_level l) (inventory_levels w)).
    - left. subst F. cbv beta.
      change (fun l' => if same_level l l'
                        then set_available (get "available" l) l' else l')
        with (update_level l).
      rewrite filter_update_level.
      destruct (filter _ (inventory_levels w)) as [|b rest]; [reflexivity|].
      simpl. now apply update_level_get.
    - subst F. cbv beta. rewrite filter_app.
      destruct (filter _ (inventory_levels w)) as [|b rest] eqn:EF.
      + simpl. destruct (level_item l =? id') eqn:El.
        * right. apply String.eqb_eq in El. auto.
        * left. reflexivity.
      + left. reflexivity. }
  destruct Hgoal as [->|(HF & HF' & Hl)]; [reflexivity|].
  pose proof HF as HF0. unfold F in HF0.
  rewrite HF, HF'. cbn [index0 get].
  unfold level_write in Hw.
  destruct (location_for env w (js_toString id)) as [loc|e'] eqn:Eloc;
    [|discriminate].
  destruct (shopify_outage w _) as [[? ?]|]; [discriminate|].
  destruct (wire_level_fields loc id available) as (Hloc & Hitem & _).
  cbv zeta in Hloc, Hitem.
  assert (Hbody : wire (VObj [("location_id", loc); ("inventory_item_id", id);
                              ("available", available)]) = l) by congruence.
  rewrite Hbody in Hloc, Hitem.
  assert (Hid' : id' = js_toString id).
  { rewrite <- Hl. unfold level_item. now rewrite Hitem. }
  clear Hl. subst id'. fold (get "location_id" l). rewrite Hloc.
  unfold location_for in Eloc. rewrite Ep in Eloc.
  unfold shopify_respond in Eloc.
  destruct (shopify_outage w (SInventoryLevels (js_toString id)))
    as [[status text]|]; [discriminate|].
  cbn [fst response_outcome get lookup String.eqb Ascii.eqb Bool.eqb] in Eloc.
  cbv zeta in Eloc. rewrite HF0 in Eloc.
  cbn [index0 get truthy] in Eloc. rewrite Eloc.
  unfold default_location in Eloc.
  destruct (DEFAULT_LOCATION_ID env) as [x|]; [|discriminate].
  destruct (x =? ""); [discriminate|]. injection Eloc as <-.
  cbn [wire]. destruct (num_isFinite (Number_of_string x)); [|reflexivity].
  now destruct (truthy (VNum (Number_of_string x))).
Qed.

Lemma level_write_settled (env : Env) (w : World num) (id : val) (n : num)
    (l : val) :
  num_isFinite n = true ->
  level_write env w id (VNum n) = Some l -> settled l.
Proof.
  intros Hn Hw. unfold level_write in Hw.
  destruct (location_for env w (js_toString id)) as [loc|e]; [|discriminate].
  destruct (shopify_outage w _) as [[? ?]|]; [discriminate|].
  assert (Hbody : wire (VObj [("location_id", loc); ("inventory_item_id", id);
                              ("available", VNum n)]) = l) by congruence.
  subst l. unfold settled.
  destruct loc, id; simpl; rewrite Hn; simpl; reflexivity.
Qed.

(** *** Storefronts that agree *)

Lemma agrees_refl (env : Env) (w : World num) : agrees env w w.
Proof. now repeat split. Qed.

Lemma level_write_agrees (env : Env) (w0 w : World num) (id available : val) :
  agrees env w0 w ->
  level_write env w id available = level_write env w0 id available.
Proof.
  intros (_ & _ & Hout & _ & _ & _ & Hloc). unfold level_write.
  now rewrite Hloc, Hout.
Qed.

Lemma agrees_store_level (env : Env) (w0 w : World num) (id available l : val) :
  agrees env w0 w ->
  js_toString (wire id) = js_toString id ->
  level_write env w id available = Some l ->
  agrees env w0 (apply_levels [l] w).
Proof.
  intros (Ha & Hb & Hout & Hshop & Hsearch & Hkept & Hloc) Hid Hw.
  repeat split; try assumption.
  intros id'. unfold apply_levels. simpl.
  rewrite (level_write_location env w id available Hid Hw). apply Hloc.
Qed.

Lemma location_for_variants (env : Env) (w : World num) (vs : list val)
    (id : string) :
  location_for env (with_variants w vs) id = location_for env w id.
Proof.
  unfold location_for, primary_location, shopify_respond.
  cbn [shopify_outage with_variants shop inventory_levels].
  destruct (shopify_outage w SShop) as [[? ?]|];
    destruct (shopify_outage w (SInventoryLevels id)) as [[? ?]|]; reflexivity.
Qed.

Lemma agrees_reprice (env : Env) (w0 w : World num)
    (price : option (string * val)) :
  agrees env w0 w -> agrees env w0 (reprice price w).
Proof.
  intros (Ha & Hb & Hout & Hshop & Hsearch & Hkept & Hloc).
  destruct price as [[id p]|]; [|now repeat split].
  repeat split; try assumption.
  intros id'. unfold reprice. rewrite location_for_variants. apply Hloc.
Qed.

(** *** The reads of the handler *)

Lemma requireEnv_pure (v : option string) (name : string) :
  exists out, forall s : State num, requireEnv v name s = (out, s).
Proof.
  unfold requireEnv. destruct v as [x|]; [destruct (x =? "")|];
    eexists; reflexivity.
Qed.

Lemma zohoFetch_world (env : Env) (req : ZohoReq num) (s : State num) :
  world (snd (zohoFetch env req s)) = world s.
Proof.
  destruct (zohoFetch_cases env req s) as (out & t & -> & _). reflexivity.
Qed.

(** The answer to a backend request depends on the backend only. *)
Lemma zohoFetch_backend (env : Env) (req : ZohoReq num) (s s' : State num) :
  zoho_accounts (world s') = zoho_accounts (world s) ->
  zoho_api (world s') = zoho_api (world s) ->
  fst (zohoFetch env req s') = fst (zohoFetch env req s).
Proof.
  intros Ha Hb. unfold zohoFetch, getZohoAccessToken, bind.
  repeat match goal with
  | |- context [requireEnv ?v ?n s] =>
      let Hr := fresh "Hr" in
      destruct (requireEnv_pure v n) as [[?|?] Hr]; rewrite !Hr; clear Hr;
      [|reflexivity]
  end.
  unfold fetch. cbn [respond]. rewrite Ha.
  destruct (zoho_accounts (world s)) as [json|status text|e]; try reflexivity.
  unfold member. destruct (nullish json); [reflexivity|]. unfold ret.
  repeat match goal with
  | |- context [requireEnv ?v ?n _] =>
      let Hr := fresh "Hr" in
      destruct (requireEnv_pure v n) as [[?|?] Hr]; rewrite !Hr; clear Hr;
      [|reflexivity]
  end.
  destruct (negb (URL_parses _)); [reflexivity|].
  cbn [world]. rewrite Hb.
  now rewrite !response_json_outcome.
Qed.

Lemma getZohoItemById_world (env : Env) (id : val) (s : State num) :
  world (snd (getZohoItemById env id s)) = world s.
Proof.
  unfold getZohoItemById, bind.
  pose proof (zohoFetch_world env (ZItemById (js_toString id)) s) as H.
  destruct (zohoFetch env (ZItemById (js_toString id)) s) as [[data|e] s1];
    [|exact H].
  unfold member. now destruct (nullish data).
Qed.

Lemma getZohoItemById_backend (env : Env) (id : val) (s s' : State num) :
  zoho_accounts (world s') = zoho_accounts (world s) ->
  zoho_api (world s') = zoho_api (world s) ->
  fst (getZohoItemById env id s') = fst (getZohoItemById env id s).
Proof.
  intros Ha Hb. unfold getZohoItemById, bind.
  pose proof (zohoFetch_backend env (ZItemById (js_toString id)) s s' Ha Hb) as H.
  destruct (zohoFetch env (ZItemById (js_toString id)) s) as [[data|e] s1],
           (zohoFetch env (ZItemById (js_toString id)) s') as [[data'|e'] s1'];
    simpl in H; try discriminate.
  - injection H as ->. unfold member. now destruct (nullish data).
  - exact H.
Qed.

Lemma findVariantBySKU_world (env : Env) (sku : val) (s : State num) :
  world (snd (findVariantBySKU env sku s)) = world s.
Proof.
  destruct (findVariantBySKU_state env sku s) as [->|(d & t & ->)]; reflexivity.
Qed.

Lemma find_by_sku_in (sku : val) (l : list val) (s s' : State num) (v : val) :
  find_by_sku sku l s = (Return v, s') -> v = VUndef \/ In v l.
Proof.
  induction l as [|x l IH]; simpl.
  - unfold ret. intros H. left. congruence.
  - unfold bind, member. destruct (nullish x); [discriminate|].
    unfold ret at 1. destruct (strict_eq (get "sku" x) sku).
    + unfold ret. intros H. right. left. congruence.
    + intros H. destruct (IH H); auto.
Qed.

(** A variant that the search finds is one that the storefront holds. *)
Lemma findVariantBySKU_found (env : Env) (sku : val) (s : State num) (v : val) :
  fst (findVariantBySKU env sku s) = Return v ->
  truthy v = true ->
  In v (variants (world s)).
Proof.
  rewrite findVariantBySKU_unfold.
  destruct (first_missing (shopify_required env)) as [name|] eqn:Ec.
  - destruct (missing_configuration_fails_storefront env Ec
                (SVariantsBySku (js_toString sku)) s) as (e & -> & _).
    discriminate.
  - destruct (shopifyFetch_configured env (SVariantsBySku (js_toString sku)) s Ec)
      as (domain & token & ->).
    unfold shopify_respond.
    destruct (shopify_outage (world s) _) as [[status text]|]; [discriminate|].
    cbn [fst response_outcome].
    set (l := filter _ (variants (world s))).
    unfold bind, member. cbn [nullish get lookup String.eqb Ascii.eqb Bool.eqb].
    unfold ret at 1. unfold find_in. cbn [js_or truthy].
    destruct (find_by_sku sku l _) as [[exact|e] s1] eqn:Ef; [|discriminate].
    apply find_by_sku_in in Ef. unfold ret. cbn [fst].
    intros Hv Ht. assert (Hin : In v l).
    { injection Hv as <-. unfold js_or in *.
      destruct (truthy exact) eqn:Ee.
      - rewrite Ee in Ht. rewrite Ee. destruct Ef as [->|Hin]; [discriminate|].
        exact Hin.
      - destruct l as [|x l']; [discriminate|]. cbn [index0] in *.
        destruct (truthy x) eqn:Ex.
        + rewrite Ex in *. now left.
        + discriminate. }
    apply filter_In in Hin. apply Hin.
Qed.

Lemma forallb_In {A} (f : A -> bool) (l : list A) (x : A) :
  forallb f l = true -> In x l -> f x = true.
Proof. intros H. rewrite forallb_forall in H. apply H. Qed.

Lemma price_only_id : price_only (fun v : val => v).
Proof. repeat split; auto. Qed.

Lemma price_only_store_price (id : string) (p : val) :
  price_only (store_price id p).
Proof.
  repeat split; intros.
  - now apply store_price_nullish.
  - now apply store_price_not_nullish.
  - apply store_price_truthy.
  - now apply store_price_get.
Qed.

(** The search on a storefront that agrees with [world s0] and holds the
    variants of [world s0] repriced by [g]. *)
Lemma findVariantBySKU_agrees (env : Env) (g : val -> val) (sku : val)
    (s0 s : State num) :
  price_only g ->
  agrees env (world s0) (world s) ->
  variants (world s) = map g (variants (world s0)) ->
  fst (findVariantBySKU env sku s)
  = out_map g (fst (findVariantBySKU env sku s0)).
Proof.
  intros (H1 & H2 & H3 & H4) (_ & _ & Hout & _ & Hsearch & _ & _) Hvs.
  apply (findVariantBySKU_repriced H1 H2 H3 H4). now repeat split.
Qed.

(** The quantity of an adjustment line is a finite number when it is a
    number. *)
Lemma coerceNumber_finite (v : val) (n : num) :
  coerceNumber v = VNum n -> num_isFinite n = true.
Proof.
  unfold coerceNumber. destruct (nullish v); [discriminate|].
  destruct v as [| |b|x|s|l|fields]; try discriminate.
  - destruct (num_isFinite x) eqn:E; [|discriminate]. congruence.
  - destruct (num_isFinite (Number_of_string s)) eqn:E; [|discriminate].
    congruence.
Qed.

Lemma coerceNumber_cases (v : val) :
  coerceNumber v = VUndef
  \/ exists n, coerceNumber v = VNum n /\ num_isFinite n = true.
Proof.
  destruct (coerceNumber v) as [| |b|n|s|l|fields] eqn:E; auto;
    try (unfold coerceNumber in E; destruct (nullish v); [discriminate|];
         destruct v; try discriminate;
         match type of E with
         | (if ?c then _ else _) = _ => destruct c; discriminate
         end).
  right. exists n. split; [reflexivity|]. exact (coerceNumber_finite v E).
Qed.

Lemma js_coalesce_number (a b : val) :
  (a = VUndef \/ exists x, a = VNum x /\ num_isFinite x = true) ->
  (b = VUndef \/ exists x, b = VNum x /\ num_isFinite x = true) ->
  js_coalesce a b = VUndef
  \/ exists x, js_coalesce a b = VNum x /\ num_isFinite x = true.
Proof.
  intros [->|(x & -> & Hx)] Hb; [exact Hb|]. right. now exists x.
Qed.

Lemma adjustment_quantity_finite (adj li item : val) :
  is_number (adjustment_quantity adj li item) = true ->
  exists n, adjustment_quantity adj li item = VNum n /\ num_isFinite n = true.
Proof.
  unfold adjustment_quantity.
  destruct (js_coalesce_number
              (js_coalesce_number (coerceNumber_cases (get "new_quantity" li))
                 (coerceNumber_cases (get "new_quantity" adj)))
              (coerceNumber_cases
                 (js_coalesce
                    (js_coalesce (get "available_stock" item)
                                 (get "stock_on_hand" item))
                    (get "actual_available_stock" item)))) as [->|H];
    [discriminate|auto].
Qed.

(** *** What [updateVariantPrice] writes *)

Lemma store_price_absent (id : string) (p : val) (vs : list val) :
  existsb (fun v => variant_id v =? id) vs = false ->
  map (store_price id p) vs = vs.
Proof.
  induction vs as [|v vs IH]; [reflexivity|]. simpl.
  intros H. apply orb_false_iff in H. destruct H as [Hv Hvs].
  rewrite (IH Hvs). unfold store_price. now rewrite Hv.
Qed.

Lemma reprice_none (w : World num) : with_variants w (variants w) = w.
Proof. now destruct w. Qed.

Lemma updateVariantPrice_world (env : Env) (id price : val) (s : State num) :
  first_missing (shopify_required env) = None ->
  world (snd (updateVariantPrice env id price s))
  = reprice (price_write (world s) id price) (world s).
Proof.
  intros Hc. unfold updateVariantPrice, price_write.
  match goal with
  | |- context [shopifyFetch env ?req s] =>
      destruct (shopifyFetch_configured env req s Hc) as (domain & token & ->)
  end.
  cbn [snd]. rewrite fetch_world. cbn [respond]. unfold shopify_respond.
  destruct (shopify_outage (world s) _) as [[status text]|]; [reflexivity|].
  destruct (existsb _ (variants (world s))) eqn:E.
  - cbn [snd reprice]. now rewrite price_on_the_wire.
  - cbn [snd reprice]. rewrite store_price_absent by exact E.
    now rewrite reprice_none.
Qed.

(** *** The writes of one delivery *)

Section Delivery.

Variable env : Env.
Variable w0 : World num.
Hypothesis variants_json : forallb is_json (variants w0) = true.

(** The item of a variant that the search finds goes over the wire as it
    is. *)
Lemma found_item_wire (sku variant : val) :
  fst (findVariantBySKU env sku (starting w0)) = Return variant ->
  truthy variant = true ->
  js_toString (wire (get "inventory_item_id" variant))
  = js_toString (get "inventory_item_id" variant).
Proof.
  intros Hf Ht. rewrite wire_get_json; [reflexivity|].
  apply (forallb_In _ _ _ variants_json).
  exact (findVariantBySKU_found env sku (starting w0) Hf Ht).
Qed.

Lemma adjustment_line_writes (adj li : val) :
  Forall settled (adjustment_line_levels env w0 adj li)
  /\ forall s g,
       price_only g ->
       agrees env w0 (world s) ->
       variants (world s) = map g (variants w0) ->
       world (snd (zoho_adjustment_line env adj li s))
       = apply_levels (adjustment_line_levels env w0 adj li) (world s)
       /\ agrees env w0
            (apply_levels (adjustment_line_levels env w0 adj li) (world s)).
Proof.
  unfold adjustment_line_levels.
  set (s0 := starting w0).
  split.
  - destruct (negb (truthy (get "item_id" li))); [constructor|].
    destruct (fst (getZohoItemById _ _ _)) as [item|e]; [|constructor].
    destruct (negb (truthy (get "sku" item))); [constructor|].
    destruct (fst (findVariantBySKU _ _ _)) as [variant|e]; [|constructor].
    destruct (negb (truthy variant)); [constructor|].
    destruct (is_number (adjustment_quantity adj li item)) eqn:En;
      [|constructor].
    destruct (adjustment_quantity_finite adj li item En) as (n & -> & Hn).
    destruct (level_write _ _ _ _) as [l|] eqn:Ew; [|constructor].
    constructor; [|constructor]. exact (@level_write_settled _ _ _ _ _ Hn Ew).
  - intros s g Hg Hag Hvs. unfold zoho_adjustment_line, try_catch.
    destruct (negb (truthy (get "item_id" li))).
    { cbn [ret snd]. rewrite apply_levels_nil. now split. }
    unfold bind at 1.
    pose proof (getZohoItemById_world env (get "item_id" li) s) as W1.
    assert (O1 : fst (getZohoItemById env (get "item_id" li) s)
                 = fst (getZohoItemById env (get "item_id" li) s0)).
    { apply getZohoItemById_backend; apply Hag. }
    destruct (getZohoItemById env (get "item_id" li) s) as [o1 s1].
    cbn [fst snd] in W1, O1. rewrite <- O1. clear O1.
    destruct o1 as [item|e].
    2:{ cbn [ret snd]. rewrite W1, apply_levels_nil. now split. }
    destruct (negb (truthy (get "sku" item))).
    { cbn [ret snd]. rewrite W1, apply_levels_nil. now split. }
    unfold bind at 1.
    pose proof (findVariantBySKU_world env (get "sku" item) s1) as W2.
    assert (O2 : fst (findVariantBySKU env (get "sku" item) s1)
                 = out_map g (fst (findVariantBySKU env (get "sku" item) s0))).
    { apply findVariantBySKU_agrees; [exact Hg| |]; now rewrite W1. }
    destruct (findVariantBySKU env (get "sku" item) s1) as [o2 s2] eqn:E2.
    cbn [fst snd] in W2, O2.
    destruct (fst (findVariantBySKU env (get "sku" item) s0))
      as [variant|e] eqn:E0; cbn [out_map] in O2; subst o2.
    2:{ cbn [ret snd]. rewrite W2, W1, apply_levels_nil. now split. }
    destruct Hg as (_ & _ & Hgt & Hgg).
    rewrite Hgt, (Hgg "inventory_item_id") by discriminate.
    destruct (negb (truthy variant)) eqn:Ev.
    { cbn [ret snd]. rewrite W2, W1, apply_levels_nil. now split. }
    destruct (is_number (adjustment_quantity adj li item)).
    2:{ cbn [ret snd]. rewrite W2, W1, apply_levels_nil. now split. }
    pose proof (findVariantBySKU_returned_configured env (get "sku" item) s1 E2)
      as Hc.
    pose proof (setInventoryLevel_world env (get "inventory_item_id" variant)
                  (adjustment_quantity adj li item) s2 Hc) as W3.
    rewrite W2, W1 in W3. rewrite (level_write_agrees _ _ Hag) in W3.
    assert (Hres : world (snd (setInventoryLevel env
                                 (get "inventory_item_id" variant)
                                 (adjustment_quantity adj li item) VUndef s2))
                   = apply_levels
                       (written (level_write env w0
                                   (get "inventory_item_id" variant)
                                   (adjustment_quantity adj li item)))
                       (world s)
                   -> agrees env w0
                        (apply_levels
                           (written (level_write env w0
                                       (get "inventory_item_id" variant)
                                       (adjustment_quantity adj li item)))
                           (world s))).
    { intros _.
      destruct (level_write env w0 _ _) as [l|] eqn:Ew.
      - cbn [written]. apply (@agrees_store_level env w0 (world s)
                                (get "inventory_item_id" variant)
                                (adjustment_quantity adj li item) l Hag).
        + apply (found_item_wire (get "sku" item)); [exact E0|].
          now apply negb_false_iff.
        + now rewrite (level_write_agrees _ _ Hag).
      - cbn [written]. now rewrite apply_levels_nil. }
    unfold bind.
    destruct (setInventoryLevel env (get "inventory_item_id" variant)
                (adjustment_quantity adj li item) VUndef s2) as [[r|e] s3];
      cbn [ret snd] in *; auto.
Qed.

Lemma adjustment_lines_write (adj : val) (lines : list val) :
  Forall settled (flat_map (adjustment_line_levels env w0 adj) lines)
  /\ forall acc s g,
       price_only g ->
       agrees env w0 (world s) ->
       variants (world s) = map g (variants w0) ->
       world (snd (for_fold lines acc
                     (fun acc li =>
                        u <- zoho_adjustment_line env adj li ;;
                        ret (acc ++ [u])%list) s))
       = apply_levels (flat_map (adjustment_line_levels env w0 adj) lines)
                      (world s)
       /\ agrees env w0
            (apply_levels (flat_map (adjustment_line_levels env w0 adj) lines)
                          (world s)).
Proof.
  induction lines as [|li rest (Hs2 & IH)].
  - split; [constructor|]. intros acc s g _ Hag _.
    cbn [for_fold ret snd flat_map]. rewrite apply_levels_nil. now split.
  - destruct (adjustment_line_writes adj li) as (Hs1 & Hline).
    cbn [flat_map]. split; [now apply Forall_app|].
    intros acc s g Hg Hag Hvs. cbn [for_fold]. unfold bind at 1 2.
    destruct (Hline s g Hg Hag Hvs) as [W1 Hag1].
    destruct (zoho_adjustment_line_returns env adj li s) as (u & s1 & E1).
    rewrite E1 in *. cbn [snd ret] in *.
    rewrite apply_levels_app, <- W1.
    apply (IH _ s1 g Hg).
    + now rewrite W1.
    + now rewrite W1.
Qed.

Lemma adjustment_writes (body : val) :
  Forall settled (adjustment_levels env w0 body)
  /\ forall s g,
       price_only g ->
       agrees env w0 (world s) ->
       variants (world s) = map g (variants w0) ->
       world (snd (zoho_adjustment env body s))
       = apply_levels (adjustment_levels env w0 body) (world s)
       /\ agrees env w0 (apply_levels (adjustment_levels env w0 body) (world s)).
Proof.
  unfold zoho_adjustment, adjustment_levels. cbv zeta.
  destruct (adjustment_lines_write
              (js_or (get "inventory_adjustment" body) (VObj []))
              (array_or_empty
                 (get "line_items"
                    (js_or (get "inventory_adjustment" body) (VObj [])))))
    as (Hs & H).
  split; [exact Hs|]. intros s g Hg Hag Hvs.
  specialize (H [] s g Hg Hag Hvs). unfold bind.
  destruct (for_fold _ _ _ s) as [[updates|e] s1]; exact H.
Qed.

Lemma first_number_cases (candidates : list val) :
  first_number candidates = VUndef
  \/ exists n, first_number candidates = VNum n /\ num_isFinite n = true.
Proof.
  induction candidates as [|c rest IH]; [now left|]. simpl.
  destruct (coerceNumber_cases c) as [->|(n & -> & Hn)]; [exact IH|].
  right. now exists n.
Qed.

Lemma pickAvailableStock_finite (body : val) :
  is_number (pickAvailableStock body) = true ->
  exists n, pickAvailableStock body = VNum n /\ num_isFinite n = true.
Proof.
  unfold pickAvailableStock. cbv zeta.
  match goal with
  | |- context [first_number ?l] =>
      destruct (first_number_cases l) as [->|(n & -> & Hn)]
  end.
  - cbn [nullish negb].
    destruct (coerceNumber_cases (get "quantity" body)) as [->|(n & -> & Hn)].
    + discriminate.
    + intros _. now exists n.
  - intros _. now exists n.
Qed.

Lemma item_update_writes (body : val) :
  Forall settled (item_update_levels env w0 body)
  /\ forall s g,
       price_only g ->
       agrees env w0 (world s) ->
       variants (world s) = map g (variants w0) ->
       world (snd (zoho_item_update env body s))
       = apply_levels (item_update_levels env w0 body)
                      (reprice (item_update_price env w0 body) (world s))
       /\ agrees env w0
            (apply_levels (item_update_levels env w0 body)
                          (reprice (item_update_price env w0 body) (world s))).
Proof.
  unfold item_update_levels, item_update_price.
  set (s0 := starting w0).
  set (sku := pickSKU body).
  split.
  - destruct (negb (truthy sku)); [constructor|].
    destruct (fst (findVariantBySKU _ _ _)) as [variant|e]; [|constructor].
    destruct (negb (truthy variant)); [constructor|].
    destruct (is_number (pickAvailableStock body)) eqn:En; [|constructor].
    destruct (pickAvailableStock_finite body En) as (n & -> & Hn).
    destruct (level_write _ _ _ _) as [l|] eqn:Ew; [|constructor].
    constructor; [|constructor]. exact (@level_write_settled _ _ _ _ _ Hn Ew).
  - intros s g Hg Hag Hvs. unfold zoho_item_update. cbv zeta. fold sku.
    destruct (negb (truthy sku)).
    { cbn [ret snd reprice]. rewrite apply_levels_nil. now split. }
    unfold bind at 1.
    pose proof (findVariantBySKU_world env sku s) as W1.
    pose proof (@findVariantBySKU_agrees env g sku s0 s Hg Hag Hvs) as O1.
    destruct (findVariantBySKU env sku s) as [o1 s1] eqn:E1.
    cbn [fst snd] in W1, O1.
    destruct (fst (findVariantBySKU env sku s0)) as [variant|e] eqn:E0;
      cbn [out_map] in O1; subst o1.
    2:{ cbn [ret snd reprice]. rewrite W1, apply_levels_nil. now split. }
    pose proof (findVariantBySKU_returned_configured env sku s E1) as Hc.
    destruct Hg as (_ & _ & Hgt & Hgg).
    rewrite Hgt, (Hgg "inventory_item_id"), (Hgg "id") by discriminate.
    destruct (negb (truthy variant)) eqn:Ev.
    { cbn [ret snd reprice]. rewrite W1, apply_levels_nil. now split. }
    set (price := if negb (nullish (pickPrice body))
                  then price_write w0 (get "id" variant) (pickPrice body)
                  else None).
    unfold bind at 1.
    match goal with
    | |- context [match ?m s1 with _ => _ end] =>
        assert (W2 : world (snd (m s1)) = reprice price (world s)
                     /\ exists r s2, m s1 = (Return r, s2))
    end.
    { subst price. destruct (negb (nullish (pickPrice body))).
      - unfold try_catch, bind.
        pose proof (updateVariantPrice_world env (get "id" variant)
                      (pickPrice body) s1 Hc) as W.
        rewrite W1 in W. unfold price_write in W.
        pose proof Hag as (_ & _ & Hout & _ & _ & Hkept & _).
        rewrite Hout, Hkept in W.
        fold (price_write w0 (get "id" variant) (pickPrice body)) in W.
        destruct (updateVariantPrice env (get "id" variant) (pickPrice body) s1)
          as [[r|e] s2]; unfold ret; cbn [snd] in *; eauto.
      - unfold ret. cbn [snd reprice]. rewrite W1. eauto. }
    destruct W2 as (W2 & results & s2 & E2). rewrite E2 in *. cbn [snd] in W2.
    assert (Hag2 : agrees env w0 (world s2)).
    { rewrite W2. now apply agrees_reprice. }
    unfold bind at 1.
    destruct (is_number (pickAvailableStock body)).
    2:{ cbn [ret snd]. rewrite apply_levels_nil, <- W2. now split. }
    unfold try_catch, bind.
    pose proof (setInventoryLevel_world env (get "inventory_item_id" variant)
                  (pickAvailableStock body) s2 Hc) as W3.
    rewrite (level_write_agrees _ _ Hag2) in W3. rewrite W2 in W3.
    assert (Hres : agrees env w0
                     (apply_levels
                        (written (level_write env w0
                                    (get "inventory_item_id" variant)
                                    (pickAvailableStock body)))
                        (reprice price (world s)))).
    { destruct (level_write env w0 _ _) as [l|] eqn:Ew.
      - cbn [written]. rewrite <- W2.
        apply (@agrees_store_level env w0 (world s2)
                 (get "inventory_item_id" variant)
                 (pickAvailableStock body) l Hag2).
        + apply (found_item_wire sku); [exact E0|].
          now apply negb_false_iff.
        + now rewrite (level_write_agrees _ _ Hag2).
      - cbn [written]. rewrite apply_levels_nil, <- W2. exact Hag2. }
    destruct (setInventoryLevel env (get "inventory_item_id" variant)
                (pickAvailableStock body) VUndef s2) as [[r|e] s3];
      cbn [ret snd] in *; auto.
Qed.

Lemma parse_body_pure (b : val) :
  exists out, forall s : State num, parse_body b s = (out, s).
Proof.
  unfold parse_body. destruct b; try (eexists; reflexivity).
  destruct (JSON_parse s); eexists; reflexivity.
Qed.

Lemma delivery_writes (request : Request num) :
  exists price ops,
    Forall settled ops
    /\ forall s g,
         price_only g ->
         agrees env w0 (world s) ->
         variants (world s) = map g (variants w0) ->
         world (snd (zoho_webhook_handler env request s))
         = apply_levels ops (reprice price (world s))
         /\ agrees env w0 (apply_levels ops (reprice price (world s))).
Proof.
  assert (Hcatch : forall (m : M num (Reply num)) s,
             world (snd (try_catch m zoho_webhook_failure s))
             = world (snd (m s))).
  { intros m s. unfold try_catch. now destruct (m s) as [[r|e] s1]. }
  assert (Hnone : forall m : M num (Reply num),
             (forall s, world (snd (m s)) = world s) ->
             exists price ops,
               Forall settled ops
               /\ forall s g,
                    price_only g ->
                    agrees env w0 (world s) ->
                    variants (world s) = map g (variants w0) ->
                    world (snd (try_catch m zoho_webhook_failure s))
                    = apply_levels ops (reprice price (world s))
                    /\ agrees env w0 (apply_levels ops (reprice price (world s)))).
  { intros m Hm. exists None, []. split; [constructor|].
    intros s g _ Hag _. rewrite Hcatch, Hm. cbn [reprice].
    rewrite apply_levels_nil. now split. }
  unfold zoho_webhook_handler.
  destruct (ZOHO_WEBHOOK_SECRET env) as [SECRET|]; [|now apply Hnone].
  destruct (SECRET =? ""); [now apply Hnone|].
  destruct (negb (zoho_authorized SECRET request)); [now apply Hnone|].
  unfold zoho_webhook_process.
  destruct (parse_body_pure (body request)) as [[b|e] Hp].
  2:{ apply Hnone. intros s. unfold bind. now rewrite Hp. }
  destruct (negb (truthy (get "inventory_adjustment" b))) eqn:Eshape.
  - destruct (item_update_writes b) as (Hs & H).
    exists (item_update_price env w0 b), (item_update_levels env w0 b).
    split; [exact Hs|]. intros s g Hg Hag Hvs.
    rewrite Hcatch. unfold bind. rewrite Hp. cbv zeta. rewrite Eshape.
    now apply (H s g).
  - destruct (adjustment_writes b) as (Hs & H).
    exists None, (adjustment_levels env w0 b).
    split; [exact Hs|]. intros s g Hg Hag Hvs.
    rewrite Hcatch. unfold bind. rewrite Hp. cbv zeta. rewrite Eshape.
    cbn [reprice]. now apply (H s g).
Qed.

End Delivery.

Lemma reprice_idempotent (price : option (string * val)) (w : World num) :
  reprice price (reprice price w) = reprice price w.
Proof.
  destruct price as [[id p]|]; [|reflexivity].
  unfold reprice, with_variants. cbn [variants]. f_equal.
  rewrite map_map. apply map_ext. intros v. apply store_price_idempotent.
Qed.

Lemma reprice_apply_levels (price : option (string * val)) (ops : list val)
    (w : World num) :
  reprice price (apply_levels ops w) = apply_levels ops (reprice price w).
Proof. now destruct price as [[id p]|]. Qed.

Lemma apply_levels_idempotent (ops : list val) (w : World num) :
  Forall settled ops ->
  apply_levels ops (apply_levels ops w) = apply_levels ops w.
Proof.
  intros Hs. unfold apply_levels, with_levels. cbn [inventory_levels].
  now rewrite stores_idempotent.
Qed.

(** *** The level that a delivery leaves *)

Lemma set_available_available (q b : val) :
  is_object b = true -> get "available" (set_available q b) = q.
Proof.
  destruct b; try discriminate. intros _. cbn [set_available get].
  apply lookup_set_field_same.
Qed.

Lemma set_available_object (q b : val) :
  is_object (set_available q b) = is_object b.
Proof. now destruct b. Qed.

Lemma store_level_objects (l : val) (ls : list val) :
  is_object l = true ->
  forallb is_object ls = true ->
  forallb is_object (store_level l ls) = true.
Proof.
  intros Hl Hls. unfold store_level. destruct (existsb (same_level l) ls).
  - rewrite forallb_forall in *. intros b Hb.
    apply in_map_iff in Hb. destruct Hb as (b' & <- & Hb').
    destruct (same_level l b'); [rewrite set_available_object|]; auto.
  - rewrite forallb_app, Hls. simpl. now rewrite Hl.
Qed.

Lemma stores_objects (ops ls : list val) :
  Forall (fun o => is_object o = true) ops ->
  forallb is_object ls = true ->
  forallb is_object (stores ops ls) = true.
Proof.
  intros Hops. revert ls. induction Hops as [|o ops Ho Hops IH]; intros ls Hls.
  - exact Hls.
  - change (stores (o :: ops) ls) with (stores ops (store_level o ls)).
    apply IH. now apply store_level_objects.
Qed.

Lemma same_level_sym (a b : val) : same_level a b = same_level b a.
Proof. unfold same_level. now rewrite (String.eqb_sym (level_item a)),
         (String.eqb_sym (level_location a)). Qed.

(** Storing [l] leaves its quantity, and no other, at its level. *)
Lemma store_level_sets (l : val) (ls : list val) :
  forallb is_object ls = true ->
  holds_only (store_level l ls) l (get "available" l).
Proof.
  intros Hls. split; [apply store_level_present|].
  intros b Hb Hsame. unfold store_level in Hb.
  destruct (existsb (same_level l) ls) eqn:E.
  - apply in_map_iff in Hb. destruct Hb as (b' & <- & Hb').
    fold (update_level l b') in Hsame. rewrite same_level_update in Hsame.
    rewrite Hsame. apply set_available_available.
    exact (forallb_In _ _ _ Hls Hb').
  - apply in_app_or in Hb. destruct Hb as [Hb|[<-|[]]]; [|reflexivity].
    exfalso. assert (F : existsb (same_level l) ls = true)
      by (apply existsb_exists; now exists b).
    congruence.
Qed.

(** Storing a level of another item or location does not touch it. *)
Lemma store_level_other (l o q : val) (ls : list val) :
  same_level l o = false ->
  holds_only ls l q -> holds_only (store_level o ls) l q.
Proof.
  intros Hlo [Hex Hall]. split; [now apply store_level_keeps_present|].
  intros b Hb Hsame. unfold store_level in Hb.
  destruct (existsb (same_level o) ls).
  - apply in_map_iff in Hb. destruct Hb as (b' & <- & Hb').
    fold (update_level o b') in Hsame. rewrite same_level_update in Hsame.
    assert (Hob : same_level o b' = false).
    { rewrite same_level_sym, <- (same_level_left l b' o Hsame). exact Hlo. }
    rewrite Hob. now apply Hall.
  - apply in_app_or in Hb. destruct Hb as [Hb|[<-|[]]]; [now apply Hall|].
    congruence.
Qed.

Lemma stores_others (l q : val) (ops ls : list val) :
  (forall o, In o ops -> same_level l o = false) ->
  holds_only ls l q -> holds_only (stores ops ls) l q.
Proof.
  revert ls. induction ops as [|o ops IH]; intros ls Hops H; [exact H|].
  change (stores (o :: ops) ls) with (stores ops (store_level o ls)).
  apply IH; [intros o' Ho'; apply Hops; now right|].
  apply store_level_other; [apply Hops; now left|exact H].
Qed.

(** The last level stored for an item and a location is the one that
    stays. *)
Lemma stores_last_wins (l : val) (pre post ls : list val) :
  forallb is_object ls = true ->
  Forall (fun o => is_object o = true) pre ->
  (forall o, In o post -> same_level l o = false) ->
  holds_only (stores (pre ++ l :: post) ls) l (get "available" l).
Proof.
  intros Hls Hpre Hpost. rewrite stores_app.
  change (stores (l :: post) (stores pre ls))
    with (stores post (store_level l (stores pre ls))).
  apply stores_others; [exact Hpost|].
  apply store_level_sets. now apply stores_objects.
Qed.

Lemma holds_only_quantities (w : World num) (l q : val) :
  holds_only (inventory_levels w) l q ->
  level_quantities w l <> []
  /\ forall q', In q' (level_quantities w l) -> q' = q.
Proof.
  intros [Hex Hall]. unfold level_quantities. split.
  - apply existsb_exists in Hex. destruct Hex as (b & Hb & Hsame).
    intros E. apply map_eq_nil in E.
    assert (Hin : In b (filter (same_level l) (inventory_levels w)))
      by (apply filter_In; now split).
    rewrite E in Hin. contradiction.
  - intros q' Hq'. apply in_map_iff in Hq'. destruct Hq' as (b & <- & Hb).
    apply filter_In in Hb. destruct Hb as [Hb Hsame]. now apply Hall.
Qed.

Lemma level_write_object (env : Env) (w : World num) (id q l : val) :
  level_write env w id q = Some l -> is_object l = true.
Proof.
  unfold level_write.
  destruct (location_for env w (js_toString id)) as [loc|e]; [|discriminate].
  destruct (shopify_outage w _) as [[? ?]|]; [discriminate|].
  intros H. injection H as <-. now destruct loc, id, q.
Qed.

Lemma level_write_available (env : Env) (w : World num) (id l : val) (n : num) :
  num_isFinite n = true ->
  level_write env w id (VNum n) = Some l -> get "available" l = VNum n.
Proof.
  intros Hn. unfold level_write.
  destruct (location_for env w (js_toString id)) as [loc|e]; [|discriminate].
  destruct (shopify_outage w _) as [[? ?]|]; [discriminate|].
  intros H. injection H as <-.
  destruct (wire_level_fields loc id (VNum n)) as (_ & _ & Hq).
  cbv zeta in Hq. etransitivity; [exact Hq|]. cbn [wire]. now rewrite Hn.
Qed.

Lemma out_map_id (o : Outcome val) : out_map (fun v => v) o = o.
Proof. now destruct o. Qed.

(** The reads of the handler depend on the remote systems only. *)
Lemma findVariantBySKU_of_world (env : Env) (sku : val) (s : State num) :
  fst (findVariantBySKU env sku (starting (world s)))
  = fst (findVariantBySKU env sku s).
Proof.
  symmetry. rewrite <- (out_map_id (fst (findVariantBySKU env sku (starting (world s))))).
  apply findVariantBySKU_agrees.
  - apply price_only_id.
  - apply agrees_refl.
  - cbn [starting world]. now rewrite map_id.
Qed.

Lemma getZohoItemById_of_world (env : Env) (id : val) (s : State num) :
  fst (getZohoItemById env id (starting (world s)))
  = fst (getZohoItemById env id s).
Proof. now apply getZohoItemById_backend. Qed.

Lemma adjustment_line_levels_objects (env : Env) (w : World num) (adj li : val) :
  Forall (fun o => is_object o = true) (adjustment_line_levels env w adj li).
Proof.
  unfold adjustment_line_levels.
  destruct (negb (truthy (get "item_id" li))); [constructor|].
  destruct (fst (getZohoItemById _ _ _)) as [item|e]; [|constructor].
  destruct (negb (truthy (get "sku" item))); [constructor|].
  destruct (fst (findVariantBySKU _ _ _)) as [variant|e]; [|constructor].
  destruct (negb (truthy variant)); [constructor|].
  destruct (is_number (adjustment_quantity adj li item)); [|constructor].
  destruct (level_write _ _ _ _) as [l|] eqn:Ew; [|constructor].
  constructor; [|constructor]. eapply level_write_object. exact Ew.
Qed.

(** A line that asks for a quantity writes its level, and a level that a
    line writes is one that the line asks for. *)
Lemma adjustment_line_sets_levels (env : Env) (s : State num) (adj li l : val)
    (n : num) :
  adjustment_line_sets env s adj li l n ->
  adjustment_line_levels env (world s) adj li = [l]
  /\ num_isFinite n = true.
Proof.
  intros (Hid & item & variant & Hitem & Hsku & Hfind & Hv & Hq & Hw).
  unfold adjustment_line_levels.
  rewrite Hid, getZohoItemById_of_world, Hitem, Hsku,
    findVariantBySKU_of_world, Hfind, Hv.
  cbn [negb]. rewrite Hq. cbn [is_number]. rewrite Hw. split; [reflexivity|].
  assert (En : is_number (adjustment_quantity adj li item) = true)
    by now rewrite Hq.
  destruct (adjustment_quantity_finite adj li item En) as (n' & E & Hn).
  congruence.
Qed.

Lemma adjustment_line_levels_set (env : Env) (s : State num) (adj li l : val) :
  In l (adjustment_line_levels env (world s) adj li) ->
  exists n, adjustment_line_sets env s adj li l n.
Proof.
  unfold adjustment_line_levels.
  rewrite getZohoItemById_of_world.
  destruct (truthy (get "item_id" li)) eqn:Hid; [|intros []]. cbn [negb].
  destruct (fst (getZohoItemById env (get "item_id" li) s)) as [item|e]
    eqn:Hitem; [|intros []].
  rewrite findVariantBySKU_of_world.
  destruct (truthy (get "sku" item)) eqn:Hsku; [|intros []]. cbn [negb].
  destruct (fst (findVariantBySKU env (get "sku" item) s)) as [variant|e]
    eqn:Hfind; [|intros []].
  destruct (truthy variant) eqn:Hv; [|intros []]. cbn [negb].
  destruct (is_number (adjustment_quantity adj li item)) eqn:En; [|intros []].
  destruct (adjustment_quantity_finite adj li item En) as (n & E & Hn).
  rewrite E.
  destruct (level_write _ _ _ _) as [l'|] eqn:Ew; [|intros []].
  intros [<-|[]]. exists n. split; [exact Hid|].
  exists item, variant. now repeat split.
Qed.

Lemma reprice_levels (price : option (string * val)) (w : World num) :
  inventory_levels (reprice price w) = inventory_levels w.
Proof. now destruct price as [[id p]|]. Qed.

(** The world that an authenticated delivery leaves is the one that its
    payload leaves. *)
Lemma delivery_world (env : Env) (request : Request num) (s : State num)
    (b : val) :
  zoho_authenticated env request = true ->
  fst (parse_body (body request) s) = Return b ->
  world (snd (zoho_webhook_handler env request s))
  = world (snd ((if negb (truthy (get "inventory_adjustment" b))
                 then zoho_item_update env b
                 else zoho_adjustment env b) s)).
Proof.
  intros Hauth Hparse. unfold zoho_authenticated in Hauth.
  unfold zoho_webhook_handler.
  destruct (ZOHO_WEBHOOK_SECRET env) as [SECRET|]; [|discriminate].
  apply andb_true_iff in Hauth. destruct Hauth as [Hne Hauth].
  apply negb_true_iff in Hne. rewrite Hne, Hauth. cbn [negb].
  unfold try_catch, zoho_webhook_process, bind.
  destruct (parse_body_pure (body request)) as [out Hp].
  rewrite Hp in *. cbn [fst] in Hparse. subst out. cbv zeta.
  match goal with
  | |- context [(if ?c then ?x else ?y) s] =>
      destruct ((if c then x else y) s) as [[r|e] s1]; reflexivity
  end.
Qed.


(** ** C7, continued: the loop on systems that serve *)

Lemma store_price_keeps_variants (id : string) (p : val) (vs : list val) :
  forallb (fun v => negb (nullish v)) vs = true ->
  forallb (fun v => negb (nullish v)) (map (store_price id p) vs) = true.
Proof.
  induction vs as [|v vs IH]; simpl; [reflexivity|].
  intros H. apply andb_true_iff in H. destruct H as [Hv Hvs].
  rewrite (IH Hvs), andb_true_r. apply negb_true_iff in Hv.
  apply negb_true_iff. now apply store_price_not_nullish.
Qed.

Lemma find_by_sku_returns (sku : val) (l : list val) (s : State num) :
  forallb (fun v => negb (nullish v)) l = true ->
  find_by_sku sku l s = (Return (find_match sku l), s).
Proof. apply find_by_sku_match. Qed.

Lemma forallb_filter {A} (f g : A -> bool) (l : list A) :
  forallb f l = true -> forallb f (filter g l) = true.
Proof.
  induction l as [|x l IH]; simpl; [reflexivity|].
  intros H. apply andb_true_iff in H. destruct H as [Hx Hl].
  destruct (g x); simpl; [rewrite Hx|]; auto.
Qed.

(** The search on a storefront that serves. *)
Lemma findVariantBySKU_served (env : Env) (sku : val) (s : State num) :
  storefront_serves env (world s) ->
  exists variant s1,
    findVariantBySKU env sku s = (Return variant, s1)
    /\ world s1 = world s.
Proof.
  intros (Hc & Hout & _ & Hvs).
  pose proof (findVariantBySKU_world env sku s) as Hw.
  rewrite findVariantBySKU_unfold in *.
  destruct (shopifyFetch_configured env (SVariantsBySku (js_toString sku)) s Hc)
    as (domain & token & E). rewrite E in *. clear E.
  unfold shopify_respond in *. rewrite Hout in *.
  cbn [fst response_outcome] in *.
  unfold bind, member in *. cbn [nullish get lookup String.eqb Ascii.eqb Bool.eqb] in *.
  unfold ret at 1. unfold ret at 1 in Hw. unfold find_in in *. cbn [js_or truthy] in *.
  rewrite find_by_sku_returns in * by (now apply forallb_filter).
  unfold ret in *. eexists _, _. split; [reflexivity|exact Hw].
Qed.

Lemma storefront_serves_variants (env : Env) (w : World num) (id : string) (p : val) :
  storefront_serves env w ->
  storefront_serves env (with_variants w (map (store_price id p) (variants w))).
Proof.
  intros (Hc & Hout & Hloc & Hvs). repeat split; try assumption.
  cbn [variants with_variants]. now apply store_price_keeps_variants.
Qed.

Lemma storefront_serves_levels (env : Env) (w : World num) (ls : list val) :
  storefront_serves env w -> storefront_serves env (with_levels w ls).
Proof. intros (Hc & Hout & Hloc & Hvs). now repeat split. Qed.

Lemma variant_is_held (vs : list val) (variant : val) :
  In variant vs ->
  existsb (fun v => variant_id v =? variant_id variant) vs = true.
Proof.
  intros Hin. apply existsb_exists. exists variant. split; [exact Hin|].
  apply String.eqb_refl.
Qed.

Lemma updateVariantPrice_served (env : Env) (variant price : val) (s : State num) :
  storefront_serves env (world s) ->
  In variant (variants (world s)) ->
  exists r s',
    updateVariantPrice env (get "id" variant) price s = (Return r, s')
    /\ storefront_serves env (world s').
Proof.
  intros Hs Hin. pose proof Hs as (Hc & Hout & _ & _).
  unfold updateVariantPrice.
  match goal with
  | |- context [shopifyFetch env ?req s] =>
      destruct (shopifyFetch_configured env req s Hc) as (domain & token & ->)
  end.
  unfold fetch. cbn [respond]. unfold shopify_respond. rewrite Hout.
  fold (variant_id variant). rewrite (variant_is_held _ _ Hin).
  cbn [fst snd response_outcome world].
  eexists _, _. split; [reflexivity|]. cbn [world].
  now apply storefront_serves_variants.
Qed.

Lemma setInventoryLevel_served (env : Env) (id available : val) (s : State num) :
  storefront_serves env (world s) ->
  exists r s',
    setInventoryLevel env id available VUndef s = (Return r, s')
    /\ storefront_serves env (world s').
Proof.
  intros Hs. pose proof Hs as (Hc & Hout & Hloc & _).
  unfold setInventoryLevel. cbn [truthy]. unfold bind at 1.
  unfold getLocationIdForItem, try_catch, getPrimaryLocationId.
  unfold bind at 1.
  destruct (shopifyFetch_configured env SShop s Hc) as (domain & token & ->).
  unfold fetch at 1 2. cbn [respond]. unfold shopify_respond at 1 2.
  rewrite Hout. cbn [fst snd response_outcome get lookup String.eqb Ascii.eqb Bool.eqb].
  rewrite Hloc. unfold ret at 1.
  match goal with
  | |- context [shopifyFetch env ?req ?s1] =>
      destruct (shopifyFetch_configured env req s1 Hc) as (domain' & token' & ->)
  end.
  unfold fetch. cbn [respond world]. unfold shopify_respond. rewrite Hout.
  cbn [fst snd response_outcome].
  eexists _, _. split; [reflexivity|]. cbn [world].
  now apply storefront_serves_levels.
Qed.

(** A turn of the item loop on a storefront that serves returns, and the
    storefront serves on. *)
Lemma sync_item_served (env : Env) (item : val) (s : State num) :
  storefront_serves env (world s) ->
  nullish item = false ->
  exists s',
    sync_item env item s = (Return tt, s')
    /\ storefront_serves env (world s').
Proof.
  intros Hs Hitem. unfold sync_item. unfold bind at 1. unfold member.
  rewrite Hitem. unfold ret at 1.
  destruct (negb (truthy (get "sku" item))); [now exists s|].
  unfold bind at 1.
  destruct (@findVariantBySKU_served env (get "sku" item) s Hs)
    as (variant & s1 & Hfind & Hw1).
  rewrite Hfind.
  assert (Hs1 : storefront_serves env (world s1)) by now rewrite Hw1.
  destruct (negb (truthy variant)) eqn:Hv; [now exists s1|].
  apply negb_false_iff in Hv.
  assert (Hin : In variant (variants (world s1))).
  { rewrite Hw1. apply (findVariantBySKU_found env (get "sku" item) s);
      [now rewrite Hfind|exact Hv]. }
  unfold bind at 1.
  assert (Hprice : exists s2,
             sync_item_price env item variant s1 = (Return tt, s2)
             /\ storefront_serves env (world s2)).
  { unfold sync_item_price. destruct (price_differs item variant).
    - unfold bind.
      destruct (@updateVariantPrice_served env variant
                  (VStr (zohoPrice_of item)) s1 Hs1 Hin)
        as (r & s2 & -> & Hs2).
      now exists s2.
    - now exists s1. }
  destruct Hprice as (s2 & -> & Hs2).
  unfold sync_item_stock. cbv zeta.
  destruct (is_number (available_of item)); [|now exists s2].
  unfold bind.
  destruct (@setInventoryLevel_served env (get "inventory_item_id" variant)
              (available_of item) s2 Hs2) as (r & s3 & -> & Hs3).
  now exists s3.
Qed.

Lemma sync_items_served (env : Env) (l : list val) :
  forall s,
    storefront_serves env (world s) ->
    forallb (fun i => negb (nullish i)) l = true ->
    exists s',
      for_each l (sync_item env) s = (Return tt, s')
      /\ storefront_serves env (world s').
Proof.
  induction l as [|item l IH]; intros s Hs Hl; simpl.
  - now exists s.
  - simpl in Hl. apply andb_true_iff in Hl. destruct Hl as [Hi Hl].
    apply negb_true_iff in Hi. unfold bind.
    destruct (@sync_item_served env item s Hs Hi) as (s1 & -> & Hs1).
    now apply IH.
Qed.

(** A turn of the page loop does not fail when both systems serve. *)
Lemma sync_page_served (env : Env) (page k : nat) (s : State num) :
  backend_serves env (world s) k ->
  storefront_serves env (world s) ->
  1 <= page <= k ->
  exists step s',
    sync_page env page s = (Return step, s')
    /\ storefront_serves env (world s').
Proof.
  intros (Htc & Hac & Hurl & (tokjson & Htok & Htj) & Hpages) Hs Hpage.
  destruct (Hpages page Hpage) as (data & l & Hapi & Hdata & Hitems & Hl).
  destruct (@zohoFetch_answered env tokjson Htc Hac Htj)
    as (tc & base & org & _ & Hfetch).
  unfold sync_page, listZohoItemsPaged.
  unfold bind at 1. unfold log at 1.
  unfold bind at 1. rewrite Hfetch by (auto; exact Htok).
  cbn [world]. rewrite Hapi. cbn [response_outcome].
  unfold bind at 1. unfold member at 1. rewrite Hdata. unfold ret at 1.
  rewrite Hitems.
  destruct (negb (length_truthy (VArr l))).
  { eexists _, _. split; [reflexivity|]. exact Hs. }
  unfold bind at 1. unfold iterate_or_throw. cbn [iterate]. unfold ret at 1.
  unfold bind at 1.
  match goal with
  | |- context [for_each l (sync_item env) ?s1] =>
      destruct (@sync_items_served env l s1 Hs Hl) as (s2 & -> & Hs2)
  end.
  destruct (truthy _); eexists _, _; (split; [reflexivity|exact Hs2]).
Qed.

Lemma backend_serves_backend (env : Env) (w w' : World num) (k : nat) :
  zoho_accounts w' = zoho_accounts w -> zoho_api w' = zoho_api w ->
  backend_serves env w k -> backend_serves env w' k.
Proof. unfold backend_serves. intros -> ->. auto. Qed.

(** The loop started at page [p], when page [p + m] ends it. *)
Lemma sync_loop_stops (env : Env) (m : nat) :
  forall (p : nat) (s : State num),
    stopping_page (world s) (p + m) ->
    exists out s' t n,
      sync_loop env (S m) p s = Some (out, s')
      /\ trace s' = (trace s ++ t)%list
      /\ pages_fetched t = seq p n
      /\ n <= S m
      /\ (forall q, p <= q < p + n - 1 -> ~ stopping_page (world s) q)
      /\ (forall v, out = Return v ->
                    1 <= n /\ stopping_page (world s) (p + n - 1))
      /\ (1 <= p ->
          backend_serves env (world s) (p + m) ->
          storefront_serves env (world s) ->
          out = Return (VObj [("ok", VBool true);
                              ("message", VStr "Sync complete")])).
Proof.
  assert (Hserved : forall p k (s : State num) e s1,
             sync_page env p s = (Throw e, s1) ->
             1 <= p <= k ->
             backend_serves env (world s) k ->
             storefront_serves env (world s) -> False).
  { intros p k s e s1 Hrun Hp Hb Hs.
    destruct (@sync_page_served env p k s Hb Hs Hp) as (step & s2 & E & _).
    rewrite E in Hrun. discriminate. }
  induction m as [|m IH]; intros p s Hstop.
  - cbn [sync_loop].
    destruct (sync_page_spec env p s)
      as (out & s1 & t & Hrun & Hapi & Hacc & Ht & Hc).
    rewrite Hrun.
    destruct Hc as [(-> & Hp & Hno) | [(-> & Hp & Hyes) | (e & -> & Hp)]].
    + exfalso. apply Hno. now rewrite Nat.add_0_r in Hstop.
    + eexists _, s1, t, 1. split; [reflexivity|]. split; [exact Ht|].
      split; [exact Hp|]. split; [lia|]. split; [intros q Hq; lia|].
      split; [|reflexivity].
      intros v _. split; [lia|]. now replace (p + 1 - 1) with p by lia.
    + assert (Hnot : 1 <= p -> backend_serves env (world s) (p + 0) ->
                     storefront_serves env (world s) ->
                     @Throw val e
                     = Return (VObj [("ok", VBool true);
                                     ("message", VStr "Sync complete")])).
      { intros H1 Hb Hs. exfalso.
        apply (Hserved p (p + 0) s e s1 Hrun); [lia|exact Hb|exact Hs]. }
      destruct Hp as [Hp|Hp].
      * eexists _, s1, t, 1. split; [reflexivity|]. split; [exact Ht|].
        split; [exact Hp|]. split; [lia|]. split; [intros q Hq; lia|].
        split; [discriminate|exact Hnot].
      * eexists _, s1, t, 0. split; [reflexivity|]. split; [exact Ht|].
        split; [exact Hp|]. split; [lia|]. split; [intros q Hq; lia|].
        split; [discriminate|exact Hnot].
  - change (sync_loop env (S (S m)) p s)
      with (match sync_page env p s with
            | (Return NextPage, s') => sync_loop env (S m) (p + 1) s'
            | (Return Break, s') =>
                Some (Return (VObj [("ok", VBool true);
                                    ("message", VStr "Sync complete")]), s')
            | (Throw e, s') => Some (Throw e, s')
            end).
    destruct (sync_page_spec env p s)
      as (out & s1 & t & Hrun & Hapi & Hacc & Ht & Hc).
    rewrite Hrun.
    destruct Hc as [(-> & Hp & Hno) | [(-> & Hp & Hyes) | (e & -> & Hp)]].
    + destruct (IH (p + 1) s1)
        as (out & s2 & u & n & Hloop & Hu & Hpu & Hn & Hq & Hr & Hgo).
      { apply stopping_page_backend with (w := world s); [exact Hapi|].
        now replace (p + 1 + m) with (p + S m) by lia. }
      exists out, s2, (t ++ u)%list, (S n). split; [exact Hloop|].
      split; [rewrite Hu, Ht; now rewrite app_assoc|].
      split; [rewrite pages_fetched_app, Hp, Hpu;
              now replace (p + 1) with (S p) by lia|].
      split; [lia|]. split; [|split].
      * intros q Hrange Hs.
        destruct (Nat.eq_dec q p) as [->|Hne]; [now apply Hno|].
        apply (Hq q); [lia|].
        now apply stopping_page_backend with (w := world s).
      * intros v Hv. destruct (Hr v Hv) as [Hn1 Hs]. split; [lia|].
        apply stopping_page_backend with (w := world s1); [now symmetry|].
        now replace (p + S n - 1) with (p + 1 + n - 1) by lia.
      * intros H1 Hb Hs. apply Hgo; [lia| |].
        -- replace (p + 1 + m) with (p + S m) by lia.
           now apply backend_serves_backend with (w := world s).
        -- destruct (@sync_page_served env p (p + S m) s Hb Hs)
             as (step & s1' & E & Hs1); [lia|].
           rewrite E in Hrun. now injection Hrun as _ <-.
    + eexists _, s1, t, 1. split; [reflexivity|]. split; [exact Ht|].
      split; [exact Hp|]. split; [lia|]. split; [intros q Hq; lia|].
      split; [|reflexivity].
      intros v _. split; [lia|]. now replace (p + 1 - 1) with p by lia.
    + assert (Hnot : 1 <= p -> backend_serves env (world s) (p + S m) ->
                     storefront_serves env (world s) ->
                     @Throw val e
                     = Return (VObj [("ok", VBool true);
                                     ("message", VStr "Sync complete")])).
      { intros H1 Hb Hs. exfalso.
        apply (Hserved p (p + S m) s e s1 Hrun); [lia|exact Hb|exact Hs]. }
      destruct Hp as [Hp|Hp].
      * eexists _, s1, t, 1. split; [reflexivity|]. split; [exact Ht|].
        split; [exact Hp|]. split; [lia|]. split; [intros q Hq; lia|].
        split; [discriminate|exact Hnot].
      * eexists _, s1, t, 0. split; [reflexivity|]. split; [exact Ht|].
        split; [exact Hp|]. split; [lia|]. split; [intros q Hq; lia|].
        split; [discriminate|exact Hnot].
Qed.

(** C7.  When some page [k] of the backend catalog has no items or does not
    announce a further page, the sync loop terminates: with enough fuel it
    ends, having asked for the pages [1 .. n] in order, for some [n <= k].
    No page before the last one asked for ends the loop, and when the run
    ends normally (not by an exception) the last page asked for is one that
    ends it: the loop stops at the first such page.  And the run does end
    normally, with the message [Sync complete], when the backend serves
    the pages up to [k] and the storefront serves: then the pages asked for
    are exactly those up to the first page that ends the loop. *)
Theorem sync_pagination_terminates
    (env : Env) (s : State num) (k : nat) :
  1 <= k ->
  stopping_page (world s) k ->
  exists fuel0 out s' t n,
    (forall fuel, fuel0 <= fuel ->
       syncZohoToShopify env fuel s = Some (out, s'))
    /\ trace s' = (trace s ++ t)%list
    /\ pages_fetched t = seq 1 n
    /\ n <= k
    /\ (forall q, 1 <= q < n -> ~ stopping_page (world s) q)
    /\ (forall v, out = Return v -> 1 <= n /\ stopping_page (world s) n)
    /\ (backend_serves env (world s) k ->
        storefront_serves env (world s) ->
        out = Return (VObj [("ok", VBool true);
                            ("message", VStr "Sync complete")])).
Proof.
  intros Hk Hstop.
  destruct (sync_loop_stops env (k - 1) 1 s)
    as (out & s' & t & n & Hrun & Ht & Hp & Hn & Hq & Hr & Hgo).
  { now replace (1 + (k - 1)) with k by lia. }
  exists (S (k - 1)), out, s', t, n. split.
  - intros fuel Hfuel. unfold syncZohoToShopify.
    replace fuel with (S (k - 1) + (fuel - S (k - 1))) by lia.
    now apply sync_loop_more_fuel.
  - split; [exact Ht|]. split; [exact Hp|]. split; [lia|]. split; [|split].
    + intros q Hrange. apply Hq. lia.
    + intros v Hv. destruct (Hr v Hv) as [Hn1 Hs]. split; [exact Hn1|].
      now replace (1 + n - 1) with n in Hs by lia.
    + intros Hb Hs. apply Hgo; [lia| |exact Hs].
      now replace (1 + (k - 1)) with k by lia.
Qed.

(** ** C3, continued: two runs of the sync *)

Lemma found_of_run (env : Env) (sku v : val) (s s1 : State num) :
  findVariantBySKU env sku s = (Return v, s1) ->
  truthy v = true ->
  found env (world s) sku v.
Proof.
  intros Hfind Hv. split; [|exact Hv].
  rewrite findVariantBySKU_of_world, Hfind. reflexivity.
Qed.

Lemma found_unique (env : Env) (w : World num) (sku v v' : val) :
  found env w sku v -> found env w sku v' -> v = v'.
Proof. intros [H _] [H' _]. congruence. Qed.

Lemma found_held (env : Env) (w : World num) (sku v : val) :
  found env w sku v -> In v (variants w).
Proof.
  intros [H Hv].
  exact (findVariantBySKU_found env sku (starting w) H Hv).
Qed.

(** What is found on a storefront whose variants were repriced. *)
Lemma found_repriced (env : Env) (g : val -> val) (w w' : World num)
    (sku v' : val) :
  price_only g -> repriced g w w' ->
  found env w' sku v' ->
  exists v, found env w sku v /\ v' = g v.
Proof.
  intros (G1 & G2 & G3 & G4) Hrel [H Hv].
  assert (E : fst (findVariantBySKU env sku (starting w'))
              = out_map g (fst (findVariantBySKU env sku (starting w)))).
  { apply (findVariantBySKU_repriced G1 G2 G3 G4). exact Hrel. }
  rewrite H in E.
  destruct (fst (findVariantBySKU env sku (starting w))) as [v|e] eqn:E0;
    [|discriminate].
  injection E as ->. exists v. split; [|reflexivity].
  split; [exact E0|]. now rewrite <- G3.
Qed.

Lemma sync_reaches_backend (w w' : World num) (page : nat) :
  zoho_api w' = zoho_api w -> sync_reaches w page -> sync_reaches w' page.
Proof.
  intros E [H1 H]. split; [exact H1|]. intros q Hq Hs. apply (H q Hq).
  apply stopping_page_backend with (w := w'); auto.
Qed.

Lemma catalog_item_backend (w w' : World num) (item : val) :
  zoho_api w' = zoho_api w -> catalog_item w item -> catalog_item w' item.
Proof.
  intros E (page & Hr & data & l & Hd & Hrest). exists page. split.
  - now apply sync_reaches_backend with (w := w).
  - exists data, l. now rewrite E.
Qed.

Lemma price_only_object_store_price (id : string) (p v : val) :
  is_object (store_price id p v) = is_object v.
Proof.
  unfold store_price. destruct (variant_id v =? id); [|reflexivity].
  now destruct v.
Qed.

(** The conditions for prices to stay hold on after a price is stored. *)
Lemma prices_stay_repriced (env : Env) (g : val -> val) (w w' : World num) :
  price_only g ->
  (forall v, is_object (g v) = is_object v) ->
  repriced g w w' ->
  zoho_api w' = zoho_api w ->
  price_kept w' = price_kept w ->
  prices_stay env w -> prices_stay env w'.
Proof.
  intros Hg Hobj Hrel Hapi Hkept (Hk & Ho & Hone).
  pose proof Hrel as (_ & _ & Hvs).
  split; [|split].
  - intros p. rewrite Hkept. apply Hk.
  - rewrite Hvs. rewrite forallb_forall in *. intros v Hv.
    apply in_map_iff in Hv. destruct Hv as (v0 & <- & Hv0).
    rewrite Hobj. now apply Ho.
  - intros i j vi vj Hi Hj Hpi Hpj Hfi Hfj Hid.
    destruct (@found_repriced env g w w' (get "sku" i) vi Hg Hrel Hfi)
      as (vi0 & Hfi0 & ->).
    destruct (@found_repriced env g w w' (get "sku" j) vj Hg Hrel Hfj)
      as (vj0 & Hfj0 & ->).
    destruct Hg as (G1 & G2 & G3 & G4).
    rewrite !(g_variant_id g G4) in Hid.
    apply (Hone i j vi0 vj0); auto;
      apply catalog_item_backend with (w := w'); auto.
Qed.

Lemma settled_repriced (env : Env) (g : val -> val) (w w' : World num)
    (i : val) :
  price_only g -> repriced g w w' ->
  (truthy (get "sku" i) = true ->
   forall v, found env w (get "sku" i) v -> price_differs i (g v) = false) ->
  price_settled env w' i.
Proof.
  intros Hg Hrel H Hsku v' Hf.
  destruct (@found_repriced env g w w' (get "sku" i) v' Hg Hrel Hf)
    as (v & Hv & ->).
  now apply H.
Qed.

Lemma repriced_kept (g : val -> val) (w s2 s' : State num) :
  repriced g (world w) (world s2) -> catalog_kept s2 s' ->
  repriced g (world w) (world s').
Proof.
  intros (O & S & V) (_ & O' & S' & V' & _). repeat split; congruence.
Qed.

Lemma object_truthy (v : val) : is_object v = true -> truthy v = true.
Proof. now destruct v. Qed.

(** The price that a storefront which keeps prices as sent holds for a
    variant once the price [p] was stored for its identifier. *)
Lemma price_stored_for (i v v0 : val) :
  is_object v = true ->
  variant_id v = variant_id v0 ->
  price_differs i (store_price (variant_id v0) (VStr (zohoPrice_of i)) v)
  = false.
Proof.
  intros Ho Hid. rewrite <- Hid. now apply price_stored_agrees.
Qed.

(** A turn of the item loop that returned: the prices it found settled
    stay settled, and the price of its item is settled. *)
Lemma sync_item_settles (env : Env) (item : val) (s s' : State num) :
  prices_stay env (world s) ->
  catalog_item (world s) item ->
  sync_item env item s = (Return tt, s') ->
  exists g,
    price_only g
    /\ (forall v, is_object (g v) = is_object v)
    /\ repriced g (world s) (world s')
    /\ zoho_api (world s') = zoho_api (world s)
    /\ price_kept (world s') = price_kept (world s)
    /\ price_settled env (world s') item
    /\ forall i, catalog_item (world s) i ->
                 price_settled env (world s) i ->
                 price_settled env (world s') i.
Proof.
  intros HK Hcat Hrun. pose proof HK as (Hk & Ho & Hone).
  assert (Hid : forall s2 : State num,
             catalog_kept s s2 ->
             (truthy (get "sku" item) = true ->
              forall v, found env (world s) (get "sku" item) v ->
                        price_differs item v = false) ->
             exists g,
               price_only g
               /\ (forall v, is_object (g v) = is_object v)
               /\ repriced g (world s) (world s2)
               /\ zoho_api (world s2) = zoho_api (world s)
               /\ price_kept (world s2) = price_kept (world s)
               /\ price_settled env (world s2) item
               /\ forall i, catalog_item (world s) i ->
                            price_settled env (world s) i ->
                            price_settled env (world s2) i).
  { intros s2 (_ & O & S & V & A & K) Hitem.
    assert (Hrel : repriced (fun v => v) (world s) (world s2))
      by (repeat split; try assumption; now rewrite map_id).
    exists (fun v => v). split; [apply price_only_id|].
    split; [reflexivity|]. split; [exact Hrel|].
    split; [exact A|]. split; [exact K|]. split.
    - eapply settled_repriced; [apply price_only_id|exact Hrel|exact Hitem].
    - intros i _ Hi.
      eapply settled_repriced; [apply price_only_id|exact Hrel|exact Hi]. }
  unfold sync_item in Hrun. unfold bind at 1 in Hrun. unfold member in Hrun.
  destruct (nullish item); [discriminate|]. unfold ret at 1 in Hrun.
  destruct (truthy (get "sku" item)) eqn:Hsku; cbn [negb] in Hrun.
  2:{ injection Hrun as <-. apply Hid; [apply catalog_kept_refl|].
      discriminate. }
  unfold bind at 1 in Hrun.
  pose proof (findVariantBySKU_keeps_catalog env (get "sku" item) s) as Hs1.
  destruct (findVariantBySKU env (get "sku" item) s) as [[v|e] s1] eqn:Hfind;
    [|discriminate].
  cbn [snd] in Hs1.
  assert (Hfst : fst (findVariantBySKU env (get "sku" item) (starting (world s)))
                 = Return v)
    by (rewrite findVariantBySKU_of_world, Hfind; reflexivity).
  destruct (truthy v) eqn:Hv; cbn [negb] in Hrun.
  2:{ injection Hrun as <-. apply Hid; [exact Hs1|].
      intros _ v' [Hf' Hv']. congruence. }
  assert (Hfound : found env (world s) (get "sku" item) v) by now split.
  unfold bind in Hrun.
  destruct (sync_item_price env item v s1) as [[[]|e] s2] eqn:Hprice;
    [|discriminate].
  pose proof (sync_item_stock_keeps_catalog env item v s2) as Hs'.
  rewrite Hrun in Hs'. cbn [snd] in Hs'.
  destruct (price_differs item v) eqn:Hd.
  - (* the price is written *)
    pose proof (findVariantBySKU_returned_configured env _ s Hfind) as Hc.
    destruct (sync_item_price_differs env item v s1 Hc Hd)
      as (call & _ & _ & Hstored).
    rewrite Hprice in Hstored. cbn [fst snd] in Hstored.
    destruct (Hstored eq_refl) as (Hrel & Hapi & Hkept).
    destruct Hs1 as (_ & O1 & S1 & V1 & A1 & K1).
    rewrite K1, Hk in Hrel.
    set (g := store_price (variant_id v) (VStr (zohoPrice_of item))) in *.
    assert (Hg : price_only g) by apply price_only_store_price.
    assert (Hrel' : repriced g (world s) (world s')).
    { apply repriced_kept with (s2 := s2); [|exact Hs'].
      destruct Hrel as (O & S & V). repeat split; congruence. }
    assert (Hpriced : priced item = true).
    { unfold priced. rewrite Hsku. unfold price_differs in Hd.
      apply andb_true_iff in Hd. apply Hd. }
    exists g. split; [exact Hg|].
    split; [intros x; apply price_only_object_store_price|].
    split; [exact Hrel'|].
    destruct Hs' as (_ & _ & _ & _ & A2 & K2).
    split; [congruence|]. split; [congruence|]. split.
    + eapply settled_repriced; [exact Hg|exact Hrel'|]. intros _ v' Hf'.
      rewrite <- (found_unique Hfound Hf'). unfold g.
      apply price_stored_agrees.
      exact (forallb_In _ _ _ Ho (found_held Hfound)).
    + intros i Hi Hset. eapply settled_repriced; [exact Hg|exact Hrel'|].
      intros Hski vi Hfi.
      destruct (variant_id vi =? variant_id v) eqn:Evi.
      * apply String.eqb_eq in Evi.
        destruct (zohoPrice_of i =? "") eqn:Ep.
        { unfold price_differs. now rewrite Ep. }
        assert (Hpi : priced i = true)
          by (unfold priced; now rewrite Hski, Ep).
        unfold g.
        rewrite <- (Hone i item vi v Hi Hcat Hpi Hpriced Hfi Hfound Evi).
        apply price_stored_for; [|exact Evi].
        exact (forallb_In _ _ _ Ho (found_held Hfi)).
      * unfold g, store_price. rewrite Evi. now apply Hset.
  - (* the price agrees *)
    unfold sync_item_price in Hprice. rewrite Hd in Hprice.
    injection Hprice as <-. apply Hid.
    + eapply catalog_kept_trans; [exact Hs1|exact Hs'].
    + intros _ v' Hf'. now rewrite <- (found_unique Hfound Hf').
Qed.

Lemma settled_items_backend (env : Env) (w w' : World num) (D D' : val -> Prop) :
  zoho_api w' = zoho_api w ->
  (forall i, D' i -> D i \/ (catalog_item w i /\ price_settled env w' i)) ->
  (forall i, D i -> price_settled env w i -> price_settled env w' i) ->
  settled_items env w D -> settled_items env w' D'.
Proof.
  intros E Hsub Hkeep H i Hi.
  destruct (Hsub i Hi) as [Hd|[Hc Hs]].
  - destruct (H i Hd) as [Hc Hs]. split.
    + now apply catalog_item_backend with (w := w).
    + now apply Hkeep.
  - split; [now apply catalog_item_backend with (w := w)|exact Hs].
Qed.

(** The items of a page, in a run that returned. *)
Lemma sync_items_settle (env : Env) (l : list val) :
  forall (s s' : State num) (D : val -> Prop),
    prices_stay env (world s) ->
    (forall i, In i l -> catalog_item (world s) i) ->
    settled_items env (world s) D ->
    for_each l (sync_item env) s = (Return tt, s') ->
    prices_stay env (world s')
    /\ zoho_api (world s') = zoho_api (world s)
    /\ settled_items env (world s') (fun i => D i \/ In i l).
Proof.
  induction l as [|item l IH]; intros s s' D HK Hl HD Hrun.
  - cbn [for_each] in Hrun. injection Hrun as <-.
    split; [exact HK|]. split; [reflexivity|].
    intros i [Hi|[]]. now apply HD.
  - cbn [for_each] in Hrun. unfold bind in Hrun.
    destruct (sync_item env item s) as [[[]|e] s1] eqn:Hitem; [|discriminate].
    assert (Hcat : catalog_item (world s) item) by (apply Hl; now left).
    edestruct sync_item_settles
      as (g & Hg & Hobj & Hrel & Hapi & Hkept & Hset & Hothers);
      [exact HK|exact Hcat|exact Hitem|].
    assert (HK1 : prices_stay env (world s1))
      by (eapply prices_stay_repriced; eauto).
    assert (HD1 : settled_items env (world s1) (fun i => D i \/ i = item)).
    { intros i [Hi| ->].
      - destruct (HD i Hi) as [Hc Hs]. split.
        + now apply catalog_item_backend with (w := world s).
        + now apply Hothers.
      - split; [|exact Hset].
        now apply catalog_item_backend with (w := world s). }
    destruct (IH s1 s' (fun i => D i \/ i = item) HK1) as (HK' & Hapi' & HD');
      [|exact HD1|exact Hrun|].
    { intros i Hi. apply catalog_item_backend with (w := world s);
        [exact Hapi|]. apply Hl. now right. }
    split; [exact HK'|]. split; [congruence|].
    intros i [Hi|[<- |Hi]]; apply HD'; auto.
Qed.

Lemma iterate_length (v : val) (l : list val) :
  iterate v = Some l -> length_truthy v = false -> l = [].
Proof.
  destruct v as [| |b|n|x|xs|fields]; try discriminate; simpl.
  - intros H. injection H as <-. destruct x; [reflexivity|discriminate].
  - intros H. injection H as <-. destruct xs; [reflexivity|discriminate].
Qed.

(** A turn of the page loop that returned. *)
Lemma sync_page_settles (env : Env) (page : nat) (s s' : State num)
    (step : LoopStep) (D : val -> Prop) :
  prices_stay env (world s) ->
  sync_reaches (world s) page ->
  settled_items env (world s) D ->
  sync_page env page s = (Return step, s') ->
  prices_stay env (world s')
  /\ zoho_api (world s') = zoho_api (world s)
  /\ settled_items env (world s')
       (fun i => D i \/ page_item (world s) page i).
Proof.
  intros HK Hreach HD Hrun.
  unfold sync_page, listZohoItemsPaged in Hrun.
  unfold bind at 1 in Hrun. unfold log at 1 in Hrun.
  set (s0 := {| world := world s; trace := trace s; console := _ |}) in Hrun.
  unfold bind at 1 in Hrun.
  destruct (zohoFetch_cases env (ZItemsPage page) s0)
    as (out & t & Hfetch & Hcases).
  rewrite Hfetch in Hrun.
  destruct Hcases as [(e & -> & _)
                     | (tc & base & org & token & _ & -> & Hans)];
    [discriminate|].
  destruct Hans as [(data & Hapi & ->) | (e & -> & _)]; [|discriminate].
  change (zoho_api (world s) (ZItemsPage page) = RespOk data) in Hapi.
  unfold bind at 1 in Hrun. unfold member at 1 in Hrun.
  destruct (nullish data); [discriminate|]. unfold ret at 1 in Hrun.
  set (items := js_or (get "items" data) (VArr [])) in *.
  destruct (length_truthy items) eqn:Elen; cbn [negb] in Hrun.
  2:{ injection Hrun as _ <-. cbn [world add_calls].
      split; [exact HK|]. split; [reflexivity|].
      intros i [Hi|(d & l & Hd & Hlen & _)]; [now apply HD|].
      rewrite Hapi in Hd. injection Hd as <-. fold items in Hlen. congruence. }
  unfold bind at 1 in Hrun. unfold iterate_or_throw in Hrun.
  destruct (iterate items) as [l|] eqn:Eit; [|discriminate].
  unfold ret at 1 in Hrun. unfold bind at 1 in Hrun.
  match type of Hrun with
  | context [for_each l (sync_item env) ?s1] =>
      destruct (for_each l (sync_item env) s1) as [[[]|e] s2] eqn:Hloop;
        [|discriminate];
      destruct (@sync_items_settle env l s1 s2 D HK) as (HK2 & Hapi2 & HD2);
        [|exact HD|exact Hloop|]
  end.
  { intros i Hi. exists page. split; [exact Hreach|].
    exists data, l. fold items. auto. }
  assert (Hs' : s' = s2) by (destruct (truthy _); now injection Hrun).
  subst s'. split; [exact HK2|]. split; [exact Hapi2|].
  intros i [Hi|(d & l' & Hd & _ & Hit & Hin)]; apply HD2; [now left|].
  right. cbn [world add_calls] in *. rewrite Hapi in Hd. injection Hd as <-.
  fold items in Hit. congruence.
Qed.

(** A run that ended normally leaves the price of every item of the
    catalog settled. *)
Lemma sync_loop_settles (env : Env) (fuel : nat) :
  forall (page : nat) (s s1 : State num) (v : val),
    prices_stay env (world s) ->
    sync_reaches (world s) page ->
    settled_items env (world s)
      (fun i => exists q, q < page /\ sync_reaches (world s) q
                          /\ page_item (world s) q i) ->
    sync_loop env fuel page s = Some (Return v, s1) ->
    zoho_api (world s1) = zoho_api (world s)
    /\ settled_items env (world s1) (catalog_item (world s1)).
Proof.
  induction fuel as [|fuel IH]; intros page s s1 v HK Hreach HD Hrun;
    [discriminate|].
  cbn [sync_loop] in Hrun.
  destruct (sync_page_spec env page s)
    as (out & s' & t & Hpage & _ & _ & _ & Hc).
  rewrite Hpage in Hrun.
  destruct Hc as [(-> & _ & Hno) | [(-> & _ & Hyes) | (e & -> & _)]].
  - destruct (@sync_page_settles env page s s' NextPage _ HK Hreach HD Hpage)
      as (HK' & Hapi & HD').
    destruct (IH (page + 1) s' s1 v HK') as (Hapi1 & H1).
    + apply sync_reaches_backend with (w := world s); [exact Hapi|].
      destruct Hreach as [H1 Hq]. split; [lia|]. intros q Hrange.
      destruct (Nat.eq_dec q page) as [->|Hne]; [exact Hno|].
      apply Hq. lia.
    + intros i (q & Hlt & Hrq & d & l & Hd & Hrest). apply HD'.
      rewrite Hapi in Hd.
      destruct (Nat.eq_dec q page) as [->|Hne].
      * right. now exists d, l.
      * left. exists q. split; [lia|]. split.
        -- apply sync_reaches_backend with (w := world s'); auto.
        -- now exists d, l.
    + exact Hrun.
    + split; [congruence|exact H1].
  - injection Hrun as _ <-.
    destruct (@sync_page_settles env page s s' Break _ HK Hreach HD Hpage)
      as (HK' & Hapi & HD').
    split; [exact Hapi|].
    intros i (q & Hrq & d & l & Hd & Hrest). apply HD'.
    rewrite Hapi in Hd.
    assert (Hrq' : sync_reaches (world s) q)
      by (apply sync_reaches_backend with (w := world s'); auto).
    destruct (Nat.eq_dec q page) as [->|Hne].
    + right. now exists d, l.
    + left. exists q. split; [|split; [exact Hrq'|now exists d, l]].
      destruct (Nat.lt_ge_cases q page) as [Hlt|Hge]; [exact Hlt|].
      exfalso. destruct Hrq' as [_ Hq]. apply (Hq page); [|exact Hyes].
      destruct Hreach as [H1 _]. lia.
  - discriminate.
Qed.

(** *** The second run *)

Lemma found_kept (env : Env) (s s' : State num) (sku v : val) :
  catalog_kept s s' ->
  found env (world s') sku v -> found env (world s) sku v.
Proof.
  intros (_ & O & S & V & _) Hf.
  assert (Hrel : repriced (fun x => x) (world s) (world s'))
    by (repeat split; try assumption; now rewrite map_id).
  destruct (@found_repriced env (fun x => x) (world s) (world s') sku v
              price_only_id Hrel Hf) as (v0 & Hf0 & ->).
  exact Hf0.
Qed.

Lemma settled_items_kept (env : Env) (s s' : State num) :
  catalog_kept s s' ->
  settled_items env (world s) (catalog_item (world s)) ->
  settled_items env (world s') (catalog_item (world s')).
Proof.
  intros Hk H i Hi. split; [exact Hi|].
  pose proof Hk as (_ & _ & _ & _ & A & _).
  destruct (H i) as [_ Hs].
  { apply catalog_item_backend with (w := world s'); auto. }
  intros Hsku v Hf. apply Hs; [exact Hsku|].
  eapply found_kept; eauto.
Qed.

(** A turn for an item whose price is settled sends no price. *)
Lemma sync_item_settled (env : Env) (item : val) (s : State num) :
  price_settled env (world s) item ->
  catalog_kept s (snd (sync_item env item s)).
Proof.
  intros Hset.
  destruct (truthy (get "sku" item)) eqn:Hsku.
  - pose proof (findVariantBySKU_keeps_catalog env (get "sku" item) s) as Hs1.
    destruct (findVariantBySKU env (get "sku" item) s) as [[v|e] s1] eqn:Hfind;
      [destruct (truthy v) eqn:Hv|].
    + apply (sync_item_price_agrees env item s Hsku Hfind Hv).
      apply Hset; [exact Hsku|]. eapply found_of_run; eauto.
    + unfold sync_item. unfold bind at 1. unfold member.
      destruct (nullish item); [apply catalog_kept_refl|].
      unfold ret at 1. rewrite Hsku. cbn [negb]. unfold bind at 1.
      rewrite Hfind, Hv. exact Hs1.
    + unfold sync_item. unfold bind at 1. unfold member.
      destruct (nullish item); [apply catalog_kept_refl|].
      unfold ret at 1. rewrite Hsku. cbn [negb]. unfold bind at 1.
      rewrite Hfind. exact Hs1.
  - unfold sync_item. unfold bind at 1. unfold member.
    destruct (nullish item); [apply catalog_kept_refl|].
    unfold ret at 1. rewrite Hsku. apply catalog_kept_refl.
Qed.

Lemma sync_items_settled (env : Env) (l : list val) :
  forall s : State num,
    settled_items env (world s) (catalog_item (world s)) ->
    (forall i, In i l -> catalog_item (world s) i) ->
    catalog_kept s (snd (for_each l (sync_item env) s)).
Proof.
  induction l as [|item l IH]; intros s HD Hl; cbn [for_each].
  - apply catalog_kept_refl.
  - unfold bind.
    assert (Hitem : catalog_kept s (snd (sync_item env item s))).
    { apply sync_item_settled. apply HD. apply Hl. now left. }
    destruct (sync_item env item s) as [[[]|e] s1]; [|exact Hitem].
    cbn [snd] in Hitem. eapply catalog_kept_trans; [exact Hitem|].
    apply IH.
    + eapply settled_items_kept; eauto.
    + intros i Hi. destruct Hitem as (_ & _ & _ & _ & A & _).
      apply catalog_item_backend with (w := world s); [exact A|].
      apply Hl. now right.
Qed.

Lemma catalog_kept_add_calls (s : State num) (t : list (Call num)) :
  forallb not_price_call t = true -> catalog_kept s (add_calls s t).
Proof. intros Ht. split; [now exists t|]. now repeat split. Qed.

Lemma sync_page_settled (env : Env) (page : nat) (s : State num) :
  sync_reaches (world s) page ->
  settled_items env (world s) (catalog_item (world s)) ->
  catalog_kept s (snd (sync_page env page s)).
Proof.
  intros Hreach HD.
  unfold sync_page, listZohoItemsPaged.
  unfold bind at 1. unfold log at 1.
  set (s0 := {| world := world s; trace := trace s; console := _ |}).
  assert (H0 : catalog_kept s s0).
  { split; [exists []; cbn; now rewrite app_nil_r|]. now repeat split. }
  unfold bind at 1.
  destruct (zohoFetch_cases env (ZItemsPage page) s0)
    as (out & t & Hfetch & Hcases).
  rewrite Hfetch.
  assert (Ht : forallb not_price_call t = true).
  { destruct Hcases as [(e & _ & Ht) | (tc & base & org & token & Htc & -> & _)].
    - clear - Ht. induction t as [|c t IH]; [reflexivity|].
      simpl in *. destruct c; try discriminate. now apply IH.
    - destruct tc; try discriminate. reflexivity. }
  assert (H1 : catalog_kept s (add_calls s0 t)).
  { eapply catalog_kept_trans; [exact H0|]. now apply catalog_kept_add_calls. }
  destruct Hcases as [(e & -> & _)
                     | (tc & base & org & token & _ & _ & Hans)];
    [exact H1|].
  destruct Hans as [(data & Hapi & ->) | (e & -> & _)]; [|exact H1].
  change (zoho_api (world s) (ZItemsPage page) = RespOk data) in Hapi.
  unfold bind at 1. unfold member at 1.
  destruct (nullish data); [exact H1|]. unfold ret at 1.
  set (items := js_or (get "items" data) (VArr [])) in *.
  destruct (length_truthy items) eqn:Elen; cbn [negb]; [|exact H1].
  unfold bind at 1. unfold iterate_or_throw.
  destruct (iterate items) as [l|] eqn:Eit; [|exact H1].
  unfold ret at 1. unfold bind at 1.
  assert (H2 : catalog_kept (add_calls s0 t)
                 (snd (for_each l (sync_item env) (add_calls s0 t)))).
  { apply sync_items_settled.
    - eapply settled_items_kept; eauto.
    - intros i Hi. exists page. split; [exact Hreach|].
      exists data, l. fold items. auto. }
  destruct (for_each l (sync_item env) (add_calls s0 t)) as [[[]|e] s2];
    cbn [snd] in H2.
  - assert (H3 : catalog_kept s s2)
      by (eapply catalog_kept_trans; [exact H1|exact H2]).
    now destruct (truthy _).
  - eapply catalog_kept_trans; [exact H1|exact H2].
Qed.

Lemma sync_loop_settled (env : Env) (fuel : nat) :
  forall (page : nat) (s s2 : State num) (out : Outcome val),
    sync_reaches (world s) page ->
    settled_items env (world s) (catalog_item (world s)) ->
    sync_loop env fuel page s = Some (out, s2) ->
    catalog_kept s s2.
Proof.
  induction fuel as [|fuel IH]; intros page s s2 out Hreach HD Hrun;
    [discriminate|].
  cbn [sync_loop] in Hrun.
  pose proof (@sync_page_settled env page s Hreach HD) as Hk.
  destruct (sync_page_spec env page s)
    as (o & s' & t & Hpage & _ & _ & _ & Hc).
  rewrite Hpage in Hrun, Hk. cbn [snd] in Hk.
  destruct Hc as [(-> & _ & Hno) | [(-> & _ & Hyes) | (e & -> & _)]].
  - eapply catalog_kept_trans; [exact Hk|].
    pose proof Hk as (_ & _ & _ & _ & A & _).
    apply (IH (page + 1) s' s2 out); [| |exact Hrun].
    + apply sync_reaches_backend with (w := world s); [exact A|].
      destruct Hreach as [H1 Hq]. split; [lia|]. intros q Hrange.
      destruct (Nat.eq_dec q page) as [->|Hne]; [exact Hno|].
      apply Hq. lia.
    + eapply settled_items_kept; eauto.
  - now injection Hrun as _ <-.
  - now injection Hrun as _ <-.
Qed.

(** C3, as the code has it.  For a catalog item whose SKU is found on the
    storefront, as the variant [variant], a turn of the sync sends a price
    update exactly when the item has a price ([rate] is neither [null] nor
    [undefined]) whose text is not empty and is not the price of the
    variant.  And after a run of the sync that ended normally, a second run
    sends no price update at all, provided that the storefront keeps every
    price as it is sent, that its variants are objects, and that no two
    priced items of the catalog are found as the same variant with
    different prices. *)
Theorem price_sync_iff_differs
    (env : Env) (fuel fuel' : nat) (s s1 s2 : State num) (v : val)
    (out : Outcome val) :
  (forall item variant (a a1 : State num),
      truthy (get "sku" item) = true ->
      findVariantBySKU env (get "sku" item) a = (Return variant, a1) ->
      is_object variant = true ->
      exists t,
        trace (snd (sync_item env item a)) = (trace a ++ t)%list
        /\ (existsb is_price_call t = true
            <-> nullish (get "rate" item) = false
                /\ js_toString (get "rate" item) <> ""
                /\ get "price" variant <> VStr (js_toString (get "rate" item))))
  /\ (prices_stay env (world s) ->
      syncZohoToShopify env fuel s = Some (Return v, s1) ->
      syncZohoToShopify env fuel' s1 = Some (out, s2) ->
      exists t2,
        trace s2 = (trace s1 ++ t2)%list
        /\ existsb is_price_call t2 = false).
Proof.
  split.
  - intros item variant a a1. apply sync_item_price_call_iff.
  - intros HK Hrun1 Hrun2. unfold syncZohoToShopify in *.
    assert (Hreach : forall w : World num, sync_reaches w 1).
    { intros w. split; [lia|]. intros q Hq. lia. }
    destruct (@sync_loop_settles env fuel 1 s s1 v HK (Hreach _))
      as (Hapi & HD); [|exact Hrun1|].
    { intros i (q & Hlt & [Hq _] & _). lia. }
    destruct (@sync_loop_settled env fuel' 1 s1 s2 out (Hreach _) HD Hrun2)
      as ((t2 & Ht2 & Hp) & _).
    exists t2. split; [exact Ht2|]. now apply not_price_calls.
Qed.

(** ** Further properties of the code

    *** Who the two webhooks let in *)

Lemma timingSafeEqual_refl (a : list ascii) : timingSafeEqual a a = true.
Proof.
  induction a as [|x a IH]; [reflexivity|]. simpl.
  now rewrite Ascii.eqb_refl, IH.
Qed.

(** On buffers, equal length and [timingSafeEqual] come to equality. *)
Lemma buffers_equal (a b : list ascii) :
  Nat.eqb (List.length a) (List.length b) && timingSafeEqual a b = true
  <-> a = b.
Proof.
  split.
  - intros H. apply andb_true_iff in H. now apply timingSafeEqual_eq.
  - intros ->. now rewrite Nat.eqb_refl, timingSafeEqual_refl.
Qed.

(** The signature check of the storefront webhook accepts a header exactly
    when the header and the secret are not empty and the header decodes to
    the bytes of the digest of the body; in every other case it answers
    [false]. *)
Theorem verifyHmac_accepts_iff (env : Env) (hmacHeader : option string)
    (raw : string) (s : State num) :
  exists valid,
    verifyHmac env hmacHeader (Some raw) s = (Return valid, s)
    /\ (valid = true
        <-> exists h secret,
              hmacHeader = Some h /\ h <> ""
              /\ SHOPIFY_WEBHOOK_SHARED_SECRET env = Some secret
              /\ secret <> ""
              /\ hmac_valid secret raw h).
Proof.
  unfold verifyHmac, hmac_valid.
  destruct hmacHeader as [h|]; simpl.
  2:{ exists false. split; [reflexivity|]. split; [discriminate|].
      intros (h & secret & Hh & _). discriminate. }
  destruct (h =? "") eqn:Eh; simpl.
  { exists false. split; [reflexivity|]. split; [discriminate|].
    intros (h' & secret & Hh & Hne & _). injection Hh as <-.
    apply String.eqb_eq in Eh. contradiction. }
  apply String.eqb_neq in Eh.
  destruct (SHOPIFY_WEBHOOK_SHARED_SECRET env) as [secret|]; simpl.
  2:{ exists false. split; [reflexivity|]. split; [discriminate|].
      intros (h' & secret & _ & _ & Hs & _). discriminate. }
  destruct (secret =? "") eqn:Es; simpl.
  { exists false. split; [reflexivity|]. split; [discriminate|].
    intros (h' & secret' & _ & _ & Hs & Hne & _). injection Hs as <-.
    apply String.eqb_eq in Es. contradiction. }
  apply String.eqb_neq in Es.
  pose proof (buffers_equal (Buffer_from_base64 h)
                (Buffer_from_base64 (hmac_sha256_base64 secret raw))) as Hb.
  destruct (Nat.eqb _ _) eqn:El; simpl in *.
  - eexists. split; [reflexivity|]. split.
    + intros Ht. exists h, secret. repeat split; auto. now apply Hb.
    + intros (h' & secret' & Hh & _ & Hs & _ & Hv).
      injection Hh as <-. injection Hs as <-. now apply Hb.
  - exists false. split; [reflexivity|]. split; [discriminate|].
    intros (h' & secret' & Hh & _ & Hs & _ & Hv).
    injection Hh as <-. injection Hs as <-. now apply Hb.
Qed.

(** Outside development mode, an order-created request whose signature
    header is missing or empty, or that arrives while no secret is set, or
    whose header does not verify, is answered 401, and nothing is sent to
    the backend. *)
Theorem order_created_production_rejects
    (env : Env) (request : Request num) (s : State num) :
  IS_DEVELOPMENT env = false ->
  env_truthy (header "x-shopify-hmac-sha256" (headers request)) = false
  \/ env_truthy (SHOPIFY_WEBHOOK_SHARED_SECRET env) = false
  \/ (exists h secret raw,
         header "x-shopify-hmac-sha256" (headers request) = Some h
         /\ SHOPIFY_WEBHOOK_SHARED_SECRET env = Some secret
         /\ hmac_body request = Some raw
         /\ ~ hmac_valid secret raw h) ->
  exists s',
    order_created_handler env request s
    = (Return {| code := 401; payload := VStr "Invalid HMAC" |}, s')
    /\ world s' = world s
    /\ trace s' = trace s.
Proof.
  intros Hdev H.
  assert (Hv : forall s1 : State num,
             verifyHmac env (header "x-shopify-hmac-sha256" (headers request))
               (hmac_body request) s1 = (Return false, s1)).
  { intros s1. destruct H as [Hh|[Hs|(h & secret & raw & Hh & Hs & Hraw & Hbad)]].
    - unfold verifyHmac. now rewrite Hh.
    - unfold verifyHmac. rewrite Hs. now rewrite orb_true_r.
    - rewrite Hh. apply verifyHmac_refuses. right. now exists secret, raw. }
  unfold order_created_handler, try_catch, order_created_check.
  rewrite Hdev. cbn [andb]. unfold bind at 1. unfold log at 1.
  unfold bind at 1. rewrite Hv. cbn [negb]. unfold bind, log, ret.
  eexists. split; [reflexivity|]. now split.
Qed.

(** The signature check of the backend webhook accepts a signature
    exactly when it is not empty and either decodes, as base64, to the
    bytes of the digest, or decodes to another number of bytes and is the
    digest in hex, whatever the case of the letters. *)
Theorem signature_authorized_iff (secret raw : string)
    (signature : option string) :
  signature_authorized secret signature raw = true
  <-> exists sig,
        signature = Some sig /\ sig <> ""
        /\ (signature_valid_base64 secret raw sig
            \/ (List.length (Buffer_from_base64 (str_trim sig))
                <> List.length (Buffer_from_base64
                                  (hmac_sha256_base64 secret raw))
                /\ signature_valid_hex secret raw sig)).
Proof.
  unfold signature_authorized, signature_valid_base64, signature_valid_hex.
  destruct signature as [sig|].
  2:{ split; [discriminate|]. intros (sig & H & _). discriminate. }
  destruct (sig =? "") eqn:Es.
  { split; [discriminate|]. intros (sig' & H & Hne & _). injection H as <-.
    apply String.eqb_eq in Es. contradiction. }
  apply String.eqb_neq in Es. cbv zeta.
  pose proof (buffers_equal (Buffer_from_base64 (str_trim sig))
                (Buffer_from_base64 (hmac_sha256_base64 secret raw))) as Hb.
  destruct (Nat.eqb _ _) eqn:El; simpl in Hb.
  - split.
    + intros H. exists sig. repeat split; auto. left. now apply Hb.
    + intros (sig' & H & _ & [Hv|[Hlen _]]); injection H as <-.
      * now apply Hb.
      * apply Nat.eqb_eq in El. contradiction.
  - apply Nat.eqb_neq in El. split.
    + intros H. exists sig. repeat split; auto. right. split; [exact El|].
      now apply String.eqb_eq.
    + intros (sig' & H & _ & [Hv|[_ Hhex]]); injection H as <-.
      * rewrite Hv in El. contradiction.
      * now apply String.eqb_eq.
Qed.

(** [Bearer], in any case, and the white space after it are dropped from
    an [authorization] header. *)
Lemma strip_bearer_secret (prefix rest secret : string) :
  strip_prefix_ci "bearer" prefix = Some "" ->
  str_skip_spaces rest = secret -> rest <> secret ->
  strip_bearer (prefix ++ rest) = secret.
Proof.
  intros Hp Hs Hne. unfold strip_bearer.
  assert (Hstrip : forall p x t, strip_prefix_ci p x = Some "" ->
                     strip_prefix_ci p (x ++ t) = Some t).
  { induction p as [|a p IH]; intros x t H.
    - simpl in H. injection H as ->. reflexivity.
    - destruct x as [|c x]; [discriminate|]. simpl in *.
      destruct (Ascii.eqb a (ascii_lower c)); [auto|discriminate]. }
  rewrite (Hstrip _ _ _ Hp). cbv zeta. rewrite Hs.
  destruct (secret =? rest) eqn:E; [|reflexivity].
  apply String.eqb_eq in E. congruence.
Qed.

(** A request whose [authorization] header is [Bearer], in any case,
    followed by white space and the secret, and that has no other secret
    header, is processed, whatever its signature header.  The white space
    is what the host takes for white space: the rest of the header is not
    the secret, and is the secret once the white space it begins with is
    skipped. *)
Theorem bearer_secret_is_accepted
    (env : Env) (request : Request num) (secret prefix rest : string) :
  ZOHO_WEBHOOK_SECRET env = Some secret ->
  secret <> "" ->
  env_truthy (header "x-webhook-secret" (headers request)) = false ->
  env_truthy (header "x-zoho-webhook-secret" (headers request)) = false ->
  strip_prefix_ci "bearer" prefix = Some "" ->
  str_skip_spaces rest = secret -> rest <> secret ->
  header "authorization" (headers request) = Some (prefix ++ rest) ->
  zoho_authenticated env request = true
  /\ forall s : State num,
       zoho_webhook_handler env request s
       = try_catch (zoho_webhook_process env request) zoho_webhook_failure s.
Proof.
  intros Hsec Hne H1 H2 Hp Hs Hr Hauth.
  apply String.eqb_neq in Hne.
  assert (Hz : zoho_authorized secret request = true).
  { unfold zoho_authorized. cbv zeta.
    destruct (signature_authorized secret _ _); [reflexivity|]. cbn [negb].
    unfold headerSecret, str_or. rewrite H1, H2. cbn [env_truthy].
    rewrite Hauth. cbn [option_map].
    rewrite (@strip_bearer_secret prefix rest secret Hp Hs Hr).
    now rewrite Hne, String.eqb_refl. }
  split.
  - unfold zoho_authenticated. now rewrite Hsec, Hne, Hz.
  - intros s. unfold zoho_webhook_handler. now rewrite Hsec, Hne, Hz.
Qed.

(** The first secret header that is not empty decides: a request without
    a signature that verifies and with a wrong [x-webhook-secret] is
    answered 401 without any request being sent, even when another header
    carries the right secret. *)
Theorem wrong_first_secret_is_rejected
    (env : Env) (request : Request num) (secret h : string) (s : State num) :
  ZOHO_WEBHOOK_SECRET env = Some secret ->
  signature_authorized secret
    (header "x-zoho-webhook-signature" (headers request))
    (zoho_raw_body request) = false ->
  header "x-webhook-secret" (headers request) = Some h ->
  h <> "" -> h <> secret ->
  zoho_webhook_handler env request s = (Return unauthorized, s).
Proof.
  intros Hsec Hsig Hh Hne Hdiff.
  apply String.eqb_neq in Hne. apply String.eqb_neq in Hdiff.
  unfold zoho_webhook_handler, try_catch. rewrite Hsec.
  destruct (secret =? ""); [reflexivity|].
  unfold zoho_authorized. cbv zeta. rewrite Hsig. cbn [negb].
  unfold headerSecret, str_or. rewrite Hh. cbn [env_truthy].
  rewrite Hne. cbn [negb env_truthy]. rewrite Hne. cbn [negb andb].
  rewrite Hne, Hdiff. reflexivity.
Qed.

(** *** What the backend webhook reads from a payload *)

Lemma extractString_usable (c : val) :
  truthy (extractString c) = nonempty_string c
  /\ (nonempty_string c = true -> extractString c = c).
Proof.
  destruct c; simpl; (split; [reflexivity|]); intros H;
    first [discriminate|reflexivity].
Qed.

(** [pickSKU] returns the first of its four places that holds a string
    that is not empty; when there is none its result is falsy. *)
Theorem pickSKU_first_usable (body : val) :
  find nonempty_string (sku_candidates body)
  = if truthy (pickSKU body) then Some (pickSKU body) else None.
Proof.
  unfold pickSKU, sku_candidates, js_or. cbn [find].
  destruct (extractString_usable (get "sku" body)) as [<- V1].
  destruct (extractString_usable (get "item_sku" body)) as [<- V2].
  destruct (extractString_usable (get "sku" (get "item" body))) as [<- V3].
  destruct (extractString_usable (get "item_sku" (get "item" body))) as [<- V4].
  set (e1 := extractString (get "sku" body)) in *.
  set (e2 := extractString (get "item_sku" body)) in *.
  set (e3 := extractString (get "sku" (get "item" body))) in *.
  set (e4 := extractString (get "item_sku" (get "item" body))) in *.
  clearbody e1 e2 e3 e4.
  destruct (truthy e1) eqn:E1, (truthy e2) eqn:E2, (truthy e3) eqn:E3,
           (truthy e4) eqn:E4;
    repeat (progress (rewrite ?E1, ?E2, ?E3, ?E4; cbv iota));
    rewrite ?V1, ?V2, ?V3, ?V4 by reflexivity; reflexivity.
Qed.

Lemma find_append {A} (f : A -> bool) (l l' : list A) :
  find f (l ++ l') = match find f l with Some x => Some x | None => find f l' end.
Proof.
  induction l as [|x l IH]; [reflexivity|]. simpl. now destruct (f x).
Qed.

Lemma first_number_find (l : list val) :
  first_number l
  = match find (fun c => is_number (coerceNumber c)) l with
    | Some c => coerceNumber c
    | None => VUndef
    end.
Proof.
  induction l as [|c l IH]; [reflexivity|]. cbn [first_number find].
  cbv zeta.
  destruct (coerceNumber_cases c) as [E|(n & E & _)]; rewrite E; cbn;
    [exact IH|now rewrite E].
Qed.

(** [pickAvailableStock] returns the first of its eight places, the seven
    absolute quantities and then [quantity], that holds a finite number or
    a string that [Number] reads as one; the result is that number, and
    [undefined] when there is no such place. *)
Theorem pickAvailableStock_first_number (body : val) :
  pickAvailableStock body
  = match find (fun c => is_number (coerceNumber c)) (stock_candidates body) with
    | Some c => coerceNumber c
    | None => VUndef
    end
  /\ (pickAvailableStock body = VUndef
      \/ exists n, pickAvailableStock body = VNum n /\ num_isFinite n = true).
Proof.
  assert (Heq : pickAvailableStock body
                = match find (fun c => is_number (coerceNumber c))
                             (stock_candidates body) with
                  | Some c => coerceNumber c
                  | None => VUndef
                  end).
  { unfold pickAvailableStock. cbv zeta. rewrite first_number_find.
    change (stock_candidates body)
      with ([get "available_stock" body; get "stock_on_hand" body;
             get "actual_available_stock" body; get "quantity_available" body;
             get "available_stock" (get "item" body);
             get "stock_on_hand" (get "item" body);
             get "actual_available_stock" (get "item" body)]
            ++ [get "quantity" body])%list.
    rewrite find_append.
    destruct (find _ [get "available_stock" body; _; _; _; _; _; _])
      as [c|] eqn:Ef.
    - apply find_some in Ef. destruct Ef as [_ Hc].
      destruct (coerceNumber c); try discriminate. reflexivity.
    - cbn [nullish negb find].
      destruct (coerceNumber_cases (get "quantity" body)) as [E|(n & E & _)];
        rewrite E; cbn; now rewrite ?E. }
  split; [exact Heq|]. rewrite Heq.
  destruct (find _ _) as [c|]; [|now left].
  destruct (coerceNumber_cases c) as [->|H]; auto.
Qed.

(** *** The stock step of the sync *)

(** The quantity the sync sets is [available_stock] when that is a number,
    and the stock step does nothing otherwise: [actual_available_stock] and
    [stock_on_hand] are not used. *)
Theorem sync_stock_reads_available_stock_only
    (env : Env) (item variant : val) :
  (is_number (get "available_stock" item) = true ->
   sync_item_stock env item variant
   = (setInventoryLevel env (get "inventory_item_id" variant)
        (get "available_stock" item) VUndef ;;
      ret tt))
  /\ (is_number (get "available_stock" item) = false ->
      forall s : State num, sync_item_stock env item variant s = (Return tt, s)).
Proof.
  assert (H : available_of item
              = if is_number (get "available_stock" item)
                then get "available_stock" item else VBool false).
  { unfold available_of, js_and, js_coalesce.
    destruct (get "available_stock" item); reflexivity. }
  unfold sync_item_stock. cbv zeta. rewrite H. split; intros E; rewrite E.
  - now rewrite E.
  - reflexivity.
Qed.

(** *** Which requests a computation sends *)

Section Requests.

Variable P : Call num -> bool.
Variable env : Env.

Hypothesis token_sent : forall a b c d, P (ZohoTokenCall a b c d) = true.

Ltac sends_step :=
  lazymatch goal with
  | |- keeps (emits P) (bind _ _) =>
      apply keeps_bind; [apply emits_trans| |intros ?]
  | |- keeps (emits P) (ret _) => apply keeps_ret, emits_refl
  | |- keeps (emits P) (throw _) => apply keeps_throw, emits_refl
  | |- keeps (emits P) (try_catch _ _) =>
      apply keeps_try_catch; [apply emits_trans| |intros ?]
  | |- keeps (emits P) (log _ _ _) => apply emits_log
  | |- keeps (emits P) (member _ _) => apply keeps_member, emits_refl
  | |- keeps (emits P) (requireEnv _ _) => apply keeps_requireEnv, emits_refl
  | |- keeps (emits P) (iterate_or_throw _) =>
      apply keeps_iterate_or_throw, emits_refl
  | |- keeps (emits P) (find_by_sku _ _) =>
      apply keeps_find_by_sku; [apply emits_refl|apply emits_trans]
  | |- keeps (emits P) (for_each _ _) =>
      apply keeps_for_each; [apply emits_refl|apply emits_trans|intros ?]
  | |- keeps (emits P) (for_fold _ _ _) =>
      apply keeps_for_fold; [apply emits_refl|apply emits_trans|intros ? ?]
  | |- keeps (emits P) (fetch _) => apply emits_fetch; auto
  | |- keeps (emits P) (let _ := _ in _) => cbv zeta
  | |- keeps (emits P) (if ?b then _ else _) => destruct b
  | |- keeps (emits P) (match ?x with _ => _ end) => destruct x
  | |- keeps (emits P) _ => solve [auto]
  end.

Lemma sends_zohoFetch (req : ZohoReq num) :
  (forall base org token, P (ZohoCall base org token req) = true) ->
  keeps (emits P) (zohoFetch env req).
Proof.
  intros H. unfold zohoFetch, getZohoAccessToken, response_json.
  repeat sends_step.
Qed.

Lemma sends_findZohoItemBySKU (sku : val) :
  (forall base org token q,
     P (ZohoCall base org token (ZItemsSearch q)) = true) ->
  keeps (emits P) (findZohoItemBySKU env sku).
Proof.
  intros H.
  pose proof (fun q => @sends_zohoFetch (ZItemsSearch q)
                          (fun b o t => H b o t q)).
  unfold findZohoItemBySKU, find_in. repeat sends_step.
Qed.

Lemma sends_getZohoItemById (id : val) :
  (forall base org token i,
     P (ZohoCall base org token (ZItemById i)) = true) ->
  keeps (emits P) (getZohoItemById env id).
Proof.
  intros H.
  pose proof (fun i => @sends_zohoFetch (ZItemById i)
                          (fun b o t => H b o t i)).
  unfold getZohoItemById. repeat sends_step.
Qed.

Lemma sends_push_line (acc : list (LineItem num)) (li : val) :
  (forall base org token q,
     P (ZohoCall base org token (ZItemsSearch q)) = true) ->
  keeps (emits P) (push_line env acc li).
Proof.
  intros H. pose proof (fun sku => sends_findZohoItemBySKU sku H).
  unfold push_line. repeat sends_step.
Qed.

Lemma sends_contact (email name : val) :
  (forall base org token q,
     P (ZohoCall base org token (ZContactsByEmail q)) = true) ->
  (forall base org token b,
     P (ZohoCall base org token (ZCreateContact b)) = true) ->
  keeps (emits P) (getOrCreateZohoContactByEmail env email name).
Proof.
  intros H1 H2.
  pose proof (fun q => @sends_zohoFetch (ZContactsByEmail q)
                          (fun b o t => H1 b o t q)).
  pose proof (fun x => @sends_zohoFetch (ZCreateContact x)
                          (fun b o t => H2 b o t x)).
  unfold getOrCreateZohoContactByEmail. repeat sends_step.
Qed.

Lemma sends_verifyHmac (h raw : option string) :
  keeps (emits P) (verifyHmac env h raw).
Proof. unfold verifyHmac. repeat sends_step. Qed.

Lemma sends_parse_body (b : val) : keeps (emits P) (parse_body b).
Proof. unfold parse_body. repeat sends_step. Qed.

Section Storefront.

Hypothesis storefront_sent : forall domain token req,
  P (ShopifyCall domain token req) = true.

Lemma sends_sync_item (item : val) : keeps (emits P) (sync_item env item).
Proof.
  apply keeps_sync_item with (allowed := P);
    [exact (emits_refl P) | exact (fun a b c => emits_trans (P:=P) (a:=a) (b:=b) (c:=c)) | exact (emits_fetch P)
    | auto | auto | intros; split; auto | auto].
Qed.

Lemma sends_sync_page (page : nat) :
  (forall base org token p,
     P (ZohoCall base org token (ZItemsPage p)) = true) ->
  keeps (emits P) (sync_page env page).
Proof.
  intros H.
  pose proof (fun p => @sends_zohoFetch (ZItemsPage p)
                          (fun b o t => H b o t p)).
  pose proof sends_sync_item.
  unfold sync_page, listZohoItemsPaged. repeat sends_step.
Qed.

Lemma sends_sync_loop (fuel : nat) :
  (forall base org token p,
     P (ZohoCall base org token (ZItemsPage p)) = true) ->
  forall page (s : State num) out s',
    sync_loop env fuel page s = Some (out, s') -> emits P s s'.
Proof.
  intros H. induction fuel as [|fuel IH]; intros page s out s' E;
    [discriminate|].
  simpl in E. pose proof (sends_sync_page page H s) as Hp.
  destruct (sync_page env page s) as [[[|]|e] s1]; simpl in Hp.
  - apply emits_trans with s1; [exact Hp|]. exact (IH _ _ _ _ E).
  - injection E as _ <-. exact Hp.
  - injection E as _ <-. exact Hp.
Qed.

Lemma sends_zoho_webhook_handler (request : Request num) :
  (forall base org token i,
     P (ZohoCall base org token (ZItemById i)) = true) ->
  keeps (emits P) (zoho_webhook_handler env request).
Proof.
  intros H.
  pose proof (fun id => sends_getZohoItemById id H) as Hitem.
  assert (Hfind : forall sku, keeps (emits P) (findVariantBySKU env sku)).
  { intros sku. apply keeps_findVariantBySKU with (allowed := P);
      [exact (emits_refl P) | exact (fun a b c => emits_trans (P:=P) (a:=a) (b:=b) (c:=c)) | exact (emits_fetch P) | auto]. }
  assert (Hprice : forall id p, keeps (emits P) (updateVariantPrice env id p)).
  { intros id p. apply keeps_updateVariantPrice with (allowed := P);
      [exact (emits_refl P) | exact (fun a b c => emits_trans (P:=P) (a:=a) (b:=b) (c:=c)) | exact (emits_fetch P) | auto]. }
  assert (Hset : forall id q l, keeps (emits P) (setInventoryLevel env id q l)).
  { intros id q l. apply keeps_setInventoryLevel with (allowed := P);
      [exact (emits_refl P) | exact (fun a b c => emits_trans (P:=P) (a:=a) (b:=b) (c:=c)) | exact (emits_fetch P)
      | intros; split; auto | auto]. }
  pose proof sends_parse_body.
  unfold zoho_webhook_handler, zoho_webhook_failure, zoho_webhook_process,
    zoho_item_update, zoho_adjustment, zoho_adjustment_line.
  repeat sends_step.
Qed.

End Storefront.

Section OrderRequests.

Hypothesis searches_sent : forall base org token q,
  P (ZohoCall base org token (ZItemsSearch q)) = true.
Hypothesis lookups_sent : forall base org token q,
  P (ZohoCall base org token (ZContactsByEmail q)) = true.
Hypothesis contacts_sent : forall base org token b,
  P (ZohoCall base org token (ZCreateContact b)) = true.
Hypothesis salesorders_sent : forall base org token b,
  P (ZohoCall base org token (ZCreateSalesOrder b)) = true.

Lemma sends_createZohoSalesOrder (input : SalesOrderInput num) :
  keeps (emits P) (createZohoSalesOrder env input).
Proof.
  pose proof (fun sku => sends_findZohoItemBySKU sku searches_sent).
  pose proof (fun e n => sends_contact e n lookups_sent contacts_sent).
  pose proof (fun x => @sends_zohoFetch (ZCreateSalesOrder x)
                          (fun b o t => salesorders_sent b o t x)).
  unfold createZohoSalesOrder. repeat sends_step.
Qed.

Lemma sends_pushShopifyOrderToZoho (order : val) :
  keeps (emits P) (pushShopifyOrderToZoho env order).
Proof.
  pose proof (fun acc li => sends_push_line acc li searches_sent).
  pose proof sends_createZohoSalesOrder.
  unfold pushShopifyOrderToZoho. repeat sends_step.
Qed.

Lemma sends_order_created_handler (request : Request num) :
  keeps (emits P) (order_created_handler env request).
Proof.
  pose proof sends_pushShopifyOrderToZoho.
  pose proof sends_parse_body. pose proof sends_verifyHmac.
  unfold order_created_handler, order_created_failure, order_created_check,
    order_created_process.
  repeat sends_step.
Qed.

End OrderRequests.

End Requests.

(** Handling a storefront order sends backend requests only, and among
    them only token exchanges, item searches, contact requests and the
    creation of a sales order: nothing is sent to the storefront, and
    neither the catalog nor a single item is read. *)
Theorem order_created_sends_order_requests_only
    (env : Env) (request : Request num) (s : State num) :
  emits order_request s (snd (order_created_handler env request s)).
Proof. apply sends_order_created_handler; reflexivity. Qed.

(** The backend webhook sends no [POST] to the backend API: the only
    backend requests it sends are token exchanges and [GET] requests whose
    URL is the base URL, [/inventory/v1/items/] and an identifier as the
    payload has it, not encoded.  What such a request reads is the resource
    that this text addresses: an item when the identifier is the
    identifier of an item. *)
Theorem inventory_webhook_only_reads_backend
    (env : Env) (request : Request num) (s : State num) :
  emits inventory_webhook_request s (snd (zoho_webhook_handler env request s))
  /\ forall base org token req,
       inventory_webhook_request (ZohoCall base org token req) = true ->
       exists id,
         req = ZItemById id
         /\ zoho_url base req = base ++ "/inventory/v1/items/" ++ id.
Proof.
  split; [apply sends_zoho_webhook_handler; reflexivity|].
  intros base org token req H. destruct req; try discriminate.
  eexists. split; reflexivity.
Qed.

(** The route that starts the sync sends, to the backend, token exchanges
    and requests for catalog pages only. *)
Theorem sync_only_reads_catalog
    (env : Env) (fuel : nat) (s : State num) out s' :
  sync_route env fuel s = Some (out, s') -> emits sync_request s s'.
Proof.
  unfold sync_route, run_sync, syncZohoToShopify. intros E.
  pose proof (@sends_sync_loop sync_request env (fun _ _ _ _ => eq_refl)
                (fun _ _ _ => eq_refl) fuel (fun _ _ _ _ => eq_refl) 1 s) as H.
  destruct (sync_loop env fuel 1 s) as [[[v|e] s1]|]; [| |discriminate].
  - injection E as _ <-. exact (H _ _ eq_refl).
  - unfold bind, log, throw in E. injection E as _ <-.
    destruct (H _ _ eq_refl) as (t & Ht & Hp). exists t. now split.
Qed.

(** *** The storefront client *)

(** [findVariantBySKU] returns the first variant of the storefront's answer
    whose SKU is the one asked for; when the answer has none, it returns
    the first variant of the answer, whatever its SKU, and [null] when the
    answer is empty. *)
Theorem findVariantBySKU_falls_back_to_first
    (env : Env) (sku : val) (s : State num) (l : list val) :
  first_missing (shopify_required env) = None ->
  shopify_outage (world s) (SVariantsBySku (js_toString sku)) = None ->
  filter (fun v => variant_search (world s) (js_toString sku) (variant_id v))
         (variants (world s)) = l ->
  forallb (fun v => negb (nullish v)) l = true ->
  fst (findVariantBySKU env sku s)
  = Return (js_or (js_or (find_match sku l) (index0 (VArr l))) VNull)
  /\ (forall v rest,
        l = v :: rest -> find_match sku l = VUndef -> truthy v = true ->
        fst (findVariantBySKU env sku s) = Return v)
  /\ (l = [] -> fst (findVariantBySKU env sku s) = Return VNull).
Proof.
  intros Hc Hout Hl Hnn.
  assert (H : fst (findVariantBySKU env sku s)
              = Return (js_or (js_or (find_match sku l) (index0 (VArr l)))
                              VNull)).
  { rewrite findVariantBySKU_unfold.
    destruct (shopifyFetch_configured env (SVariantsBySku (js_toString sku)) s Hc)
      as (domain & token & ->).
    unfold shopify_respond. rewrite Hout. cbn [fst response_outcome].
    rewrite Hl.
    unfold bind, member. cbn [nullish get lookup String.eqb Ascii.eqb Bool.eqb].
    unfold ret at 1. unfold find_in. cbn [js_or truthy].
    rewrite find_by_sku_match by exact Hnn. reflexivity. }
  split; [exact H|]. split.
  - intros v rest -> Hm Hv. rewrite H, Hm. unfold js_or. cbn [truthy index0].
    now rewrite Hv.
  - intros ->. rewrite H. reflexivity.
Qed.

(** Without a primary location of the shop, without a level of the item
    that names a location and without [DEFAULT_LOCATION_ID],
    [setInventoryLevel] fails with the error that asks for the setting, and
    no level is sent to the storefront. *)
Theorem setInventoryLevel_needs_a_location
    (env : Env) (id available : val) (s : State num) :
  first_missing (shopify_required env) = None ->
  shopify_outage (world s) SShop = None ->
  shopify_outage (world s) (SInventoryLevels (js_toString id)) = None ->
  truthy (get "primary_location_id" (shop (world s))) = false ->
  env_truthy (DEFAULT_LOCATION_ID env) = false ->
  truthy (get "location_id"
            (index0 (VArr (filter (fun l => level_item l =? js_toString id)
                                  (inventory_levels (world s)))))) = false ->
  exists s' t,
    setInventoryLevel env id available VUndef s
    = (Throw (Error "No location_id available; set DEFAULT_LOCATION_ID in Secrets"),
       s')
    /\ world s' = world s
    /\ trace s' = (trace s ++ t)%list
    /\ filter is_stock_call t = [].
Proof.
  intros Hc Hshop Hlevels Hprimary Hdefault Hloc.
  assert (Hd : forall message, default_location env message = Throw (Error message)).
  { intros message. unfold default_location.
    destruct (DEFAULT_LOCATION_ID env) as [x|]; [|reflexivity].
    simpl in Hdefault. apply negb_false_iff in Hdefault. now rewrite Hdefault. }
  unfold setInventoryLevel. cbn [truthy]. unfold bind.
  destruct (getLocationIdForItem_configured env id s Hc) as (t & Ht).
  pose proof (keeps_getLocationIdForItem
                (emits_refl (fun c => negb (is_stock_call c)))
                (fun a b c => emits_trans (a:=a) (b:=b) (c:=c))
                (fun c => negb (is_stock_call c)) (emits_fetch _) env
                (fun _ _ => conj eq_refl (fun _ => eq_refl)) id s)
    as (t' & Ht' & Hp).
  rewrite Ht in *. cbn [snd add_calls trace] in Ht'.
  apply app_inv_head in Ht'. subst t'.
  assert (Hthrow : location_for env (world s) (js_toString id)
                   = Throw (Error "No location_id available; set DEFAULT_LOCATION_ID in Secrets")).
  { unfold location_for, primary_location, shopify_respond.
    rewrite Hshop, Hlevels.
    cbn [fst response_outcome get lookup String.eqb Ascii.eqb Bool.eqb].
    cbv zeta. rewrite Hprimary, Hd, Hloc, Hd. reflexivity. }
  rewrite Hthrow. exists (add_calls s t), t.
  split; [reflexivity|]. split; [reflexivity|]. split; [reflexivity|].
  clear - Hp. induction t as [|c t IH]; [reflexivity|]. simpl in *.
  apply andb_true_iff in Hp. destruct Hp as [Hc Ht].
  apply negb_true_iff in Hc. rewrite Hc. auto.
Qed.

(** *** The backend client *)

Lemma filter_none {A} (f : A -> bool) (l : list A) :
  forallb (fun x => negb (f x)) l = true -> filter f l = [].
Proof.
  induction l as [|x l IH]; [reflexivity|]. simpl. intros H.
  apply andb_true_iff in H. destruct H as [Hx Hl].
  apply negb_true_iff in Hx. rewrite Hx. auto.
Qed.

(** A contact that the backend finds for the email is returned as it is,
    after one lookup: no contact is created.  The configuration of the
    backend is present, its base URL makes a URL of every request, and the
    token endpoint answers. *)
Theorem existing_contact_is_reused
    (env : Env) (email name tokjson search : val) (s : State num) :
  first_missing (zoho_token_required env) = None ->
  first_missing (zoho_api_required env) = None ->
  zoho_urls_parse env ->
  zoho_accounts (world s) = RespOk tokjson ->
  nullish tokjson = false ->
  truthy email = true ->
  zoho_api (world s) (ZContactsByEmail (js_toString email)) = RespOk search ->
  nullish search = false ->
  length_truthy (get "contacts" search) = true ->
  exists s' t,
    getOrCreateZohoContactByEmail env email name s
    = (Return (index0 (get "contacts" search)), s')
    /\ trace s' = (trace s ++ t)%list
    /\ List.length t = 2
    /\ filter is_contact_creation t = [].
Proof.
  intros Htc Hac Hurl Htok Htj Hemail Hsearch Hnull Hlen.
  destruct (@zohoFetch_in_world env (world s) tokjson Htc Hac Hurl Htok Htj)
    as (tc & base & org & token & Htcall & Hfetch).
  unfold getOrCreateZohoContactByEmail. rewrite Hemail. cbn [negb].
  unfold bind at 1. rewrite (Hfetch _ s eq_refl), Hsearch.
  cbn [response_outcome]. unfold bind at 1, member.
  rewrite Hnull. unfold ret at 1. rewrite Hlen. unfold ret.
  eexists; eexists. split; [reflexivity|]. cbn [trace add_calls].
  split; [reflexivity|]. split; [reflexivity|].
  cbn [filter]. destruct tc; try discriminate. reflexivity.
Qed.

Lemma before_at_local (local domain : string) :
  forallb (fun c => negb (Ascii.eqb c "@"%char)) (list_ascii_of_string local)
  = true ->
  before_at (local ++ "@" ++ domain) = local.
Proof.
  induction local as [|c local IH]; simpl; [reflexivity|].
  intros H. apply andb_true_iff in H. destruct H as [Hc Hl].
  apply negb_true_iff in Hc. rewrite Hc. f_equal. auto.
Qed.

(** When the backend has no contact for the email and the order gives no
    name, one contact is created, named after the part of the email before
    the ["@"], and the contact of the answer is returned.  The
    configuration of the backend is present, its base URL makes a URL of
    every request, and the token endpoint answers. *)
Theorem new_contact_is_named_after_email
    (env : Env) (local domain : string) (name tokjson search created : val)
    (s : State num) :
  first_missing (zoho_token_required env) = None ->
  first_missing (zoho_api_required env) = None ->
  zoho_urls_parse env ->
  zoho_accounts (world s) = RespOk tokjson ->
  nullish tokjson = false ->
  forallb (fun c => negb (Ascii.eqb c "@"%char)) (list_ascii_of_string local)
  = true ->
  truthy name = false ->
  let email := VStr (local ++ "@" ++ domain) in
  let body := VObj [("contact_name", VStr local);
                    ("contact_persons", VArr [VObj [("email", email)]])] in
  zoho_api (world s) (ZContactsByEmail (js_toString email)) = RespOk search ->
  nullish search = false ->
  length_truthy (get "contacts" search) = false ->
  zoho_api (world s) (ZCreateContact body) = RespOk created ->
  nullish created = false ->
  exists s' t base org token,
    getOrCreateZohoContactByEmail env email name s
    = (Return (get "contact" created), s')
    /\ trace s' = (trace s ++ t)%list
    /\ filter is_contact_creation t
       = [ZohoCall base org token (ZCreateContact body)].
Proof.
  intros Htc Hac Hurl Htok Htj Hlocal Hname email body Hsearch Hnull Hlen
         Hcreate Hcnull.
  destruct (@zohoFetch_in_world env (world s) tokjson Htc Hac Hurl Htok Htj)
    as (tc & base & org & token & Htcall & Hfetch).
  assert (Hemail : truthy email = true).
  { subst email. simpl. now destruct local. }
  unfold getOrCreateZohoContactByEmail. rewrite Hemail. cbn [negb].
  unfold bind at 1. rewrite (Hfetch _ s eq_refl), Hsearch.
  cbn [response_outcome]. unfold bind at 1, member.
  rewrite Hnull. unfold ret at 1. rewrite Hlen, Hname.
  unfold bind at 1. subst email. cbv iota. unfold ret at 1.
  rewrite before_at_local by exact Hlocal.
  unfold bind at 1.
  match goal with
  | |- context [zohoFetch env ?req ?s0] => rewrite (Hfetch req s0 eq_refl)
  end.
  fold body. rewrite Hcreate. cbn [response_outcome].
  rewrite Hcnull. unfold ret.
  eexists; eexists; exists base, org, token. split; [reflexivity|].
  cbn [trace add_calls]. rewrite <- app_assoc.
  split; [reflexivity|].
  cbn [filter app]. destruct tc; try discriminate. reflexivity.
Qed.

Lemma backend_fetch_keeps_world (c : Call num) :
  is_shopify_call c = false ->
  keeps (fun s s' : State num => world s' = world s) (fetch c).
Proof.
  intros Hc s. unfold fetch. destruct c; try discriminate; reflexivity.
Qed.

(** The contact step changes nothing on the storefront and creates no
    sales order. *)
Lemma contact_step (env : Env) (email name : val) (s : State num) :
  world (snd (getOrCreateZohoContactByEmail env email name s)) = world s
  /\ exists t,
       trace (snd (getOrCreateZohoContactByEmail env email name s))
       = (trace s ++ t)%list
       /\ not_salesorder t.
Proof.
  split.
  - apply (keeps_getOrCreateZohoContactByEmail
             (R := fun s s' : State num => world s' = world s)
             (fun _ => eq_refl)
             (fun a b c Hab Hbc => eq_trans Hbc Hab)
             (fun c => negb (is_shopify_call c))
             (fun c Hc => backend_fetch_keeps_world c
                            (proj1 (negb_true_iff _) Hc))
             env (fun _ _ _ _ => eq_refl) (fun _ _ _ _ => eq_refl)).
  - destruct (@sends_contact (fun c => negb (is_salesorder_call c)) env
                (fun _ _ _ _ => eq_refl) email name
                (fun _ _ _ _ => eq_refl) (fun _ _ _ _ => eq_refl) s)
      as (t & Ht & Hp).
    exists t. split; [exact Ht|]. now apply filter_none.
Qed.

Section BackendAnswers.

Variable env : Env.
Variable w : World num.
Variable tokjson : val.
Variable catalog : string -> list val.

Hypothesis token_configured : first_missing (zoho_token_required env) = None.
Hypothesis api_configured : first_missing (zoho_api_required env) = None.
Hypothesis urls_parse : zoho_urls_parse env.
Hypothesis token_answered : zoho_accounts w = RespOk tokjson.
Hypothesis token_json : nullish tokjson = false.
Hypothesis searches_answered : searches_answer w catalog.

(** The loop of [createZohoSalesOrder] stops at the first line without a
    backend item. *)
Lemma lines_stop_at_unresolved (L : list (LineItem num)) (l0 : LineItem num) :
  find (fun l => negb (truthy (backend_item catalog (li_sku l)))) L = Some l0 ->
  forall (acc : list val) (s : State num),
    world s = w ->
    exists s' t,
      for_fold L acc
        (fun acc li =>
           item <- findZohoItemBySKU env (li_sku li) ;;
           if negb (truthy item)
           then throw (Error ("Zoho item not found for SKU "
                              ++ js_toString (li_sku li)))
           else ret (acc ++ [zohoLineItem li item])%list) s
      = (Throw (Error ("Zoho item not found for SKU "
                       ++ js_toString (li_sku l0))), s')
      /\ trace s' = (trace s ++ t)%list
      /\ not_salesorder t.
Proof.
  induction L as [|x L IH]; intros Hfind acc s Hw; [discriminate|].
  destruct (@findZohoItemBySKU_answered env w tokjson catalog token_configured
              api_configured urls_parse token_answered token_json
              searches_answered (li_sku x)) as (t & Hns & Hrun).
  cbn [for_fold]. unfold bind at 1 2. rewrite (Hrun s Hw).
  cbn [find] in Hfind.
  destruct (negb (truthy (backend_item catalog (li_sku x)))).
  - injection Hfind as <-. unfold throw.
    exists (add_calls s t), t. now repeat split.
  - unfold ret at 1.
    destruct (IH Hfind (acc ++ [zohoLineItem x (backend_item catalog (li_sku x))])%list
                (add_calls s t) Hw) as (s' & t' & -> & Ht' & Hns').
    exists s', (t ++ t')%list. split; [reflexivity|]. split.
    + rewrite Ht'. cbn [trace add_calls]. now rewrite app_assoc.
    + unfold not_salesorder in *. now rewrite filter_app, Hns, Hns'.
Qed.

End BackendAnswers.

(** [createZohoSalesOrder] creates nothing when a line has no backend
    item: it fails, and when the contact step went through the error names
    the SKU of the first such line.  The configuration of the backend is
    present, its base URL makes a URL of every request, the token endpoint
    answers, and every item search is answered, whatever the answer holds
    beside its items. *)
Theorem sales_order_needs_every_line
    (env : Env) (input : SalesOrderInput num) (catalog : string -> list val)
    (tokjson : val) (l0 : LineItem num) (s : State num) :
  first_missing (zoho_token_required env) = None ->
  first_missing (zoho_api_required env) = None ->
  zoho_urls_parse env ->
  zoho_accounts (world s) = RespOk tokjson ->
  nullish tokjson = false ->
  searches_answer (world s) catalog ->
  find (fun l => negb (truthy (backend_item catalog (li_sku l))))
       (lineItems input) = Some l0 ->
  exists e s' t,
    createZohoSalesOrder env input s = (Throw e, s')
    /\ trace s' = (trace s ++ t)%list
    /\ filter is_salesorder_call t = []
    /\ (forall contact s1,
          getOrCreateZohoContactByEmail env (customerEmail input)
            (customerName input) s = (Return contact, s1) ->
          e = Error ("Zoho item not found for SKU "
                     ++ js_toString (li_sku l0))).
Proof.
  intros Htc Hac Hurl Htok Htj Hsearch Hfind.
  unfold createZohoSalesOrder. unfold bind at 1.
  destruct (contact_step env (customerEmail input) (customerName input) s)
    as (Hw1 & t1 & Ht1 & Hns1).
  destruct (getOrCreateZohoContactByEmail env (customerEmail input)
              (customerName input) s) as [[contact|e] s1]; cbn [snd] in *.
  - unfold bind at 1.
    destruct (@lines_stop_at_unresolved env (world s) tokjson catalog Htc Hac
                Hurl Htok Htj Hsearch (lineItems input) l0 Hfind [] s1 Hw1)
      as (s2 & t2 & -> & Ht2 & Hns2).
    eexists; exists s2, (t1 ++ t2)%list. split; [reflexivity|]. split.
    { rewrite Ht2, Ht1. now rewrite app_assoc. }
    split.
    { unfold not_salesorder in *. now rewrite filter_app, Hns1, Hns2. }
    intros contact' s1' _. reflexivity.
  - exists e, s1, t1. split; [reflexivity|]. split; [exact Ht1|].
    split; [exact Hns1|]. intros contact s1' H. discriminate.
Qed.

(** An order with an email none of whose lines resolves creates neither a
    contact nor a sales order: the push looks the lines up, warns and
    returns nothing.  The configuration of the backend is present, its base
    URL makes a URL of every request, the token endpoint answers, and every
    item search is answered, whatever the answer holds beside its items. *)
Theorem order_without_resolvable_line_is_skipped
    (env : Env) (order : val) (lines : list val)
    (catalog : string -> list val) (tokjson : val) (s : State num) :
  first_missing (zoho_token_required env) = None ->
  first_missing (zoho_api_required env) = None ->
  zoho_urls_parse env ->
  zoho_accounts (world s) = RespOk tokjson ->
  nullish tokjson = false ->
  searches_answer (world s) catalog ->
  truthy (order_email order) = true ->
  iterate (js_or (get "line_items" order) (VArr [])) = Some lines ->
  existsb (resolved catalog) lines = false ->
  exists s' t,
    pushShopifyOrderToZoho env order s = (Return VUndef, s')
    /\ trace s' = (trace s ++ t)%list
    /\ forallb is_lookup_call t = true
    /\ In (WarnLevel, "SO skip: no mapped lines",
           [VObj [("orderId", get "id" order)]]) (console s').
Proof.
  intros Htc Hac Hurl Htok Htj Hsearch Hemail Hiter Hnone.
  unfold pushShopifyOrderToZoho. cbv zeta. rewrite Hemail. cbn [negb].
  unfold bind at 1. unfold iterate_or_throw. rewrite Hiter. unfold ret at 1.
  unfold bind at 1.
  assert (Hsends : emits is_lookup_call s
                     (snd (for_fold lines [] (push_line env) s))).
  { apply keeps_for_fold;
      [exact (emits_refl _)
      |exact (fun a b c => emits_trans (a:=a) (b:=b) (c:=c))|].
    intros acc li. apply sends_push_line; reflexivity. }
  destruct (@push_lines_run env (world s) tokjson catalog Htc Hac Hurl Htok Htj
              Hsearch lines [] s eq_refl) as (s1 & t1 & c1 & Hrun & Hext1 & _ & _).
  rewrite Hrun in *. cbn [snd] in Hsends.
  assert (Hfilter : filter (resolved catalog) lines = []).
  { clear - Hnone. induction lines as [|li lines IH]; [reflexivity|].
    simpl in *. apply orb_false_iff in Hnone. destruct Hnone as [-> Hl]. auto. }
  rewrite Hfilter. cbn [app map List.length Nat.eqb].
  unfold bind, log, ret. destruct Hext1 as (_ & Ht1 & _).
  destruct Hsends as (t & Ht & Hp).
  eexists; exists t. split; [reflexivity|]. cbn [trace console].
  split; [exact Ht|]. split; [exact Hp|].
  apply in_or_app. right. now left.
Qed.

(** [run] without an order, or with an order that has neither [email] nor
    [customer.email], sends nothing: it warns and returns nothing. *)
Theorem order_without_email_is_skipped
    (env : Env) (params : val) (s : State num) :
  truthy (get "order" params) = false
  \/ truthy (order_email (get "order" params)) = false ->
  exists order,
    run_order_push env params s
    = (Return VUndef,
       {| world := world s; trace := trace s;
          console := (console s
                      ++ [(WarnLevel, "SO skip: no email",
                           [VObj [("orderId", get "id" order)]])])%list |})
    /\ (order = get "order" params \/ order = VObj []).
Proof.
  intros H. unfold run_order_push.
  set (order := js_or (get "order" params) (VObj [])).
  assert (Ho : (order = get "order" params \/ order = VObj [])
               /\ truthy (order_email order) = false).
  { subst order. unfold js_or.
    destruct (truthy (get "order" params)).
    - destruct H as [H|H]; [discriminate|]. split; [now left|exact H].
    - split; [now right|reflexivity]. }
  destruct Ho as [Ho He]. exists order. split; [|exact Ho].
  unfold pushShopifyOrderToZoho. cbv zeta. rewrite He. reflexivity.
Qed.

(** [getZohoItemStock] fails for a SKU without a backend item, before it
    asks for the details of any item.  The configuration of the backend is
    present, its base URL makes a URL of every request, the token endpoint
    answers, and every item search is answered, whatever the answer holds
    beside its items. *)
Theorem item_stock_of_unknown_sku_fails
    (env : Env) (sku : val) (catalog : string -> list val) (tokjson : val)
    (s : State num) :
  first_missing (zoho_token_required env) = None ->
  first_missing (zoho_api_required env) = None ->
  zoho_urls_parse env ->
  zoho_accounts (world s) = RespOk tokjson ->
  nullish tokjson = false ->
  searches_answer (world s) catalog ->
  truthy (backend_item catalog sku) = false ->
  exists s' t,
    getZohoItemStock env sku s
    = (Throw (Error ("Zoho item not found for SKU " ++ js_toString sku)), s')
    /\ trace s' = (trace s ++ t)%list
    /\ filter is_item_detail_call t = [].
Proof.
  intros Htc Hac Hurl Htok Htj Hsearch Hnone.
  destruct (@findZohoItemBySKU_answered env (world s) tokjson catalog Htc Hac
              Hurl Htok Htj Hsearch sku) as (t & _ & Hrun).
  destruct (@sends_findZohoItemBySKU (fun c => negb (is_item_detail_call c)) env
              (fun _ _ _ _ => eq_refl) sku (fun _ _ _ _ => eq_refl) s)
    as (t' & Ht' & Hp).
  unfold getZohoItemStock. unfold bind at 1.
  rewrite (Hrun s eq_refl) in *. rewrite Hnone. cbn [negb]. unfold throw.
  cbn [snd] in Ht'.
  exists (add_calls s t), t'. split; [reflexivity|]. split; [exact Ht'|].
  now apply filter_none.
Qed.

(** For a SKU with a backend item, [getZohoItemStock] asks for
    [items/ID], with the identifier of that item, and reports the two
    stock figures of the answer, each replaced by 0 when it is missing or
    falsy.  The configuration of the backend is present, its base URL makes
    a URL of every request, the token endpoint answers, and every item
    search is answered, whatever the answer holds beside its items. *)
Theorem item_stock_defaults_to_zero
    (env : Env) (sku : val) (catalog : string -> list val)
    (tokjson data : val) (s : State num) :
  first_missing (zoho_token_required env) = None ->
  first_missing (zoho_api_required env) = None ->
  zoho_urls_parse env ->
  zoho_accounts (world s) = RespOk tokjson ->
  nullish tokjson = false ->
  searches_answer (world s) catalog ->
  truthy (backend_item catalog sku) = true ->
  zoho_api (world s)
    (ZItemById (js_toString (get "item_id" (backend_item catalog sku))))
  = RespOk data ->
  nullish data = false ->
  nullish (get "item" data) = false ->
  exists stock s',
    getZohoItemStock env sku s = (Return stock, s')
    /\ get "sku" stock = get "sku" (get "item" data)
    /\ get "name" stock = get "name" (get "item" data)
    /\ forall k, k = "stock_on_hand" \/ k = "available_stock" ->
         (truthy (get k (get "item" data)) = true
          /\ get k stock = get k (get "item" data))
         \/ (truthy (get k (get "item" data)) = false
             /\ get k stock = VNum (num_of_nat 0)).
Proof.
  intros Htc Hac Hurl Htok Htj Hsearch Hsome Hitem Hdata Hdetail.
  destruct (@zohoFetch_in_world env (world s) tokjson Htc Hac Hurl Htok Htj)
    as (tc & base & org & token & _ & Hfetch).
  destruct (@findZohoItemBySKU_answered env (world s) tokjson catalog Htc Hac
              Hurl Htok Htj Hsearch sku) as (t & _ & Hrun).
  unfold getZohoItemStock. unfold bind at 1.
  rewrite (Hrun s eq_refl), Hsome. cbn [negb]. unfold bind at 1.
  rewrite (Hfetch _ (add_calls s t) eq_refl), Hitem.
  cbn [response_outcome]. unfold bind at 1, member. rewrite Hdata.
  unfold ret at 1. unfold bind at 1. rewrite Hdetail. unfold ret.
  eexists; eexists. split; [reflexivity|].
  split; [reflexivity|]. split; [reflexivity|].
  intros k [->| ->]; cbn [get lookup String.eqb Ascii.eqb Bool.eqb];
    unfold js_or;
    match goal with
    | |- context [truthy ?x] => destruct (truthy x); auto
    end.
Qed.

(** *** The routes *)

Lemma zohoFetch_without_token_setting (env : Env) (name : string)
    (req : ZohoReq num) (s : State num) :
  first_missing (zoho_token_required env) = Some name ->
  zohoFetch env req s = (Throw (ConfigurationError name), s).
Proof.
  intros Hm. unfold zoho_token_required, first_missing in Hm.
  unfold zohoFetch, getZohoAccessToken.
  destruct (env_truthy (ZOHO_ACCOUNTS_URL env)) eqn:E1;
    [|injection Hm as <-; unfold bind at 1; require_env E1; reflexivity].
  destruct (env_truthy (ZOHO_CLIENT_ID env)) eqn:E2;
    [|injection Hm as <-; unfold bind at 1; require_env E1; require_env E2;
      reflexivity].
  destruct (env_truthy (ZOHO_CLIENT_SECRET env)) eqn:E3;
    [|injection Hm as <-; unfold bind at 1; require_env E1; require_env E2;
      require_env E3; reflexivity].
  destruct (env_truthy (ZOHO_REFRESH_TOKEN env)) eqn:E4; [discriminate|].
  injection Hm as <-. unfold bind at 1.
  require_env E1. require_env E2. require_env E3. require_env E4.
  reflexivity.
Qed.

(** The status route answers 200 with the number of items of the first
    catalog page, 0 when the page has no [items], provided the base URL
    makes a URL of the request for that page; when a setting of the
    token exchange is missing it answers 500 with the error that names the
    first missing setting, and sends nothing. *)
Theorem status_route_reports (env : Env) (s : State num) :
  (forall tokjson data l,
     first_missing (zoho_token_required env) = None ->
     first_missing (zoho_api_required env) = None ->
     zoho_url_parses env (ZItemsPage 1) = true ->
     zoho_accounts (world s) = RespOk tokjson ->
     nullish tokjson = false ->
     zoho_api (world s) (ZItemsPage 1) = RespOk data ->
     nullish data = false ->
     get "items" data = VArr l
     \/ (truthy (get "items" data) = false /\ l = []) ->
     exists reply s',
       zoho_status_route env s = (Return reply, s')
       /\ code reply = 200
       /\ get "itemsCount" (payload reply) = VNum (num_of_nat (List.length l)))
  /\ (forall name,
        first_missing (zoho_token_required env) = Some name ->
        zoho_status_route env s
        = (Return {| code := 500;
                     payload := VObj [("ok", VBool false);
                                      ("error",
                                       VStr (name ++ " is not defined"))] |},
           s)).
Proof.
  split.
  - intros tokjson data l Htc Hac Hurl Htok Htj Hpage Hdata Hitems.
    destruct (@zohoFetch_answered env tokjson Htc Hac Htj)
      as (tc & base & org & _ & Hfetch).
    unfold zoho_status_route, try_catch, listZohoItemsPaged. cbv zeta.
    unfold bind at 1. rewrite (Hfetch _ s Hurl Htok), Hpage.
    cbn [response_outcome]. unfold bind, member. rewrite Hdata.
    unfold ret. eexists; eexists. split; [reflexivity|].
    split; [reflexivity|].
    cbn [payload get lookup String.eqb Ascii.eqb Bool.eqb].
    destruct Hitems as [->|[Hf ->]]; unfold js_or.
    + reflexivity.
    + now rewrite Hf.
  - intros name Hm.
    unfold zoho_status_route, try_catch, listZohoItemsPaged. cbv zeta.
    unfold bind at 1.
    rewrite (@zohoFetch_without_token_setting env name (ZItemsPage 1) s Hm).
    reflexivity.
Qed.

(** The sync has no handler of its own around an item: when the first
    page is fetched (the configuration is present, the base URL makes a URL
    of the request for that page, and the backend answers) and the
    storefront refuses the search for the first item of the first page,
    the route answers 500 with the storefront's error, having asked for
    that one page and written nothing; the rest of the catalog is not
    processed. *)
Theorem sync_stops_at_a_failing_item
    (env : Env) (fuel : nat) (tokjson data item : val) (rest : list val)
    (status : nat) (text : string) (s : State num) :
  first_missing (zoho_token_required env) = None ->
  first_missing (zoho_api_required env) = None ->
  first_missing (shopify_required env) = None ->
  zoho_url_parses env (ZItemsPage 1) = true ->
  zoho_accounts (world s) = RespOk tokjson ->
  nullish tokjson = false ->
  zoho_api (world s) (ZItemsPage 1) = RespOk data ->
  nullish data = false ->
  get "items" data = VArr (item :: rest) ->
  nullish item = false ->
  truthy (get "sku" item) = true ->
  shopify_outage (world s) (SVariantsBySku (js_toString (get "sku" item)))
  = Some (status, text) ->
  exists s' t,
    sync_route env (S fuel) s
    = Some (Return {| code := 500;
                      payload :=
                        VObj [("ok", VBool false);
                              ("error",
                               VStr ("Shopify " ++ string_of_nat status
                                     ++ ": " ++ text))] |}, s')
    /\ world s' = world s
    /\ trace s' = (trace s ++ t)%list
    /\ pages_fetched t = [1]
    /\ filter is_write_call t = [].
Proof.
  intros Htc Hac Hsc Hurl Htok Htj Hpage Hdata Hitems Hitem Hsku Hout.
  destruct (@zohoFetch_answered env tokjson Htc Hac Htj)
    as (tc & base & org & Htcall & Hfetch).
  set (token := js_toString (get "access_token" tokjson)) in *.
  assert (Hpage1 : exists s1 domain stoken,
             sync_page env 1 s
             = (Throw (Error ("Shopify " ++ string_of_nat status ++ ": " ++ text)),
                s1)
             /\ world s1 = world s
             /\ trace s1
                = (trace s
                   ++ [tc; ZohoCall base org token (ZItemsPage 1);
                       ShopifyCall domain stoken
                         (SVariantsBySku (js_toString (get "sku" item)))])%list).
  { unfold sync_page, listZohoItemsPaged. unfold bind at 1. unfold log at 1.
    unfold bind at 1.
    match goal with
    | |- context [zohoFetch env ?req ?s0] => rewrite (Hfetch req s0 Hurl Htok)
    end.
    cbn [world]. rewrite Hpage. cbn [response_outcome].
    unfold bind at 1, member at 1.
    rewrite Hdata. unfold ret at 1. rewrite Hitems. cbv zeta.
    cbn [js_or truthy length_truthy List.length Nat.eqb negb].
    unfold bind at 1. unfold iterate_or_throw. cbn [iterate]. unfold ret at 1.
    unfold bind at 1. cbn [for_each]. unfold bind at 1.
    unfold sync_item at 1. unfold bind at 1, member at 1. rewrite Hitem.
    unfold ret at 1. rewrite Hsku. cbn [negb]. unfold bind at 1.
    rewrite findVariantBySKU_unfold.
    match goal with
    | |- context [shopifyFetch env ?req ?s0] =>
        destruct (shopifyFetch_configured env req s0 Hsc)
          as (domain & stoken & ->)
    end.
    cbn [world add_calls]. unfold shopify_respond. rewrite Hout.
    cbn [fst response_outcome]. unfold fetch.
    cbn [respond world add_calls]. unfold shopify_respond. rewrite Hout.
    eexists; exists domain, stoken. split; [reflexivity|].
    cbn [snd world trace add_calls]. split; [reflexivity|].
    now rewrite <- app_assoc. }
  destruct Hpage1 as (s1 & domain & stoken & Hp & Hw & Ht).
  unfold sync_route, run_sync, syncZohoToShopify. cbn [sync_loop].
  rewrite Hp. unfold bind, log, throw. cbn [getErrorMessage].
  eexists; eexists. split; [reflexivity|]. cbn [world trace].
  split; [exact Hw|]. split; [exact Ht|].
  destruct tc; try discriminate. split; reflexivity.
Qed.

(** An authenticated delivery that gives the handler nothing to do is
    acknowledged with 200 and sends nothing: a flat payload without a
    usable SKU is reported as skipped, and an adjustment without line items
    gets an empty list of updates. *)
Theorem delivery_without_work_sends_nothing
    (env : Env) (request : Request num) (b : val) (s : State num) :
  zoho_authenticated env request = true ->
  parse_body (body request) s = (Return b, s) ->
  (truthy (get "inventory_adjustment" b) = false ->
   truthy (pickSKU b) = false ->
   zoho_webhook_handler env request s
   = (Return {| code := 200;
                payload := VObj [("ok", VBool true); ("skipped", VBool true);
                                 ("reason", VStr "No SKU in payload")] |},
      s))
  /\ (truthy (get "inventory_adjustment" b) = true ->
      array_or_empty (get "line_items" (get "inventory_adjustment" b)) = [] ->
      zoho_webhook_handler env request s
      = (Return {| code := 200;
                   payload :=
                     VObj [("ok", VBool true);
                           ("inventory_adjustment_id",
                            get "inventory_adjustment_id"
                                (get "inventory_adjustment" b));
                           ("updates", VArr [])] |},
         s)).
Proof.
  intros Hauth Hparse.
  assert (Hh : zoho_webhook_handler env request s
               = try_catch
                   (if negb (truthy (get "inventory_adjustment" b))
                    then zoho_item_update env b
                    else zoho_adjustment env b)
                   zoho_webhook_failure s).
  { unfold zoho_webhook_handler, zoho_authenticated in *.
    destruct (ZOHO_WEBHOOK_SECRET env) as [SECRET|]; [|discriminate].
    destruct (SECRET =? ""); [discriminate|]. simpl in Hauth.
    rewrite Hauth. cbn [negb]. unfold try_catch, zoho_webhook_process, bind.
    now rewrite Hparse. }
  rewrite Hh. unfold try_catch. split.
  - intros Ea Es. rewrite Ea. cbn [negb].
    unfold zoho_item_update. cbv zeta. rewrite Es. reflexivity.
  - intros Ea Hl. rewrite Ea. cbn [negb].
    unfold zoho_adjustment, js_or. cbv zeta. rewrite Ea, Hl. reflexivity.
Qed.

(** *** A token exchange for every backend request *)

Lemma tokens_fresh_weaken (t : list (Call num)) (b : bool) :
  tokens_fresh_from false t = true -> tokens_fresh_from b t = true.
Proof. destruct t as [|[| |] t]; simpl; auto. discriminate. Qed.

Lemma tokens_fresh_app (t u : list (Call num)) (b : bool) :
  tokens_fresh_from b t = true -> tokens_fresh_from false u = true ->
  tokens_fresh_from b (t ++ u) = true.
Proof.
  revert b. induction t as [|c t IH]; intros b Ht Hu; simpl.
  - now apply tokens_fresh_weaken.
  - destruct c; simpl in Ht |- *; auto.
    apply andb_true_iff in Ht as [-> Ht]. simpl. auto.
Qed.

Lemma tokens_fresh_before (t : list (Call num)) :
  forall b, tokens_fresh_from b t = true ->
  forall pre base org token req post,
    t = (pre ++ ZohoCall base org token req :: post)%list ->
    (pre = [] /\ b = true)
    \/ exists pre' a1 a2 a3 a4, pre = (pre' ++ [ZohoTokenCall a1 a2 a3 a4])%list.
Proof.
  induction t as [|c t IH]; intros b Ht pre base org token req post E.
  - now destruct pre.
  - destruct pre as [|c' pre]; simpl in E; injection E as -> E.
    + simpl in Ht. apply andb_true_iff in Ht as [-> _]. now left.
    + right. destruct c'; simpl in Ht.
      * destruct (IH _ Ht _ _ _ _ _ _ E) as [[-> _]|(pre' & a1 & a2 & a3 & a4 & ->)].
        -- now exists [], accountsUrl, clientId, clientSecret, refreshToken.
        -- now exists (ZohoTokenCall accountsUrl clientId clientSecret refreshToken
                        :: pre'), a1, a2, a3, a4.
      * apply andb_true_iff in Ht as [_ Ht].
        destruct (IH _ Ht _ _ _ _ _ _ E) as [[_ ?]|(pre' & a1 & a2 & a3 & a4 & ->)];
          [discriminate|].
        now exists (ZohoCall baseUrl orgId token0 req0 :: pre'), a1, a2, a3, a4.
      * destruct (IH _ Ht _ _ _ _ _ _ E) as [[_ ?]|(pre' & a1 & a2 & a3 & a4 & ->)];
          [discriminate|].
        now exists (ShopifyCall domain token0 req0 :: pre'), a1, a2, a3, a4.
Qed.

Lemma tokens_fresh_count (t : list (Call num)) :
  forall b, tokens_fresh_from b t = true ->
  List.length (filter is_backend_call t)
  <= List.length (filter is_token_call t) + (if b then 1 else 0).
Proof.
  induction t as [|c t IH]; intros b Ht; simpl; [lia|].
  destruct c; simpl in Ht |- *.
  - specialize (IH _ Ht). simpl in IH. lia.
  - apply andb_true_iff in Ht as [-> Ht]. specialize (IH _ Ht). simpl in IH. lia.
  - specialize (IH _ Ht). simpl in IH. destruct b; lia.
Qed.

Lemma fetches_tokens_refl (s : State num) : fetches_tokens s s.
Proof. exists []. now rewrite app_nil_r. Qed.

Lemma fetches_tokens_trans (a b c : State num) :
  fetches_tokens a b -> fetches_tokens b c -> fetches_tokens a c.
Proof.
  intros (t & Ht & Ft) (u & Hu & Fu). exists (t ++ u)%list. split.
  - now rewrite Hu, Ht, app_assoc.
  - now apply tokens_fresh_app.
Qed.

Lemma fetches_tokens_log lv message (args : list val) :
  keeps fetches_tokens (log lv message args).
Proof. intros s. exists []. simpl. now rewrite app_nil_r. Qed.

Lemma fetches_tokens_storefront (c : Call num) :
  is_shopify_call c = true -> keeps fetches_tokens (fetch c).
Proof.
  intros Hc s. exists [c]. unfold fetch.
  destruct (respond (world s) c). simpl. split; [reflexivity|].
  destruct c; simpl in *; congruence.
Qed.

Section Tokens.

Variable env : Env.

Ltac tokens_step :=
  lazymatch goal with
  | |- keeps fetches_tokens (bind _ _) =>
      apply keeps_bind; [apply fetches_tokens_trans| |intros ?]
  | |- keeps fetches_tokens (ret _) => apply keeps_ret, fetches_tokens_refl
  | |- keeps fetches_tokens (throw _) => apply keeps_throw, fetches_tokens_refl
  | |- keeps fetches_tokens (try_catch _ _) =>
      apply keeps_try_catch; [apply fetches_tokens_trans| |intros ?]
  | |- keeps fetches_tokens (log _ _ _) => apply fetches_tokens_log
  | |- keeps fetches_tokens (member _ _) =>
      apply keeps_member, fetches_tokens_refl
  | |- keeps fetches_tokens (requireEnv _ _) =>
      apply keeps_requireEnv, fetches_tokens_refl
  | |- keeps fetches_tokens (iterate_or_throw _) =>
      apply keeps_iterate_or_throw, fetches_tokens_refl
  | |- keeps fetches_tokens (find_by_sku _ _) =>
      apply keeps_find_by_sku; [apply fetches_tokens_refl|apply fetches_tokens_trans]
  | |- keeps fetches_tokens (for_each _ _) =>
      apply keeps_for_each;
      [apply fetches_tokens_refl|apply fetches_tokens_trans|intros ?]
  | |- keeps fetches_tokens (for_fold _ _ _) =>
      apply keeps_for_fold;
      [apply fetches_tokens_refl|apply fetches_tokens_trans|intros ? ?]
  | |- keeps fetches_tokens (let _ := _ in _) => cbv zeta
  | |- keeps fetches_tokens (if ?b then _ else _) => destruct b
  | |- keeps fetches_tokens (match ?x with _ => _ end) => destruct x
  | |- keeps fetches_tokens _ => solve [auto]
  end.

Lemma tokens_zohoFetch (req : ZohoReq num) :
  keeps fetches_tokens (zohoFetch env req).
Proof.
  intros s. destruct (zohoFetch_cases env req s) as (out & t & -> & H).
  exists t. split; [reflexivity|]. simpl.
  destruct H as [(e & _ & Ht)|(tc & base & org & token & Htc & -> & _)].
  - clear - Ht. assert (G : forall b, tokens_fresh_from b t = true); [|apply G].
    induction t as [|c t IH]; intros b; [reflexivity|].
    simpl in Ht. apply andb_true_iff in Ht as [Hc Ht].
    destruct c; try discriminate. simpl. auto.
  - destruct tc; try discriminate. reflexivity.
Qed.

Lemma tokens_findZohoItemBySKU (sku : val) :
  keeps fetches_tokens (findZohoItemBySKU env sku).
Proof.
  pose proof tokens_zohoFetch.
  unfold findZohoItemBySKU, find_in. repeat tokens_step.
Qed.

Lemma tokens_getZohoItemById (id : val) :
  keeps fetches_tokens (getZohoItemById env id).
Proof. pose proof tokens_zohoFetch. unfold getZohoItemById. repeat tokens_step. Qed.

Lemma tokens_contact (email name : val) :
  keeps fetches_tokens (getOrCreateZohoContactByEmail env email name).
Proof.
  pose proof tokens_zohoFetch.
  unfold getOrCreateZohoContactByEmail. repeat tokens_step.
Qed.

Lemma tokens_createZohoSalesOrder (input : SalesOrderInput num) :
  keeps fetches_tokens (createZohoSalesOrder env input).
Proof.
  pose proof tokens_zohoFetch. pose proof tokens_findZohoItemBySKU.
  pose proof tokens_contact.
  unfold createZohoSalesOrder. repeat tokens_step.
Qed.

Lemma tokens_pushShopifyOrderToZoho (order : val) :
  keeps fetches_tokens (pushShopifyOrderToZoho env order).
Proof.
  pose proof tokens_findZohoItemBySKU. pose proof tokens_createZohoSalesOrder.
  unfold pushShopifyOrderToZoho, push_line. repeat tokens_step.
Qed.

Lemma tokens_order_created_handler (request : Request num) :
  keeps fetches_tokens (order_created_handler env request).
Proof.
  pose proof tokens_pushShopifyOrderToZoho.
  unfold order_created_handler, order_created_failure, order_created_check,
    order_created_process, verifyHmac, parse_body.
  repeat tokens_step.
Qed.

Lemma tokens_findVariantBySKU (sku : val) :
  keeps fetches_tokens (findVariantBySKU env sku).
Proof.
  apply keeps_findVariantBySKU with (allowed := is_shopify_call);
    [exact fetches_tokens_refl | exact fetches_tokens_trans
    | exact fetches_tokens_storefront | reflexivity].
Qed.

Lemma tokens_updateVariantPrice (id price : val) :
  keeps fetches_tokens (updateVariantPrice env id price).
Proof.
  apply keeps_updateVariantPrice with (allowed := is_shopify_call);
    [exact fetches_tokens_refl | exact fetches_tokens_trans
    | exact fetches_tokens_storefront | reflexivity].
Qed.

Lemma tokens_setInventoryLevel (id available loc : val) :
  keeps fetches_tokens (setInventoryLevel env id available loc).
Proof.
  apply keeps_setInventoryLevel with (allowed := is_shopify_call);
    [exact fetches_tokens_refl | exact fetches_tokens_trans
    | exact fetches_tokens_storefront | intros; split; reflexivity
    | reflexivity].
Qed.

Lemma tokens_zoho_webhook_handler (request : Request num) :
  keeps fetches_tokens (zoho_webhook_handler env request).
Proof.
  pose proof tokens_getZohoItemById. pose proof tokens_findVariantBySKU.
  pose proof tokens_updateVariantPrice. pose proof tokens_setInventoryLevel.
  unfold zoho_webhook_handler, zoho_webhook_failure, zoho_webhook_process,
    zoho_item_update, zoho_adjustment, zoho_adjustment_line, parse_body.
  repeat tokens_step.
Qed.

Lemma tokens_sync_page (page : nat) : keeps fetches_tokens (sync_page env page).
Proof.
  pose proof tokens_zohoFetch. pose proof tokens_findVariantBySKU.
  pose proof tokens_updateVariantPrice. pose proof tokens_setInventoryLevel.
  unfold sync_page, listZohoItemsPaged, sync_item, sync_item_price,
    sync_item_stock.
  repeat tokens_step.
Qed.

Lemma tokens_sync_loop (fuel : nat) :
  forall page (s : State num) out s',
    sync_loop env fuel page s = Some (out, s') -> fetches_tokens s s'.
Proof.
  induction fuel as [|fuel IH]; intros page s out s' E; [discriminate|].
  simpl in E. pose proof (tokens_sync_page page s) as Hp.
  destruct (sync_page env page s) as [[[|]|e] s1]; simpl in Hp.
  - apply fetches_tokens_trans with s1; [exact Hp|]. exact (IH _ _ _ _ E).
  - injection E as _ <-. exact Hp.
  - injection E as _ <-. exact Hp.
Qed.

End Tokens.

Lemma fetches_tokens_spec (s s' : State num) :
  fetches_tokens s s' ->
  exists t,
    trace s' = (trace s ++ t)%list
    /\ token_before_each t
    /\ List.length (filter is_backend_call t)
       <= List.length (filter is_token_call t).
Proof.
  intros (t & Ht & Hf). exists t. split; [exact Ht|]. split.
  - intros pre base org token req post E.
    destruct (@tokens_fresh_before t false Hf pre base org token req post E)
      as [[_ ?]|H]; [discriminate|exact H].
  - pose proof (@tokens_fresh_count t false Hf). simpl in *. lia.
Qed.

(** The access token is never kept: in every run of the two webhook
    handlers and of the sync route, each request to the backend API comes
    directly after a token exchange, so that a run makes at least as many
    token exchanges as backend requests. *)
Theorem every_backend_request_fetches_a_token
    (env : Env) (request : Request num) (s : State num) :
  (exists t,
     trace (snd (zoho_webhook_handler env request s)) = (trace s ++ t)%list
     /\ token_before_each t
     /\ List.length (filter is_backend_call t)
        <= List.length (filter is_token_call t))
  /\ (exists t,
        trace (snd (order_created_handler env request s)) = (trace s ++ t)%list
        /\ token_before_each t
        /\ List.length (filter is_backend_call t)
           <= List.length (filter is_token_call t))
  /\ (forall fuel out s',
        sync_route env fuel s = Some (out, s') ->
        exists t,
          trace s' = (trace s ++ t)%list
          /\ token_before_each t
          /\ List.length (filter is_backend_call t)
             <= List.length (filter is_token_call t)).
Proof.
  split; [|split].
  - apply fetches_tokens_spec, tokens_zoho_webhook_handler.
  - apply fetches_tokens_spec, tokens_order_created_handler.
  - intros fuel out s' E. apply fetches_tokens_spec.
    unfold sync_route, run_sync, syncZohoToShopify in E.
    pose proof (tokens_sync_loop env fuel 1 s) as H.
    destruct (sync_loop env fuel 1 s) as [[[v|e] s1]|]; [| |discriminate].
    + injection E as _ <-. exact (H _ _ eq_refl).
    + unfold bind, log, throw in E. injection E as _ <-.
      destruct (H _ _ eq_refl) as (t & Ht & Hp). exists t. now split.
Qed.

(** *** The location of a level *)

(** Where [setInventoryLevel] sets a level when it is given no location.
    The primary location of the shop comes first, then
    [DEFAULT_LOCATION_ID]; the location of the first level of the item
    itself is used only when [shop.json] is refused or gives neither, and
    [DEFAULT_LOCATION_ID] once more after that. *)
Theorem location_precedence (env : Env) (id : val) (s : State num) :
  first_missing (shopify_required env) = None ->
  let primary := get "primary_location_id" (shop (world s)) in
  let of_item :=
    get "location_id"
        (index0 (VArr (filter (fun l => level_item l =? js_toString id)
                              (inventory_levels (world s))))) in
  let shop_refused := shopify_outage (world s) SShop in
  let levels_refused :=
    shopify_outage (world s) (SInventoryLevels (js_toString id)) in
  (shop_refused = None -> truthy primary = true ->
   fst (getLocationIdForItem env id s) = Return primary)
  /\ (forall d,
        shop_refused = None -> truthy primary = false ->
        DEFAULT_LOCATION_ID env = Some d -> d <> "" ->
        fst (getLocationIdForItem env id s) = Return (VNum (Number_of_string d)))
  /\ (shop_refused <> None
      \/ (truthy primary = false /\ env_truthy (DEFAULT_LOCATION_ID env) = false) ->
      levels_refused = None -> truthy of_item = true ->
      fst (getLocationIdForItem env id s) = Return of_item)
  /\ (forall d,
        shop_refused <> None -> levels_refused = None ->
        truthy of_item = false ->
        DEFAULT_LOCATION_ID env = Some d -> d <> "" ->
        fst (getLocationIdForItem env id s) = Return (VNum (Number_of_string d)))
  /\ (forall status text,
        shop_refused <> None
        \/ (truthy primary = false /\ env_truthy (DEFAULT_LOCATION_ID env) = false) ->
        levels_refused = Some (status, text) ->
        fst (getLocationIdForItem env id s)
        = Throw (Error ("Shopify " ++ string_of_nat status ++ ": " ++ text))).
Proof.
  intros Hc primary of_item shop_refused levels_refused.
  destruct (getLocationIdForItem_configured env id s Hc) as (t & ->).
  cbn [fst]. unfold location_for, primary_location, default_location,
    shopify_respond.
  fold shop_refused levels_refused.
  assert (Hd : forall d, d <> "" -> (d =? "") = false).
  { intros d Hne. now apply String.eqb_neq. }
  assert (He : env_truthy (DEFAULT_LOCATION_ID env) = false ->
               forall m,
                 match DEFAULT_LOCATION_ID env with
                 | Some x => if x =? "" then Throw (Error m)
                             else Return (VNum (Number_of_string x))
                 | None => @Throw val (Error m)
                 end = Throw (Error m)).
  { unfold env_truthy. intros H m.
    destruct (DEFAULT_LOCATION_ID env) as [x|]; [|reflexivity].
    destruct (x =? ""); [reflexivity|discriminate]. }
  repeat split.
  - intros -> Hp. cbn [fst response_outcome get lookup String.eqb Ascii.eqb Bool.eqb].
    fold primary. now rewrite Hp.
  - intros d -> Hp Hdef Hne.
    cbn [fst response_outcome get lookup String.eqb Ascii.eqb Bool.eqb].
    fold primary. rewrite Hp, Hdef, (Hd d Hne). reflexivity.
  - intros Hshop -> Hi.
    assert (G : (let loc := get "location_id"
                     (index0 (get "inventory_levels"
                        (VObj [("inventory_levels",
                                VArr (filter (fun l => level_item l =? js_toString id)
                                             (inventory_levels (world s))))]))) in
                 if truthy loc then Return loc
                 else match DEFAULT_LOCATION_ID env with
                      | Some x => if x =? "" then Throw (Error "No location_id available; set DEFAULT_LOCATION_ID in Secrets")
                                  else Return (VNum (Number_of_string x))
                      | None => Throw (Error "No location_id available; set DEFAULT_LOCATION_ID in Secrets")
                      end) = Return of_item).
    { cbn [get lookup String.eqb Ascii.eqb Bool.eqb]. fold of_item.
      cbv zeta. now rewrite Hi. }
    cbn [fst response_outcome].
    destruct Hshop as [Hshop|[Hp Hdef]].
    + destruct shop_refused as [[st tx]|]; [|congruence].
      cbn [fst response_outcome]. exact G.
    + destruct shop_refused as [[st tx]|]; cbn [fst response_outcome];
        [exact G|].
      cbn [get lookup String.eqb Ascii.eqb Bool.eqb]. fold primary.
      rewrite Hp. rewrite (He Hdef). exact G.
  - intros d Hshop -> Hi Hdef Hne.
    destruct shop_refused as [[st tx]|]; [|congruence].
    cbn [fst response_outcome get lookup String.eqb Ascii.eqb Bool.eqb].
    fold of_item. cbv zeta. rewrite Hi, Hdef, (Hd d Hne). reflexivity.
  - intros status text Hshop ->.
    cbn [fst response_outcome].
    destruct Hshop as [Hshop|[Hp Hdef]].
    + destruct shop_refused as [[st tx]|]; [|congruence]. reflexivity.
    + destruct shop_refused as [[st tx]|]; cbn [fst response_outcome];
        [reflexivity|].
      cbn [get lookup String.eqb Ascii.eqb Bool.eqb]. fold primary.
      rewrite Hp. now rewrite (He Hdef).
Qed.

(** *** The answer to an item update *)

(** Once the variant of an item update is found, the update is answered 200
    whatever the storefront does with the two writes: the price is written
    first and the level second, the level also after a refused price, and
    the answer tells for each write whether it went through, with the
    message of the error when it did not. *)
Theorem item_update_reports_each_write
    (env : Env) (body variant : val) (s s1 s2 s3 : State num)
    (priced stocked : Outcome val) :
  truthy (pickSKU body) = true ->
  findVariantBySKU env (pickSKU body) s = (Return variant, s1) ->
  truthy variant = true ->
  nullish (pickPrice body) = false ->
  is_number (pickAvailableStock body) = true ->
  updateVariantPrice env (get "id" variant) (pickPrice body) s1 = (priced, s2) ->
  setInventoryLevel env (get "inventory_item_id" variant)
    (pickAvailableStock body) VUndef s2 = (stocked, s3) ->
  exists reply,
    zoho_item_update env body s = (Return reply, s3)
    /\ code reply = 200
    /\ get "ok" (payload reply) = VBool true
    /\ get "priceUpdated" (payload reply) = VBool (succeeded priced)
    /\ get "inventoryUpdated" (payload reply) = VBool (succeeded stocked)
    /\ (forall e, priced = Throw e ->
          get "priceError" (payload reply) = VStr (getErrorMessage e))
    /\ (forall e, stocked = Throw e ->
          get "inventoryError" (payload reply) = VStr (getErrorMessage e)).
Proof.
  intros Hsku Hfind Hv Hp Ha Hprice Hstock.
  unfold zoho_item_update. cbv zeta. rewrite Hsku. cbn [negb].
  unfold bind at 1. rewrite Hfind. rewrite Hv. cbn [negb].
  rewrite Hp, Ha. cbn [negb].
  unfold bind at 1. unfold try_catch at 1. unfold bind at 1. rewrite Hprice.
  destruct priced as [r|e]; unfold ret at 1.
  - unfold bind at 1. unfold try_catch at 1. unfold bind at 1. rewrite Hstock.
    destruct stocked as [r'|e']; unfold ret; eexists; (split; [reflexivity|]);
      repeat split; try reflexivity; intros ? [=]; subst; reflexivity.
  - unfold bind at 1. unfold try_catch at 1. unfold bind at 1. rewrite Hstock.
    destruct stocked as [r'|e']; unfold ret; eexists; (split; [reflexivity|]);
      repeat split; try reflexivity; intros ? [=]; subst; reflexivity.
Qed.

(** [pickPrice] reads one place only, the first of its four that is neither
    [null] nor [undefined]: a finite number, or a string that [Number]
    reads as one, gives that number, another string is passed on as it is,
    and anything else gives [undefined], also when a later place holds a
    price. *)
Theorem pickPrice_first_present (body : val) :
  pickPrice body
  = match find (fun c => negb (nullish c)) (price_candidates body) with
    | Some c =>
        if is_number (coerceNumber c) then coerceNumber c else extractString c
    | None => VUndef
    end
  /\ (pickPrice body = VUndef
      \/ (exists n, pickPrice body = VNum n /\ num_isFinite n = true)
      \/ exists p, pickPrice body = VStr p).
Proof.
  assert (Hc : forall c,
             (if negb (nullish (coerceNumber c)) then coerceNumber c
              else extractString c)
             = (if is_number (coerceNumber c) then coerceNumber c
                else extractString c)).
  { intros c. destruct (coerceNumber_cases c) as [E|(n & E & _)]; rewrite E;
      reflexivity. }
  assert (Hshape : forall c,
             let r := if is_number (coerceNumber c) then coerceNumber c
                      else extractString c in
             r = VUndef \/ (exists n, r = VNum n /\ num_isFinite n = true)
             \/ exists p, r = VStr p).
  { intros c. cbv zeta.
    destruct (coerceNumber_cases c) as [E|(n & E & Hn)]; rewrite E; cbn [is_number].
    - unfold extractString. destruct c; cbn [is_string]; eauto.
    - right; left. eauto. }
  assert (H : pickPrice body
              = match find (fun c => negb (nullish c)) (price_candidates body) with
                | Some c =>
                    if is_number (coerceNumber c) then coerceNumber c
                    else extractString c
                | None => VUndef
                end).
  { unfold pickPrice, price_candidates. cbv zeta. rewrite Hc.
    set (a := get "rate" body). set (b := get "price" body).
    set (c := get "rate" (get "item" body)).
    set (d := get "price" (get "item" body)).
    clearbody a b c d. unfold js_coalesce. cbn [find].
    destruct (nullish a) eqn:Ea; destruct (nullish b) eqn:Eb;
      destruct (nullish c) eqn:Ec; destruct (nullish d) eqn:Ed;
      repeat (progress (cbv iota; cbn [negb]; rewrite ?Ea, ?Eb, ?Ec, ?Ed));
      try reflexivity.
    destruct d; try discriminate; reflexivity. }
  split; [exact H|]. rewrite H.
  destruct (find _ _) as [c|]; [apply Hshape|now left].
Qed.

(** *** A signed order *)

Lemma verifyHmac_accepts (env : Env) (h secret raw : string) (s : State num) :
  h <> "" -> SHOPIFY_WEBHOOK_SHARED_SECRET env = Some secret -> secret <> "" ->
  hmac_valid secret raw h ->
  verifyHmac env (Some h) (Some raw) s = (Return true, s).
Proof.
  intros Hne Hs Hsne Hv. unfold verifyHmac. rewrite Hs. unfold env_truthy.
  apply String.eqb_neq in Hne, Hsne. rewrite Hne, Hsne. cbn [negb orb].
  cbv zeta. unfold hmac_valid in Hv. rewrite Hv.
  now rewrite Nat.eqb_refl, timingSafeEqual_refl.
Qed.

(** Outside development mode as in it, an order-created request whose
    header is the digest of its body under a configured secret is not
    answered 401: the handler goes on to process the order, and answers
    200 or 500. *)
Theorem signed_order_is_processed
    (env : Env) (request : Request num) (h secret raw : string)
    (s : State num) :
  header "x-shopify-hmac-sha256" (headers request) = Some h -> h <> "" ->
  SHOPIFY_WEBHOOK_SHARED_SECRET env = Some secret -> secret <> "" ->
  hmac_body request = Some raw ->
  hmac_valid secret raw h ->
  exists s0 reply s',
    world s0 = world s /\ trace s0 = trace s
    /\ order_created_handler env request s
       = try_catch (order_created_process env request) order_created_failure s0
    /\ order_created_handler env request s = (Return reply, s')
    /\ (code reply = 200 \/ code reply = 500).
Proof.
  intros Hh Hne Hs Hsne Hraw Hvalid.
  pose proof (@verifyHmac_accepts env h secret raw
                (snd (log LogLevel (hmac_body_note request) [] s))
                Hne Hs Hsne Hvalid) as Hv.
  assert (Hhandler :
    order_created_handler env request s
    = try_catch (order_created_process env request) order_created_failure
        (snd (log LogLevel (hmac_body_note request) [] s))).
  { unfold order_created_handler, order_created_check. cbv zeta.
    rewrite Hh, Hraw.
    assert (Ht : env_truthy (Some h) = true).
    { unfold env_truthy. apply String.eqb_neq in Hne. now rewrite Hne. }
    rewrite Ht. cbn [negb]. rewrite andb_false_r.
    unfold try_catch at 1. unfold bind at 1. unfold log at 1.
    cbn [snd log] in Hv.
    destruct (IS_DEVELOPMENT env).
    - unfold bind at 1. unfold bind at 1. rewrite Hv. cbn [negb].
      unfold ret at 1. cbn [negb]. reflexivity.
    - unfold bind at 1. rewrite Hv. cbn [negb]. reflexivity. }
  destruct (order_created_process_code env request
              (snd (log LogLevel (hmac_body_note request) [] s)))
    as (reply & s' & Hrun & Hcode).
  exists (snd (log LogLevel (hmac_body_note request) [] s)), reply, s'.
  repeat split; try assumption.
  now rewrite Hhandler.
Qed.

(** *** The answer to an inventory adjustment *)

(** An inventory adjustment is answered line by line: [updates] has one
    entry for every line item, in the order of the lines, and the entry of
    a line is what the handling of that line gives, which for a line
    without [item_id] is the note that it was skipped and sends nothing.  A
    line that fails does not stop the lines after it. *)
Theorem adjustment_answers_line_by_line
    (env : Env) (body : val) (s : State num) :
  let adj := js_or (get "inventory_adjustment" body) (VObj []) in
  let lines := array_or_empty (get "line_items" adj) in
  exists updates s',
    zoho_adjustment env body s
    = (Return {| code := 200;
                 payload :=
                   VObj [("ok", VBool true);
                         ("inventory_adjustment_id",
                          get "inventory_adjustment_id" adj);
                         ("updates", VArr updates)] |}, s')
    /\ List.length updates = List.length lines
    /\ Forall2 (fun li u =>
                  exists s0 s1,
                    zoho_adjustment_line env adj li s0 = (Return u, s1)
                    /\ (truthy (get "item_id" li) = false ->
                        s1 = s0
                        /\ u = VObj [("skipped", VBool true);
                                     ("reason", VStr "No item_id")]))
               lines updates.
Proof.
  intros adj lines. unfold zoho_adjustment. fold adj. fold lines.
  assert (Hline : forall li s0, exists u s1,
             zoho_adjustment_line env adj li s0 = (Return u, s1)
             /\ (truthy (get "item_id" li) = false ->
                 s1 = s0
                 /\ u = VObj [("skipped", VBool true);
                              ("reason", VStr "No item_id")])).
  { intros li s0.
    destruct (zoho_adjustment_line_returns env adj li s0) as (u & s1 & E).
    exists u, s1. split; [exact E|]. intros Hid.
    unfold zoho_adjustment_line, try_catch in E. cbv zeta in E.
    rewrite Hid in E. cbn [negb] in E. unfold ret in E.
    injection E as <- <-. now split. }
  assert (Hloop : forall ls acc s0, exists us s1,
             for_fold ls acc
               (fun acc li =>
                  u <- zoho_adjustment_line env adj li ;; ret (acc ++ [u])%list)
               s0 = (Return (acc ++ us)%list, s1)
             /\ Forall2 (fun li u =>
                           exists s0 s1,
                             zoho_adjustment_line env adj li s0 = (Return u, s1)
                             /\ (truthy (get "item_id" li) = false ->
                                 s1 = s0
                                 /\ u = VObj [("skipped", VBool true);
                                              ("reason", VStr "No item_id")]))
                        ls us).
  { induction ls as [|li ls IH]; intros acc s0; simpl.
    - exists [], s0. rewrite app_nil_r. split; [reflexivity|constructor].
    - unfold bind at 1. unfold bind at 1.
      destruct (Hline li s0) as (u & s1 & E & Hskip). rewrite E.
      unfold ret at 1.
      destruct (IH (acc ++ [u])%list s1) as (us & s2 & -> & HF).
      exists (u :: us), s2. split.
      + now rewrite <- app_assoc.
      + constructor; [|exact HF]. exists s0, s1. now split. }
  destruct (Hloop lines [] s) as (us & s1 & E & HF).
  exists us, s1. unfold bind at 1. rewrite E. cbn [app]. unfold ret.
  split; [reflexivity|]. split; [|exact HF].
  symmetry. eapply Forall2_length. exact HF.
Qed.

(** *** A request without a body *)

(** An order-created request that has a signature header but no body at
    all, neither raw nor parsed, is answered 500 and not 401 when a secret
    is set, in every mode: the digest of a missing body throws, and the
    handler answers the error.  Nothing is sent. *)
Theorem order_without_body_is_answered_500
    (env : Env) (request : Request num) (s : State num) :
  env_truthy (header "x-shopify-hmac-sha256" (headers request)) = true ->
  env_truthy (SHOPIFY_WEBHOOK_SHARED_SECRET env) = true ->
  rawBody request = None -> body request = VUndef ->
  exists s',
    order_created_handler env request s
    = (Return {| code := 500; payload := VStr "Internal Server Error" |}, s')
    /\ world s' = world s
    /\ trace s' = trace s.
Proof.
  intros Hh Hs Hraw Hbody.
  assert (Hv : forall s0 : State num,
             verifyHmac env (header "x-shopify-hmac-sha256" (headers request))
               (hmac_body request) s0
             = (Throw (TypeError "The 'data' argument must be of type string or an instance of Buffer"), s0)).
  { intros s0. unfold verifyHmac, hmac_body. rewrite Hh, Hs, Hraw, Hbody.
    cbn [negb orb].
    destruct (header "x-shopify-hmac-sha256" (headers request)); [|reflexivity].
    destruct (SHOPIFY_WEBHOOK_SHARED_SECRET env); reflexivity. }
  unfold order_created_handler, order_created_check. cbv zeta.
  rewrite Hh. cbn [negb]. rewrite andb_false_r.
  unfold try_catch. unfold bind at 1. unfold log at 1.
  destruct (IS_DEVELOPMENT env).
  - unfold bind at 1. unfold bind at 1. rewrite Hv.
    unfold order_created_failure, bind, log, ret. cbn.
    eexists. split; [reflexivity|]. cbn. now split.
  - unfold bind at 1. rewrite Hv.
    unfold order_created_failure, bind, log, ret. cbn.
    eexists. split; [reflexivity|]. cbn. now split.
Qed.

End Properties.

(** * The properties on concrete requests *)

(** The example configuration makes a URL of every backend request, and the
    example backend answers every search with the items of [Demo.catalog]. *)
Lemma demo_urls_parse : zoho_urls_parse Demo.env.
Proof. intros req. destruct req; reflexivity. Qed.

Lemma demo_searches_answer :
  searches_answer (world Demo.s0) Demo.catalog.
Proof.
  intros q. exists (VObj [("items", VArr (Demo.catalog q))]).
  unfold Demo.catalog. repeat split; destruct (q =? "A"); reflexivity.
Qed.

Lemma zoho_webhook_unauthenticated_witness :
  exists reply s',
    zoho_webhook_handler Demo.env Demo.forged_webhook Demo.s0
    = (Return reply, s')
    /\ code reply = 401
    /\ trace s' = trace Demo.s0
    /\ world s' = world Demo.s0.
Proof.
  apply (@zoho_webhook_unauthenticated _ _ Demo.env Demo.forged_webhook Demo.s0).
  - intros secret sig Hs Hh. injection Hs as <-. injection Hh as <-.
    split; vm_compute; discriminate.
  - intros secret Hs. injection Hs as <-.
    vm_compute. intros [H|[H|[H|[]]]]; discriminate.
Defined.

Lemma dev_mode_missing_hmac_is_processed_witness :
  exists s0 reply s',
    world s0 = world Demo.s0 /\ trace s0 = trace Demo.s0
    /\ order_created_handler Demo.dev_env Demo.unsigned_order Demo.s0
       = try_catch (order_created_process Demo.dev_env Demo.unsigned_order)
                   order_created_failure s0
    /\ order_created_handler Demo.dev_env Demo.unsigned_order Demo.s0
       = (Return reply, s')
    /\ code reply <> 401.
Proof.
  apply (@dev_mode_missing_hmac_is_processed
           _ _ Demo.dev_env Demo.unsigned_order Demo.s0); reflexivity.
Defined.

Lemma dev_mode_never_rejects_witness :
  (exists reply s',
      order_created_handler Demo.dev_env Demo.missigned_order Demo.s0
      = (Return reply, s')
      /\ code reply <> 401)
  /\ exists s0,
       world s0 = world Demo.s0 /\ trace s0 = trace Demo.s0
       /\ order_created_handler Demo.dev_env Demo.missigned_order Demo.s0
          = try_catch (order_created_process Demo.dev_env Demo.missigned_order)
                      order_created_failure s0.
Proof.
  destruct (@dev_mode_never_rejects _ _ Demo.dev_env Demo.missigned_order
              Demo.s0 eq_refl) as [H1 H2].
  split; [exact H1|].
  apply (H2 "bogus" eq_refl).
  right. exists "hush", "{}". split; [reflexivity|]. split; [reflexivity|].
  vm_compute. discriminate.
Defined.

(** The catalog of two pages: the run asks for the pages 1 and 2 and ends
    normally. *)
Lemma sync_pagination_terminates_witness :
  exists fuel0 s' t,
    (forall fuel, fuel0 <= fuel ->
       syncZohoToShopify Demo.env fuel (Demo.start Demo.world_two_pages)
       = Some (Return (VObj [("ok", VBool true);
                             ("message", VStr "Sync complete")]), s'))
    /\ trace s' = t
    /\ pages_fetched t = [1; 2].
Proof.
  destruct (@sync_pagination_terminates _ _ Demo.env
              (Demo.start Demo.world_two_pages) 2)
    as (fuel0 & out & s' & t & n & Hrun & Ht & Hp & Hn & Hq & Hr & Hgo).
  - lia.
  - eexists. split; reflexivity.
  - assert (Hout : out = Return (VObj [("ok", VBool true);
                                       ("message", VStr "Sync complete")])).
    { apply Hgo.
      - split; [reflexivity|]. split; [reflexivity|].
        split; [intros page; reflexivity|].
        split; [eexists; split; reflexivity|].
        intros page Hpage.
        destruct page as [|[|[|page]]]; try lia;
          eexists _, _; repeat split; reflexivity.
      - repeat split; reflexivity. }
    destruct (Hr _ Hout) as [Hn1 Hstop].
    assert (Hn2 : n = 2).
    { destruct n as [|[|[|n]]]; try lia.
      destruct Hstop as (data & Hdata & Hstops).
      injection Hdata as <-. discriminate Hstops. }
    subst n out. exists fuel0, s', t.
    split; [exact Hrun|]. split; [exact Ht|exact Hp].
Defined.



(** C6 does not hold as stated: when the storefront is down, a backend
    webhook that presents the shared secret is answered 500. *)
Lemma authenticated_webhook_answered_500 :
  zoho_authenticated Demo.env Demo.item_webhook = true
  /\ exists reply s',
       zoho_webhook_handler Demo.env Demo.item_webhook
                            (Demo.start Demo.world_storefront_down)
       = (Return reply, s')
       /\ code reply = 500
       /\ payload reply
          = VObj [("ok", VBool false);
                  ("error", VStr "Shopify 503: Service Unavailable")].
Proof.
  split; [reflexivity|]. eexists _, _. split; [reflexivity|].
  split; reflexivity.
Qed.

Lemma authenticated_webhook_is_answered_witness :
  (forall reply s',
      zoho_webhook_process Demo.env Demo.item_webhook Demo.s0
      = (Return reply, s') ->
      zoho_webhook_handler Demo.env Demo.item_webhook Demo.s0
      = (Return reply, s')
      /\ code reply = 200)
  /\ (forall e s',
        zoho_webhook_process Demo.env Demo.item_webhook Demo.s0
        = (Throw e, s') ->
        exists reply s'',
          zoho_webhook_handler Demo.env Demo.item_webhook Demo.s0
          = (Return reply, s'')
          /\ code reply = 500).
Proof.
  destruct (@authenticated_webhook_is_answered _ _ Demo.env) as (H & _).
  apply (H Demo.item_webhook Demo.s0 eq_refl).
Defined.

(** C5 fails on the code: an item that reports its stock as [stock_on_hand]
    only gets its price synced and no stock update, whereas the same item
    with [available_stock] gets its level set to that number. *)
Lemma sync_item_ignores_stock_on_hand :
  (let s' := snd (sync_item Demo.env Demo.item_A_on_hand Demo.s0) in
   fst (sync_item Demo.env Demo.item_A_on_hand Demo.s0) = Return tt
   /\ filter is_stock_call (trace s') = []
   /\ inventory_levels (world s') = [])
  /\ (let s' := snd (sync_item Demo.env Demo.item_A Demo.s0) in
      fst (sync_item Demo.env Demo.item_A Demo.s0) = Return tt
      /\ filter is_stock_call (trace s')
         = [ShopifyCall "shop.example" "token"
              (SSetInventoryLevel
                 (VObj [("location_id", VNum (Demo.Int 7));
                        ("inventory_item_id", VNum (Demo.Int 100));
                        ("available", VNum (Demo.Int 5))]))]
      /\ inventory_levels (world s')
         = [VObj [("location_id", VNum (Demo.Int 7));
                  ("inventory_item_id", VNum (Demo.Int 100));
                  ("available", VNum (Demo.Int 5))]]).
Proof. split; repeat split; reflexivity. Qed.



(** The catalog of the example backend is the item ["A"]. *)
Lemma demo_catalog_item (price : value Demo.jsnum -> value Demo.jsnum)
    (i : value Demo.jsnum) :
  catalog_item
    {| zoho_accounts := RespOk (VObj [("access_token", VStr "T")]);
       zoho_api := Demo.backend [Demo.item_A];
       shopify_outage := fun _ => None;
       shop := VObj [("primary_location_id", VNum (Demo.Int 7))];
       variant_search := fun q id => true;
       price_kept := price;
       variants := [Demo.variant_A];
       inventory_levels := [] |} i ->
  i = Demo.item_A.
Proof.
  intros (page & _ & data & l & Hd & Hlen & Hit & Hin).
  destruct page as [|[|page]]; cbn in Hd; injection Hd as <-;
    cbn in Hlen, Hit; try discriminate.
  injection Hit as <-. destruct Hin as [<-|[]]. reflexivity.
Qed.

(** C3 does not hold as stated.  An item without a price resolves on both
    sides and its (absent) price is not the price of the variant, yet the
    sync sends no price update.  And a second run of the sync can send
    price updates again: when two items of the catalog are found as the
    same variant with different prices (the SKU ["B"], which no variant
    carries, is found as the first variant of the search), and when the
    storefront does not keep the price as it is sent. *)
Lemma second_sync_run_sends_prices_again :
  (truthy (get "sku" Demo.item_A_unpriced) = true
   /\ fst (findVariantBySKU Demo.env (get "sku" Demo.item_A_unpriced) Demo.s0)
      = Return Demo.variant_A
   /\ get "rate" Demo.item_A_unpriced = VUndef
   /\ get "price" Demo.variant_A = VStr "10.00"
   /\ fst (sync_item Demo.env Demo.item_A_unpriced Demo.s0) = Return tt
   /\ existsb is_price_call
              (trace (snd (sync_item Demo.env Demo.item_A_unpriced Demo.s0)))
      = false)
  /\ (exists s1 s2 t2,
        syncZohoToShopify Demo.env 2
          (Demo.start (Demo.world_with [Demo.item_A; Demo.item_B]))
        = Some (Return (VObj [("ok", VBool true);
                              ("message", VStr "Sync complete")]), s1)
        /\ (exists out, syncZohoToShopify Demo.env 2 s1 = Some (out, s2))
        /\ trace s2 = (trace s1 ++ t2)%list
        /\ existsb is_price_call t2 = true
        /\ keeps_prices_as_sent (Demo.world_with [Demo.item_A; Demo.item_B])
        /\ forallb is_object
             (variants (Demo.world_with [Demo.item_A; Demo.item_B])) = true)
  /\ (exists s1 s2 t2,
        syncZohoToShopify Demo.env 2 (Demo.start Demo.world_two_decimals)
        = Some (Return (VObj [("ok", VBool true);
                              ("message", VStr "Sync complete")]), s1)
        /\ (exists out, syncZohoToShopify Demo.env 2 s1 = Some (out, s2))
        /\ trace s2 = (trace s1 ++ t2)%list
        /\ existsb is_price_call t2 = true
        /\ one_price_per_variant Demo.env Demo.world_two_decimals
        /\ forallb is_object (variants Demo.world_two_decimals) = true).
Proof.
  split; [repeat split|]. split.
  - eexists _, _, _. split; [vm_compute; reflexivity|].
    split; [eexists; vm_compute; reflexivity|].
    split; [cbn; reflexivity|]. split; [reflexivity|].
    split; [intros p; reflexivity|reflexivity].
  - eexists _, _, _. split; [vm_compute; reflexivity|].
    split; [eexists; vm_compute; reflexivity|].
    split; [cbn; reflexivity|]. split; [reflexivity|].
    split; [|reflexivity].
    intros i j vi vj Hi Hj _ _ _ _ _.
    apply demo_catalog_item in Hi, Hj. now subst.
Qed.

(** The catalog of the example, synced twice: the first run sends the
    price of the item ["A"], the second run sends no price. *)
Lemma price_sync_iff_differs_witness :
  exists s1 s2 t2,
    syncZohoToShopify Demo.env 2 Demo.s0
    = Some (Return (VObj [("ok", VBool true);
                          ("message", VStr "Sync complete")]), s1)
    /\ existsb is_price_call (trace s1) = true
    /\ (exists out, syncZohoToShopify Demo.env 2 s1 = Some (out, s2))
    /\ trace s2 = (trace s1 ++ t2)%list
    /\ existsb is_price_call t2 = false.
Proof.
  pose (s1 := match syncZohoToShopify Demo.env 2 Demo.s0 with
              | Some (_, a) => a
              | None => Demo.s0
              end).
  pose (r2 := syncZohoToShopify Demo.env 2 s1).
  pose (s2 := match r2 with Some (_, a) => a | None => s1 end).
  pose (out := match r2 with Some (o, _) => o | None => Return VUndef end).
  assert (E1 : syncZohoToShopify Demo.env 2 Demo.s0
               = Some (Return (VObj [("ok", VBool true);
                                     ("message", VStr "Sync complete")]), s1))
    by (vm_compute; reflexivity).
  assert (E2 : syncZohoToShopify Demo.env 2 s1 = Some (out, s2))
    by (vm_compute; reflexivity).
  destruct (@price_sync_iff_differs _ _ Demo.env 2 2 Demo.s0 s1 s2
              (VObj [("ok", VBool true); ("message", VStr "Sync complete")])
              out)
    as [_ H].
  destruct (H) as (t2 & Ht2 & Hp); [|exact E1|exact E2|].
  { split; [intros p; reflexivity|]. split; [reflexivity|].
    intros i j vi vj Hi Hj _ _ _ _ _.
    apply demo_catalog_item in Hi, Hj. now subst. }
  exists s1, s2, t2. split; [exact E1|]. split; [vm_compute; reflexivity|].
  split; [now exists out|]. split; [exact Ht2|exact Hp].
Defined.


(** The level that the adjustment of the example leaves is the quantity of
    its last line, after one delivery and after two. *)
Lemma adjustment_sets_last_quantity :
  let s1 := snd (zoho_webhook_handler Demo.env Demo.adjustment_webhook Demo.s0) in
  let s2 := snd (zoho_webhook_handler Demo.env Demo.adjustment_webhook s1) in
  inventory_levels (world s1)
  = [VObj [("location_id", VNum (Demo.Int 7));
           ("inventory_item_id", VNum (Demo.Int 100));
           ("available", VNum (Demo.Int 3))]]
  /\ inventory_levels (world s2) = inventory_levels (world s1).
Proof. split; reflexivity. Qed.

(** The flat payload of the example sets the level to the quantity it
    carries and stores the price it carries. *)
Lemma item_webhook_sets_level_and_price :
  let s1 := snd (zoho_webhook_handler Demo.env Demo.item_webhook Demo.s0) in
  inventory_levels (world s1)
  = [VObj [("location_id", VNum (Demo.Int 7));
           ("inventory_item_id", VNum (Demo.Int 100));
           ("available", VNum (Demo.Int 5))]]
  /\ map (get "price") (variants (world s1)) = [VStr "12"].
Proof. split; reflexivity. Qed.

(** *** The further properties on the examples *)

Lemma order_created_production_rejects_witness :
  exists s',
    order_created_handler Demo.env Demo.unsigned_order Demo.s0
    = (Return {| code := 401; payload := VStr "Invalid HMAC" |}, s')
    /\ world s' = world Demo.s0
    /\ trace s' = trace Demo.s0.
Proof.
  apply (@order_created_production_rejects _ _ Demo.env Demo.unsigned_order
           Demo.s0); [reflexivity|].
  left. reflexivity.
Defined.

Lemma bearer_secret_is_accepted_witness :
  zoho_authenticated Demo.env Demo.bearer_webhook = true
  /\ zoho_webhook_handler Demo.env Demo.bearer_webhook Demo.s0
     = try_catch (zoho_webhook_process Demo.env Demo.bearer_webhook)
                 zoho_webhook_failure Demo.s0.
Proof.
  destruct (@bearer_secret_is_accepted _ _ Demo.env Demo.bearer_webhook
              "s3cret" "Bearer" " s3cret") as [H1 H2];
    try reflexivity; try discriminate.
  split; [exact H1|apply H2].
Defined.

(** The same when a no-break space follows [Bearer]: the host takes it for
    white space. *)
Lemma bearer_no_break_space_is_accepted :
  zoho_authenticated Demo.env
    {| headers := [("authorization",
                    "Bearer" ++ String (ascii_of_nat 160) "s3cret")];
       rawBody := None;
       body := VObj [] |}
  = true.
Proof. vm_compute. reflexivity. Qed.

Lemma wrong_first_secret_is_rejected_witness :
  header "x-zoho-webhook-secret" (headers Demo.masked_webhook) = Some "s3cret"
  /\ zoho_webhook_handler Demo.env Demo.masked_webhook Demo.s0
     = (Return unauthorized, Demo.s0).
Proof.
  split; [reflexivity|].
  apply (@wrong_first_secret_is_rejected _ _ Demo.env Demo.masked_webhook
           "s3cret" "wrong" Demo.s0);
    try reflexivity; discriminate.
Defined.

Lemma sync_only_reads_catalog_witness :
  exists out s',
    sync_route Demo.env 3 Demo.s0 = Some (out, s')
    /\ emits sync_request Demo.s0 s'.
Proof.
  eexists; eexists. split; [vm_compute; reflexivity|].
  eapply (@sync_only_reads_catalog _ _ Demo.env 3 Demo.s0).
  vm_compute. reflexivity.
Defined.

Lemma findVariantBySKU_falls_back_to_first_witness :
  get "sku" Demo.variant_A = VStr "A"
  /\ fst (findVariantBySKU Demo.env (VStr "Z") Demo.s0) = Return Demo.variant_A.
Proof.
  split; [reflexivity|].
  destruct (@findVariantBySKU_falls_back_to_first _ _ Demo.env (VStr "Z")
              Demo.s0 [Demo.variant_A] eq_refl eq_refl eq_refl eq_refl)
    as (_ & H & _).
  apply (H Demo.variant_A []); reflexivity.
Defined.

Lemma setInventoryLevel_needs_a_location_witness :
  exists s' t,
    setInventoryLevel Demo.env (VNum (Demo.Int 100)) (VNum (Demo.Int 5)) VUndef
      (Demo.start Demo.world_without_location)
    = (Throw (Error "No location_id available; set DEFAULT_LOCATION_ID in Secrets"),
       s')
    /\ world s' = Demo.world_without_location
    /\ trace s' = (trace (Demo.start Demo.world_without_location) ++ t)%list
    /\ filter is_stock_call t = [].
Proof.
  apply (@setInventoryLevel_needs_a_location _ _ Demo.env (VNum (Demo.Int 100))
           (VNum (Demo.Int 5)) (Demo.start Demo.world_without_location));
    reflexivity.
Defined.

Lemma existing_contact_is_reused_witness :
  exists s' t,
    getOrCreateZohoContactByEmail Demo.env (VStr "ann@example.com") VUndef
      Demo.s0
    = (Return (VObj [("contact_id", VStr "77")]), s')
    /\ trace s' = (trace Demo.s0 ++ t)%list
    /\ List.length t = 2
    /\ filter is_contact_creation t = [].
Proof.
  apply (@existing_contact_is_reused _ _ Demo.env (VStr "ann@example.com")
           VUndef (VObj [("access_token", VStr "T")])
           (VObj [("contacts", VArr [VObj [("contact_id", VStr "77")]])])
           Demo.s0); try reflexivity.
  apply demo_urls_parse.
Defined.

Lemma new_contact_is_named_after_email_witness :
  exists s' t base org token,
    getOrCreateZohoContactByEmail Demo.env (VStr "ann@example.com") VUndef
      (Demo.start Demo.world_without_contacts)
    = (Return (VObj [("contact_id", VStr "78")]), s')
    /\ trace s' = (trace (Demo.start Demo.world_without_contacts) ++ t)%list
    /\ filter is_contact_creation t
       = [ZohoCall base org token
            (ZCreateContact
               (VObj [("contact_name", VStr "ann");
                      ("contact_persons",
                       VArr [VObj [("email", VStr "ann@example.com")]])]))].
Proof.
  apply (@new_contact_is_named_after_email _ _ Demo.env "ann" "example.com"
           VUndef (VObj [("access_token", VStr "T")])
           (VObj [("contacts", VArr [])])
           (VObj [("contact", VObj [("contact_id", VStr "78")])])
           (Demo.start Demo.world_without_contacts)); try reflexivity.
  apply demo_urls_parse.
Defined.

Lemma sales_order_needs_every_line_witness :
  exists e s' t,
    createZohoSalesOrder Demo.env
      {| customerEmail := VStr "ann@example.com"; customerName := VUndef;
         referenceNumber := VStr "4711";
         lineItems := [line_of Demo.line_A; line_of Demo.line_B] |} Demo.s0
    = (Throw e, s')
    /\ trace s' = (trace Demo.s0 ++ t)%list
    /\ filter is_salesorder_call t = []
    /\ e = Error "Zoho item not found for SKU B".
Proof.
  destruct (@sales_order_needs_every_line _ _ Demo.env
              {| customerEmail := VStr "ann@example.com"; customerName := VUndef;
                 referenceNumber := VStr "4711";
                 lineItems := [line_of Demo.line_A; line_of Demo.line_B] |}
              Demo.catalog (VObj [("access_token", VStr "T")])
              (line_of Demo.line_B) Demo.s0)
    as (e & s' & t & Hrun & Ht & Hns & He); try reflexivity.
  { apply demo_urls_parse. }
  { apply demo_searches_answer. }
  exists e, s', t. repeat split; try assumption.
  eapply He. reflexivity.
Defined.

Lemma order_without_resolvable_line_is_skipped_witness :
  exists s' t,
    pushShopifyOrderToZoho Demo.env Demo.order_B Demo.s0 = (Return VUndef, s')
    /\ trace s' = (trace Demo.s0 ++ t)%list
    /\ forallb is_lookup_call t = true
    /\ In (WarnLevel, "SO skip: no mapped lines",
           [VObj [("orderId", get "id" Demo.order_B)]]) (console s').
Proof.
  apply (@order_without_resolvable_line_is_skipped _ _ Demo.env Demo.order_B
           [Demo.line_B] Demo.catalog (VObj [("access_token", VStr "T")])
           Demo.s0); try reflexivity.
  - apply demo_urls_parse.
  - apply demo_searches_answer.
Defined.

Lemma order_without_email_is_skipped_witness :
  exists order,
    run_order_push Demo.env (VObj [("order", Demo.order_AB_anonymous)]) Demo.s0
    = (Return VUndef,
       {| world := world Demo.s0; trace := trace Demo.s0;
          console := (console Demo.s0
                      ++ [(WarnLevel, "SO skip: no email",
                           [VObj [("orderId", get "id" order)]])])%list |})
    /\ (order = get "order" (VObj [("order", Demo.order_AB_anonymous)])
        \/ order = VObj []).
Proof.
  apply (@order_without_email_is_skipped _ _ Demo.env
           (VObj [("order", Demo.order_AB_anonymous)]) Demo.s0).
  right. reflexivity.
Defined.

Lemma item_stock_of_unknown_sku_fails_witness :
  exists s' t,
    getZohoItemStock Demo.env (VStr "B") Demo.s0
    = (Throw (Error "Zoho item not found for SKU B"), s')
    /\ trace s' = (trace Demo.s0 ++ t)%list
    /\ filter is_item_detail_call t = [].
Proof.
  apply (@item_stock_of_unknown_sku_fails _ _ Demo.env (VStr "B") Demo.catalog
           (VObj [("access_token", VStr "T")]) Demo.s0); try reflexivity.
  - apply demo_urls_parse.
  - apply demo_searches_answer.
Defined.

Lemma item_stock_defaults_to_zero_witness :
  exists stock s',
    getZohoItemStock Demo.env (VStr "A") Demo.s0 = (Return stock, s')
    /\ get "available_stock" stock = VNum (Demo.Int 5)
    /\ get "stock_on_hand" stock = VNum (Demo.Int 0).
Proof.
  destruct (@item_stock_defaults_to_zero _ _ Demo.env (VStr "A") Demo.catalog
              (VObj [("access_token", VStr "T")])
              (VObj [("item", Demo.item_A)]) Demo.s0)
    as (stock & s' & Hrun & _ & _ & Hk); try reflexivity.
  { apply demo_urls_parse. }
  { apply demo_searches_answer. }
  exists stock, s'. split; [exact Hrun|]. split.
  - destruct (Hk "available_stock" (or_intror eq_refl)) as [[_ H]|[H _]];
      [exact H|discriminate].
  - destruct (Hk "stock_on_hand" (or_introl eq_refl)) as [[H _]|[_ H]];
      [discriminate|exact H].
Defined.

Lemma sync_stops_at_a_failing_item_witness :
  exists s' t,
    sync_route Demo.env 5 (Demo.start Demo.world_storefront_down)
    = Some (Return {| code := 500;
                      payload :=
                        VObj [("ok", VBool false);
                              ("error",
                               VStr "Shopify 503: Service Unavailable")] |},
            s')
    /\ world s' = Demo.world_storefront_down
    /\ trace s' = (trace (Demo.start Demo.world_storefront_down) ++ t)%list
    /\ pages_fetched t = [1]
    /\ filter is_write_call t = [].
Proof.
  apply (@sync_stops_at_a_failing_item _ _ Demo.env 4
           (VObj [("access_token", VStr "T")])
           (VObj [("items", VArr [Demo.item_A]);
                  ("page_context", VObj [("has_more_page", VBool false)])])
           Demo.item_A [] 503 "Service Unavailable"
           (Demo.start Demo.world_storefront_down)); reflexivity.
Defined.

Lemma delivery_without_work_sends_nothing_witness :
  zoho_webhook_handler Demo.env Demo.empty_webhook Demo.s0
  = (Return {| code := 200;
               payload := VObj [("ok", VBool true); ("skipped", VBool true);
                                ("reason", VStr "No SKU in payload")] |},
     Demo.s0).
Proof.
  destruct (@delivery_without_work_sends_nothing _ _ Demo.env Demo.empty_webhook
              (body Demo.empty_webhook) Demo.s0 eq_refl eq_refl) as [H _].
  apply H; reflexivity.
Defined.

Lemma status_route_reports_witness :
  exists reply s',
    zoho_status_route Demo.env Demo.s0 = (Return reply, s')
    /\ code reply = 200
    /\ get "itemsCount" (payload reply) = VNum (num_of_nat 1).
Proof.
  destruct (@status_route_reports _ _ Demo.env Demo.s0) as [H _].
  apply (H (VObj [("access_token", VStr "T")])
           (VObj [("items", VArr [Demo.item_A]);
                  ("page_context", VObj [("has_more_page", VBool false)])])
           [Demo.item_A]); try reflexivity.
  left. reflexivity.
Defined.

Lemma location_precedence_witness :
  fst (getLocationIdForItem Demo.env (VNum (Demo.Int 100)) Demo.s0)
  = Return (VNum (Demo.Int 7))
  /\ fst (getLocationIdForItem Demo.env (VNum (Demo.Int 100))
            (Demo.start Demo.world_shop_refused))
     = Return (VNum (Demo.Int 9)).
Proof.
  split.
  - destruct (@location_precedence _ _ Demo.env (VNum (Demo.Int 100)) Demo.s0
                eq_refl) as (H & _).
    apply H; reflexivity.
  - destruct (@location_precedence _ _ Demo.env (VNum (Demo.Int 100))
                (Demo.start Demo.world_shop_refused) eq_refl)
      as (_ & _ & H & _).
    apply H; [left; discriminate|reflexivity|reflexivity].
Defined.

Lemma item_update_reports_each_write_witness :
  exists reply s',
    zoho_item_update Demo.env (body Demo.item_webhook)
      (Demo.start Demo.world_price_refused) = (Return reply, s')
    /\ code reply = 200
    /\ get "priceUpdated" (payload reply) = VBool false
    /\ get "priceError" (payload reply)
       = VStr "Shopify 422: Unprocessable Entity"
    /\ get "inventoryUpdated" (payload reply) = VBool true
    /\ List.length (inventory_levels (world s')) = 1.
Proof.
  pose (s := Demo.start Demo.world_price_refused).
  pose (r1 := findVariantBySKU Demo.env (pickSKU (body Demo.item_webhook)) s).
  pose (r2 := updateVariantPrice Demo.env (get "id" Demo.variant_A)
                (pickPrice (body Demo.item_webhook)) (snd r1)).
  pose (r3 := setInventoryLevel Demo.env (get "inventory_item_id" Demo.variant_A)
                (pickAvailableStock (body Demo.item_webhook)) VUndef (snd r2)).
  destruct (@item_update_reports_each_write _ _ Demo.env
              (body Demo.item_webhook) Demo.variant_A s (snd r1) (snd r2)
              (snd r3) (fst r2) (fst r3))
    as (reply & Hrun & Hcode & _ & Hp & Hs & Hpe & _);
    try (vm_compute; reflexivity).
  exists reply, (snd r3). split; [exact Hrun|]. split; [exact Hcode|].
  split; [exact Hp|]. split; [|split; [exact Hs|vm_compute; reflexivity]].
  apply (Hpe (Error "Shopify 422: Unprocessable Entity")).
  vm_compute. reflexivity.
Defined.

Lemma signed_order_is_processed_witness :
  exists reply s',
    order_created_handler Demo.env Demo.signed_order Demo.s0 = (Return reply, s')
    /\ (code reply = 200 \/ code reply = 500).
Proof.
  destruct (@signed_order_is_processed _ _ Demo.env Demo.signed_order
              "b64:hush:{}" "hush" "{}" Demo.s0)
    as (s0 & reply & s' & _ & _ & _ & Hrun & Hcode);
    [reflexivity | discriminate | reflexivity | discriminate | reflexivity
    | vm_compute; reflexivity | ].
  exists reply, s'. now split.
Defined.

Lemma order_without_body_is_answered_500_witness :
  exists s',
    order_created_handler Demo.env Demo.bodiless_order Demo.s0
    = (Return {| code := 500; payload := VStr "Internal Server Error" |}, s')
    /\ world s' = world Demo.s0
    /\ trace s' = trace Demo.s0.
Proof.
  apply (@order_without_body_is_answered_500 _ _ Demo.env Demo.bodiless_order
           Demo.s0); reflexivity.
Defined.
